(** * Synthetic data generators and onboarding scripts of arthur-custom-metrics

    A shallow embedding of the Python programs under [data/*/datagen] and
    [script automation/onboarding], with the properties the specification
    states about them.

    Conventions.
    - A Python [float] and a NumPy [float64] are IEEE binary64 numbers: the
      primitive [float] type, with its comparison and arithmetic.
    - A Python [int] is [Z]; an [int64] array element is [Z] as well (the
      values computed here stay far inside the 64-bit range).
    - [numpy.random], [random], [round], [hashlib.md5] and the clock are
      library code: they are parameters of the development, and what the
      proofs need to know about them is stated as explicit laws.
    - Effects are explicit: a generator is a function from the state of the
      world (clock, random generators, file-system log) to its result and
      the new state. *)

From Stdlib Require Import ZArith List String Ascii Bool Lia Floats FinFun.
From Stdlib Require Import DecimalString DecimalPos DecimalZ.
From Equations Require Import Equations.
Import ListNotations.

Set Warnings "-inexact-float".
Local Open Scope Z_scope.

(* ===================================================================== *)
(** * Binary64 numbers as Python and NumPy use them *)
(* ===================================================================== *)

Module PyNum.

(** [x] is a number, that is, not a NaN. *)
Definition is_number (x : float) : bool := negb (is_nan x).

(** [x] is neither a NaN nor an infinity. *)
Definition is_finite (x : float) : bool := negb (is_nan x) && negb (is_infinity x).

(** The closed interval test [lo <= x <= hi] on floats (false on NaN). *)
Definition within (lo hi x : float) : bool := ((lo <=? x) && (x <=? hi))%float.

(** Python's builtin [min(a, b)]: the first argument is kept unless the
    second compares strictly smaller. *)
Definition py_min (a b : float) : float := if (b <? a)%float then b else a.

(** Python's builtin [max(a, b)]: the first argument is kept unless the
    second compares strictly greater. *)
Definition py_max (a b : float) : float := if (a <? b)%float then b else a.

(** NumPy's element-wise maximum and minimum as [np.clip] uses them: a NaN
    in the first operand is returned as it is. *)
Definition npy_max (a b : float) : float :=
  if is_nan a then a else if (b <? a)%float then a else b.
Definition npy_min (a b : float) : float :=
  if is_nan a then a else if (a <? b)%float then a else b.

(** [np.clip(x, lo, hi)] on float64. *)
Definition np_clip (x lo hi : float) : float := npy_min (npy_max x lo) hi.

(** [np.clip] on an integer array element. *)
Definition np_clip_int (x lo hi : Z) : Z := Z.min (Z.max x lo) hi.

(** Conversion of an [int64] to [float64] (round to nearest even). *)
Definition float_of_Z (z : Z) : float :=
  SF2Prim (binary_normalize prec emax z 0 false).

Definition INT64_MIN : Z := - 2 ^ 63.

(** [ndarray.astype(int)] on float64: truncation toward zero; a NaN, an
    infinity or a value outside the 64-bit range gives the "integer
    indefinite" value. *)
Definition astype_int (x : float) : Z :=
  match Prim2SF x with
  | S754_zero _ => 0
  | S754_finite s m e =>
      let t := cond_Zopp s (Z.shiftl (Zpos m) e) in
      if (INT64_MIN <=? t) && (t <? 2 ^ 63) then t else INT64_MIN
  | _ => INT64_MIN
  end.

(** A Python number that is either an [int] or a [float]. *)
Inductive number : Type :=
| PyInt (z : Z)
| PyFloat (x : float).

(** The place of a number in the order of the floats: its class (negative
    infinity, negative, zero, positive, positive infinity), then its
    exponent, then its mantissa. *)
Definition order_key (x : spec_float) : Z * Z * Z :=
  match x with
  | S754_infinity true => (-2, 0, 0)
  | S754_finite true m e => (-1, - e, - Zpos m)
  | S754_zero _ => (0, 0, 0)
  | S754_finite false m e => (1, e, Zpos m)
  | S754_infinity false => (2, 0, 0)
  | S754_nan => (0, 0, 0)
  end.

Definition key_lt (a b : Z * Z * Z) : Prop :=
  fst (fst a) < fst (fst b) \/
  (fst (fst a) = fst (fst b) /\
   (snd (fst a) < snd (fst b) \/
    (snd (fst a) = snd (fst b) /\ snd a < snd b))).

Definition key_le (a b : Z * Z * Z) : Prop :=
  fst (fst a) < fst (fst b) \/
  (fst (fst a) = fst (fst b) /\
   (snd (fst a) < snd (fst b) \/
    (snd (fst a) = snd (fst b) /\ snd a <= snd b))).

(** [x] is a number of magnitude below [2^k]. *)
Definition small (k : Z) (x : float) : Prop :=
  match Prim2SF x with
  | S754_zero _ => True
  | S754_finite _ m e => Zpos (digits2_pos m) + e <= k
  | _ => False
  end.

(** [x] is a finite number of magnitude at least [2^(k-1)]. *)
Definition large (k : Z) (x : float) : Prop :=
  match Prim2SF x with
  | S754_finite _ m e => k <= Zpos (digits2_pos m) + e
  | _ => False
  end.

End PyNum.
Import PyNum.

(* ===================================================================== *)
(** * Text formatting *)
(* ===================================================================== *)

Module Fmt.
Local Open Scope string_scope.

(** [str(n)] for an integer. *)
Definition str_int (n : Z) : string := NilZero.string_of_int (Z.to_int n).

Fixpoint zeros (n : nat) : string :=
  match n with
  | O => ""
  | S n' => "0" ++ zeros n'
  end.

(** [f"{n:0Wd}"] for a non-negative integer: left padding with zeros up
    to [width] characters. *)
Definition pad0 (width : nat) (n : Z) : string :=
  let s := str_int n in
  zeros (width - String.length s) ++ s.

(** [uuid.UUID(hex)] printed with [str]: the 32 hexadecimal digits in
    groups of 8, 4, 4, 4 and 12. *)
Definition uuid_str (hex : string) : string :=
  substring 0 8 hex ++ "-" ++ substring 8 4 hex ++ "-" ++
  substring 12 4 hex ++ "-" ++ substring 16 4 hex ++ "-" ++
  substring 20 12 hex.

End Fmt.

(* ===================================================================== *)
(** * Dates and times ([datetime]) *)
(* ===================================================================== *)

Module Calendar.

(** A [date] is its proleptic Gregorian ordinal ([date.toordinal()]: day 1
    is 0001-01-01). A [datetime] on the hour is the number of hours since
    the midnight before day 0. *)
Definition date := Z.
Definition datetime := Z.

Definition DI400Y : Z := 146097.
Definition DI100Y : Z := 36524.
Definition DI4Y : Z := 1461.

Definition DAYS_IN_MONTH (month : Z) : Z :=
  match month with
  | 1 => 31 | 2 => 28 | 3 => 31 | 4 => 30 | 5 => 31 | 6 => 30
  | 7 => 31 | 8 => 31 | 9 => 30 | 10 => 31 | 11 => 30 | 12 => 31
  | _ => 0
  end.

Definition DAYS_BEFORE_MONTH (month : Z) : Z :=
  match month with
  | 1 => 0 | 2 => 31 | 3 => 59 | 4 => 90 | 5 => 120 | 6 => 151
  | 7 => 181 | 8 => 212 | 9 => 243 | 10 => 273 | 11 => 304 | 12 => 334
  | _ => 0
  end.

Definition is_leap (year : Z) : bool :=
  (year mod 4 =? 0) && (negb (year mod 100 =? 0) || (year mod 400 =? 0)).

Definition days_before_year (year : Z) : Z :=
  let y := year - 1 in y * 365 + y / 4 - y / 100 + y / 400.

Definition days_before_month (year month : Z) : Z :=
  DAYS_BEFORE_MONTH month + (if (2 <? month) && is_leap year then 1 else 0).

(** [_ymd2ord]: year, month, day to ordinal. *)
Definition ymd2ord (year month day : Z) : date :=
  days_before_year year + days_before_month year month + day.

(** [_ord2ymd]: ordinal to (year, month, day). *)
Definition ord2ymd (ordinal : date) : Z * Z * Z :=
  let n := ordinal - 1 in
  let n400 := n / DI400Y in
  let n := n mod DI400Y in
  let year := n400 * 400 + 1 in
  let n100 := n / DI100Y in
  let n := n mod DI100Y in
  let n4 := n / DI4Y in
  let n := n mod DI4Y in
  let n1 := n / 365 in
  let n := n mod 365 in
  let year := year + n100 * 100 + n4 * 4 + n1 in
  if (n1 =? 4) || (n100 =? 4) then (year - 1, 12, 31)
  else
    let leapyear := (n1 =? 3) && (negb (n4 =? 24) || (n100 =? 3)) in
    let month := Z.shiftr (n + 50) 5 in
    let preceding :=
      DAYS_BEFORE_MONTH month + (if (2 <? month) && leapyear then 1 else 0) in
    if n <? preceding then
      let month := month - 1 in
      let preceding :=
        preceding -
        (DAYS_IN_MONTH month + (if (month =? 2) && leapyear then 1 else 0)) in
      (year, month, n - preceding + 1)
    else (year, month, n - preceding + 1).

Definition date_of (t : datetime) : date := t / 24.
Definition year (t : datetime) : Z := fst (fst (ord2ymd (date_of t))).
Definition month (t : datetime) : Z := snd (fst (ord2ymd (date_of t))).
Definition day (t : datetime) : Z := snd (ord2ymd (date_of t)).
Definition hour (t : datetime) : Z := t mod 24.

(** [datetime.weekday()]: Monday is 0. *)
Definition weekday (t : datetime) : Z := (date_of t + 6) mod 7.

(** Midnight at the start of a date: [datetime.fromisoformat("YYYY-MM-DD")]. *)
Definition midnight (d : date) : datetime := 24 * d.

(** [d.isoformat()]: the year is padded to four digits. For the years
    1000 to 9999 this is also [d.strftime("%Y-%m-%d")], which does not pad
    the year, and [fromisoformat] reads it back; see [representable]. *)
Definition format_date (d : date) : string :=
  let '(y, m, dd) := ord2ymd d in
  (Fmt.pad0 4 y ++ "-" ++ Fmt.pad0 2 m ++ "-" ++ Fmt.pad0 2 dd)%string.

(** [t.isoformat()] for a UTC-aware datetime on the hour. *)
Definition isoformat (t : datetime) : string :=
  (format_date (date_of t) ++ "T" ++ Fmt.pad0 2 (hour t) ++ ":00:00+00:00")%string.

(** The hours [first], [first + 1h], ..., as long as they are not after
    [last]: the values [current_dt] takes in [while current_dt <= end_dt]. *)
Definition hours_from (first : datetime) (n : nat) : list datetime :=
  map (fun i => first + Z.of_nat i) (seq 0 n).
Definition hours_between (first last : datetime) : list datetime :=
  hours_from first (Z.to_nat (last + 1 - first)).

(** [p] holds of each of the [n] integers from [first] on. *)
Fixpoint all_from (p : Z -> bool) (first : Z) (n : nat) : bool :=
  match n with
  | O => true
  | S n' => p first && all_from p (first + 1) n'
  end.

(** The dates the programs can work with: [datetime] has the years 1 to
    9999 only (arithmetic that leaves them raises [OverflowError]), and a
    date that goes through [strftime("%Y-%m-%d")] and [fromisoformat] must
    be of the year 1000 or later ([ValueError] otherwise). The programs are
    modelled for such dates. *)
Definition representable (d : date) : Prop :=
  ymd2ord 1000 1 1 <= d <= ymd2ord 9999 12 31.

(** The dates whose times pandas holds in nanoseconds ([pd.to_datetime],
    [datetime64[ns]]): 1677-09-21 to 2262-04-11, of which the whole years
    1678 to 2261 are taken here. Other times raise there. *)
Definition in_nanoseconds (d : date) : Prop :=
  ymd2ord 1678 1 1 <= d <= ymd2ord 2261 12 31.

End Calendar.


(* ===================================================================== *)
(** * Library code the programs call *)
(* ===================================================================== *)

(** The random generators of NumPy ([np.random.*], legacy global state) and
    of Python ([random.*]), the builtin [round] and [hashlib.md5]. A sampler
    takes the generator state and returns the draw and the next state;
    seeding replaces the state by one that depends on the seed alone. *)
Record Library : Type := {
  np_state : Type;
  np_seed : Z -> np_state;
  np_random : np_state -> float * np_state;
  np_choice : list float -> np_state -> nat * np_state;
  np_lognormal : float -> float -> np_state -> float * np_state;
  np_exponential : float -> np_state -> float * np_state;
  np_beta : float -> float -> np_state -> float * np_state;
  np_gamma : float -> float -> np_state -> float * np_state;
  np_normal : float -> float -> np_state -> float * np_state;
  np_uniform : float -> float -> np_state -> float * np_state;
  np_randint : Z -> Z -> np_state -> Z * np_state;
  np_poisson : float -> np_state -> Z * np_state;
  np_binomial : Z -> float -> np_state -> Z * np_state;
  np_dirichlet : list float -> np_state -> list float * np_state;
  py_state : Type;
  py_seed : Z -> py_state;
  py_randint : Z -> Z -> py_state -> Z * py_state;
  py_choice : nat -> py_state -> nat * py_state;
  py_sample : Z -> Z -> nat -> py_state -> list Z * py_state;
  py_round : float -> Z -> float;
  md5_hexdigest : string -> string
}.

(** What the proofs use of the library: the documented ranges of the
    samplers, that rounding to decimals keeps a value between two integers
    it lies between, and that a Dirichlet draw has one component per
    concentration. *)
Record LibraryLaws (L : Library) : Prop := {
  exponential_nonneg : forall scale s, (0 <? scale)%float = true ->
    (0 <=? fst (np_exponential L scale s))%float = true;
  beta_unit : forall a b s, (0 <? a)%float = true -> (0 <? b)%float = true ->
    within 0 1 (fst (np_beta L a b s)) = true;
  normal_number : forall mu sigma s,
    is_finite mu = true -> is_finite sigma = true ->
    is_number (fst (np_normal L mu sigma s)) = true;
  round_nonneg : forall x nd, (0 <=? x)%float = true ->
    (0 <=? py_round L x nd)%float = true;
  round_le_1 : forall x nd, (x <=? 1)%float = true ->
    (py_round L x nd <=? 1)%float = true;
  dirichlet_length : forall alpha s,
    List.length (fst (np_dirichlet L alpha s)) = List.length alpha
}.

(** The documented ranges of the integer samplers: [np.random.randint(lo,
    hi)] lies in [[lo, hi)], a binomial draw with [n] trials in [[0, n]],
    [np.random.choice] with probabilities [p] and [random.choice] on [n]
    elements return a valid index. *)
Record SamplerRanges (L : Library) : Prop := {
  np_randint_range : forall lo hi s, lo < hi ->
    lo <= fst (np_randint L lo hi s) < hi;
  np_binomial_range : forall n p s, 0 <= n ->
    0 <= fst (np_binomial L n p s) <= n;
  np_choice_range : forall p s, p <> [] ->
    (fst (np_choice L p s) < List.length p)%nat;
  py_choice_range : forall n s, (0 < n)%nat ->
    (fst (py_choice L n s) < n)%nat
}.

(* ===================================================================== *)
(** * The state of the world and the programs' effects *)
(* ===================================================================== *)

Module Sys.

(** A [pathlib.Path], as the list of its components. *)
Definition path := list string.

(** [p / name]. *)
Definition join (p : path) (name : string) : path := p ++ [name].

(** [p.parent]. *)
Definition parent (p : path) : path := removelast p.

(** [p] lies under the directory [dir]. *)
Definition under (dir p : path) : Prop := exists rest, p = dir ++ rest.

(** A call that changes the file system: [Path.mkdir(parents=True,
    exist_ok=True)] or the writing of a file with its records. *)
Inductive fs_event (C : Type) : Type :=
| Mkdir (p : path)
| WriteFile (p : path) (content : C).
Arguments Mkdir {C} p.
Arguments WriteFile {C} p content.

(** The path a call names. *)
Definition target {C} (e : fs_event C) : path :=
  match e with
  | Mkdir p => p
  | WriteFile p _ => p
  end.

(** The non-empty prefixes of a path: the path and its ancestors. *)
Fixpoint prefixes (p : path) : list path :=
  match p with
  | [] => []
  | name :: p' => [name] :: map (cons name) (prefixes p')
  end.

Definition path_in (p : path) (fs : list path) : bool :=
  if in_dec (list_eq_dec string_dec) p fs then true else false.

(** The file system, as the paths that exist, after a call:
    [p.mkdir(parents=True, exist_ok=True)] creates [p] and each ancestor of
    [p] that is missing; writing a file creates it unless it is there. *)
Definition perform {C} (fs : list path) (e : fs_event C) : list path :=
  match e with
  | Mkdir p => fs ++ filter (fun q => negb (path_in q fs)) (prefixes p)
  | WriteFile p _ => if path_in p fs then fs else fs ++ [p]
  end.

Definition after_calls {C} (fs : list path) (log : list (fs_event C))
    : list path :=
  fold_left perform log fs.

(** [q] is [dir] or one of its ancestors. *)
Definition leads_to (q dir : path) : Prop := exists rest, dir = q ++ rest.

(** The files written, in order. *)
Fixpoint files_written {C} (log : list (fs_event C)) : list (path * C) :=
  match log with
  | [] => []
  | Mkdir _ :: log' => files_written log'
  | WriteFile p c :: log' => (p, c) :: files_written log'
  end.

(** The ambient state: the clock ([datetime.now()], in seconds of local time
    since the midnight before day 0), the two global random generators and
    the log of file-system calls, oldest first. *)
Record World (L : Library) (C : Type) : Type := mkWorld {
  clock : Z;
  np_rng : np_state L;
  py_rng : py_state L;
  fs_log : list (fs_event C)
}.
Arguments mkWorld {L C}.
Arguments clock {L C}.
Arguments np_rng {L C}.
Arguments py_rng {L C}.
Arguments fs_log {L C}.

(** Computations with effects on the world. *)
Definition M (L : Library) (C A : Type) : Type := World L C -> A * World L C.

Definition ret {L C A} (a : A) : M L C A := fun w => (a, w).

Definition bind {L C A B} (m : M L C A) (k : A -> M L C B) : M L C B :=
  fun w => let r := m w in k (fst r) (snd r).

(** [datetime.now().replace(hour=0, minute=0, second=0, microsecond=0)],
    as a date. *)
Definition today {L C} : M L C Calendar.date :=
  fun w => (clock w / 86400, w).

(** A draw from the NumPy generator. *)
Definition np {L C A} (sampler : np_state L -> A * np_state L) : M L C A :=
  fun w => let r := sampler (np_rng w) in
           (fst r, mkWorld (clock w) (snd r) (py_rng w) (fs_log w)).

(** A draw from Python's generator. *)
Definition py {L C A} (sampler : py_state L -> A * py_state L) : M L C A :=
  fun w => let r := sampler (py_rng w) in
           (fst r, mkWorld (clock w) (np_rng w) (snd r) (fs_log w)).

(** [np.random.seed] takes a seed between 0 and 2^32 - 1 and raises
    [ValueError] for any other. The programs are modelled for such seeds. *)
Definition valid_seed (seed : Z) : Prop := 0 <= seed < 2 ^ 32.

(** [np.random.seed(seed)], for a valid seed, and [random.seed(seed)]. *)
Definition seed_numpy {L C} (seed : Z) : M L C unit :=
  fun w => (tt, mkWorld (clock w) (np_seed L seed) (py_rng w) (fs_log w)).
Definition seed_python {L C} (seed : Z) : M L C unit :=
  fun w => (tt, mkWorld (clock w) (np_rng w) (py_seed L seed) (fs_log w)).

(** A file-system call, appended to the log. *)
Definition emit {L C} (e : fs_event C) : M L C unit :=
  fun w => (tt, mkWorld (clock w) (np_rng w) (py_rng w) (fs_log w ++ [e])).

(** [n] successive runs of [m], results in order: a list comprehension over
    [range(n)], or a sampler called with [size=n]. *)
Fixpoint replicate {L C A} (n : nat) (m : M L C A) : M L C (list A) :=
  match n with
  | O => ret []
  | S n' => bind m (fun a => bind (replicate n' m) (fun l => ret (a :: l)))
  end.

(** [for x in xs: ...], the body returning one result per element. *)
Fixpoint for_each {L C A B} (xs : list A) (body : A -> M L C B) : M L C (list B) :=
  match xs with
  | [] => ret []
  | x :: xs' =>
      bind (body x) (fun b => bind (for_each xs' body) (fun l => ret (b :: l)))
  end.

(** [m] leaves the clock and the file system alone (it may draw random
    numbers). *)
Definition quiet {L C A} (m : M L C A) : Prop :=
  forall w, clock (snd (m w)) = clock w /\ fs_log (snd (m w)) = fs_log w.

(** [Q] relates the clock and the file-system log before [m] to the value
    [m] returns and the world it leaves. *)
Definition observes {L C A} (m : M L C A)
    (Q : Z -> list (fs_event C) -> A -> World L C -> Prop) : Prop :=
  forall w, Q (clock w) (fs_log w) (fst (m w)) (snd (m w)).

(** Whatever the world, the value [m] returns satisfies [Q]. *)
Definition returns {L C A} (m : M L C A) (Q : A -> Prop) : Prop :=
  forall w, Q (fst (m w)).

(** What a run may do to the file system, from the clock and the log
    before it to the world after it: nothing without an output directory,
    calls under the directory with one; the clock is left alone. *)
Definition confined {L C} (output_dir : option path) (now : Z)
    (log : list (fs_event C)) (w' : World L C) : Prop :=
  clock w' = now /\
  exists new,
    fs_log w' = log ++ new /\
    match output_dir with
    | Some d => Forall (fun ev => under d (target ev)) new
    | None => new = []
    end.

(** Two worlds a run may start from. They agree when, as far as asked, the
    NumPy generator is in the same state, Python's generator is in the same
    state, and the clock shows the same day. *)
Definition agree {L C} (with_np with_py with_clock : bool) (w1 w2 : World L C)
    : Prop :=
  (with_np = true -> np_rng w1 = np_rng w2) /\
  (with_py = true -> py_rng w1 = py_rng w2) /\
  (with_clock = true -> clock w1 / 86400 = clock w2 / 86400).

(** From the two worlds [m] returns the same value and makes the same
    file-system calls. *)
Definition same_outcome {L C A} (m : M L C A) (w1 w2 : World L C) : Prop :=
  fst (m w1) = fst (m w2) /\
  exists new,
    fs_log (snd (m w1)) = fs_log w1 ++ new /\
    fs_log (snd (m w2)) = fs_log w2 ++ new.

(** From worlds that agree [m] has the same outcome and leaves worlds that
    agree. *)
Definition reproducible {L C A} (with_np with_py with_clock : bool)
    (m : M L C A) : Prop :=
  forall w1 w2,
    agree with_np with_py with_clock w1 w2 ->
    same_outcome m w1 w2 /\
    agree with_np with_py with_clock (snd (m w1)) (snd (m w2)).

(** Python exceptions, as far as the programs distinguish them: the
    [ValueError]s and plain [Exception]s the programs raise with a message,
    errors raised by library code, and [KeyboardInterrupt] for the
    exceptions that derive from [BaseException] only. *)
Inductive exception : Type :=
| ValueError (msg : string)
| Exception_ (msg : string)
| IndexError
| ZeroDivisionError
| ApiException
| KeyboardInterrupt.

(** [isinstance(e, ValueError)] and [isinstance(e, Exception)]. *)
Definition is_ValueError (e : exception) : bool :=
  match e with ValueError _ => true | _ => false end.
Definition is_Exception (e : exception) : bool :=
  match e with KeyboardInterrupt => false | _ => true end.

(** [str(e)]. *)
Definition str_exc (e : exception) : string :=
  match e with
  | ValueError msg | Exception_ msg => msg
  | IndexError => "single positional indexer is out-of-bounds"
  | ZeroDivisionError => "integer modulo by zero"
  | ApiException => "API error"
  | KeyboardInterrupt => ""
  end.

(** How a call ends: it returns a value or raises. *)
Inductive outcome (A : Type) : Type :=
| Returned (a : A)
| Raised (e : exception).
Arguments Returned {A} a.
Arguments Raised {A} e.

End Sys.

Declare Scope world_scope.
Delimit Scope world_scope with world.
Notation "x <- c ;; k" := (Sys.bind c (fun x => k))
  (at level 61, c at next level, right associativity) : world_scope.
Notation "c ;;; k" := (Sys.bind c (fun _ => k))
  (at level 61, right associativity) : world_scope.

(* ===================================================================== *)
(** * data/binary-classifier-card-fraud/datagen/generate_dataset.py *)
(* ===================================================================== *)

Module CardFraud.
Import Sys Calendar.
Local Open Scope world_scope.

Inductive Segment : Type := new_to_bank | established | small_business.
Inductive Channel : Type := ecom | in_store | atm.
Inductive Region : Type := W | NE | MW | S.

Definition customer_segments : list Segment := [new_to_bank; established; small_business].
Definition channels : list Channel := [ecom; in_store; atm].
Definition regions : list Region := [W; NE; MW; S].

Definition Segment_eqb (a b : Segment) : bool :=
  match a, b with
  | new_to_bank, new_to_bank | established, established
  | small_business, small_business => true
  | _, _ => false
  end.

Definition Channel_eqb (a b : Channel) : bool :=
  match a, b with
  | ecom, ecom | in_store, in_store | atm, atm => true
  | _, _ => false
  end.

(** One transaction record (the dictionary appended to [transactions]). *)
Record Transaction : Type := mkTransaction {
  timestamp : string;
  txn_id : string;
  account_id : string;
  customer_id : string;
  is_fraud : Z;
  fraud_score : float;
  fraud_pred : Z;
  rules_engine_flag : Z;
  risk_rank : Z;
  customer_segment : Segment;
  channel : Channel;
  region : Region;
  txn_amount : float;
  distance_from_home_km : float;
  merchant_risk_score : float;
  digital_engagement : float;
  tenure_months : Z
}.

(** The [stats] dictionary; [fraud_rate] is set when the run ends. *)
Record Stats : Type := mkStats {
  total_transactions : Z;
  total_fraud : Z;
  files_created : Z;
  date_range : string;
  fraud_rate : option number
}.

(** Lines 124-146: the probability that a transaction is a fraud, from its
    features. *)
Definition fraud_probability (segment : Segment) (txn_amount distance_from_home
    merchant_risk_score : float) (channel : Channel) : float :=
  let fraud_base_prob := 0.05%float in
  let fraud_base_prob :=
    if Segment_eqb segment new_to_bank then (fraud_base_prob * 1.5)%float
    else fraud_base_prob in
  let fraud_base_prob :=
    if (500 <? txn_amount)%float then (fraud_base_prob * 1.3)%float
    else fraud_base_prob in
  let fraud_base_prob :=
    if (50 <? distance_from_home)%float then (fraud_base_prob * 1.4)%float
    else fraud_base_prob in
  let fraud_base_prob :=
    if (0.5 <? merchant_risk_score)%float then (fraud_base_prob * 1.2)%float
    else fraud_base_prob in
  let fraud_base_prob :=
    if Channel_eqb channel atm then (fraud_base_prob * 1.3)%float
    else fraud_base_prob in
  py_min fraud_base_prob 0.30.

(** Lines 166-167. *)
Definition predict (fraud_score : float) : Z :=
  if (0.5 <=? fraud_score)%float then 1 else 0.

(** Lines 173-183. *)
Definition rank (fraud_score : float) : Z :=
  if (fraud_score <? 0.1)%float then 1
  else if (fraud_score <? 0.2)%float then 2
  else if (fraud_score <? 0.4)%float then 3
  else if (fraud_score <? 0.6)%float then 4
  else 5.

(** The transaction identifiers of the files written, file by file. *)
Definition file_ids (files : list (path * list Transaction))
    : list (path * list string) :=
  map (fun pc => (fst pc, map txn_id (snd pc))) files.

(** The range checks documented for a record. *)
Definition in_ranges (t : Transaction) : Prop :=
  within 1 10000 (txn_amount t) = true /\
  within 0 1000 (distance_from_home_km t) = true /\
  within 0 1 (merchant_risk_score t) = true /\
  within 0 1 (fraud_score t) = true /\
  (is_fraud t = 0 \/ is_fraud t = 1) /\
  (fraud_pred t = 0 \/ fraud_pred t = 1) /\
  1 <= risk_rank t <= 5.

(** The fraud probability in the words of the specification: the base rate
    times the factor of each risk that is present, capped at 0.30. *)
Definition factor (present : bool) (f : float) : float :=
  if present then f else 1%float.
Definition spec_fraud_parameter (segment : Segment) (txn_amount
    distance_from_home merchant_risk_score : float) (channel : Channel) : float :=
  let product :=
    (0.05 * factor (Segment_eqb segment new_to_bank) 1.5
          * factor (500 <? txn_amount) 1.3
          * factor (50 <? distance_from_home) 1.4
          * factor (0.5 <? merchant_risk_score) 1.2
          * factor (Channel_eqb channel atm) 1.3)%float in
  if (0.30 <? product)%float then 0.30%float else product.

Section Generator.

Variable L : Library.

Abbreviation World := (Sys.World L (list Transaction)).
Abbreviation M := (Sys.M L (list Transaction)).

(** The transaction identifier in the words of the specification: the
    MD5-derived UUID of the text ["<ISO timestamp of h>_<k>"]. *)
Definition expected_txn_id (h : datetime) (k : nat) : string :=
  Fmt.uuid_str
    (md5_hexdigest L (isoformat h ++ "_" ++ Fmt.str_int (Z.of_nat k))%string).

(** [np.random.choice(xs, p=p)]. *)
Definition choice {A} (xs : list A) (p : list float) (default : A) : M A :=
  i <- np (np_choice L p) ;; ret (nth i xs default).

(** [random.choice(xs)]. *)
Definition pick (xs : list string) : M string :=
  i <- py (py_choice L (List.length xs)) ;; ret (nth i xs EmptyString).

(** Lines 81-213: the body of the inner loop up to the record; [index] is
    [len(transactions)]. *)
Definition gen_transaction (current_dt : datetime) (index : nat)
    (account_ids customer_ids : list string) : M Transaction :=
  segment <- choice customer_segments [0.15; 0.70; 0.15]%float established ;;
  channel <- choice channels [0.60; 0.35; 0.05]%float ecom ;;
  region <- choice regions [0.25; 0.25; 0.25; 0.25]%float W ;;
  txn_amount <- np (np_lognormal L 3.0 0.8) ;;
  let txn_amount := py_round L txn_amount 2 in
  let txn_amount := py_max 1.0 (py_min txn_amount 10000.0) in
  distance_from_home <- np (np_exponential L 10.0) ;;
  let distance_from_home := py_round L distance_from_home 2 in
  let distance_from_home := py_min distance_from_home 1000.0 in
  merchant_risk_score <- np (np_beta L 2 8) ;;
  let merchant_risk_score := py_round L merchant_risk_score 4 in
  digital_engagement <- np (np_gamma L 2 2) ;;
  let digital_engagement := py_round L digital_engagement 2 in
  let digital_engagement := py_min digital_engagement 10.0 in
  tenure_months <-
    match segment with
    | new_to_bank => np (np_randint L 0 12)
    | small_business => np (np_randint L 12 120)
    | established => np (np_randint L 6 120)
    end ;;
  let fraud_base_prob :=
    fraud_probability segment txn_amount distance_from_home
                      merchant_risk_score channel in
  u <- np (np_random L) ;;
  let is_fraud := if (u <? fraud_base_prob)%float then 1 else 0 in
  fraud_score <-
    (if is_fraud =? 1 then
       a <- np (np_beta L 3 7) ;;
       b <- np (np_beta L 6 2) ;;
       ret (a * 0.4 + b * 0.6)%float
     else
       a <- np (np_beta L 2 8) ;;
       b <- np (np_beta L 3 7) ;;
       ret (a * 0.7 + b * 0.3)%float) ;;
  let fraud_score := py_round L fraud_score 6 in
  let fraud_score := py_max 0.0 (py_min 1.0 fraud_score) in
  let fraud_pred := predict fraud_score in
  let rules_engine_flag :=
    if (200 <? txn_amount)%float && (30 <? distance_from_home)%float
    then 1 else 0 in
  let risk_rank := rank fraud_score in
  let txn_hash :=
    md5_hexdigest L
      (isoformat current_dt ++ "_" ++ Fmt.str_int (Z.of_nat index))%string in
  let txn_id := Fmt.uuid_str txn_hash in
  account_id <- pick account_ids ;;
  customer_id <- pick customer_ids ;;
  ret {| timestamp := isoformat current_dt;
         txn_id := txn_id;
         account_id := account_id;
         customer_id := customer_id;
         is_fraud := is_fraud;
         fraud_score := fraud_score;
         fraud_pred := fraud_pred;
         rules_engine_flag := rules_engine_flag;
         risk_rank := risk_rank;
         customer_segment := segment;
         channel := channel;
         region := region;
         txn_amount := txn_amount;
         distance_from_home_km := distance_from_home;
         merchant_risk_score := merchant_risk_score;
         digital_engagement := digital_engagement;
         tenure_months := tenure_months |}.

(** Lines 215-218: the record is appended and counted. *)
Definition count (t : Transaction) (stats : Stats) : Stats :=
  {| total_transactions := total_transactions stats + 1;
     total_fraud := if is_fraud t =? 1 then total_fraud stats + 1
                    else total_fraud stats;
     files_created := files_created stats;
     date_range := date_range stats;
     fraud_rate := fraud_rate stats |}.

(** Lines 80-218: [for _ in range(transactions_per_hour)], with [n]
    iterations left. *)
Fixpoint txn_loop (n : nat) (current_dt : datetime)
    (account_ids customer_ids : list string)
    (transactions : list Transaction) (stats : Stats)
    : M (list Transaction * Stats) :=
  match n with
  | O => ret (transactions, stats)
  | Datatypes.S n' =>
      t <- gen_transaction current_dt (List.length transactions)
                           account_ids customer_ids ;;
      txn_loop n' current_dt account_ids customer_ids
               (transactions ++ [t]) (count t stats)
  end.

(** Line 224: the file of an hour. *)
Definition file_path (output_path : path) (current_dt : datetime) : path :=
  join (join (join (join output_path
    ("year=" ++ Fmt.str_int (year current_dt)))
    ("month=" ++ Fmt.pad0 2 (month current_dt)))
    ("day=" ++ Fmt.pad0 2 (day current_dt)))
    ("inferences_hour=" ++ Fmt.pad0 2 (hour current_dt) ++ ".json").

Definition created (stats : Stats) : Stats :=
  {| total_transactions := total_transactions stats;
     total_fraud := total_fraud stats;
     files_created := files_created stats + 1;
     date_range := date_range stats;
     fraud_rate := fraud_rate stats |}.

(** Lines 72-230: one iteration of the loop over the hours. *)
Definition hour_step (transactions_per_hour : Z) (output_dir : option path)
    (account_ids customer_ids : list string)
    (current_dt : datetime) (stats : Stats) : M Stats :=
  r <- txn_loop (Z.to_nat transactions_per_hour) current_dt
                account_ids customer_ids [] stats ;;
  let '(transactions, stats) := r in
  match output_dir with
  | Some output_path =>
      let fp := file_path output_path current_dt in
      emit (Mkdir (parent fp)) ;;;
      emit (WriteFile fp transactions) ;;;
      ret (created stats)
  | None => ret stats
  end.

(** [t] is a record the generator builds for hour [h] at index [k]. *)
Definition produced (account_ids customer_ids : list string) (h : datetime)
    (k : nat) (t : Transaction) : Prop :=
  exists w : World, t = fst (gen_transaction h k account_ids customer_ids w).

(** The records of one hour: one per index below [transactions_per_hour]. *)
Definition batch_of (account_ids customer_ids : list string)
    (transactions_per_hour : Z) (h : datetime) (recs : list Transaction) : Prop :=
  Forall2 (produced account_ids customer_ids h)
          (seq 0 (Z.to_nat transactions_per_hour)) recs.

(** The file-system calls of one hour. *)
Definition hour_events (output_dir : option path) (h : datetime)
    (recs : list Transaction) : list (fs_event (list Transaction)) :=
  match output_dir with
  | Some output_path =>
      [Mkdir (parent (file_path output_path h));
       WriteFile (file_path output_path h) recs]
  | None => []
  end.

Section Hours.

Variable transactions_per_hour : Z.
Variable output_dir : option path.
Variables account_ids customer_ids : list string.
Variable end_dt : datetime.

(** Lines 70-233: [while current_dt <= end_dt: ...; current_dt +=
    timedelta(hours=1)]. *)
Equations? hours_loop (current_dt : datetime) (stats : Stats) (w : World)
    : Stats * World by wf (Z.to_nat (end_dt + 1 - current_dt)) lt :=
hours_loop current_dt stats w with Z_le_dec current_dt end_dt := {
  | left _ =>
      hours_loop (current_dt + 1)
        (fst (hour_step transactions_per_hour output_dir account_ids
                        customer_ids current_dt stats w))
        (snd (hour_step transactions_per_hour output_dir account_ids
                        customer_ids current_dt stats w));
  | right _ => (stats, w) }.
Proof. lia. Qed.

End Hours.

(** Line 236. *)
Definition with_rate (stats : Stats) : Stats :=
  {| total_transactions := total_transactions stats;
     total_fraud := total_fraud stats;
     files_created := files_created stats;
     date_range := date_range stats;
     fraud_rate :=
       Some (if 0 <? total_transactions stats
             then PyFloat (float_of_Z (total_fraud stats) /
                           float_of_Z (total_transactions stats))
             else PyInt 0) |}.

(** Lines 58-59: the account and customer identifiers. *)
Definition make_account_ids : M (list string) :=
  replicate 1000 (n <- py (py_randint L 10000 50000) ;;
                  ret ("acct_" ++ Fmt.str_int n)%string).
Definition make_customer_ids : M (list string) :=
  replicate 2000 (n <- py (py_randint L 10000 30000) ;;
                  ret ("cust_" ++ Fmt.str_int n)%string).

(** The dates of a run, given what the clock shows. The arithmetic is
    that of [datetime] as long as the dates are [representable]. *)
Definition run_dates (start_date end_date : option date)
    (past_days future_days : Z) (clock : Z) : date * date :=
  (match start_date with Some s => s | None => clock / 86400 - past_days end,
   match end_date with Some e => e | None => clock / 86400 + future_days end).

(** The counters when the loop starts (lines 62-67). *)
Definition initial_stats (start_date end_date : date) : Stats :=
  {| total_transactions := 0;
     total_fraud := 0;
     files_created := 0;
     date_range :=
       (format_date start_date ++ " to " ++ format_date end_date)%string;
     fraud_rate := None |}.

(** Lines 38-43: the dates that were not given are taken from the clock. *)
Definition resolve_dates (start_date end_date : option date)
    (past_days future_days : Z) : M (date * date) :=
  match start_date, end_date with
  | Some s, Some e => ret (s, e)
  | _, _ =>
      today <- today ;;
      ret (match start_date with Some s => s | None => today - past_days end,
           match end_date with Some e => e | None => today + future_days end)
  end.

(** Lines 44-238: the run between two dates. *)
Definition generate_between (start_date end_date : date)
    (transactions_per_hour : Z) (output_dir : option path) (seed : Z) : M Stats :=
  seed_numpy seed ;;;
  seed_python seed ;;;
  let start_dt := midnight start_date in
  let end_dt := midnight end_date in
  account_ids <- make_account_ids ;;
  customer_ids <- make_customer_ids ;;
  let stats := initial_stats start_date end_date in
  stats <- hours_loop transactions_per_hour output_dir account_ids
                      customer_ids end_dt start_dt stats ;;
  ret (with_rate stats).

(** [generate_dataset]: a date argument is the calendar date its
    ["YYYY-MM-DD"] string denotes, [None] when the argument is absent. The
    definition describes the calls of [valid_run] below; for other seeds
    and dates a library call raises, which is not modelled. *)
Definition generate_dataset (start_date end_date : option date)
    (past_days future_days transactions_per_hour : Z)
    (output_dir : option path) (seed : Z) : M Stats :=
  dates <- resolve_dates start_date end_date past_days future_days ;;
  generate_between (fst dates) (snd dates) transactions_per_hour output_dir seed.

(** Lines 241-285: [generate_reference_dataset]. *)
Definition generate_reference_dataset (start_date end_date : option date)
    (past_days reference_days transactions_per_hour : Z)
    (output_dir : option path) (seed : Z) : M Stats :=
  dates <-
    match start_date, end_date with
    | Some s, Some e => ret (s, e)
    | _, _ =>
        today <- today ;;
        let s := match start_date with Some s => s | None => today - past_days end in
        ret (s, match end_date with Some e => e | None => s + (reference_days - 1) end)
    end ;;
  let '(start_date, end_date) := dates in
  let output_path :=
    match output_dir with
    | Some d => Some (join d "ccb-card-fraud-reference")
    | None => None
    end in
  generate_dataset (Some start_date) (Some end_date) 90 90
                   transactions_per_hour output_path seed.

End Generator.

(** The runs the model describes: the seed is one NumPy accepts, the clock
    shows a date, and the two dates of the run are dates that [strftime]
    and [fromisoformat] agree on. For other arguments a library call of
    [generate_dataset] raises. *)
Definition valid_run (start_date end_date : option date)
    (past_days future_days seed clock : Z) : Prop :=
  valid_seed seed /\
  representable (clock / 86400) /\
  representable (fst (run_dates start_date end_date past_days future_days clock)) /\
  representable (snd (run_dates start_date end_date past_days future_days clock)).

(** The records of [recs] that are frauds, counted. *)
Definition frauds (recs : list Transaction) : Z :=
  Z.of_nat (List.length (filter (fun t => is_fraud t =? 1) recs)).

(** The records of the files written, in order. *)
Definition records_written (log : list (fs_event (list Transaction)))
    : list Transaction :=
  List.concat (map snd (files_written log)).

End CardFraud.

(* ===================================================================== *)
(** * data/cc-application/datagen/generate_dataset.py *)
(* ===================================================================== *)

Module CcApplication.
Import Sys Calendar.
Local Open Scope world_scope.

Inductive Region : Type := Region_North | Region_South | Region_East | Region_West.
Inductive Employment : Type := Employed | Self_employed | Unemployed | Retired.

(** One row of the DataFrame. [partition_date] is a date, [timestamp] a
    UTC time in seconds since the midnight before day 0. *)
Record Application : Type := mkApplication {
  partition_date : date;
  timestamp : Z;
  application_id : Z;
  region : Region;
  actual_label : Z;
  predicted_label : Z;
  predicted_probability : float;
  is_valid_application : Z;
  credit_score : Z;
  annual_income : Z;
  age : Z;
  employment_status : Employment;
  years_at_job : Z;
  debt_to_income_ratio : float;
  num_credit_cards : Z;
  years_credit_history : Z
}.

Definition DataFrame := list Application.

(** Lines 121-123 and 163-165. *)
Definition employment_weight (e : Employment) : float :=
  match e with
  | Employed => 1.0
  | Self_employed => 0.8
  | _ => 0.5
  end.

(** Lines 112-141: the approval probability of applicant [i]. *)
Definition approval_probability (group : Region) (credit_score annual_income : Z)
    (debt_to_income : float) (employment : Employment)
    (years_credit_history : Z) : float :=
  let base_prob := (float_of_Z (credit_score - 300) / 550)%float in
  let income_factor := py_min 1.0 (float_of_Z annual_income / 100000) in
  let dti_factor := (1.0 - debt_to_income)%float in
  let employment_factor := employment_weight employment in
  let history_factor := py_min 1.0 (float_of_Z years_credit_history / 10) in
  let approval_prob :=
    (base_prob * 0.4 + income_factor * 0.2 + dti_factor * 0.15 +
     employment_factor * 0.15 + history_factor * 0.1)%float in
  let approval_prob :=
    match group with
    | Region_North => (approval_prob * 1.1)%float
    | Region_South => (approval_prob * 0.9)%float
    | Region_East => (approval_prob * 1.05)%float
    | Region_West => approval_prob
    end in
  np_clip approval_prob 0.05 0.95.

(** Lines 154-182: the model's score before it is tied to the label. *)
Definition model_score (group : Region) (credit_score annual_income : Z)
    (debt_to_income : float) (employment : Employment)
    (years_credit_history : Z) (noise : float) : float :=
  let base_pred := (float_of_Z (credit_score - 300) / 550)%float in
  let income_pred := py_min 1.0 (float_of_Z annual_income / 100000) in
  let dti_pred := (1.0 - debt_to_income)%float in
  let emp_pred := employment_weight employment in
  let hist_pred := py_min 1.0 (float_of_Z years_credit_history / 10) in
  let model_prob :=
    (base_pred * 0.35 + income_pred * 0.25 + dti_pred * 0.2 +
     emp_pred * 0.1 + hist_pred * 0.1)%float in
  let model_prob := (model_prob + noise)%float in
  match group with
  | Region_North => (model_prob * 1.08)%float
  | Region_South => (model_prob * 0.92)%float
  | _ => model_prob
  end.

(** Lines 198-199: [(predicted_probs >= threshold).astype(int)]. *)
Definition threshold : float := 0.5.
Definition predict (predicted_prob : float) : Z :=
  if (threshold <=? predicted_prob)%float then 1 else 0.

(** The sorted distinct keys of [df.groupby('partition_date')]. *)
Fixpoint insert_key (d : date) (keys : list date) : list date :=
  match keys with
  | [] => [d]
  | k :: keys' =>
      if d <? k then d :: keys
      else if d =? k then keys
      else k :: insert_key d keys'
  end.

Definition group_keys (df : DataFrame) : list date :=
  fold_right insert_key [] (map partition_date df).

Definition groupby_partition_date (df : DataFrame) : list (date * DataFrame) :=
  map (fun d => (d, filter (fun r => partition_date r =? d) df)) (group_keys df).

(** The range checks documented for a row. *)
Definition in_ranges (r : Application) : Prop :=
  300 <= credit_score r <= 850 /\
  20000 <= annual_income r <= 200000 /\
  18 <= age r <= 75 /\
  within 0 0.8 (debt_to_income_ratio r) = true /\
  within 0.01 0.99 (predicted_probability r) = true.

Section Generator.

Variable L : Library.

Abbreviation World := (Sys.World L DataFrame).
Abbreviation M := (Sys.M L DataFrame).

(** [np.random.choice(xs, size=n, p=p)]. *)
Definition choices {A} (xs : list A) (n : nat) (p : list float) (default : A)
    : M (list A) :=
  replicate n (i <- np (np_choice L p) ;; ret (nth i xs default)).

(** The columns drawn in lines 62-105. *)
Record Features : Type := mkFeatures {
  f_groups : list Region;
  f_credit_score : list Z;
  f_annual_income : list Z;
  f_age : list Z;
  f_employment_status : list Employment;
  f_years_at_job : list Z;
  f_debt_to_income : list float;
  f_num_credit_cards : list Z;
  f_years_credit_history : list Z
}.

Definition map2 {A B C} (f : A -> B -> C) (xs : list A) (ys : list B) : list C :=
  map (fun xy => f (fst xy) (snd xy)) (combine xs ys).

Definition draw_features (n : nat) : M Features :=
  groups <- choices [Region_North; Region_South; Region_East; Region_West] n
                    [0.3; 0.25; 0.25; 0.2]%float Region_North ;;
  normals <- replicate n (np (np_normal L 650 100)) ;;
  let credit_score := map (fun x => astype_int (np_clip x 300 850)) normals in
  lognormals <- replicate n (np (np_lognormal L 10.5 0.8)) ;;
  let annual_income :=
    map (fun x => np_clip_int (astype_int x) 20000 200000) lognormals in
  gammas <- replicate n (np (np_gamma L 2 15)) ;;
  let age := map (fun x => np_clip_int (astype_int x) 18 75) gammas in
  employment_status <-
    choices [Employed; Self_employed; Unemployed; Retired] n
            [0.6; 0.15; 0.15; 0.1]%float Employed ;;
  uniforms <- replicate n (np (np_uniform L 0.1 0.4)) ;;
  let years_at_job :=
    map2 (fun a u => np_clip_int (astype_int (float_of_Z a * u)) 0 40)
         age uniforms in
  let years_at_job :=
    map2 (fun e y => match e with Unemployed | Retired => 0 | _ => y end)
         employment_status years_at_job in
  betas <- replicate n (np (np_beta L 2 5)) ;;
  let debt_to_income := map (fun b => (b * 0.8)%float) betas in
  let debt_to_income :=
    map2 (fun d income =>
            np_clip (d + (1 - float_of_Z income / 200000) * 0.2)%float 0 0.8)
         debt_to_income annual_income in
  poissons <- replicate n (np (np_poisson L 2)) ;;
  let num_credit_cards :=
    map2 (fun c k =>
            np_clip_int
              (astype_int (float_of_Z (c - 300) / 550 * 8 + float_of_Z k)%float)
              0 10)
         credit_score poissons in
  normals <- replicate n (np (np_normal L 0 3)) ;;
  let years_credit_history :=
    map2 (fun a x =>
            np_clip_int (astype_int (float_of_Z (a - 18) + x)%float) 0 50)
         age normals in
  let years_credit_history := map (fun y => Z.max y 0) years_credit_history in
  ret {| f_groups := groups;
         f_credit_score := credit_score;
         f_annual_income := annual_income;
         f_age := age;
         f_employment_status := employment_status;
         f_years_at_job := years_at_job;
         f_debt_to_income := debt_to_income;
         f_num_credit_cards := num_credit_cards;
         f_years_credit_history := years_credit_history |}.

(** Lines 110-143: one iteration of the loop over the applicants. *)
Definition draw_actual_label (f : Features) (i : nat) : M Z :=
  let approval_prob :=
    approval_probability (nth i (f_groups f) Region_North)
      (nth i (f_credit_score f) 0) (nth i (f_annual_income f) 0)
      (nth i (f_debt_to_income f) 0%float)
      (nth i (f_employment_status f) Employed)
      (nth i (f_years_credit_history f) 0) in
  np (np_binomial L 1 approval_prob).

(** Lines 151-193: one iteration of the loop over the applicants. *)
Definition draw_predicted_prob (f : Features) (actual_labels : list Z) (i : nat)
    : M float :=
  noise <- np (np_normal L 0 0.1) ;;
  let model_prob :=
    model_score (nth i (f_groups f) Region_North)
      (nth i (f_credit_score f) 0) (nth i (f_annual_income f) 0)
      (nth i (f_debt_to_income f) 0%float)
      (nth i (f_employment_status f) Employed)
      (nth i (f_years_credit_history f) 0) noise in
  model_prob <-
    (if nth i actual_labels 0 =? 1 then
       b <- np (np_beta L 6 2) ;; ret (model_prob * 0.7 + b * 0.3)%float
     else
       b <- np (np_beta L 2 6) ;; ret (model_prob * 0.7 + b * 0.3)%float) ;;
  ret (np_clip model_prob 0.01 0.99).

(** Lines 226-234: the time of applicant [i], in seconds. *)
Definition draw_timestamp (start_date : date) (total_days : Z) (i : nat) : M Z :=
  let days_offset := Z.of_nat i mod total_days in
  hours_offset <- np (np_randint L 0 24) ;;
  minutes_offset <- np (np_randint L 0 60) ;;
  seconds_offset <- np (np_randint L 0 60) ;;
  ret (86400 * (start_date + days_offset) + 3600 * hours_offset +
       60 * minutes_offset + seconds_offset).

(** Lines 202-263: the DataFrame, row by row. *)
Definition build_rows (n : nat) (f : Features) (actual_labels : list Z)
    (predicted_probs : list float) (is_valid : list Z) (timestamps : list Z)
    : DataFrame :=
  map (fun i =>
         {| partition_date := nth i timestamps 0 / 86400;
            timestamp := nth i timestamps 0;
            application_id := Z.of_nat i + 1;
            region := nth i (f_groups f) Region_North;
            actual_label := nth i actual_labels 0;
            predicted_label := predict (nth i predicted_probs 0%float);
            predicted_probability := nth i predicted_probs 0%float;
            is_valid_application := nth i is_valid 0;
            credit_score := nth i (f_credit_score f) 0;
            annual_income := nth i (f_annual_income f) 0;
            age := nth i (f_age f) 0;
            employment_status := nth i (f_employment_status f) Employed;
            years_at_job := nth i (f_years_at_job f) 0;
            debt_to_income_ratio := nth i (f_debt_to_income f) 0%float;
            num_credit_cards := nth i (f_num_credit_cards f) 0;
            years_credit_history := nth i (f_years_credit_history f) 0 |})
      (seq 0 n).

(** Lines 285-310: one partition directory and its Parquet file. *)
Definition write_partition (output_path : path) (g : date * DataFrame) : M unit :=
  let partition_date_str := format_date (fst g) in
  let partition_dir := join output_path partition_date_str in
  emit (Mkdir partition_dir) ;;;
  emit (WriteFile
          (join partition_dir ("data-" ++ partition_date_str ++ ".parquet"))
          (snd g)).

(** [generate_dataset], for the calls of [valid_run] below: a seed NumPy
    accepts and a window of dates pandas can hold ([np.random.seed] and the
    date arithmetic raise otherwise, which is not modelled). Such a call
    raises for a negative [n_samples] (NumPy refuses the size), for a period
    of zero days (the modulo in line 228) and for an empty frame
    ([df.iloc[0]] in line 267). *)
Definition generate_dataset (n_samples : Z) (output_dir : option path)
    (seed past_days future_days : Z) : M (outcome DataFrame) :=
  seed_numpy seed ;;;
  if n_samples <? 0 then
    ret (Raised (ValueError "negative dimensions are not allowed")) else
  let n := Z.to_nat n_samples in
  f <- draw_features n ;;
  actual_labels <- for_each (seq 0 n) (draw_actual_label f) ;;
  predicted_probs <- for_each (seq 0 n) (draw_predicted_prob f actual_labels) ;;
  is_valid <- choices [0; 1] n [0.01; 0.99]%float 0 ;;
  today <- today ;;
  let start_date := today - past_days in
  let total_days := past_days + future_days + 1 in
  if (total_days =? 0) && (0 <? n_samples) then ret (Raised ZeroDivisionError) else
  timestamps <- for_each (seq 0 n) (draw_timestamp start_date total_days) ;;
  let df := build_rows n f actual_labels predicted_probs is_valid timestamps in
  match df with
  | [] => ret (Raised IndexError)
  | _ :: _ =>
      match output_dir with
      | Some output_path =>
          for_each (groupby_partition_date df) (write_partition output_path) ;;;
          ret (Returned df)
      | None => ret (Returned df)
      end
  end.

(** What the drawing of the columns guarantees, whatever is drawn except
    that a beta draw lies between 0 and 1: one value per applicant in every
    column, the clipped columns within their bounds, and no years at a job
    for the unemployed and the retired. *)
Definition features_sound (n : nat) (f : Features) : Prop :=
  (List.length (f_groups f) = n /\
   List.length (f_credit_score f) = n /\
   List.length (f_annual_income f) = n /\
   List.length (f_age f) = n /\
   List.length (f_employment_status f) = n /\
   List.length (f_years_at_job f) = n /\
   List.length (f_debt_to_income f) = n /\
   List.length (f_num_credit_cards f) = n /\
   List.length (f_years_credit_history f) = n) /\
  Forall (fun c => 300 <= c <= 850) (f_credit_score f) /\
  Forall (fun c => 20000 <= c <= 200000) (f_annual_income f) /\
  Forall (fun c => 18 <= c <= 75) (f_age f) /\
  Forall2 (fun e y => 0 <= y <= 40 /\
                      (e = Unemployed \/ e = Retired -> y = 0))
          (f_employment_status f) (f_years_at_job f) /\
  Forall (fun d => within 0 0.8 d = true) (f_debt_to_income f) /\
  Forall (fun c => 0 <= c <= 10) (f_num_credit_cards f) /\
  Forall (fun y => 0 <= y <= 50) (f_years_credit_history f).

(** What the clipping of the integer columns guarantees whatever is
    drawn. *)
Definition features_clipped (n : nat) (f : Features) : Prop :=
  List.length (f_employment_status f) = n /\
  List.length (f_years_at_job f) = n /\
  List.length (f_num_credit_cards f) = n /\
  List.length (f_years_credit_history f) = n /\
  Forall2 (fun e y => 0 <= y <= 40 /\
                      (e = Unemployed \/ e = Retired -> y = 0))
          (f_employment_status f) (f_years_at_job f) /\
  Forall (fun c => 0 <= c <= 10) (f_num_credit_cards f) /\
  Forall (fun y => 0 <= y <= 50) (f_years_credit_history f).

(** [l] is a draw of [np.random.binomial(1, p)]. *)
Definition drawn_label (l : Z) : Prop :=
  exists p s, l = fst (np_binomial L 1 p s).

(** [t] is a time of applicant [i]: the midnight of day
    [start_date + i % total_days] plus the hours, minutes and seconds
    drawn. *)
Definition stamped (start_date total_days : Z) (i : nat) (t : Z) : Prop :=
  exists sh sm ss,
    t = 86400 * (start_date + Z.of_nat i mod total_days) +
        3600 * fst (np_randint L 0 24 sh) +
        60 * fst (np_randint L 0 60 sm) +
        fst (np_randint L 0 60 ss).

(** The file-system calls that write the partitions of a frame: for each
    partition date, in order, its directory and its file. *)
Definition partition_events (output_dir : option path) (df : DataFrame)
    : list (fs_event DataFrame) :=
  match output_dir with
  | Some d =>
      List.concat
        (map (fun g =>
                [ Mkdir (join d (format_date (fst g)));
                  WriteFile
                    (join (join d (format_date (fst g)))
                          ("data-" ++ format_date (fst g) ++ ".parquet"))
                    (snd g) ])
             (groupby_partition_date df))
  | None => []
  end.

(** What a call that returns a frame has drawn: the columns, which
    satisfy [Pf], and one label, one probability, which satisfies [Pp], one
    validity flag and one time per applicant. *)
Definition frame_drawn (Pf : Features -> Prop) (Pp : float -> Prop) (n : nat)
    (start_date total_days : Z) (df : DataFrame) : Prop :=
  exists f labels probs valid times,
    df = build_rows n f labels probs valid times /\
    Pf f /\
    List.length labels = n /\ Forall drawn_label labels /\
    List.length probs = n /\ Forall Pp probs /\
    List.length valid = n /\ Forall (fun v => v = 0 \/ v = 1) valid /\
    Forall2 (stamped start_date total_days) (seq 0 n) times.

End Generator.

(** The calls the model describes: the seed is one NumPy accepts, and the
    clock's day and the two ends of the window, [past_days] before it and
    [future_days] after it, are dates whose times pandas can hold. *)
Definition valid_run (seed past_days future_days clock : Z) : Prop :=
  valid_seed seed /\
  in_nanoseconds (clock / 86400) /\
  in_nanoseconds (clock / 86400 - past_days) /\
  in_nanoseconds (clock / 86400 + future_days).

End CcApplication.

(* ===================================================================== *)
(** * data/multi-class-classifier-txn-category/datagen/generate_dataset.py *)
(* ===================================================================== *)

Module MultiClass.
Import Sys Calendar.
Local Open Scope world_scope.

Inductive Category : Type :=
| groceries | dining | travel | entertainment
| utilities | healthcare | shopping | automotive.

Definition CATEGORIES : list Category :=
  [groceries; dining; travel; entertainment;
   utilities; healthcare; shopping; automotive].

Definition Category_eqb (a b : Category) : bool :=
  match a, b with
  | groceries, groceries | dining, dining | travel, travel
  | entertainment, entertainment | utilities, utilities
  | healthcare, healthcare | shopping, shopping
  | automotive, automotive => true
  | _, _ => false
  end.

(** [CATEGORIES.index(c)]. *)
Fixpoint index_in (cs : list Category) (c : Category) : nat :=
  match cs with
  | [] => O
  | c' :: cs' => if Category_eqb c' c then O else Datatypes.S (index_in cs' c)
  end.
Definition index (c : Category) : nat := index_in CATEGORIES c.

Definition CATEGORY_PRIORS : list float :=
  [0.20; 0.15; 0.08; 0.10; 0.10; 0.08; 0.18; 0.11]%float.

Definition AMOUNT_LOG_PARAMS (c : Category) : float * float :=
  match c with
  | groceries => (3.8, 0.6)
  | dining => (3.2, 0.7)
  | travel => (5.5, 1.2)
  | entertainment => (3.5, 0.8)
  | utilities => (4.5, 0.5)
  | healthcare => (4.2, 0.9)
  | shopping => (4.0, 0.9)
  | automotive => (4.3, 0.8)
  end%float.

Inductive Channel : Type := in_store | online | mobile | contactless.
Definition CHANNELS : list Channel := [in_store; online; mobile; contactless].

Definition CHANNEL_PROBS (c : Category) : list float :=
  match c with
  | groceries => [0.55; 0.15; 0.10; 0.20]
  | dining => [0.65; 0.20; 0.10; 0.05]
  | travel => [0.25; 0.55; 0.15; 0.05]
  | entertainment => [0.35; 0.40; 0.20; 0.05]
  | utilities => [0.05; 0.70; 0.25; 0.00]
  | healthcare => [0.65; 0.25; 0.10; 0.00]
  | shopping => [0.30; 0.50; 0.15; 0.05]
  | automotive => [0.80; 0.08; 0.05; 0.07]
  end%float.

(** [hour in PEAK_HOURS[c]]. *)
Definition in_range (lo hi h : Z) : bool := (lo <=? h) && (h <? hi).
Definition PEAK_HOURS (c : Category) (h : Z) : bool :=
  match c with
  | groceries => in_range 9 20 h
  | dining => in_range 11 14 h || in_range 18 22 h
  | travel => in_range 6 22 h
  | entertainment => in_range 14 23 h
  | utilities => in_range 8 18 h
  | healthcare => in_range 8 17 h
  | shopping => in_range 10 21 h
  | automotive => in_range 7 20 h
  end.

Definition WEEKEND_MULTIPLIER (c : Category) : float :=
  match c with
  | groceries => 1.2
  | dining => 1.5
  | travel => 1.4
  | entertainment => 1.6
  | utilities => 0.8
  | healthcare => 0.5
  | shopping => 1.4
  | automotive => 1.1
  end%float.

Local Open Scope string_scope.
Definition MERCHANT_TYPES (c : Category) : list string :=
  match c with
  | groceries => ["supermarket"; "convenience_store"; "wholesale_club"; "specialty_food"]
  | dining => ["restaurant"; "fast_food"; "cafe"; "food_delivery"; "bar"]
  | travel => ["airline"; "hotel"; "car_rental"; "rideshare"; "vacation_rental"]
  | entertainment => ["cinema"; "streaming"; "gaming"; "event_venue"; "amusement"]
  | utilities => ["electric"; "gas"; "water"; "internet"; "mobile_carrier"]
  | healthcare => ["pharmacy"; "clinic"; "hospital"; "dental"; "vision"]
  | shopping => ["department_store"; "online_retailer"; "electronics"; "clothing"; "home_goods"]
  | automotive => ["gas_station"; "parking"; "auto_repair"; "car_wash"; "dealership"]
  end.
Local Close Scope string_scope.

Inductive Segment : Type := retail | premium | small_business.
Definition CUSTOMER_SEGMENTS : list Segment := [retail; premium; small_business].

Definition CATEGORY_ACCURACY (c : Category) : float :=
  match c with
  | groceries => 0.82
  | dining => 0.78
  | travel => 0.88
  | entertainment => 0.74
  | utilities => 0.90
  | healthcare => 0.76
  | shopping => 0.75
  | automotive => 0.85
  end%float.

(** [CONFUSION_TARGETS[c]], a dictionary in insertion order. *)
Definition CONFUSION_TARGETS (c : Category) : list (Category * float) :=
  match c with
  | groceries => [(shopping, 0.50); (dining, 0.30); (automotive, 0.20)]
  | dining => [(entertainment, 0.45); (groceries, 0.30); (shopping, 0.25)]
  | travel => [(entertainment, 0.40); (shopping, 0.35); (automotive, 0.25)]
  | entertainment => [(dining, 0.45); (shopping, 0.30); (travel, 0.25)]
  | utilities => [(healthcare, 0.40); (shopping, 0.35); (automotive, 0.25)]
  | healthcare => [(utilities, 0.45); (shopping, 0.30); (groceries, 0.25)]
  | shopping => [(groceries, 0.45); (entertainment, 0.30); (automotive, 0.25)]
  | automotive => [(shopping, 0.40); (groceries, 0.35); (utilities, 0.25)]
  end%float.

(** One row of the dataset; the eight [pred_prob_<category>] columns are
    the function [pred_prob]. *)
Record Row : Type := mkRow {
  timestamp : datetime;
  transaction_id : string;
  account_id : string;
  customer_segment : Segment;
  channel : Channel;
  merchant_type : string;
  transaction_amount : float;
  hour_of_day : Z;
  day_of_week : Z;
  ground_truth_category : Category;
  predicted_category : Category;
  prediction_confidence : float;
  pred_prob_groceries : float;
  pred_prob_dining : float;
  pred_prob_travel : float;
  pred_prob_entertainment : float;
  pred_prob_utilities : float;
  pred_prob_healthcare : float;
  pred_prob_shopping : float;
  pred_prob_automotive : float
}.

Definition pred_prob (r : Row) (c : Category) : float :=
  match c with
  | groceries => pred_prob_groceries r
  | dining => pred_prob_dining r
  | travel => pred_prob_travel r
  | entertainment => pred_prob_entertainment r
  | utilities => pred_prob_utilities r
  | healthcare => pred_prob_healthcare r
  | shopping => pred_prob_shopping r
  | automotive => pred_prob_automotive r
  end.

(** [xs[i] = v] on a list. *)
Fixpoint set_nth {A} (i : nat) (v : A) (xs : list A) : list A :=
  match xs, i with
  | [], _ => []
  | _ :: xs', O => v :: xs'
  | x :: xs', Datatypes.S i' => x :: set_nth i' v xs'
  end.

(** Lines 296-303: the concentration vector of the Dirichlet draw. *)
Definition concentration (pred_category gt_category : Category) : list float :=
  let alpha := map (fun one => (one * 0.4)%float) (repeat 1%float (List.length CATEGORIES)) in
  let alpha := set_nth (index pred_category) 8.0%float alpha in
  if Category_eqb pred_category gt_category then alpha
  else set_nth (index gt_category) 2.5%float alpha.

(** [d[key]] on a dictionary with category keys (the last binding of a key
    counts, none gives [0]). *)
Fixpoint lookup (d : list (Category * float)) (key : Category) : float :=
  match d with
  | [] => 0%float
  | (k, v) :: d' =>
      if existsb (fun kv => Category_eqb (fst kv) key) d' then lookup d' key
      else if Category_eqb k key then v else 0%float
  end.

(** [adjusted_priors.sum()]: NumPy adds eight contiguous doubles in
    pairs. *)
Definition np_sum8 (a : list float) : float :=
  let r i := nth i a 0%float in
  (((r 0%nat + r 1%nat) + (r 2%nat + r 3%nat)) +
   ((r 4%nat + r 5%nat) + (r 6%nat + r 7%nat)))%float.

(** Lines 273-282: the priors of an hour. *)
Definition adjusted_priors (hour : Z) (is_weekend : bool) : list float :=
  let adjusted :=
    map (fun cp =>
           let p := snd cp in
           let p := if PEAK_HOURS (fst cp) hour then (p * 1.3)%float else p in
           if is_weekend then (p * WEEKEND_MULTIPLIER (fst cp))%float else p)
        (combine CATEGORIES CATEGORY_PRIORS) in
  let total := np_sum8 adjusted in
  map (fun p => (p / total)%float) adjusted.

(** The [stats] dictionary. *)
Record Stats : Type := mkStats {
  total_transactions : Z;
  correct_predictions : Z;
  category_counts : Category -> Z;
  files_created : Z;
  date_range : string;
  category_rate : option (Category -> float);
  accuracy : option float
}.

(** [rows_by_date]: a dictionary from date strings to rows, in insertion
    order. *)
Definition RowsByDate := list (string * list Row).

Definition has_key (d : RowsByDate) (k : string) : bool :=
  existsb (fun kv => String.eqb (fst kv) k) d.

(** [rows_by_date[k].append(r)] for a key that is present. *)
Fixpoint append_row (d : RowsByDate) (k : string) (r : Row) : RowsByDate :=
  match d with
  | [] => []
  | (k', rows) :: d' =>
      if String.eqb k' k then (k', rows ++ [r]) :: d'
      else (k', rows) :: append_row d' k r
  end.

(** [sorted(rows_by_date)]: the keys in increasing order. *)
Fixpoint insert_sorted (k : string) (ks : list string) : list string :=
  match ks with
  | [] => [k]
  | k' :: ks' => if String.leb k k' then k :: ks else k' :: insert_sorted k ks'
  end.
Definition sorted_keys (d : RowsByDate) : list string :=
  fold_right insert_sorted [] (map fst d).

Fixpoint rows_of (d : RowsByDate) (k : string) : list Row :=
  match d with
  | [] => []
  | (k', rows) :: d' => if String.eqb k' k then rows else rows_of d' k
  end.

(** The transaction identifiers of [rows_by_date], date by date. *)
Definition ids_of (d : RowsByDate) : list (string * list string) :=
  map (fun kv => (fst kv, map transaction_id (snd kv))) d.

(** [append_row] and the creation of a date's entry, on identifiers. *)
Fixpoint append_id (d : list (string * list string)) (k : string) (id : string)
    : list (string * list string) :=
  match d with
  | [] => []
  | (k', ids) :: d' =>
      if String.eqb k' k then (k', ids ++ [id]) :: d'
      else (k', ids) :: append_id d' k id
  end.

Definition with_key (d : list (string * list string)) (k : string)
    : list (string * list string) :=
  if existsb (fun kv => String.eqb (fst kv) k) d then d else d ++ [(k, [])].

Section Generator.

Variable L : Library.

Abbreviation World := (Sys.World L (list Row)).
Abbreviation M := (Sys.M L (list Row)).

Definition choice {A} (xs : list A) (p : list float) (default : A) : M A :=
  i <- np (np_choice L p) ;; ret (nth i xs default).

Definition pick (xs : list string) : M string :=
  i <- py (py_choice L (List.length xs)) ;; ret (nth i xs EmptyString).

(** The transaction identifier in the words of the specification: the
    MD5-derived UUID of the text ["<ISO timestamp of h>_<k>"]. *)
Definition expected_txn_id (h : datetime) (k : nat) : string :=
  Fmt.uuid_str
    (md5_hexdigest L (isoformat h ++ "_" ++ Fmt.str_int (Z.of_nat k))%string).

(** [account_segment[account_id]]. *)
Fixpoint segment_of (account_segment : list (string * Segment)) (a : string)
    : Segment :=
  match account_segment with
  | [] => retail
  | (k, v) :: d => if String.eqb k a then v else segment_of d a
  end.

(** Lines 285-347: the body of the loop over the transactions of an hour,
    up to the row. *)
Definition gen_row (current_dt : datetime) (priors : list float)
    (account_ids : list string) (account_segment : list (string * Segment))
    (i : nat) : M Row :=
  gt_idx <- np (np_choice L priors) ;;
  let gt_category := nth gt_idx CATEGORIES groceries in
  let '(log_mean, log_sigma) := AMOUNT_LOG_PARAMS gt_category in
  x <- np (np_lognormal L log_mean log_sigma) ;;
  let amount := py_round L (py_min x 50000.0) 2 in
  channel <- choice CHANNELS (CHANNEL_PROBS gt_category) in_store ;;
  merchant_type <- pick (MERCHANT_TYPES gt_category) ;;
  account_id <- pick account_ids ;;
  let segment := segment_of account_segment account_id in
  let cat_accuracy := CATEGORY_ACCURACY gt_category in
  u <- np (np_random L) ;;
  pred_category <-
    (if (u <? cat_accuracy)%float then ret gt_category
     else
       let confusion := CONFUSION_TARGETS gt_category in
       choice (map fst confusion) (map snd confusion) groceries) ;;
  let pred_idx := index pred_category in
  let alpha := concentration pred_category gt_category in
  raw_probs <- np (np_dirichlet L alpha) ;;
  let pred_probs :=
    map (fun cp => (fst cp, py_round L (snd cp) 6)) (combine CATEGORIES raw_probs) in
  let confidence := py_round L (nth pred_idx raw_probs 0%float) 6 in
  let txn_hash :=
    md5_hexdigest L
      (isoformat current_dt ++ "_" ++ Fmt.str_int (Z.of_nat i))%string in
  let txn_id := Fmt.uuid_str txn_hash in
  ret {| timestamp := current_dt;
         transaction_id := txn_id;
         account_id := account_id;
         customer_segment := segment;
         channel := channel;
         merchant_type := merchant_type;
         transaction_amount := amount;
         hour_of_day := hour current_dt;
         day_of_week := weekday current_dt;
         ground_truth_category := gt_category;
         predicted_category := pred_category;
         prediction_confidence := confidence;
         pred_prob_groceries := lookup pred_probs groceries;
         pred_prob_dining := lookup pred_probs dining;
         pred_prob_travel := lookup pred_probs travel;
         pred_prob_entertainment := lookup pred_probs entertainment;
         pred_prob_utilities := lookup pred_probs utilities;
         pred_prob_healthcare := lookup pred_probs healthcare;
         pred_prob_shopping := lookup pred_probs shopping;
         pred_prob_automotive := lookup pred_probs automotive |}.

(** Lines 349-352. *)
Definition count (r : Row) (stats : Stats) : Stats :=
  {| total_transactions := total_transactions stats + 1;
     correct_predictions :=
       if Category_eqb (predicted_category r) (ground_truth_category r)
       then correct_predictions stats + 1 else correct_predictions stats;
     category_counts := fun c =>
       if Category_eqb c (ground_truth_category r)
       then category_counts stats c + 1 else category_counts stats c;
     files_created := files_created stats;
     date_range := date_range stats;
     category_rate := category_rate stats;
     accuracy := accuracy stats |}.

(** Lines 284-352: [for i in range(transactions_per_hour)]. *)
Fixpoint txn_loop (idxs : list nat) (current_dt : datetime) (date_str : string)
    (priors : list float) (account_ids : list string)
    (account_segment : list (string * Segment))
    (rows_by_date : RowsByDate) (stats : Stats) : M (RowsByDate * Stats) :=
  match idxs with
  | [] => ret (rows_by_date, stats)
  | i :: idxs' =>
      r <- gen_row current_dt priors account_ids account_segment i ;;
      txn_loop idxs' current_dt date_str priors account_ids account_segment
               (append_row rows_by_date date_str r) (count r stats)
  end.

(** Lines 265-352: one iteration of the loop over the hours. *)
Definition hour_step (transactions_per_hour : Z) (account_ids : list string)
    (account_segment : list (string * Segment)) (current_dt : datetime)
    (rows_by_date : RowsByDate) (stats : Stats) : M (RowsByDate * Stats) :=
  let date_str := format_date (date_of current_dt) in
  let day_of_week := weekday current_dt in
  let is_weekend := 5 <=? day_of_week in
  let rows_by_date :=
    if has_key rows_by_date date_str then rows_by_date
    else rows_by_date ++ [(date_str, [])] in
  let priors := adjusted_priors (hour current_dt) is_weekend in
  txn_loop (seq 0 (Z.to_nat transactions_per_hour)) current_dt date_str priors
           account_ids account_segment rows_by_date stats.

(** The identifiers after the hours [hours], in the words of the
    specification: for each hour, in order, the identifiers of the indices
    below [transactions_per_hour] join the hour's date. *)
Definition hour_ids (transactions_per_hour : Z) (h : datetime)
    (d : list (string * list string)) : list (string * list string) :=
  let date_str := format_date (date_of h) in
  fold_left (fun d i => append_id d date_str (expected_txn_id h i))
            (seq 0 (Z.to_nat transactions_per_hour))
            (with_key d date_str).

Definition expected_ids (transactions_per_hour : Z) (hours : list datetime)
    (d : list (string * list string)) : list (string * list string) :=
  fold_left (fun d h => hour_ids transactions_per_hour h d) hours d.

Section Hours.

Variable transactions_per_hour : Z.
Variable account_ids : list string.
Variable account_segment : list (string * Segment).
Variable end_dt : datetime.

(** Lines 264-354: [while current_dt <= end_dt]. *)
Equations? hours_loop (current_dt : datetime) (acc : RowsByDate * Stats)
    (w : World) : (RowsByDate * Stats) * World
    by wf (Z.to_nat (end_dt + 1 - current_dt)) lt :=
hours_loop current_dt acc w with Z_le_dec current_dt end_dt := {
  | left _ =>
      hours_loop (current_dt + 1)
        (fst (hour_step transactions_per_hour account_ids account_segment
                        current_dt (fst acc) (snd acc) w))
        (snd (hour_step transactions_per_hour account_ids account_segment
                        current_dt (fst acc) (snd acc) w));
  | right _ => (acc, w) }.
Proof. lia. Qed.

End Hours.

Definition created (stats : Stats) : Stats :=
  {| total_transactions := total_transactions stats;
     correct_predictions := correct_predictions stats;
     category_counts := category_counts stats;
     files_created := files_created stats + 1;
     date_range := date_range stats;
     category_rate := category_rate stats;
     accuracy := accuracy stats |}.

(** [_write_parquet]. *)
Fixpoint write_parquet (keys : list string) (rows_by_date : RowsByDate)
    (output_path : path) (stats : Stats) : M Stats :=
  match keys with
  | [] => ret stats
  | date_str :: keys' =>
      let partition_dir := join output_path date_str in
      emit (Mkdir partition_dir) ;;;
      emit (WriteFile
              (join partition_dir ("data-" ++ date_str ++ ".parquet"))
              (rows_of rows_by_date date_str)) ;;;
      write_parquet keys' rows_by_date output_path (created stats)
  end.

(** Lines 358-362. *)
Definition with_rates (stats : Stats) : Stats :=
  {| total_transactions := total_transactions stats;
     correct_predictions := correct_predictions stats;
     category_counts := category_counts stats;
     files_created := files_created stats;
     date_range := date_range stats;
     category_rate :=
       Some (fun c => (float_of_Z (category_counts stats c) /
                       float_of_Z (total_transactions stats))%float);
     accuracy :=
       Some (float_of_Z (correct_predictions stats) /
             float_of_Z (total_transactions stats))%float |}.

(** Lines 235-241. *)
Definition resolve_dates (start_date end_date : option date)
    (past_days future_days : Z) : M (date * date) :=
  match start_date, end_date with
  | Some s, Some e => ret (s, e)
  | _, _ =>
      today <- today ;;
      ret (match start_date with Some s => s | None => today - past_days end,
           match end_date with Some e => e | None => today + future_days end)
  end.

(** Lines 232-262: everything before the loop, then the loop; the result
    is [rows_by_date] and [stats] as the loop leaves them. *)
Definition generate_rows (start_date end_date : option date)
    (past_days future_days transactions_per_hour seed : Z)
    : M (RowsByDate * Stats) :=
  seed_numpy seed ;;;
  seed_python seed ;;;
  dates <- resolve_dates start_date end_date past_days future_days ;;
  let '(start_date, end_date) := dates in
  let start_dt := midnight start_date in
  let end_dt := midnight end_date in
  let n_accounts := 800%nat in
  sample <- py (py_sample L 100000 999999 n_accounts) ;;
  let account_ids := map (fun i => ("acct_" ++ Fmt.pad0 6 i)%string) sample in
  account_segment <-
    for_each account_ids
      (fun a => s <- choice CUSTOMER_SEGMENTS [0.70; 0.20; 0.10]%float retail ;;
                ret (a, s)) ;;
  let stats :=
    {| total_transactions := 0;
       correct_predictions := 0;
       category_counts := fun _ => 0;
       files_created := 0;
       date_range :=
         (format_date start_date ++ " to " ++ format_date end_date)%string;
       category_rate := None;
       accuracy := None |} in
  hours_loop transactions_per_hour account_ids account_segment end_dt
             start_dt ([], stats).

(** [generate_dataset]. With no transaction at all the rates of lines
    358-362 divide by zero. *)
Definition generate_dataset (start_date end_date : option date)
    (past_days future_days transactions_per_hour : Z)
    (output_dir : option path) (seed : Z) : M (outcome Stats) :=
  r <- generate_rows start_date end_date past_days future_days
                     transactions_per_hour seed ;;
  let '(rows_by_date, stats) := r in
  stats <-
    match output_dir with
    | Some output_path =>
        write_parquet (sorted_keys rows_by_date) rows_by_date output_path stats
    | None => ret stats
    end ;;
  if total_transactions stats =? 0 then ret (Raised ZeroDivisionError)
  else ret (Returned (with_rates stats)).

(** Lines 368-414: [generate_reference_dataset]. [future_days] is not
    used; [None] stands for an output directory that is absent or empty. *)
Definition generate_reference_dataset (start_date end_date : option date)
    (past_days reference_days transactions_per_hour : Z)
    (output_dir : option path) (seed : Z) : M (outcome Stats) :=
  dates <-
    match start_date, end_date with
    | Some s, Some e => ret (s, e)
    | _, _ =>
        today <- today ;;
        let s := match start_date with Some s => s | None => today - past_days end in
        ret (s, match end_date with Some e => e | None => s + (reference_days - 1) end)
    end ;;
  let '(start_date, end_date) := dates in
  let ref_output :=
    match output_dir with
    | Some d => Some (join d "multi-class-txn-category-reference")
    | None => None
    end in
  generate_dataset (Some start_date) (Some end_date) 90 90
                   transactions_per_hour ref_output seed.

End Generator.

(** The dates of a run, given what the clock shows. *)
Definition run_dates (start_date end_date : option date)
    (past_days future_days : Z) (clock : Z) : date * date :=
  (match start_date with Some s => s | None => clock / 86400 - past_days end,
   match end_date with Some e => e | None => clock / 86400 + future_days end).

(** The runs the model describes: the seed is one NumPy accepts, and the
    clock's day and the two dates of the run are dates whose times pandas
    can hold ([_write_parquet] converts the timestamps with
    [pd.to_datetime]); they are then dates [strftime] and [fromisoformat]
    agree on. For other arguments a library call raises. *)
Definition valid_run (start_date end_date : option date)
    (past_days future_days seed clock : Z) : Prop :=
  valid_seed seed /\
  in_nanoseconds (clock / 86400) /\
  in_nanoseconds (fst (run_dates start_date end_date past_days future_days clock)) /\
  in_nanoseconds (snd (run_dates start_date end_date past_days future_days clock)).

(** [d[k]] on the identifiers by date. *)
Fixpoint ids_at (d : list (string * list string)) (k : string) : list string :=
  match d with
  | [] => []
  | (k', ids) :: d' => if String.eqb k' k then ids else ids_at d' k
  end.

(** The transaction identifiers of the files written, file by file. *)
Definition file_ids (files : list (path * list Row)) : list (path * list string) :=
  map (fun pc => (fst pc, map transaction_id (snd pc))) files.

(** The identifiers of the files of a run in the words of the
    specification: one file per date, in the order of the date strings,
    with the identifiers of that date. *)
Definition expected_file_ids (output_path : path)
    (expected : list (string * list string)) : list (path * list string) :=
  map (fun k => (join (join output_path k) ("data-" ++ k ++ ".parquet"),
                 ids_at expected k))
      (fold_right insert_sorted [] (map fst expected)).

(** The date string a row is filed under (line 265). *)
Definition date_key (r : Row) : string := format_date (date_of (timestamp r)).

(** The rows filed under [k], in order. *)
Definition rows_on (k : string) (rows : list Row) : list Row :=
  filter (fun r => String.eqb (date_key r) k) rows.

(** The rows whose prediction is the ground truth, and the rows of
    category [c], counted. *)
Definition correct (rows : list Row) : Z :=
  Z.of_nat (List.length
    (filter (fun r => Category_eqb (predicted_category r) (ground_truth_category r))
            rows)).

Definition of_category (c : Category) (rows : list Row) : Z :=
  Z.of_nat (List.length
    (filter (fun r => Category_eqb c (ground_truth_category r)) rows)).

(** [stats'] is [stats] after the rows [new] were counted (lines
    349-352). *)
Definition counted (stats : Stats) (new : list Row) (stats' : Stats) : Prop :=
  total_transactions stats' = total_transactions stats + Z.of_nat (List.length new) /\
  correct_predictions stats' = correct_predictions stats + correct new /\
  (forall c, category_counts stats' c = category_counts stats c + of_category c new) /\
  files_created stats' = files_created stats /\
  date_range stats' = date_range stats /\
  category_rate stats' = category_rate stats /\
  accuracy stats' = accuracy stats.

(** The rows of an hour: [n] rows with the hour as timestamp. *)
Definition batch_at (n : nat) (h : datetime) (rows : list Row) : Prop :=
  List.length rows = n /\ Forall (fun r => timestamp r = h) rows.

(** The keys of [rows_by_date] after the hours [hours] (lines 265-270):
    no key twice, and a key for the date of every hour. *)
Definition keys_after (keys : list string) (hours : list datetime)
    (keys' : list string) : Prop :=
  (NoDup keys -> NoDup keys') /\
  (forall k, In k keys' <->
             In k keys \/ exists h, In h hours /\ k = format_date (date_of h)).

(** The calls of [_write_parquet] for the date strings [keys]: for each
    one its directory, then its file with the rows filed under it. *)
Definition partition_events (output_path : path) (keys : list string)
    (rows : list Row) : list (fs_event (list Row)) :=
  List.concat
    (map (fun k =>
            [ Mkdir (join output_path k);
              WriteFile (join (join output_path k) ("data-" ++ k ++ ".parquet"))
                        (rows_on k rows) ])
         keys).

End MultiClass.

(* ===================================================================== *)
(** * script automation/onboarding and scripts/onboarding *)
(* ===================================================================== *)

Module Onboarding.
Import Sys.
Local Open Scope string_scope.

(** ** The vendor's data model, as far as the scripts use it *)

Record Column : Type := mkColumn {
  col_id : string;
  source_name : string
}.

Record Dataset : Type := mkDataset {
  dataset_id : string;
  dataset_name : string;
  columns : list Column
}.

(** The value of an aggregation argument: a string, a float or a list of
    strings. *)
Inductive ArgValue : Type :=
| VStr (v : string)
| VNum (v : float)
| VList (v : list string).

Record MetricsArgSpec : Type := mkArg {
  arg_key : string;
  arg_value : ArgValue
}.

Record AggregationSpec : Type := mkSpec {
  aggregation_id : string;
  aggregation_init_args : list MetricsArgSpec;
  aggregation_args : list MetricsArgSpec
}.

Record Model : Type := mkModel {
  model_name : string;
  model_datasets : list string;
  metric_config : list AggregationSpec
}.

(** Python's [==] on these values. *)
Fixpoint list_eqb {A} (eqb : A -> A -> bool) (xs ys : list A) : bool :=
  match xs, ys with
  | [], [] => true
  | x :: xs', y :: ys' => eqb x y && list_eqb eqb xs' ys'
  | _, _ => false
  end.

Definition ArgValue_eqb (a b : ArgValue) : bool :=
  match a, b with
  | VStr x, VStr y => String.eqb x y
  | VNum x, VNum y => (x =? y)%float
  | VList x, VList y => list_eqb String.eqb x y
  | _, _ => false
  end.

Definition MetricsArgSpec_eqb (a b : MetricsArgSpec) : bool :=
  String.eqb (arg_key a) (arg_key b) && ArgValue_eqb (arg_value a) (arg_value b).

(** ** Scripts as computations

    A script prints, may raise, and reads and replaces the metric
    configuration the platform holds for the model. *)
Definition Config := list AggregationSpec.

Record Result (A : Type) : Type := mkResult {
  printed : list string;
  config : Config;
  result : outcome A
}.
Arguments mkResult {A}.
Arguments printed {A}.
Arguments config {A}.
Arguments result {A}.

Definition Run (A : Type) : Type := Config -> Result A.

Definition ret {A} (a : A) : Run A := fun c => mkResult [] c (Returned a).

Definition raise {A} (e : exception) : Run A := fun c => mkResult [] c (Raised e).

Definition bind {A B} (m : Run A) (k : A -> Run B) : Run B :=
  fun c =>
    let r := m c in
    match result r with
    | Returned a =>
        let r' := k a (config r) in
        mkResult (printed r ++ printed r')%list (config r') (result r')
    | Raised e => mkResult (printed r) (config r) (Raised e)
    end.

Definition print (line : string) : Run unit := fun c => mkResult [line] c (Returned tt).

(** A call into library code that returns or raises as [o] says. *)
Definition call {A} (o : outcome A) : Run A := fun c => mkResult [] c o.

(** [try: body / except C1 as e: h1 / except C2 as e: h2 ...]: the first
    clause whose class the exception is an instance of handles it; with no
    such clause the exception goes on. *)
Fixpoint find_clause {A} (clauses : list ((exception -> bool) * (exception -> Run A)))
    (e : exception) : option (Run A) :=
  match clauses with
  | [] => None
  | (is_instance, handler) :: clauses' =>
      if is_instance e then Some (handler e) else find_clause clauses' e
  end.

Definition try_except {A} (body : Run A)
    (clauses : list ((exception -> bool) * (exception -> Run A))) : Run A :=
  fun c =>
    let r := body c in
    match result r with
    | Returned _ => r
    | Raised e =>
        match find_clause clauses e with
        | Some handler =>
            let r' := handler (config r) in
            mkResult (printed r ++ printed r')%list (config r') (result r')
        | None => r
        end
    end.

(** What a run from configuration [c] prints, leaves as configuration and
    ends with. *)
Definition runs {A} (m : Run A) (c : Config)
    (Q : list string -> Config -> outcome A -> Prop) : Prop :=
  Q (printed (m c)) (config (m c)) (result (m c)).

End Onboarding.

Declare Scope run_scope.
Delimit Scope run_scope with run.
Notation "x <- c ;; k" := (Onboarding.bind c (fun x => k))
  (at level 61, c at next level, right associativity) : run_scope.
Notation "c ;;; k" := (Onboarding.bind c (fun _ => k))
  (at level 61, right associativity) : run_scope.

(** ** The entry points of the scripts

    [flow] is what the script runs: the call of [main()], or the statements
    of the [if __name__ == "__main__":] block. *)

Module EntryPoints.
Import Sys Onboarding.
Local Open Scope string_scope.
Local Open Scope run_scope.

(** add-custom-aggregations.py, lines 317-327. *)
Definition add_custom_aggregations (flow : Run unit) : Run unit :=
  try_except flow
    [ (is_ValueError, fun e =>
         print ("Error: " ++ str_exc e) ;;;
         print "Make sure you've updated:" ;;;
         print "  1. MODEL_ID with your actual model ID" ;;;
         print "  2. Column names in gen_custom_aggregations() to match your schema");
      (is_Exception, fun e =>
         print ("Unexpected error: " ++ str_exc e) ;;;
         raise e) ].

(** add-regression-model-aggregations.py, lines 337-348. *)
Definition add_regression_model_aggregations (flow : Run unit) : Run unit :=
  try_except flow
    [ (is_ValueError, fun e =>
         print ("Configuration Error: " ++ str_exc e) ;;;
         print "Make sure you've updated:" ;;;
         print "  1. MODEL_ID with your actual model ID from onboarding output" ;;;
         print "  2. Column names in gen_regression_model_aggregations() to match your schema");
      (is_Exception, fun e =>
         print ("Unexpected error: " ++ str_exc e) ;;;
         print "Traceback (most recent call last):") ].

(** create-regression-error-profile.py, lines 91-297, and
    create-positive-class-error-profile.py, lines 313-393. *)
Definition create_error_profile (flow : Run unit) : Run unit :=
  try_except flow
    [ (is_Exception, fun e =>
         print ("Error: " ++ str_exc e) ;;;
         print "Traceback (most recent call last):" ;;;
         raise e) ].

(** The scripts whose entry point has no [try]: add-prediction-stats-metrics,
    housing-price-onboarding, jpmc-onboarding, remove-column-from-schema,
    service-account-creation, using-sdk-with-service-account-creds,
    add-column-to-schema and duplicate-metrics-to-new-datasets. *)
Definition unguarded (flow : Run unit) : Run unit := flow.

Inductive Script : Type :=
| add_custom_aggregations_py
| add_fraud_model_aggregations_py
| add_prediction_stats_metrics_py
| create_regression_error_profile_py
| housing_price_onboarding_py
| jpmc_onboarding_py
| remove_column_from_schema_py
| service_account_creation_py
| using_sdk_with_service_account_creds_py
| add_column_to_schema_py
| add_regression_model_aggregations_py
| create_positive_class_error_profile_py
| duplicate_metrics_to_new_datasets_py.

(** add-fraud-model-aggregations.py, lines 320-329, around any flow. *)
Definition add_fraud_model_aggregations (flow : Run unit) : Run unit :=
  try_except flow
    [ (is_ValueError, fun e =>
         print ("Configuration Error: " ++ str_exc e) ;;;
         print "Make sure you've updated MODEL_ID in the script.");
      (is_Exception, fun e =>
         print ("Unexpected error: " ++ str_exc e) ;;;
         print "Traceback (most recent call last):") ].

(** The entry point of each script. *)
Definition entry_point (s : Script) : Run unit -> Run unit :=
  match s with
  | add_custom_aggregations_py => add_custom_aggregations
  | add_fraud_model_aggregations_py => add_fraud_model_aggregations
  | add_regression_model_aggregations_py => add_regression_model_aggregations
  | create_regression_error_profile_py
  | create_positive_class_error_profile_py => create_error_profile
  | _ => unguarded
  end.

(** add-prediction-stats-metrics.py, lines 37-49: the column lookup and the
    first statements of [gen_aggregation_specs]. *)
Fixpoint find_column (cols : list Column) (col_name : string) : outcome string :=
  match cols with
  | [] => Raised (ValueError ("Could not find column " ++ col_name))
  | col :: cols' =>
      if String.eqb (source_name col) col_name then Returned (col_id col)
      else find_column cols' col_name
  end.

Definition prediction_stats_columns (dataset : Dataset) : Run (string * string) :=
  prediction_col_id <- call (find_column (columns dataset) "prediction") ;;
  timestamp_col_id <- call (find_column (columns dataset) "timestamp") ;;
  ret (prediction_col_id, timestamp_col_id).

(** What an entry point does with an exception [e] raised by the flow it
    runs: it catches it, prints a diagnostic after what the flow printed and
    ends normally, or lets it go on. *)
Definition swallows (entry : Run unit -> Run unit) (e : exception) : Prop :=
  forall flow c,
    result (flow c) = Raised e ->
    result (entry flow c) = Returned tt /\
    config (entry flow c) = config (flow c) /\
    exists diagnostic,
      diagnostic <> [] /\
      printed (entry flow c) = (printed (flow c) ++ diagnostic)%list.

Definition propagates (entry : Run unit -> Run unit) (e : exception) : Prop :=
  forall flow c,
    result (flow c) = Raised e ->
    result (entry flow c) = Raised e /\
    config (entry flow c) = config (flow c).

End EntryPoints.

(** ** add-fraud-model-aggregations.py *)

Module AddFraudModelAggregations.
Import Sys Onboarding.
Local Open Scope string_scope.
Local Open Scope run_scope.

Definition MODEL_ID : string := "INSERT_MODEL_ID_HERE".
Definition ARTHUR_HOST : string := "https://platform.arthur.ai".

(** Lines 28-33. *)
Fixpoint find_column (cols : list Column) (col_name : string) : outcome string :=
  match cols with
  | [] => Raised (ValueError ("Column '" ++ col_name ++ "' not found in dataset schema"))
  | col :: cols' =>
      if String.eqb (source_name col) col_name then Returned (col_id col)
      else find_column cols' col_name
  end.

Definition column_id_from_col_name (dataset : Dataset) (col_name : string)
    : outcome string :=
  find_column (columns dataset) col_name.

(** Sequencing of calls that may raise. *)
Definition and_then {A B} (o : outcome A) (k : A -> outcome B) : outcome B :=
  match o with
  | Returned a => k a
  | Raised e => Raised e
  end.

(** [try: id = column_id_from_col_name(...); numeric_cols.append(id) /
    except ValueError: id = None]. *)
Definition optional_column (dataset : Dataset) (col_name : string) : list string :=
  match column_id_from_col_name dataset col_name with
  | Returned id => [id]
  | Raised _ => []
  end.

Definition spec3 (agg_id : string) (dataset : Dataset) (timestamp_col_id : string)
    (key : string) (col_id : string) : AggregationSpec :=
  {| aggregation_id := agg_id;
     aggregation_init_args := [];
     aggregation_args :=
       [ mkArg "dataset" (VStr (dataset_id dataset));
         mkArg "timestamp_col" (VStr timestamp_col_id);
         mkArg key (VStr col_id) ] |}.

(** Lines 36-209. *)
Definition gen_fraud_model_aggregations (dataset : Dataset)
    : outcome (list AggregationSpec) :=
  let col := column_id_from_col_name dataset in
  and_then (col "timestamp") (fun timestamp_col_id =>
  and_then (col "fraud_pred") (fun fraud_pred_col_id =>
  and_then (col "is_fraud") (fun is_fraud_col_id =>
  and_then (col "distance_from_home_km") (fun distance_col_id =>
  and_then (col "tenure_months") (fun tenure_col_id =>
  let numeric_cols :=
    [fraud_pred_col_id; is_fraud_col_id; distance_col_id; tenure_col_id] in
  let numeric_cols :=
    (numeric_cols ++ optional_column dataset "transaction_amount")%list in
  let numeric_cols :=
    (numeric_cols ++ optional_column dataset "merchant_risk_score")%list in
  and_then (col "customer_segment") (fun customer_segment_col_id =>
  and_then (col "channel") (fun channel_col_id =>
  and_then (col "region") (fun region_col_id =>
  and_then (col "risk_rank") (fun risk_rank_col_id =>
  let categorical_cols :=
    [customer_segment_col_id; channel_col_id; region_col_id; risk_rank_col_id] in
  let all_tracked_cols := (numeric_cols ++ categorical_cols)%list in
  Returned
    ([ {| aggregation_id := "00000000-0000-0000-0000-00000000000a";
          aggregation_init_args := [];
          aggregation_args :=
            [ mkArg "dataset" (VStr (dataset_id dataset));
              mkArg "timestamp_col" (VStr timestamp_col_id) ] |} ]
     ++ map (spec3 "00000000-0000-0000-0000-00000000000f" dataset
                   timestamp_col_id "numeric_col")
            [fraud_pred_col_id; is_fraud_col_id]
     ++ map (spec3 "00000000-0000-0000-0000-00000000000d" dataset
                   timestamp_col_id "numeric_col")
            numeric_cols
     ++ map (spec3 "00000000-0000-0000-0000-00000000000c" dataset
                   timestamp_col_id "categorical_col")
            categorical_cols
     ++ [ {| aggregation_id := "00000000-0000-0000-0000-00000000001e";
             aggregation_init_args := [];
             aggregation_args :=
               [ mkArg "dataset" (VStr (dataset_id dataset));
                 mkArg "timestamp_col" (VStr timestamp_col_id);
                 mkArg "prediction_col" (VStr fraud_pred_col_id);
                 mkArg "gt_values_col" (VStr is_fraud_col_id);
                 mkArg "threshold" (VNum 0.5);
                 mkArg "segmentation_cols"
                       (VList [region_col_id; risk_rank_col_id]) ] |};
          {| aggregation_id := "00000000-0000-0000-0000-000000000020";
             aggregation_init_args := [];
             aggregation_args :=
               [ mkArg "dataset" (VStr (dataset_id dataset));
                 mkArg "timestamp_col" (VStr timestamp_col_id);
                 mkArg "prediction_col" (VStr fraud_pred_col_id);
                 mkArg "threshold" (VNum 0.5);
                 mkArg "true_label" (VStr "Fraud");
                 mkArg "false_label" (VStr "Authorized");
                 mkArg "segmentation_cols"
                       (VList [risk_rank_col_id; region_col_id]) ] |} ]
     ++ map (spec3 "00000000-0000-0000-0000-00000000000b" dataset
                   timestamp_col_id "nullable_col")
            all_tracked_cols)%list))))))))).

(** The names [gen_fraud_model_aggregations] looks up, in the order of the
    lookups: those it cannot do without (lines 49-57 and 73-76), and the two
    it takes when they are there (lines 61-70). *)
Definition required_columns : list string :=
  [ "timestamp"; "fraud_pred"; "is_fraud"; "distance_from_home_km";
    "tenure_months"; "customer_segment"; "channel"; "region"; "risk_rank" ].

Definition optional_columns : list string :=
  [ "transaction_amount"; "merchant_risk_score" ].

(** Whether the schema has a column named [col_name]. *)
Definition has_column (dataset : Dataset) (col_name : string) : bool :=
  existsb (fun col => String.eqb (source_name col) col_name) (columns dataset).

(** Lines 254-259: whether a specification with the same identifier and
    the same arguments is in the configuration. *)
Definition exists_in (existing : Config) (agg : AggregationSpec) : bool :=
  existsb (fun existing_agg =>
             String.eqb (aggregation_id existing_agg) (aggregation_id agg) &&
             list_eqb MetricsArgSpec_eqb (aggregation_args existing_agg)
                      (aggregation_args agg))
          existing.

(** An aggregation equals itself: none of its arguments is a NaN. *)
Definition self_equal (agg : AggregationSpec) : Prop :=
  list_eqb MetricsArgSpec_eqb (aggregation_args agg) (aggregation_args agg) = true.

(** Lines 250-264: the new aggregations that are not in the configuration
    yet. *)
Definition aggregations_to_add (existing : Config)
    (new_aggregations : list AggregationSpec) : list AggregationSpec :=
  filter (fun agg => negb (exists_in existing agg)) new_aggregations.

(** What the platform and the user answer during a run: each call returns
    or raises. [model_info] is the model's name and the identifiers of its
    datasets. *)
Record Session : Type := mkSession {
  authorize : outcome unit;
  model_info : outcome (string * list string);
  get_dataset : string -> outcome Dataset;
  input : outcome string;
  put_fails : option exception
}.

(** [models_client.get_model]: the model with the metric configuration the
    platform holds. *)
Definition get_model (s : Session) : Run Model :=
  fun c =>
    match model_info s with
    | Returned info => mkResult [] c (Returned (mkModel (fst info) (snd info) c))
    | Raised e => mkResult [] c (Raised e)
    end.

(** [models_client.put_model_metric_config]: the configuration is replaced
    unless the call fails. *)
Definition put_model_metric_config (s : Session) (specs : Config) : Run unit :=
  fun c =>
    match put_fails s with
    | Some e => mkResult [] c (Raised e)
    | None => mkResult [] specs (Returned tt)
    end.

(** [len(x)] printed. *)
Definition len {A} (xs : list A) : string := Fmt.str_int (Z.of_nat (List.length xs)).

(** [s.lower()] on ASCII text. *)
Definition lower_char (ch : ascii) : ascii :=
  let n := nat_of_ascii ch in
  if (65 <=? n)%nat && (n <=? 90)%nat then ascii_of_nat (n + 32) else ch.
Fixpoint lower (s : string) : string :=
  match s with
  | EmptyString => EmptyString
  | String ch s' => String (lower_char ch) (lower s')
  end.

(** Lines 238-239: [for col in ...: print(f"  - {col.source_name}")]. *)
Fixpoint print_columns (cols : list Column) : Run unit :=
  match cols with
  | [] => ret tt
  | col :: cols' => print ("  - " ++ source_name col) ;;; print_columns cols'
  end.

(** Lines 212-317: [main]. The printed lines are given without their
    pictographs and leading blank lines. *)
Definition main (s : Session) : Run unit :=
  print ("Connecting to Arthur at " ++ ARTHUR_HOST ++ "...") ;;;
  call (authorize s) ;;;
  print ("Fetching model " ++ MODEL_ID ++ "...") ;;;
  model <- get_model s ;;
  print ("Model: " ++ model_name model) ;;;
  print ("Current aggregation count: " ++ len (metric_config model)) ;;;
  print "Fetching dataset..." ;;;
  match model_datasets model with
  | [] => raise (ValueError ("Model " ++ MODEL_ID ++ " has no associated datasets"))
  | first_id :: _ =>
      dataset <- call (get_dataset s first_id) ;;
      print ("Dataset: " ++ dataset_name dataset) ;;;
      print "Available columns in dataset:" ;;;
      print_columns (columns dataset) ;;;
      print "Generating fraud model aggregations..." ;;;
      match gen_fraud_model_aggregations dataset with
      | Raised (ValueError msg) =>
          print ("Error: " ++ msg) ;;;
          print "Please verify that your dataset has these columns:" ;;;
          print "  - timestamp, fraud_pred, is_fraud, distance_from_home_km, tenure_months" ;;;
          print "  - customer_segment, channel, region, risk_rank"
      | Raised e => raise e
      | Returned new_aggregations =>
          print ("Generated " ++ len new_aggregations ++ " aggregations") ;;;
          let to_add := aggregations_to_add (metric_config model) new_aggregations in
          let skipped_count :=
            (List.length new_aggregations - List.length to_add)%nat in
          print ("Skipping " ++ Fmt.str_int (Z.of_nat skipped_count) ++
                 " aggregations that already exist") ;;;
          print ("Adding " ++ len to_add ++ " new aggregations") ;;;
          match to_add with
          | [] =>
              print "No new aggregations to add. All specified aggregations already exist."
          | _ :: _ =>
              print "Aggregations Summary:" ;;;
              print "  - Inference count: total predictions over time" ;;;
              print "  - Numeric sums: fraud_pred, is_fraud totals" ;;;
              print "  - Numeric distributions: all numeric columns (min/max/mean/std)" ;;;
              print "  - Category counts: customer_segment, channel, region, risk_rank" ;;;
              print "  - Confusion matrix: with segmentation by region and risk_rank" ;;;
              print "  - Inference count by class: Fraud vs Authorized with segmentation" ;;;
              print "  - Data quality: nullable counts for all tracked columns" ;;;
              print "To add custom error profile metrics, run: python create-positive-class-error-profile.py" ;;;
              let all_aggregations := (metric_config model ++ to_add)%list in
              print "Metrics:" ;;;
              print ("  Previous: " ++ len (metric_config model) ++ " aggregations") ;;;
              print ("  New:      " ++ len all_aggregations ++ " aggregations") ;;;
              print ("  Added:    " ++ len to_add ++ " aggregations") ;;;
              response <- call (input s) ;;
              if negb (String.eqb (lower response) "yes") then
                print "Cancelled. No changes made."
              else
                print "Applying aggregations to model..." ;;;
                put_model_metric_config s all_aggregations ;;;
                print "Successfully updated model metrics!" ;;;
                print "Next steps:" ;;;
                print "  1. (Optional) Run create-positive-class-error-profile.py to add custom error metrics" ;;;
                print "  2. Wait for next scheduled metric calculation (hourly)" ;;;
                print ("  3. View metrics in Arthur UI at " ++ ARTHUR_HOST) ;;;
                print "  4. Monitor for drift in fraud_pred and key features"
          end
      end
  end.

(** Lines 320-329: the script. *)
Definition script (s : Session) : Run unit :=
  EntryPoints.add_fraud_model_aggregations (main s).

(** Two runs talk to the same platform: the same authorization, model and
    datasets; the user's answer and the fate of the update may differ. *)
Definition same_platform (s s' : Session) : Prop :=
  authorize s = authorize s' /\
  model_info s = model_info s' /\
  forall id, get_dataset s id = get_dataset s' id.

(** The platform authorizes the session and hands out [dataset] as the
    model's first dataset. *)
Definition serves (s : Session) (dataset : Dataset) : Prop :=
  authorize s = Returned tt /\
  exists info first rest,
    model_info s = Returned info /\
    snd info = first :: rest /\
    get_dataset s first = Returned dataset.

(** A platform and a user to run the script with: a dataset with the
    required columns, and the answer [YES]. *)
Definition demo_dataset : Dataset :=
  {| dataset_id := "ds-1";
     dataset_name := "card fraud";
     columns :=
       map (fun name => mkColumn ("id-" ++ name) name)
           [ "timestamp"; "fraud_pred"; "is_fraud"; "distance_from_home_km";
             "tenure_months"; "merchant_risk_score"; "customer_segment";
             "channel"; "region"; "risk_rank" ] |}.

Definition demo_session : Session :=
  {| authorize := Returned tt;
     model_info := Returned ("fraud model", ["ds-1"]);
     get_dataset := fun _ => Returned demo_dataset;
     input := Returned "YES";
     put_fails := None |}.

(** The same platform with a user who declines. *)
Definition declining_session : Session :=
  {| authorize := Returned tt;
     model_info := Returned ("fraud model", ["ds-1"]);
     get_dataset := fun _ => Returned demo_dataset;
     input := Returned "No";
     put_fails := None |}.

End AddFraudModelAggregations.

(* ===================================================================== *)
(** * A small concrete library, to run the programs on examples *)
(* ===================================================================== *)

Module Demo.

(** A linear congruential generator stands for both random generators; each
    sampler reads its draw off the state. The draws respect the samplers'
    documented ranges; a normal draw is its mean. [round] is the rounding that changes nothing and
    [md5] a 32-character digest built from the text's length. *)
Definition next (s : Z) : Z := (s * 1103515245 + 12345) mod 2147483648.

Definition unit_draw (s : Z) : float :=
  match s mod 4 with
  | 0 => 0.03125
  | 1 => 0.25
  | 2 => 0.625
  | _ => 0.875
  end%float.

Definition draw (f : float -> float) (s : Z) : float * Z := (f (unit_draw s), next s).

Definition lib : Library :=
  {| np_state := Z;
     np_seed := fun seed => seed mod 2147483648;
     np_random := draw (fun u => u);
     np_choice := fun p s => (Z.to_nat (s mod Z.of_nat (List.length p)), next s);
     np_lognormal := fun _ _ => draw (fun u => 64 * u)%float;
     np_exponential := fun scale => draw (fun u => 8 * u)%float;
     np_beta := fun _ _ => draw (fun u => u);
     np_gamma := fun _ _ => draw (fun u => 40 * u)%float;
     np_normal := fun mu _ => draw (fun _ => mu);
     np_uniform := fun lo hi => draw (fun u => lo + (hi - lo) * u)%float;
     np_randint := fun lo hi s => (lo + s mod (hi - lo), next s);
     np_poisson := fun _ s => (s mod 5, next s);
     np_binomial := fun n _ s => (s mod (n + 1), next s);
     np_dirichlet := fun alpha s =>
       (map (fun _ => 1 / float_of_Z (Z.of_nat (List.length alpha)))%float alpha,
        next s);
     py_state := Z;
     py_seed := fun seed => (seed + 1) mod 2147483648;
     py_randint := fun lo hi s => (lo + s mod (hi - lo + 1), next s);
     py_choice := fun n s => (Z.to_nat (s mod Z.of_nat n), next s);
     py_sample := fun lo hi k s =>
       (map (fun i => lo + Z.of_nat i) (seq 0 k), next s);
     py_round := fun x _ => x;
     md5_hexdigest := fun text =>
       let n := Fmt.pad0 8 (Z.of_nat (String.length text)) in
       (n ++ n ++ n ++ n)%string |}.

(** A world to start from: 2024-02-28 10:00, fresh generators, nothing
    written yet. *)
Definition world (C : Type) : Sys.World lib C :=
  @Sys.mkWorld lib C (86400 * Calendar.ymd2ord 2024 2 28 + 36000) 7 9 [].

End Demo.

Import Sys.

(* ===================================================================== *)
(** * Order facts on binary64 *)
(* ===================================================================== *)

Section FloatOrder.

Lemma SFcompare_swap (x y : spec_float) :
  SFcompare y x = option_map CompOpp (SFcompare x y).
Proof.
  destruct x as [sx|sx| |sx mx ex], y as [sy|sy| |sy my ey]; simpl;
    try reflexivity;
    try (destruct sx; reflexivity);
    try (destruct sy; reflexivity);
    try (destruct sx, sy; reflexivity).
  destruct sx, sy; simpl; try reflexivity;
    rewrite (Z.compare_antisym ey ex);
    destruct (ey ?= ex); simpl; try reflexivity;
    fold (Pos.compare mx my); fold (Pos.compare my mx);
    rewrite (Pos.compare_antisym my mx);
    destruct (my ?= mx)%positive; reflexivity.
Qed.

Lemma ltb_leb (x y : float) : (x <? y)%float = true -> (x <=? y)%float = true.
Proof.
  rewrite ltb_spec, leb_spec. unfold SFltb, SFleb.
  destruct (SFcompare _ _) as [[]|]; congruence.
Qed.

Lemma is_nan_spec (x : float) : is_nan x = true <-> Prim2SF x = S754_nan.
Proof.
  unfold is_nan. rewrite eqb_spec. unfold SFeqb.
  destruct (Prim2SF x) as [s|s| |s m e]; simpl.
  - split; discriminate.
  - destruct s; split; discriminate.
  - split; reflexivity.
  - destruct s; simpl; rewrite Z.compare_refl;
      fold (Pos.compare m m); rewrite Pos.compare_refl; split; discriminate.
Qed.

(** A value that takes part in a successful comparison is a number. *)
Lemma leb_number_r (x y : float) : (x <=? y)%float = true -> is_number y = true.
Proof.
  rewrite leb_spec. unfold SFleb, is_number. intros H.
  destruct (is_nan y) eqn:E; [|reflexivity].
  apply is_nan_spec in E. rewrite E in H.
  destruct (Prim2SF x); discriminate.
Qed.

Lemma leb_number_l (x y : float) : (x <=? y)%float = true -> is_number x = true.
Proof.
  rewrite leb_spec. unfold SFleb, is_number. intros H.
  destruct (is_nan x) eqn:E; [|reflexivity].
  apply is_nan_spec in E. rewrite E in H. discriminate.
Qed.

(** On numbers the order is total: when [y < x] fails, [x <= y] holds. *)
Lemma not_ltb_leb (x y : float) :
  is_number x = true -> is_number y = true ->
  (y <? x)%float = false -> (x <=? y)%float = true.
Proof.
  unfold is_number. intros Hx Hy.
  rewrite ltb_spec, leb_spec. unfold SFltb, SFleb.
  rewrite (SFcompare_swap (Prim2SF x) (Prim2SF y)).
  destruct (SFcompare (Prim2SF x) (Prim2SF y)) as [[]|] eqn:E; simpl;
    try congruence.
  exfalso.
  destruct (Prim2SF x) as [sx|sx| |sx mx ex] eqn:Ex;
    destruct (Prim2SF y) as [sy|sy| |sy my ey] eqn:Ey; simpl in E;
    try discriminate.
  all: try (apply is_nan_spec in Ex; rewrite Ex in Hx; discriminate).
  all: try (apply is_nan_spec in Ey; rewrite Ey in Hy; discriminate).
Qed.

End FloatOrder.

(* ===================================================================== *)
(** * The concrete library obeys the laws *)
(* ===================================================================== *)

Section DemoLaws.

Lemma unit_draw_cases (s : Z) :
  Demo.unit_draw s = 0.03125%float \/ Demo.unit_draw s = 0.25%float \/
  Demo.unit_draw s = 0.625%float \/ Demo.unit_draw s = 0.875%float.
Proof.
  unfold Demo.unit_draw. destruct (s mod 4) as [|[]|]; auto.
  all: destruct p; auto.
Qed.

Lemma demo_laws : LibraryLaws Demo.lib.
Proof.
  split; simpl; intros.
  - destruct (unit_draw_cases s) as [E|[E|[E|E]]]; rewrite E; reflexivity.
  - destruct (unit_draw_cases s) as [E|[E|[E|E]]]; rewrite E; reflexivity.
  - unfold is_finite in H. unfold is_number.
    destruct (is_nan mu); [discriminate|reflexivity].
  - assumption.
  - assumption.
  - apply length_map.
Qed.

End DemoLaws.

(* ===================================================================== *)
(** * Clamping *)
(* ===================================================================== *)

Section Clamping.

Lemma within_split (lo hi x : float) :
  within lo hi x = true <-> (lo <=? x)%float = true /\ (x <=? hi)%float = true.
Proof. unfold within. apply andb_true_iff. Qed.

Lemma ltb_number_l (x y : float) : (x <? y)%float = true -> is_number x = true.
Proof. intros H. apply ltb_leb in H. exact (leb_number_l _ _ H). Qed.

Lemma ltb_number_r (x y : float) : (x <? y)%float = true -> is_number y = true.
Proof. intros H. apply ltb_leb in H. exact (leb_number_r _ _ H). Qed.

(** [max(lo, min(x, hi))] lies in [[lo, hi]] whatever [x] is, a NaN
    included. *)
Lemma py_clamp_range (lo hi x : float) :
  (lo <=? hi)%float = true -> (lo <=? lo)%float = true ->
  (hi <=? hi)%float = true ->
  within lo hi (py_max lo (py_min x hi)) = true.
Proof.
  intros Hlh Hl Hh. apply within_split. unfold py_max, py_min.
  destruct (hi <? x)%float eqn:E1.
  - destruct (lo <? hi)%float; auto.
  - destruct (lo <? x)%float eqn:E2; [|auto].
    split; [apply ltb_leb; exact E2|].
    apply not_ltb_leb; [exact (ltb_number_r _ _ E2)| |exact E1].
    exact (leb_number_r _ _ Hlh).
Qed.

(** [max(lo, min(hi, x))] likewise. *)
Lemma py_clamp_range' (lo hi x : float) :
  (lo <=? hi)%float = true -> (lo <=? lo)%float = true ->
  (hi <=? hi)%float = true ->
  within lo hi (py_max lo (py_min hi x)) = true.
Proof.
  intros Hlh Hl Hh. apply within_split. unfold py_max, py_min.
  destruct (x <? hi)%float eqn:E1.
  - destruct (lo <? x)%float eqn:E2; [|auto].
    split; apply ltb_leb; assumption.
  - destruct (lo <? hi)%float; auto.
Qed.

(** [min(x, hi)] keeps a lower bound of [x]. *)
Lemma py_min_range (lo hi x : float) :
  (lo <=? hi)%float = true -> (hi <=? hi)%float = true ->
  (lo <=? x)%float = true ->
  within lo hi (py_min x hi) = true.
Proof.
  intros Hlh Hh Hx. apply within_split. unfold py_min.
  destruct (hi <? x)%float eqn:E; [auto|].
  split; [exact Hx|].
  apply not_ltb_leb; [exact (leb_number_r _ _ Hx)| |exact E].
  exact (leb_number_r _ _ Hlh).
Qed.

(** [np.clip(x, lo, hi)] lies in [[lo, hi]] when [x] is a number. *)
Lemma np_clip_range (lo hi x : float) :
  (lo <=? hi)%float = true -> (lo <=? lo)%float = true ->
  (hi <=? hi)%float = true -> is_number x = true ->
  within lo hi (np_clip x lo hi) = true.
Proof.
  intros Hlh Hl Hh Hx. apply within_split.
  assert (Hnl : is_nan lo = false).
  { apply leb_number_l in Hl. unfold is_number in Hl.
    destruct (is_nan lo); [discriminate|reflexivity]. }
  assert (Hnx : is_nan x = false).
  { unfold is_number in Hx. destruct (is_nan x); [discriminate|reflexivity]. }
  unfold np_clip, npy_max. rewrite Hnx.
  destruct (lo <? x)%float eqn:E1; unfold npy_min.
  - rewrite Hnx. destruct (x <? hi)%float eqn:E2.
    + split; apply ltb_leb; assumption.
    + auto.
  - rewrite Hnl. destruct (lo <? hi)%float eqn:E2; auto.
Qed.

Lemma np_clip_int_range (lo hi x : Z) :
  lo <= hi -> lo <= np_clip_int x lo hi <= hi.
Proof. unfold np_clip_int. lia. Qed.

End Clamping.

(* ===================================================================== *)
(** * Reasoning about computations on the world *)
(* ===================================================================== *)

Section Effects.

Import Sys.
Context {L : Library} {C : Type}.

Lemma quiet_ret {A} (a : A) : quiet (L:=L) (C:=C) (ret a).
Proof. intros w. split; reflexivity. Qed.

Lemma quiet_bind {A B} (m : M L C A) (k : A -> M L C B) :
  quiet m -> (forall a, quiet (k a)) -> quiet (bind m k).
Proof.
  intros Hm Hk w. unfold bind. cbv zeta.
  destruct (Hm w) as [H1 H2].
  destruct (Hk (fst (m w)) (snd (m w))) as [H3 H4].
  split; congruence.
Qed.

Lemma quiet_np {A} (f : np_state L -> A * np_state L) : quiet (C:=C) (np f).
Proof. intros w. split; reflexivity. Qed.

Lemma quiet_py {A} (f : py_state L -> A * py_state L) : quiet (C:=C) (py f).
Proof. intros w. split; reflexivity. Qed.

Lemma quiet_today : quiet (@today L C).
Proof. intros w. split; reflexivity. Qed.

Lemma quiet_seed_numpy (seed : Z) : quiet (@seed_numpy L C seed).
Proof. intros w. split; reflexivity. Qed.

Lemma quiet_seed_python (seed : Z) : quiet (@seed_python L C seed).
Proof. intros w. split; reflexivity. Qed.

Lemma quiet_if {A} (c : bool) (m1 m2 : M L C A) :
  quiet m1 -> quiet m2 -> quiet (if c then m1 else m2).
Proof. destruct c; auto. Qed.

Lemma quiet_replicate {A} (n : nat) (m : M L C A) :
  quiet m -> quiet (replicate n m).
Proof.
  intros Hm. induction n as [|n IH]; simpl.
  - apply quiet_ret.
  - apply quiet_bind; [exact Hm|]. intros a.
    apply quiet_bind; [exact IH|]. intros l. apply quiet_ret.
Qed.

Lemma quiet_for_each {A B} (xs : list A) (body : A -> M L C B) :
  (forall x, quiet (body x)) -> quiet (for_each xs body).
Proof.
  intros Hb. induction xs as [|x xs IH]; simpl.
  - apply quiet_ret.
  - apply quiet_bind; [apply Hb|]. intros b.
    apply quiet_bind; [exact IH|]. intros l. apply quiet_ret.
Qed.

Lemma returns_ret {A} (a : A) (Q : A -> Prop) : Q a -> returns (L:=L) (C:=C) (ret a) Q.
Proof. intros H w. exact H. Qed.

Lemma returns_bind {A B} (m : M L C A) (k : A -> M L C B)
    (P : A -> Prop) (Q : B -> Prop) :
  returns m P -> (forall a, P a -> returns (k a) Q) -> returns (bind m k) Q.
Proof. intros Hm Hk w. unfold bind. cbv zeta. apply Hk. apply Hm. Qed.

Lemma returns_any {A} (m : M L C A) : returns m (fun _ => True).
Proof. intros w. exact I. Qed.

Lemma returns_if {A} (c : bool) (m1 m2 : M L C A) (Q : A -> Prop) :
  returns m1 Q -> returns m2 Q -> returns (if c then m1 else m2) Q.
Proof. destruct c; auto. Qed.

Lemma returns_np {A} (f : np_state L -> A * np_state L) (Q : A -> Prop) :
  (forall s, Q (fst (f s))) -> returns (C:=C) (np f) Q.
Proof. intros H w. apply H. Qed.

Lemma returns_replicate {A} (n : nat) (m : M L C A) (Q : A -> Prop) :
  returns m Q ->
  returns (replicate n m) (fun l => List.length l = n /\ Forall Q l).
Proof.
  intros Hm. induction n as [|n IH]; simpl.
  - apply returns_ret. split; [reflexivity|constructor].
  - apply returns_bind with (P := Q); [exact Hm|]. intros a Ha.
    apply returns_bind with (P := fun l => List.length l = n /\ Forall Q l);
      [exact IH|].
    intros l [Hl Hq]. apply returns_ret. split.
    + simpl. congruence.
    + constructor; assumption.
Qed.

Lemma returns_for_each {A B} (xs : list A) (body : A -> M L C B) (Q : B -> Prop) :
  (forall x, returns (body x) Q) ->
  returns (for_each xs body) (fun l => List.length l = List.length xs /\ Forall Q l).
Proof.
  intros Hb. induction xs as [|x xs IH]; simpl.
  - apply returns_ret. split; [reflexivity|constructor].
  - apply returns_bind with (P := Q); [apply Hb|]. intros b Hq.
    apply returns_bind
      with (P := fun l => List.length l = List.length xs /\ Forall Q l);
      [exact IH|].
    intros l [Hl Hl']. apply returns_ret. split.
    + simpl. congruence.
    + constructor; assumption.
Qed.

Lemma quiet_log {A} (m : M L C A) (w : World L C) :
  quiet m -> fs_log (snd (m w)) = fs_log w.
Proof. intros H. apply H. Qed.

Lemma quiet_clock {A} (m : M L C A) (w : World L C) :
  quiet m -> clock (snd (m w)) = clock w.
Proof. intros H. apply H. Qed.

Lemma observes_quiet_bind {A B} (m : M L C A) (k : A -> M L C B)
    (P : A -> Prop) (Q : Z -> list (fs_event C) -> B -> World L C -> Prop) :
  quiet m -> returns m P -> (forall a, P a -> observes (k a) Q) ->
  observes (bind m k) Q.
Proof.
  intros Hq Hm Hk w. unfold bind. cbv zeta.
  destruct (Hq w) as [Hc Hl]. rewrite <- Hc, <- Hl.
  apply Hk. apply Hm.
Qed.

Lemma observes_map {A B} (m : M L C A) (f : A -> B)
    (Q : Z -> list (fs_event C) -> B -> World L C -> Prop) :
  observes m (fun c l a w' => Q c l (f a) w') ->
  observes (bind m (fun a => ret (f a))) Q.
Proof. intros H w. apply H. Qed.

End Effects.

Create HintDb quiet.
#[local] Hint Resolve quiet_ret quiet_np quiet_py quiet_today quiet_seed_numpy
  quiet_seed_python : quiet.

Ltac quiet_step :=
  lazymatch goal with
  | |- quiet (Sys.ret _) => apply quiet_ret
  | |- quiet (Sys.np _) => apply quiet_np
  | |- quiet (Sys.py _) => apply quiet_py
  | |- quiet Sys.today => apply quiet_today
  | |- quiet (Sys.seed_numpy _) => apply quiet_seed_numpy
  | |- quiet (Sys.seed_python _) => apply quiet_seed_python
  | |- quiet (Sys.replicate _ _) => apply quiet_replicate
  | |- quiet (Sys.for_each _ _) => apply quiet_for_each; intros
  | |- quiet (Sys.bind _ _) => apply quiet_bind; [|intros]
  | |- quiet (if _ then _ else _) => apply quiet_if
  | |- quiet (match ?x with _ => _ end) => destruct x
  end.
Ltac quiet_steps := repeat quiet_step.

(** Runs through the binds of a straight-line computation, keeping nothing
    about the intermediate draws. *)
Ltac returns_steps :=
  repeat (lazy beta zeta;
          first [ eapply returns_bind; [apply returns_any | intros ? _]
                | match goal with
                  | |- returns (let '(_, _) := ?p in _) _ => destruct p
                  end ]).

(* ===================================================================== *)
(** * The card-fraud generator: one transaction *)
(* ===================================================================== *)

Section CardFraudRecord.

Import CardFraud.
Variable L : Library.

Lemma predict_binary (x : float) : predict x = 0 \/ predict x = 1.
Proof. unfold predict. destruct (0.5 <=? x)%float; auto. Qed.

Lemma rank_range (x : float) : 1 <= rank x <= 5.
Proof.
  unfold rank.
  destruct (x <? 0.1)%float; [lia|].
  destruct (x <? 0.2)%float; [lia|].
  destruct (x <? 0.4)%float; [lia|].
  destruct (x <? 0.6)%float; lia.
Qed.

(** Every record the generator builds passes the range checks. *)
Lemma gen_transaction_ranges (HL : LibraryLaws L) current_dt index accts custs :
  returns (gen_transaction L current_dt index accts custs) in_ranges.
Proof.
  unfold gen_transaction.
  do 4 (lazy beta zeta; eapply returns_bind; [apply returns_any | intros ? _]).
  lazy beta zeta.
  eapply returns_bind with (P := fun d => (0 <=? d)%float = true).
  { apply returns_np. intros s. apply (exponential_nonneg L HL). reflexivity. }
  intros d Hd. lazy beta zeta.
  eapply returns_bind with (P := fun m => within 0 1 m = true).
  { apply returns_np. intros s. apply (beta_unit L HL); reflexivity. }
  intros m Hm.
  returns_steps.
  apply returns_ret. unfold in_ranges.
  cbn [txn_amount distance_from_home_km merchant_risk_score fraud_score
       is_fraud fraud_pred risk_rank].
  apply within_split in Hm. destruct Hm as [Hm0 Hm1].
  repeat split.
  - apply py_clamp_range; reflexivity.
  - apply py_min_range; try reflexivity.
    apply (round_nonneg L HL). exact Hd.
  - apply within_split. split.
    + apply (round_nonneg L HL). exact Hm0.
    + apply (round_le_1 L HL). exact Hm1.
  - apply py_clamp_range'; reflexivity.
  - match goal with |- context [if ?c then 1 else 0] => destruct c end; auto.
  - apply predict_binary.
  - apply rank_range.
  - apply rank_range.
Qed.

(** The record carries the hour's timestamp and the identifier derived
    from the hour and the index; its prediction is the score thresholded at
    0.5; its label is a Bernoulli draw whose parameter is computed from the
    record's own features. *)
Lemma gen_transaction_facts current_dt index accts custs :
  returns (gen_transaction L current_dt index accts custs)
    (fun t =>
       timestamp t = Calendar.isoformat current_dt /\
       txn_id t = expected_txn_id L current_dt index /\
       (fraud_pred t = 1 <-> (0.5 <=? fraud_score t)%float = true) /\
       exists s,
         is_fraud t =
         if (fst (np_random L s) <?
             fraud_probability (customer_segment t) (txn_amount t)
               (distance_from_home_km t) (merchant_risk_score t) (channel t))%float
         then 1 else 0).
Proof.
  unfold gen_transaction.
  do 8 (lazy beta zeta; eapply returns_bind; [apply returns_any | intros ? _]).
  lazy beta zeta.
  eapply returns_bind with (P := fun u => exists s, u = fst (np_random L s)).
  { intros w. exists (np_rng w). reflexivity. }
  intros u [s Hu].
  returns_steps.
  apply returns_ret.
  cbn [timestamp txn_id fraud_pred fraud_score is_fraud customer_segment
       txn_amount distance_from_home_km merchant_risk_score channel].
  split; [reflexivity|]. split; [reflexivity|]. split.
  - unfold predict.
    match goal with |- context [(0.5 <=? ?x)%float] => destruct (0.5 <=? x)%float end.
    + split; reflexivity.
    + split; discriminate.
  - exists s. rewrite <- Hu. reflexivity.
Qed.

(** The probability computed by the code is the one the specification
    words. *)
Lemma fraud_probability_spec segment amount distance merchant channel :
  fraud_probability segment amount distance merchant channel =
  spec_fraud_parameter segment amount distance merchant channel.
Proof.
  unfold fraud_probability, spec_fraud_parameter, factor, py_min.
  destruct segment, channel;
    destruct (500 <? amount)%float, (50 <? distance)%float,
             (0.5 <? merchant)%float;
    vm_compute; reflexivity.
Qed.

Lemma fraud_probability_range segment amount distance merchant channel :
  within 0.05 0.30
    (fraud_probability segment amount distance merchant channel) = true.
Proof.
  unfold fraud_probability, py_min.
  destruct segment, channel;
    destruct (500 <? amount)%float, (50 <? distance)%float,
             (0.5 <? merchant)%float;
    vm_compute; reflexivity.
Qed.

End CardFraudRecord.

(* ===================================================================== *)
(** * The card-fraud generator: the loops *)
(* ===================================================================== *)

Section CardFraudLoops.

Import CardFraud Calendar.
Variable L : Library.
Variables accts custs : list string.

Lemma gen_transaction_quiet current_dt index :
  quiet (gen_transaction L current_dt index accts custs).
Proof.
  unfold gen_transaction, choice, pick. quiet_steps.
Qed.

(** The inner loop appends one record per remaining iteration, counts each
    of them, and leaves the clock and the file system alone. *)
Lemma txn_loop_spec current_dt (n : nat) :
  forall acc stats w,
    let r := txn_loop L n current_dt accts custs acc stats w in
    exists new,
      fst (fst r) = acc ++ new /\
      Forall2 (produced L accts custs current_dt) (seq (List.length acc) n) new /\
      total_transactions (snd (fst r)) = total_transactions stats + Z.of_nat n /\
      files_created (snd (fst r)) = files_created stats /\
      date_range (snd (fst r)) = date_range stats /\
      clock (snd r) = clock w /\ fs_log (snd r) = fs_log w.
Proof.
  induction n as [|n IH]; intros acc stats w; cbv zeta.
  - exists []. simpl. rewrite app_nil_r.
    repeat split; try reflexivity; try constructor. lia.
  - set (g := gen_transaction L current_dt (List.length acc) accts custs w).
    change (txn_loop L (Datatypes.S n) current_dt accts custs acc stats w)
      with (txn_loop L n current_dt accts custs (acc ++ [fst g])
                     (count (fst g) stats) (snd g)).
    destruct (IH (acc ++ [fst g]) (count (fst g) stats) (snd g))
      as (new & Hl & Hp & Ht & Hf & Hd & Hc & Hlog).
    destruct (gen_transaction_quiet current_dt (List.length acc) w) as [Qc Ql].
    fold g in Qc, Ql.
    exists (fst g :: new). repeat split.
    + rewrite Hl, <- app_assoc. reflexivity.
    + simpl. constructor.
      * exists w. reflexivity.
      * rewrite length_app in Hp. simpl in Hp.
        rewrite Nat.add_1_r in Hp. exact Hp.
    + rewrite Ht. simpl. lia.
    + rewrite Hf. reflexivity.
    + rewrite Hd. reflexivity.
    + congruence.
    + congruence.
Qed.

Variable transactions_per_hour : Z.
Variable output_dir : option path.

(** One hour: a batch of records, the file-system calls for it when an
    output directory is given, and the counters moved. *)
Lemma hour_step_spec current_dt stats w :
  let r := hour_step L transactions_per_hour output_dir accts custs
                     current_dt stats w in
  exists recs,
    batch_of L accts custs transactions_per_hour current_dt recs /\
    clock (snd r) = clock w /\
    fs_log (snd r) = fs_log w ++ hour_events output_dir current_dt recs /\
    total_transactions (fst r) =
      total_transactions stats + Z.of_nat (Z.to_nat transactions_per_hour) /\
    files_created (fst r) =
      files_created stats + (match output_dir with Some _ => 1 | None => 0 end) /\
    date_range (fst r) = date_range stats.
Proof.
  cbv zeta. unfold hour_step, bind. cbv zeta.
  destruct (txn_loop_spec current_dt (Z.to_nat transactions_per_hour) [] stats w)
    as (new & Hl & Hp & Ht & Hf & Hd & Hc & Hlog).
  destruct (txn_loop L (Z.to_nat transactions_per_hour) current_dt accts custs
                     [] stats w) as [[transactions stats'] w'].
  simpl in Hl, Hp, Ht, Hf, Hd, Hc, Hlog. subst transactions.
  exists new. cbn [fst snd].
  destruct output_dir as [output_path|]; cbn [hour_events].
  - unfold emit, ret. cbn [fst snd clock fs_log created total_transactions
                            files_created date_range].
    rewrite Hlog, <- app_assoc. simpl.
    repeat split; try assumption. rewrite Hf. reflexivity.
  - unfold ret. cbn [fst snd]. rewrite app_nil_r.
    repeat split; try assumption. rewrite Hf. lia.
Qed.

Variable end_dt : datetime.

Lemma hours_from_succ (first : datetime) (n : nat) :
  hours_from first (Datatypes.S n) = first :: hours_from (first + 1) n.
Proof.
  unfold hours_from. cbn [seq map]. f_equal; [lia|].
  rewrite <- seq_shift, map_map. apply map_ext. intros i. lia.
Qed.

Lemma card_hours_loop_unfold current_dt stats w :
  hours_loop L transactions_per_hour output_dir accts custs end_dt
             current_dt stats w =
  if Z_le_dec current_dt end_dt then
    hours_loop L transactions_per_hour output_dir accts custs end_dt
      (current_dt + 1)
      (fst (hour_step L transactions_per_hour output_dir accts custs
                      current_dt stats w))
      (snd (hour_step L transactions_per_hour output_dir accts custs
                      current_dt stats w))
  else (stats, w).
Proof.
  rewrite hours_loop_equation_1.
  destruct (Z_le_dec current_dt end_dt).
  - rewrite hours_loop_clause_1_equation_1. reflexivity.
  - rewrite hours_loop_clause_1_equation_2. reflexivity.
Qed.

(** The file-system calls of a run of hours. *)
Lemma hours_loop_spec (n : nat) :
  forall current_dt stats w,
    n = Z.to_nat (end_dt + 1 - current_dt) ->
    let r := hours_loop L transactions_per_hour output_dir accts custs end_dt
                        current_dt stats w in
    exists batches,
      Forall2 (batch_of L accts custs transactions_per_hour)
              (hours_from current_dt n) batches /\
      clock (snd r) = clock w /\
      fs_log (snd r) =
        fs_log w ++
        List.concat (map (fun hb => hour_events output_dir (fst hb) (snd hb))
                    (combine (hours_from current_dt n) batches)) /\
      total_transactions (fst r) =
        total_transactions stats +
        Z.of_nat (Z.to_nat transactions_per_hour) * Z.of_nat n /\
      files_created (fst r) =
        files_created stats +
        (match output_dir with Some _ => Z.of_nat n | None => 0 end) /\
      date_range (fst r) = date_range stats.
Proof.
  induction n as [|n IH]; intros current_dt stats w Hn; cbv zeta;
    rewrite card_hours_loop_unfold;
    destruct (Z_le_dec current_dt end_dt) as [Hle|Hgt]; try lia.
  - exists []. cbn [fst snd hours_from seq map combine concat].
    rewrite app_nil_r. repeat split; try constructor; try lia.
    destruct output_dir; lia.
  - destruct (hour_step_spec current_dt stats w)
      as (recs & Hb & Hc & Hlog & Ht & Hf & Hd).
    cbv zeta in Hc, Hlog, Ht, Hf, Hd.
    set (h := hour_step L transactions_per_hour output_dir accts custs
                        current_dt stats w) in *.
    destruct (IH (current_dt + 1) (fst h) (snd h)) as
      (batches & Hbs & Hc' & Hlog' & Ht' & Hf' & Hd'); [lia|].
    cbv zeta in Hc', Hlog', Ht', Hf', Hd'.
    exists (recs :: batches). rewrite hours_from_succ.
    cbn [combine map concat fst snd].
    repeat split.
    + constructor; assumption.
    + congruence.
    + rewrite Hlog', Hlog, <- app_assoc. reflexivity.
    + rewrite Ht', Ht. lia.
    + rewrite Hf', Hf. destruct output_dir; lia.
    + congruence.
Qed.

End CardFraudLoops.

Section CardFraudRun.

Import CardFraud Calendar.
Variable L : Library.

Lemma card_resolve_dates_quiet start_date end_date past_days future_days :
  quiet (C := list Transaction)
        (resolve_dates L start_date end_date past_days future_days).
Proof.
  unfold resolve_dates. destruct start_date, end_date; quiet_steps.
Qed.

Lemma card_resolve_dates_value start_date end_date past_days future_days w :
  fst (resolve_dates L start_date end_date past_days future_days w) =
  run_dates start_date end_date past_days future_days
            (clock (C := list Transaction) w).
Proof. destruct start_date, end_date; reflexivity. Qed.

Lemma make_account_ids_quiet : quiet (make_account_ids L).
Proof. unfold make_account_ids. quiet_steps. Qed.

Lemma make_customer_ids_quiet : quiet (make_customer_ids L).
Proof. unfold make_customer_ids. quiet_steps. Qed.

(** A run between two dates: one batch of records per hour from the
    midnight of the first date to the midnight of the last, the file-system
    calls of each hour in order, and the counters. *)
Lemma generate_between_spec s e transactions_per_hour output_dir seed :
  observes
    (generate_between L s e transactions_per_hour output_dir seed)
    (fun now log stats w' =>
       let hours := hours_between (midnight s) (midnight e) in
       exists accts custs batches,
         Forall2 (batch_of L accts custs transactions_per_hour) hours batches /\
         clock w' = now /\
         fs_log w' =
           log ++
           List.concat (map (fun hb => hour_events output_dir (fst hb) (snd hb))
                            (combine hours batches)) /\
         total_transactions stats =
           Z.of_nat (Z.to_nat transactions_per_hour) *
           Z.of_nat (List.length hours) /\
         files_created stats =
           (match output_dir with
            | Some _ => Z.of_nat (List.length hours)
            | None => 0
            end) /\
         date_range stats =
           (format_date s ++ " to " ++ format_date e)%string).
Proof.
  unfold generate_between.
  apply observes_quiet_bind with (P := fun _ => True);
    [apply quiet_seed_numpy | apply returns_any | intros _ _].
  apply observes_quiet_bind with (P := fun _ => True);
    [apply quiet_seed_python | apply returns_any | intros _ _].
  cbv zeta.
  apply observes_quiet_bind with (P := fun _ => True);
    [apply make_account_ids_quiet | apply returns_any | intros accts _].
  apply observes_quiet_bind with (P := fun _ => True);
    [apply make_customer_ids_quiet | apply returns_any | intros custs _].
  apply observes_map. intros w.
  destruct (hours_loop_spec L accts custs transactions_per_hour output_dir
              (midnight e) (Z.to_nat (midnight e + 1 - midnight s))
              (midnight s) (initial_stats s e) w eq_refl)
    as (batches & Hb & Hc & Hlog & Ht & Hf & Hd).
  cbv zeta in Hc, Hlog, Ht, Hf, Hd.
  exists accts, custs, batches.
  cbn [with_rate total_transactions files_created date_range].
  unfold hours_between, hours_from in *.
  rewrite length_map, length_seq.
  repeat split.
  - exact Hb.
  - exact Hc.
  - exact Hlog.
  - rewrite Ht. cbn [initial_stats total_transactions]. lia.
  - rewrite Hf. cbn [initial_stats files_created]. destruct output_dir; lia.
  - rewrite Hd. reflexivity.
Qed.

Lemma generate_dataset_spec start_date end_date past_days future_days
    transactions_per_hour output_dir seed :
  observes
    (generate_dataset L start_date end_date past_days future_days
                      transactions_per_hour output_dir seed)
    (fun now log stats w' =>
       let dates := run_dates start_date end_date past_days future_days now in
       let hours := hours_between (midnight (fst dates)) (midnight (snd dates)) in
       exists accts custs batches,
         Forall2 (batch_of L accts custs transactions_per_hour) hours batches /\
         clock w' = now /\
         fs_log w' =
           log ++
           List.concat (map (fun hb => hour_events output_dir (fst hb) (snd hb))
                            (combine hours batches)) /\
         total_transactions stats =
           Z.of_nat (Z.to_nat transactions_per_hour) *
           Z.of_nat (List.length hours) /\
         files_created stats =
           (match output_dir with
            | Some _ => Z.of_nat (List.length hours)
            | None => 0
            end) /\
         date_range stats =
           (format_date (fst dates) ++ " to " ++ format_date (snd dates))%string).
Proof.
  intros w. unfold generate_dataset, bind. cbv zeta.
  rewrite card_resolve_dates_value.
  destruct (card_resolve_dates_quiet start_date end_date past_days
              future_days w) as [Qc Ql].
  rewrite <- Qc, <- Ql.
  exact (generate_between_spec _ _ transactions_per_hour output_dir seed _).
Qed.

End CardFraudRun.

(* ===================================================================== *)
(** * Truncation of a float to an integer *)
(* ===================================================================== *)

Section Truncation.

Lemma digits2_pos_bounds (m : positive) :
  2 ^ (Zpos (digits2_pos m) - 1) <= Zpos m < 2 ^ Zpos (digits2_pos m).
Proof.
  induction m as [m IH|m IH|]; cbn [digits2_pos].
  - rewrite Pos2Z.inj_succ.
    replace (Z.succ (Zpos (digits2_pos m)) - 1) with (Z.succ (Zpos (digits2_pos m) - 1)) by lia.
    rewrite !Z.pow_succ_r by lia. lia.
  - rewrite Pos2Z.inj_succ.
    replace (Z.succ (Zpos (digits2_pos m)) - 1) with (Z.succ (Zpos (digits2_pos m) - 1)) by lia.
    rewrite !Z.pow_succ_r by lia. lia.
  - simpl. lia.
Qed.

(** A binary64 number between 300 and 850 truncates to an integer between
    300 and 850. *)
Lemma astype_int_credit (y : float) :
  within 300 850 y = true -> 300 <= astype_int y <= 850.
Proof.
  intros H. apply andb_true_iff in H. destruct H as [Hlo Hhi].
  rewrite leb_spec in Hlo, Hhi.
  pose proof (Prim2SF_valid y) as Hv.
  unfold astype_int.
  change (Prim2SF 300) with (S754_finite false 5277655813324800 (-44)) in Hlo.
  change (Prim2SF 850) with (S754_finite false 7476679068876800 (-43)) in Hhi.
  destruct (Prim2SF y) as [s|s| |s m e]; try discriminate.
  - destruct s; discriminate.
  - destruct s; [discriminate|].
    unfold SFleb, SFcompare in Hlo, Hhi.
    unfold SpecFloat.valid_binary, bounded, canonical_mantissa, fexp, SpecFloat.emin in Hv.
    apply andb_true_iff in Hv. destruct Hv as [Hcan _].
    apply Z.eqb_eq in Hcan.
    pose proof (digits2_pos_bounds m) as Hd.
    unfold prec, emax in Hcan.
    assert (He : e = -44 /\ 5277655813324800 <= Zpos m \/
                 e = -43 /\ Zpos m <= 7476679068876800).
    { rewrite Pos.compare_cont_spec in Hlo, Hhi.
      clear Hd Hcan.
      destruct (Z.compare_spec (-44) e) as [E|E|E].
      - left. split; [symmetry; exact E|].
        destruct (Pos.compare_spec 5277655813324800 m) as [F|F|F].
        + rewrite <- F. apply Z.le_refl.
        + apply Z.lt_le_incl. exact (Pos2Z.pos_lt_pos _ _ F).
        + discriminate Hlo.
      - destruct (Z.compare_spec e (-43)) as [E'|E'|E'].
        + right. split; [exact E'|].
          destruct (Pos.compare_spec m 7476679068876800) as [F|F|F].
          * rewrite F. apply Z.le_refl.
          * apply Z.lt_le_incl. exact (Pos2Z.pos_lt_pos _ _ F).
          * discriminate Hhi.
        + clear - E E'. lia.
        + discriminate Hhi.
      - discriminate Hlo. }
    assert (Hdig : Zpos (digits2_pos m) = 53) by lia.
    rewrite Hdig in Hd.
    change (2 ^ (53 - 1)) with 4503599627370496 in Hd.
    change (2 ^ 53) with 9007199254740992 in Hd.
    cbn [cond_Zopp].
    assert (Hs : 300 <= Z.shiftl (Zpos m) e <= 850).
    { destruct He as [[-> Hm]|[-> Hm]].
      - change (-44) with (- (44)). rewrite Z.shiftl_opp_r, Z.shiftr_div_pow2 by lia.
        change (2 ^ 44) with 17592186044416.
        split.
        + apply Z.div_le_lower_bound; lia.
        + assert (Z.pos m / 17592186044416 < 851); [|lia].
          apply Z.div_lt_upper_bound; lia.
      - change (-43) with (- (43)). rewrite Z.shiftl_opp_r, Z.shiftr_div_pow2 by lia.
        change (2 ^ 43) with 8796093022208.
        split.
        + apply Z.div_le_lower_bound; lia.
        + assert (Z.pos m / 8796093022208 < 851); [|lia].
          apply Z.div_lt_upper_bound; lia. }
    assert (Hr : (INT64_MIN <=? Z.shiftl (Z.pos m) e) &&
                 (Z.shiftl (Z.pos m) e <? 2 ^ 63) = true).
    { apply andb_true_iff. split.
      - apply Z.leb_le. unfold INT64_MIN. clear - Hs.
        assert (- 2 ^ 63 <= 0) by (vm_compute; discriminate). lia.
      - apply Z.ltb_lt. clear - Hs.
        assert (850 < 2 ^ 63) by reflexivity. lia. }
    rewrite Hr. exact Hs.
Qed.

End Truncation.

(* ===================================================================== *)
(** * The credit-card application generator *)
(* ===================================================================== *)

Section CcApplicationRows.

Import CcApplication.
Variable L : Library.

(** A clipped value that is a number lies between the bounds. *)
Lemma np_clip_number_range (lo hi x : float) :
  (lo <=? hi)%float = true -> (lo <=? lo)%float = true ->
  (hi <=? hi)%float = true ->
  is_number (np_clip x lo hi) = true -> within lo hi (np_clip x lo hi) = true.
Proof.
  intros Hlh Hl Hh Hn. apply np_clip_range; try assumption.
  unfold is_number in *. destruct (is_nan x) eqn:E; [|reflexivity].
  unfold np_clip, npy_max, npy_min in Hn. rewrite !E in Hn.
  discriminate.
Qed.

Lemma map2_length {A B D} (f : A -> B -> D) (xs : list A) (ys : list B) (n : nat) :
  List.length xs = n -> List.length ys = n -> List.length (map2 f xs ys) = n.
Proof.
  intros Hx Hy. unfold map2. rewrite length_map, length_combine. lia.
Qed.

Lemma map2_Forall {A B D} (f : A -> B -> D) (P : D -> Prop) xs ys :
  (forall a b, P (f a b)) -> Forall P (map2 f xs ys).
Proof.
  intros H. unfold map2. apply Forall_forall. intros d Hd.
  apply in_map_iff in Hd. destruct Hd as ([a b] & <- & _). apply H.
Qed.

Lemma map_Forall_all {A B} (f : A -> B) (P : B -> Prop) xs :
  (forall a, P (f a)) -> Forall P (map f xs).
Proof.
  intros H. apply Forall_forall. intros d Hd.
  apply in_map_iff in Hd. destruct Hd as (a & <- & _). apply H.
Qed.

(** The columns drawn pass the range checks. *)

(** What a call returns, when it returns: the frame built from columns
    that satisfy whatever the drawing of the features and of the
    probabilities guarantees. *)
Lemma cc_generate_frame (Pf : Features -> Prop) (Pp : float -> Prop)
    n_samples output_dir seed past_days future_days :
  returns (draw_features L (Z.to_nat n_samples)) Pf ->
  (forall f labels i, returns (draw_predicted_prob L f labels i) Pp) ->
  returns
    (generate_dataset L n_samples output_dir seed past_days future_days)
    (fun o =>
       forall df, o = Returned df ->
       exists f labels probs valid times,
         df = build_rows (Z.to_nat n_samples) f labels probs valid times /\
         Pf f /\ List.length probs = Z.to_nat n_samples /\ Forall Pp probs).
Proof.
  intros Hf Hp. unfold generate_dataset.
  eapply returns_bind; [apply returns_any | intros _ _].
  apply returns_if.
  { apply returns_ret. intros df Hdf. discriminate Hdf. }
  lazy beta zeta.
  eapply returns_bind; [exact Hf | intros f HPf].
  eapply returns_bind; [apply returns_any | intros labels _].
  eapply returns_bind.
  { apply returns_for_each with (Q := Pp). intros i. apply Hp. }
  intros probs [Hlen HPp]. rewrite length_seq in Hlen.
  eapply returns_bind; [apply returns_any | intros valid _].
  eapply returns_bind; [apply returns_any | intros today _].
  lazy beta zeta.
  apply returns_if.
  { apply returns_ret. intros df Hdf. discriminate Hdf. }
  eapply returns_bind; [apply returns_any | intros times _].
  lazy beta zeta.
  destruct (build_rows (Z.to_nat n_samples) f labels probs valid times)
    as [|r df] eqn:E.
  { apply returns_ret. intros df Hdf. discriminate Hdf. }
  assert (Hret : forall o, o = Returned (r :: df) ->
            forall df', o = Returned df' ->
            exists f0 labels0 probs0 valid0 times0,
              df' = build_rows (Z.to_nat n_samples) f0 labels0 probs0 valid0 times0 /\
              Pf f0 /\ List.length probs0 = Z.to_nat n_samples /\ Forall Pp probs0).
  { intros o -> df' Hdf. injection Hdf as <-.
    exists f, labels, probs, valid, times. rewrite E. auto. }
  destruct output_dir as [output_path|].
  - eapply returns_bind; [apply returns_any | intros _ _].
    apply returns_ret. apply Hret. reflexivity.
  - apply returns_ret. apply Hret. reflexivity.
Qed.

Lemma build_rows_in n f labels probs valid times r :
  In r (build_rows n f labels probs valid times) ->
  exists i, (i < n)%nat /\
    credit_score r = nth i (f_credit_score f) 0 /\
    annual_income r = nth i (f_annual_income f) 0 /\
    age r = nth i (f_age f) 0 /\
    debt_to_income_ratio r = nth i (f_debt_to_income f) 0%float /\
    predicted_probability r = nth i probs 0%float /\
    predicted_label r = predict (nth i probs 0%float).
Proof.
  unfold build_rows. intros H. apply in_map_iff in H.
  destruct H as (i & <- & Hi). apply in_seq in Hi.
  exists i. cbn. repeat split; try reflexivity. lia.
Qed.

(** The predicted label of every row is the probability thresholded at
    0.5. *)
Lemma cc_rows_label n_samples output_dir seed past_days future_days :
  returns
    (generate_dataset L n_samples output_dir seed past_days future_days)
    (fun o => forall df, o = Returned df ->
       Forall (fun r => predicted_label r = 1 <->
                        (0.5 <=? predicted_probability r)%float = true) df).
Proof.
  intros w df Hdf.
  destruct (cc_generate_frame (fun _ => True) (fun _ => True)
              n_samples output_dir seed past_days future_days
              (returns_any _) (fun _ _ _ => returns_any _) w df Hdf)
    as (f & labels & probs & valid & times & -> & _).
  apply Forall_forall. intros r Hr.
  apply build_rows_in in Hr.
  destruct Hr as (i & Hi & _ & _ & _ & _ & -> & ->).
  unfold predict, threshold.
  destruct (0.5 <=? nth i probs 0)%float; split; auto; discriminate.
Qed.

End CcApplicationRows.

(* ===================================================================== *)
(** * Range checks, thresholds and the fraud probability *)
(* ===================================================================== *)

Section RecordClaims.

Variable L : Library.

(** What holds of every record the generator builds holds of every record
    of a batch. *)
Lemma batch_Forall (P : CardFraud.Transaction -> Prop) accts custs tph h recs :
  (forall k, returns (CardFraud.gen_transaction L h k accts custs) P) ->
  CardFraud.batch_of L accts custs tph h recs -> Forall P recs.
Proof.
  intros HP Hb. unfold CardFraud.batch_of in Hb.
  induction Hb as [|k t ks recs [w Ht] _ IH]; constructor.
  - rewrite Ht. apply HP.
  - exact IH.
Qed.

(** The records of the files a run writes are records of its batches. *)
Lemma hour_events_files output_dir (hours : list Calendar.datetime)
    (batches : list (list CardFraud.Transaction)) p recs :
  In (WriteFile p recs)
     (List.concat (map (fun hb => CardFraud.hour_events output_dir (fst hb) (snd hb))
                       (combine hours batches))) ->
  exists h, In (h, recs) (combine hours batches).
Proof.
  intros H. apply in_concat in H. destruct H as (evs & Hevs & Hin).
  apply in_map_iff in Hevs. destruct Hevs as ([h b] & <- & Hhb).
  exists h. unfold CardFraud.hour_events in Hin. cbn [fst snd] in Hin.
  destruct output_dir as [d|]; [|contradiction].
  destruct Hin as [Hin|[Hin|[]]]; [discriminate|].
  injection Hin as _ <-. exact Hhb.
Qed.

Lemma Forall2_combine_in {A B} (R : A -> B -> Prop) xs ys x y :
  Forall2 R xs ys -> In (x, y) (combine xs ys) -> R x y.
Proof.
  intros H. induction H as [|a b xs ys Hab _ IH]; simpl; [contradiction|].
  intros [E|Hin]; [injection E as <- <-; exact Hab|auto].
Qed.

End RecordClaims.

(** C4: in the card-fraud generator the parameter of the Bernoulli draw
    behind [is_fraud] is computed from the transaction's features alone: the
    base rate 0.05, times 1.5 for a new_to_bank customer, times 1.3 for an
    amount above 500, times 1.4 for a distance above 50, times 1.2 for a
    merchant risk score above 0.5, times 1.3 for the atm channel, capped at
    0.30; it lies in [0.05, 0.30]; and [is_fraud] is 1 exactly when a
    uniform draw falls below it. *)
Theorem fraud_parameter_from_features (L : Library) :
  (forall segment amount distance merchant channel,
      CardFraud.fraud_probability segment amount distance merchant channel =
      CardFraud.spec_fraud_parameter segment amount distance merchant channel /\
      within 0.05 0.30
        (CardFraud.fraud_probability segment amount distance merchant channel)
      = true) /\
  (forall current_dt index accts custs w,
      let t := fst (CardFraud.gen_transaction L current_dt index accts custs w) in
      exists s,
        CardFraud.is_fraud t =
        if (fst (np_random L s) <?
            CardFraud.fraud_probability
              (CardFraud.customer_segment t) (CardFraud.txn_amount t)
              (CardFraud.distance_from_home_km t)
              (CardFraud.merchant_risk_score t) (CardFraud.channel t))%float
        then 1 else 0).
Proof.
  split.
  - intros segment amount distance merchant channel. split.
    + apply fraud_probability_spec.
    + apply fraud_probability_range.
  - intros current_dt index accts custs w t.
    destruct (gen_transaction_facts L current_dt index accts custs w)
      as (_ & _ & _ & Hs).
    exact Hs.
Qed.

(** C8: the predicted label is 1 exactly when the predicted probability is
    at least 0.5: [fraud_pred] against [fraud_score] in every card-fraud
    record, [predicted_label] against [predicted_probability] in every row
    of a credit-card application frame. *)
Theorem predicted_label_thresholds_probability (L : Library) :
  (forall current_dt index accts custs w,
      let t := fst (CardFraud.gen_transaction L current_dt index accts custs w) in
      CardFraud.fraud_pred t = 1 <->
      (0.5 <=? CardFraud.fraud_score t)%float = true) /\
  (forall n_samples output_dir seed past_days future_days w,
      match fst (CcApplication.generate_dataset L n_samples output_dir seed
                   past_days future_days w) with
      | Returned df =>
          Forall (fun r => CcApplication.predicted_label r = 1 <->
                           (0.5 <=? CcApplication.predicted_probability r)%float
                           = true) df
      | Raised _ => True
      end).
Proof.
  split.
  - intros current_dt index accts custs w t.
    destruct (gen_transaction_facts L current_dt index accts custs w)
      as (_ & _ & Hp & _).
    exact Hp.
  - intros n_samples output_dir seed past_days future_days w.
    pose proof (cc_rows_label L n_samples output_dir seed past_days
                  future_days w) as H.
    destruct (fst (CcApplication.generate_dataset L n_samples output_dir seed
                     past_days future_days w)) as [df|e].
    + apply H. reflexivity.
    + exact I.
Qed.

(* ===================================================================== *)
(** * The files of a card-fraud run *)
(* ===================================================================== *)

Section CardFraudFiles.

Import CardFraud Calendar.
Variable L : Library.

Lemma files_written_app {C} (l1 l2 : list (fs_event C)) :
  files_written (l1 ++ l2) = files_written l1 ++ files_written l2.
Proof.
  induction l1 as [|[p|p c] l1 IH]; simpl; [reflexivity|exact IH|].
  rewrite IH. reflexivity.
Qed.

Lemma In_hours_between (first last h : datetime) :
  In h (hours_between first last) <-> first <= h <= last.
Proof.
  unfold hours_between, hours_from. rewrite in_map_iff. split.
  - intros (i & <- & Hi). apply in_seq in Hi. lia.
  - intros Hh. exists (Z.to_nat (h - first)). split; [lia|].
    apply in_seq. lia.
Qed.

Lemma NoDup_hours_between (first last : datetime) :
  NoDup (hours_between first last).
Proof.
  unfold hours_between, hours_from.
  apply Injective_map_NoDup; [|apply seq_NoDup].
  intros i j Hij. lia.
Qed.

(** With an output directory, the files written for a run of hours are
    the hours' files, each with the hour's batch. *)
Lemma hour_events_written d (hours : list datetime) :
  forall batches : list (list Transaction),
    List.length batches = List.length hours ->
    files_written
      (List.concat (map (fun hb => hour_events (Some d) (fst hb) (snd hb))
                        (combine hours batches))) =
    combine (map (file_path d) hours) batches.
Proof.
  induction hours as [|h hours IH]; intros [|b batches] Hlen;
    try discriminate; [reflexivity|].
  simpl. f_equal. apply IH. simpl in Hlen. lia.
Qed.

(** Without one, nothing is written. *)
Lemma hour_events_none (hours : list datetime) :
  forall batches : list (list Transaction),
    List.concat (map (fun hb => hour_events None (fst hb) (snd hb))
                     (combine hours batches)) = [].
Proof.
  induction hours as [|h hours IH]; intros [|b batches]; try reflexivity.
  simpl. apply IH.
Qed.

Lemma parent_join (p : path) (name : string) : parent (join p name) = p.
Proof. unfold parent, join. apply removelast_last. Qed.

(** Every call goes to a place under the output directory. *)
Lemma hour_events_under d (hours : list datetime) :
  forall batches : list (list Transaction),
    Forall (fun ev => under d (target ev))
      (List.concat (map (fun hb => hour_events (Some d) (fst hb) (snd hb))
                        (combine hours batches))).
Proof.
  induction hours as [|h hours IH]; intros [|b batches]; try constructor.
  - cbn [target]. unfold file_path. rewrite parent_join.
    unfold join, under. rewrite <- !app_assoc. eexists. reflexivity.
  - constructor.
    + cbn [target]. unfold file_path, join, under.
      rewrite <- !app_assoc. eexists. reflexivity.
    + apply IH.
Qed.

(** A batch has one record per index, each with the hour's timestamp and
    the identifier derived from the hour and the index. *)
Lemma batch_shape accts custs tph h recs :
  batch_of L accts custs tph h recs ->
  List.length recs = Z.to_nat tph /\
  Forall (fun t => timestamp t = isoformat h) recs /\
  map txn_id recs = map (expected_txn_id L h) (seq 0 (Z.to_nat tph)).
Proof.
  unfold batch_of. intros Hb. split.
  { rewrite <- (Forall2_length Hb). apply length_seq. }
  revert Hb. generalize (seq 0 (Z.to_nat tph)) as ks.
  intros ks Hb. split.
  - induction Hb as [|k t ks recs [w Ht] _ IH]; constructor; [|exact IH].
    rewrite Ht. apply (gen_transaction_facts L h k accts custs w).
  - induction Hb as [|k t ks recs [w Ht] _ IH]; simpl; [reflexivity|].
    f_equal; [|exact IH].
    rewrite Ht. apply (gen_transaction_facts L h k accts custs w).
Qed.

End CardFraudFiles.

(* ===================================================================== *)
(** * The transaction-category generator *)
(* ===================================================================== *)

Section MultiClassRows.

Import MultiClass Calendar.
Variable L : Library.

Lemma Category_eqb_eq (a b : Category) : Category_eqb a b = true <-> a = b.
Proof. destruct a, b; simpl; split; intros H; try reflexivity; discriminate. Qed.

(** The concentration vector in the words of the specification. *)
Lemma concentration_spec (pred_category gt_category c : Category) :
  nth (index c) (concentration pred_category gt_category) 0%float =
  if Category_eqb c pred_category then 8.0%float
  else if Category_eqb c gt_category then 2.5%float
  else 0.4%float.
Proof. destruct pred_category, gt_category, c; reflexivity. Qed.

Lemma concentration_length (pred_category gt_category : Category) :
  List.length (concentration pred_category gt_category) = 8%nat.
Proof. destruct pred_category, gt_category; reflexivity. Qed.

(** The dictionary built from the eight categories and eight values gives
    each category its value. *)
Lemma lookup_rounded (raw : list float) (c : Category) :
  List.length raw = 8%nat ->
  lookup (map (fun cp => (fst cp, py_round L (snd cp) 6)) (combine CATEGORIES raw)) c =
  py_round L (nth (index c) raw 0%float) 6.
Proof.
  intros H.
  destruct raw as [|x0 [|x1 [|x2 [|x3 [|x4 [|x5 [|x6 [|x7 [|x8 raw]]]]]]]]];
    try discriminate H.
  destruct c; reflexivity.
Qed.

(** A row carries its hour and the identifier derived from the hour and
    the index. *)
Lemma gen_row_id current_dt priors accts segs i :
  returns (gen_row L current_dt priors accts segs i)
    (fun r => timestamp r = current_dt /\
              transaction_id r = expected_txn_id L current_dt i).
Proof.
  unfold gen_row. returns_steps.
  apply returns_ret. split; reflexivity.
Qed.

(** The class probabilities of a row are the rounded components of one
    Dirichlet draw with the row's concentration vector, and the confidence
    is the probability of the predicted class. *)
Lemma gen_row_probabilities (HL : LibraryLaws L) current_dt priors accts segs i :
  returns (gen_row L current_dt priors accts segs i)
    (fun r =>
       exists s,
         let raw :=
           fst (np_dirichlet L
                  (concentration (predicted_category r)
                                 (ground_truth_category r)) s) in
         (forall c, pred_prob r c = py_round L (nth (index c) raw 0%float) 6) /\
         prediction_confidence r = pred_prob r (predicted_category r)).
Proof.
  unfold gen_row.
  eapply returns_bind; [apply returns_any | intros gt_idx _].
  lazy beta zeta.
  destruct (AMOUNT_LOG_PARAMS (nth gt_idx CATEGORIES groceries))
    as [log_mean log_sigma].
  do 6 (lazy beta zeta; eapply returns_bind; [apply returns_any | intros ? _]).
  lazy beta zeta.
  match goal with
  | |- returns (bind (np (np_dirichlet L ?alpha)) _) _ =>
      eapply returns_bind
        with (P := fun raw => exists s, raw = fst (np_dirichlet L alpha s))
  end.
  { intros w. exists (np_rng w). reflexivity. }
  intros raw [s Hraw]. lazy beta zeta.
  apply returns_ret. exists s.
  cbn [predicted_category ground_truth_category prediction_confidence].
  rewrite <- Hraw. cbv zeta.
  assert (Hlen : List.length raw = 8%nat).
  { rewrite Hraw, (dirichlet_length L HL). apply concentration_length. }
  split.
  - intros c. destruct c; cbn [pred_prob pred_prob_groceries pred_prob_dining
      pred_prob_travel pred_prob_entertainment pred_prob_utilities
      pred_prob_healthcare pred_prob_shopping pred_prob_automotive];
      apply lookup_rounded; exact Hlen.
  - match goal with
    | |- _ = pred_prob _ ?c =>
        destruct c; cbn [pred_prob pred_prob_groceries pred_prob_dining
          pred_prob_travel pred_prob_entertainment pred_prob_utilities
          pred_prob_healthcare pred_prob_shopping pred_prob_automotive];
          rewrite lookup_rounded by exact Hlen; reflexivity
    end.
Qed.

Lemma ids_append_row (d : RowsByDate) k r :
  ids_of (append_row d k r) = append_id (ids_of d) k (transaction_id r).
Proof.
  induction d as [|[k' rows] d IH]; simpl; [reflexivity|].
  destruct (String.eqb k' k); simpl.
  - rewrite map_app. reflexivity.
  - rewrite IH. reflexivity.
Qed.

Lemma ids_with_key (d : RowsByDate) k :
  ids_of (if has_key d k then d else d ++ [(k, [])]) = with_key (ids_of d) k.
Proof.
  assert (H : existsb (fun kv => String.eqb (fst kv) k) (ids_of d) = has_key d k).
  { unfold has_key, ids_of. induction d as [|kv d IH]; simpl; [reflexivity|].
    rewrite IH. reflexivity. }
  unfold with_key. rewrite H.
  destruct (has_key d k); [reflexivity|].
  unfold ids_of. rewrite map_app. reflexivity.
Qed.

(** The inner loop appends, for each index, the identifier derived from
    the hour and the index. *)
Lemma txn_loop_ids current_dt date_str priors accts segs (idxs : list nat) :
  forall acc stats w,
    ids_of (fst (fst (txn_loop L idxs current_dt date_str priors accts segs
                               acc stats w))) =
    fold_left (fun d i => append_id d date_str (expected_txn_id L current_dt i))
              idxs (ids_of acc).
Proof.
  induction idxs as [|i idxs IH]; intros acc stats w; [reflexivity|].
  set (g := gen_row L current_dt priors accts segs i w).
  change (txn_loop L (i :: idxs) current_dt date_str priors accts segs acc stats w)
    with (txn_loop L idxs current_dt date_str priors accts segs
                   (append_row acc date_str (fst g)) (count (fst g) stats)
                   (snd g)).
  rewrite IH, ids_append_row. cbn [fold_left].
  destruct (gen_row_id current_dt priors accts segs i w) as [_ Hid].
  fold g in Hid. rewrite Hid. reflexivity.
Qed.

Lemma hour_step_ids transactions_per_hour accts segs current_dt acc stats w :
  ids_of (fst (fst (hour_step L transactions_per_hour accts segs current_dt
                              acc stats w))) =
  hour_ids L transactions_per_hour current_dt (ids_of acc).
Proof.
  unfold hour_step, hour_ids. cbv zeta.
  rewrite txn_loop_ids, ids_with_key. reflexivity.
Qed.

Lemma multi_hours_loop_unfold transactions_per_hour accts segs end_dt
    current_dt acc w :
  hours_loop L transactions_per_hour accts segs end_dt current_dt acc w =
  if Z_le_dec current_dt end_dt then
    hours_loop L transactions_per_hour accts segs end_dt (current_dt + 1)
      (fst (hour_step L transactions_per_hour accts segs current_dt
                      (fst acc) (snd acc) w))
      (snd (hour_step L transactions_per_hour accts segs current_dt
                      (fst acc) (snd acc) w))
  else (acc, w).
Proof.
  rewrite hours_loop_equation_1.
  destruct (Z_le_dec current_dt end_dt).
  - rewrite hours_loop_clause_1_equation_1. reflexivity.
  - rewrite hours_loop_clause_1_equation_2. reflexivity.
Qed.

Lemma hours_loop_ids transactions_per_hour accts segs end_dt (n : nat) :
  forall current_dt acc w,
    n = Z.to_nat (end_dt + 1 - current_dt) ->
    ids_of (fst (fst (hours_loop L transactions_per_hour accts segs end_dt
                                 current_dt acc w))) =
    expected_ids L transactions_per_hour (hours_from current_dt n)
                 (ids_of (fst acc)).
Proof.
  induction n as [|n IH]; intros current_dt acc w Hn;
    rewrite multi_hours_loop_unfold;
    destruct (Z_le_dec current_dt end_dt) as [Hle|Hgt]; try lia.
  - reflexivity.
  - rewrite (IH (current_dt + 1)) by lia.
    rewrite hours_from_succ. cbn [expected_ids fold_left].
    rewrite hour_step_ids. reflexivity.
Qed.

(** The identifiers of the rows of a run between two given dates. *)
Lemma generate_rows_ids s e past_days future_days transactions_per_hour seed :
  returns
    (generate_rows L (Some s) (Some e) past_days future_days
                   transactions_per_hour seed)
    (fun r => ids_of (fst r) =
              expected_ids L transactions_per_hour
                (hours_between (midnight s) (midnight e)) []).
Proof.
  unfold generate_rows.
  eapply returns_bind; [apply returns_any | intros _ _].
  eapply returns_bind; [apply returns_any | intros _ _].
  eapply returns_bind with (P := fun d => d = (s, e)).
  { intros w. reflexivity. }
  intros d ->. lazy beta iota zeta.
  eapply returns_bind; [apply returns_any | intros sample _].
  lazy beta zeta.
  eapply returns_bind; [apply returns_any | intros segs _].
  lazy beta zeta.
  intros w. unfold hours_between.
  rewrite (hours_loop_ids _ _ _ _ _ _ _ _ eq_refl). reflexivity.
Qed.

End MultiClassRows.

(* ===================================================================== *)
(** * Class probabilities and transaction identifiers *)
(* ===================================================================== *)

(** C5: in the transaction-category generator the class probabilities of a
    record are the components, each rounded to 6 decimals, of one Dirichlet
    draw whose concentration is 8.0 for the predicted class, 2.5 for the
    true class when it differs, and 0.4 for every other class; and
    [prediction_confidence] is the rounded probability of the predicted
    category. A Dirichlet draw is assumed to have one component per
    concentration. *)
Theorem class_probabilities_from_dirichlet (L : Library) (HL : LibraryLaws L) :
  (forall pred_category gt_category c,
      nth (MultiClass.index c)
          (MultiClass.concentration pred_category gt_category) 0%float =
      if MultiClass.Category_eqb c pred_category then 8.0%float
      else if MultiClass.Category_eqb c gt_category then 2.5%float
      else 0.4%float) /\
  (forall current_dt priors accts segs i w,
      let r := fst (MultiClass.gen_row L current_dt priors accts segs i w) in
      exists s,
        let raw :=
          fst (np_dirichlet L
                 (MultiClass.concentration
                    (MultiClass.predicted_category r)
                    (MultiClass.ground_truth_category r)) s) in
        (forall c,
            MultiClass.pred_prob r c =
            py_round L (nth (MultiClass.index c) raw 0%float) 6) /\
        MultiClass.prediction_confidence r =
        MultiClass.pred_prob r (MultiClass.predicted_category r)).
Proof.
  split.
  - intros pred_category gt_category c. apply concentration_spec.
  - intros current_dt priors accts segs i w r.
    destruct (gen_row_probabilities L HL current_dt priors accts segs i w)
      as [s Hs].
    exists s. exact Hs.
Qed.

Lemma class_probabilities_from_dirichlet_witness :
  LibraryLaws Demo.lib /\
  let r := fst (MultiClass.gen_row Demo.lib (24 * 738944 + 10)
                  MultiClass.CATEGORY_PRIORS ["acct_100001"%string]
                  [("acct_100001"%string, MultiClass.premium)] 0
                  (Demo.world (list MultiClass.Row))) in
  MultiClass.prediction_confidence r =
  MultiClass.pred_prob r (MultiClass.predicted_category r).
Proof.
  split; [exact demo_laws|].
  intros r.
  destruct (proj2 (class_probabilities_from_dirichlet Demo.lib demo_laws)
              (24 * 738944 + 10) MultiClass.CATEGORY_PRIORS
              ["acct_100001"%string]
              [("acct_100001"%string, MultiClass.premium)] 0%nat
              (Demo.world (list MultiClass.Row))) as [s [_ H]].
  exact H.
Defined.

Section IdentifierFiles.

Import CardFraud Calendar.
Variable L : Library.

(** The identifiers in the files of a run of hours. *)
Lemma card_file_ids accts custs tph output_dir (hours : list datetime) batches :
  Forall2 (batch_of L accts custs tph) hours batches ->
  file_ids
    (files_written
       (List.concat (map (fun hb => hour_events output_dir (fst hb) (snd hb))
                         (combine hours batches)))) =
  match output_dir with
  | Some d =>
      map (fun h => (file_path d h,
                     map (expected_txn_id L h) (seq 0 (Z.to_nat tph)))) hours
  | None => []
  end.
Proof.
  intros Hb. destruct output_dir as [d|].
  - induction Hb as [|h recs hs bs Hh _ IH]; [reflexivity|].
    cbn [combine map List.concat fst snd hour_events app files_written file_ids].
    f_equal; [|exact IH].
    f_equal. apply (batch_shape L _ _ _ _ _ Hh).
  - rewrite hour_events_none. reflexivity.
Qed.

End IdentifierFiles.

(* ===================================================================== *)
(** * What a run writes *)
(* ===================================================================== *)

Section Frame.

Import Calendar.
Variable L : Library.

Lemma observes_ret {C A} (a : A)
    (Q : Z -> list (fs_event C) -> A -> World L C -> Prop) :
  (forall w, Q (clock w) (fs_log w) a w) -> observes (ret a) Q.
Proof. intros H w. apply H. Qed.

Lemma observes_if {C A} (c : bool) (m1 m2 : M L C A)
    (Q : Z -> list (fs_event C) -> A -> World L C -> Prop) :
  observes m1 Q -> observes m2 Q -> observes (if c then m1 else m2) Q.
Proof. destruct c; auto. Qed.

Lemma confined_refl {C} output_dir (w : World L C) :
  confined (L:=L) output_dir (clock w) (fs_log w) w.
Proof.
  split; [reflexivity|]. exists []. rewrite app_nil_r.
  split; [reflexivity|]. destruct output_dir; constructor.
Qed.

(** The partitions of a frame are written under the output directory. *)
Lemma write_partitions_confined d (gs : list (date * CcApplication.DataFrame)) :
  observes (for_each gs (CcApplication.write_partition L d))
           (fun now log _ w' => confined (Some d) now log w').
Proof.
  induction gs as [|g gs IH]; intros w.
  - apply confined_refl.
  - cbn [for_each]. unfold bind at 1. cbv zeta.
    set (w1 := snd (CcApplication.write_partition L d g w)).
    unfold bind at 1. cbv zeta. cbn [ret fst snd].
    destruct (IH w1) as [Hc (new & Hlog & Hnew)].
    assert (Hw1 : clock w1 = clock w /\
                  exists evs, fs_log w1 = fs_log w ++ evs /\
                              Forall (fun ev => under d (target ev)) evs).
    { subst w1. unfold CcApplication.write_partition, bind, emit.
      cbn [fst snd clock fs_log]. split; [reflexivity|].
      eexists. rewrite <- app_assoc. split; [reflexivity|].
      repeat constructor; cbn [target]; unfold join, under;
        rewrite <- ?app_assoc; eexists; reflexivity. }
    destruct Hw1 as [Hc1 (evs & Hlog1 & Hevs)].
    split; [congruence|].
    exists (evs ++ new). rewrite Hlog, Hlog1, <- app_assoc.
    split; [reflexivity|]. apply Forall_app. split; assumption.
Qed.

(** A credit-card application run is confined. *)
Lemma cc_generate_confined n_samples output_dir seed past_days future_days :
  observes
    (CcApplication.generate_dataset L n_samples output_dir seed past_days
                                    future_days)
    (fun now log _ w' => confined output_dir now log w').
Proof.
  unfold CcApplication.generate_dataset.
  apply observes_quiet_bind with (P := fun _ => True);
    [apply quiet_seed_numpy | apply returns_any | intros _ _].
  apply observes_if.
  { apply observes_ret. intros w. apply confined_refl. }
  lazy beta zeta.
  apply observes_quiet_bind with (P := fun _ => True);
    [|apply returns_any | intros f _].
  { unfold CcApplication.draw_features, CcApplication.choices. quiet_steps. }
  apply observes_quiet_bind with (P := fun _ => True);
    [|apply returns_any | intros labels _].
  { apply quiet_for_each. intros i.
    unfold CcApplication.draw_actual_label. quiet_steps. }
  apply observes_quiet_bind with (P := fun _ => True);
    [|apply returns_any | intros probs _].
  { apply quiet_for_each. intros i.
    unfold CcApplication.draw_predicted_prob. quiet_steps. }
  apply observes_quiet_bind with (P := fun _ => True);
    [|apply returns_any | intros valid _].
  { unfold CcApplication.choices. quiet_steps. }
  apply observes_quiet_bind with (P := fun _ => True);
    [apply quiet_today | apply returns_any | intros today _].
  lazy beta zeta.
  apply observes_if.
  { apply observes_ret. intros w. apply confined_refl. }
  apply observes_quiet_bind with (P := fun _ => True);
    [|apply returns_any | intros times _].
  { apply quiet_for_each. intros i.
    unfold CcApplication.draw_timestamp. quiet_steps. }
  lazy beta zeta.
  destruct (CcApplication.build_rows _ _ _ _ _ _) as [|r df].
  { apply observes_ret. intros w. apply confined_refl. }
  destruct output_dir as [d|].
  - apply (observes_map _ (fun _ => Returned (r :: df))).
    apply write_partitions_confined.
  - apply observes_ret. intros w. apply confined_refl.
Qed.

End Frame.

(* ===================================================================== *)
(** * The entry points of the onboarding scripts *)
(* ===================================================================== *)

Section Handlers.

Import Onboarding EntryPoints.
Local Open Scope run_scope.

Lemma try_except_returned A (body : Run A) clauses c a :
  result (body c) = Returned a -> try_except body clauses c = body c.
Proof. intros H. unfold try_except. rewrite H. reflexivity. Qed.

Lemma try_except_unhandled A (body : Run A) clauses c e :
  result (body c) = Raised e -> find_clause clauses e = None ->
  try_except body clauses c = body c.
Proof. intros H F. unfold try_except. rewrite H, F. reflexivity. Qed.

Lemma try_except_handled A (body : Run A) clauses c e handler :
  result (body c) = Raised e -> find_clause clauses e = Some handler ->
  try_except body clauses c =
  mkResult (printed (body c) ++ printed (handler (config (body c))))
           (config (handler (config (body c))))
           (result (handler (config (body c)))).
Proof. intros H F. unfold try_except. rewrite H, F. reflexivity. Qed.

Ltac handled Hr tac :=
  erewrite try_except_handled;
  [ | exact Hr | cbn [find_clause]; tac; reflexivity ].
Ltac unhandled Hr tac :=
  erewrite try_except_unhandled;
  [ | exact Hr | cbn [find_clause]; tac; reflexivity ].

(** An exception outside [Exception] is no [ValueError]. *)
Lemma ValueError_is_Exception e : is_ValueError e = true -> is_Exception e = true.
Proof. destruct e; simpl; congruence. Qed.

Lemma fraud_entry_swallows e :
  is_Exception e = true -> swallows add_fraud_model_aggregations e.
Proof.
  intros He flow c Hr. unfold add_fraud_model_aggregations.
  destruct (is_ValueError e) eqn:Hv.
  - handled Hr ltac:(rewrite Hv).
    cbn. repeat split. eexists. split; [|reflexivity]. discriminate.
  - handled Hr ltac:(rewrite Hv, He).
    cbn. repeat split. eexists. split; [|reflexivity]. discriminate.
Qed.

Lemma regression_entry_swallows e :
  is_Exception e = true -> swallows add_regression_model_aggregations e.
Proof.
  intros He flow c Hr. unfold add_regression_model_aggregations.
  destruct (is_ValueError e) eqn:Hv.
  - handled Hr ltac:(rewrite Hv).
    cbn. repeat split. eexists. split; [|reflexivity]. discriminate.
  - handled Hr ltac:(rewrite Hv, He).
    cbn. repeat split. eexists. split; [|reflexivity]. discriminate.
Qed.

Lemma custom_entry_swallows e :
  is_ValueError e = true -> swallows add_custom_aggregations e.
Proof.
  intros Hv flow c Hr. unfold add_custom_aggregations.
  handled Hr ltac:(rewrite Hv).
  cbn. repeat split. eexists. split; [|reflexivity]. discriminate.
Qed.

Lemma custom_entry_propagates e :
  is_ValueError e = false -> propagates add_custom_aggregations e.
Proof.
  intros Hv flow c Hr. unfold add_custom_aggregations.
  destruct (is_Exception e) eqn:He.
  - handled Hr ltac:(rewrite Hv, He).
    cbn. split; reflexivity.
  - unhandled Hr ltac:(rewrite Hv, He).
    split; [exact Hr | reflexivity].
Qed.

Lemma error_profile_propagates e : propagates create_error_profile e.
Proof.
  intros flow c Hr. unfold create_error_profile.
  destruct (is_Exception e) eqn:He.
  - handled Hr ltac:(rewrite He).
    cbn. split; reflexivity.
  - unhandled Hr ltac:(rewrite He).
    split; [exact Hr | reflexivity].
Qed.

Lemma unguarded_propagates e : propagates unguarded e.
Proof. intros flow c Hr. split; [exact Hr | reflexivity]. Qed.

(** No entry point catches what is not an [Exception]. *)
Lemma entry_point_propagates_base s e :
  is_Exception e = false -> propagates (entry_point s) e.
Proof.
  intros He flow c Hr.
  assert (Hv : is_ValueError e = false) by (destruct e; simpl in *; congruence).
  destruct s; simpl;
    try apply unguarded_propagates; try apply error_profile_propagates;
    try (apply custom_entry_propagates; assumption); trivial.
  - unfold add_fraud_model_aggregations.
    unhandled Hr ltac:(rewrite Hv, He).
    split; [exact Hr | reflexivity].
  - unfold add_regression_model_aggregations.
    unhandled Hr ltac:(rewrite Hv, He).
    split; [exact Hr | reflexivity].
Qed.

Lemma entry_point_returned s flow c a :
  result (flow c) = Returned a -> entry_point s flow c = flow c.
Proof.
  intros Hr. destruct s; simpl; try reflexivity;
    eapply try_except_returned; eassumption.
Qed.

End Handlers.

Section FraudScript.

Import Onboarding EntryPoints AddFraudModelAggregations.
Local Open Scope run_scope.

Lemma find_column_raises cols name e :
  AddFraudModelAggregations.find_column cols name = Raised e -> is_ValueError e = true.
Proof.
  induction cols as [|col cols IH]; simpl.
  - intros H. injection H as <-. reflexivity.
  - destruct (String.eqb _ _); [discriminate | exact IH].
Qed.

(** [gen_fraud_model_aggregations] raises nothing but the [ValueError] of a
    missing column. *)
Lemma gen_raises dataset e :
  gen_fraud_model_aggregations dataset = Raised e -> is_ValueError e = true.
Proof.
  unfold gen_fraud_model_aggregations, and_then, column_id_from_col_name.
  repeat match goal with
  | |- context [match AddFraudModelAggregations.find_column ?c ?n with _ => _ end] =>
      let E := fresh "E" in
      destruct (AddFraudModelAggregations.find_column c n) eqn:E;
      [| intros H; injection H as <-; eapply find_column_raises; eassumption]
  end.
  discriminate.
Qed.

Lemma print_columns_run cols c :
  exists out, print_columns cols c = mkResult out c (Returned tt).
Proof.
  induction cols as [|col cols IH]; simpl.
  - eexists. reflexivity.
  - destruct IH as [out IH]. unfold bind. cbn. rewrite IH. cbn.
    eexists. reflexivity.
Qed.

Lemma runs_bind A B (m : Run A) (k : A -> Run B) c
    (Q : list string -> Config -> outcome B -> Prop) :
  runs m c (fun out1 c1 o =>
              match o with
              | Returned a => runs (k a) c1 (fun out2 c2 o2 => Q (out1 ++ out2)%list c2 o2)
              | Raised e => Q out1 c1 (Raised e)
              end) ->
  runs (bind m k) c Q.
Proof. unfold runs, bind. cbv zeta. destruct (result (m c)); auto. Qed.

Lemma runs_print line c (Q : list string -> Config -> outcome unit -> Prop) :
  Q [line] c (Returned tt) -> runs (print line) c Q.
Proof. exact (fun H => H). Qed.

Lemma runs_call A (o : outcome A) c (Q : list string -> Config -> outcome A -> Prop) :
  Q [] c o -> runs (call o) c Q.
Proof. exact (fun H => H). Qed.

Lemma runs_raise A e c (Q : list string -> Config -> outcome A -> Prop) :
  Q [] c (Raised e) -> runs (raise e) c Q.
Proof. exact (fun H => H). Qed.

Lemma runs_get_model s c (Q : list string -> Config -> outcome Model -> Prop) :
  match model_info s with
  | Returned info => Q [] c (Returned (mkModel (fst info) (snd info) c))
  | Raised e => Q [] c (Raised e)
  end ->
  runs (get_model s) c Q.
Proof. unfold runs, get_model. destruct (model_info s); exact (fun H => H). Qed.

Lemma runs_put s specs c (Q : list string -> Config -> outcome unit -> Prop) :
  match put_fails s with
  | Some e => Q [] c (Raised e)
  | None => Q [] specs (Returned tt)
  end ->
  runs (put_model_metric_config s specs) c Q.
Proof. unfold runs, put_model_metric_config. destruct (put_fails s); exact (fun H => H). Qed.

Lemma runs_print_columns cols c (Q : list string -> Config -> outcome unit -> Prop) :
  (forall out, Q out c (Returned tt)) -> runs (print_columns cols) c Q.
Proof.
  intros H. unfold runs. destruct (print_columns_run cols c) as [out ->]. apply H.
Qed.

End FraudScript.

Ltac run_print := apply runs_bind; apply runs_print; cbv beta iota.

(** A line among the lines printed. *)
Ltac find_line :=
  repeat lazymatch goal with
  | |- In _ (_ ++ _) => apply in_or_app; first [ left; left; reflexivity | right ]
  end;
  left; reflexivity.

Section FraudMain.

Import Onboarding EntryPoints AddFraudModelAggregations.
Local Open Scope run_scope.

(** A required column is missing: [main] catches the [ValueError] itself,
    prints what to check and returns. *)
Lemma main_missing_column s c dataset e :
  serves s dataset ->
  gen_fraud_model_aggregations dataset = Raised e ->
  runs (main s) c (fun out c' o =>
    o = Returned tt /\ c' = c /\
    In "Please verify that your dataset has these columns:"%string out).
Proof.
  intros [Ha (info & first & rest & Hm & Hd & Hg)] Hgen.
  assert (He := gen_raises _ _ Hgen). destruct e; try discriminate.
  unfold main. run_print.
  apply runs_bind, runs_call. rewrite Ha.
  run_print.
  apply runs_bind, runs_get_model. rewrite Hm.
  repeat run_print.
  cbn [model_datasets]. rewrite Hd.
  apply runs_bind, runs_call. rewrite Hg.
  repeat run_print.
  apply runs_bind, runs_print_columns. intros out.
  run_print. rewrite Hgen.
  repeat run_print. apply runs_print.
  repeat split. find_line.
Qed.

(** The script's handlers print and change nothing else. *)
Lemma fraud_entry_keeps flow c :
  config (add_fraud_model_aggregations flow c) = config (flow c) /\
  incl (printed (flow c)) (printed (add_fraud_model_aggregations flow c)).
Proof.
  destruct (result (flow c)) as [a|e] eqn:Hr.
  - unfold add_fraud_model_aggregations.
    rewrite (try_except_returned _ _ _ _ _ Hr). split; [reflexivity | apply incl_refl].
  - destruct (is_Exception e) eqn:He.
    + destruct (fraud_entry_swallows e He flow c Hr) as (_ & Hc & diag & _ & Hp).
      split; [exact Hc |]. rewrite Hp. apply incl_appl, incl_refl.
    + assert (Hv : is_ValueError e = false) by (destruct e; simpl in *; congruence).
      unfold add_fraud_model_aggregations.
      erewrite try_except_unhandled;
        [ | exact Hr | cbn [find_clause]; rewrite Hv, He; reflexivity ].
      split; [reflexivity | apply incl_refl].
Qed.

Lemma script_never_raises_Exception s c e :
  result (script s c) = Raised e -> is_Exception e = false.
Proof.
  unfold script. intros H.
  destruct (result (main s c)) as [a|e'] eqn:Hr.
  - unfold add_fraud_model_aggregations in H.
    rewrite (try_except_returned _ _ _ _ _ Hr) in H. congruence.
  - destruct (is_Exception e') eqn:He.
    + destruct (fraud_entry_swallows e' He (main s) c Hr) as (Hres & _). congruence.
    + destruct (entry_point_propagates_base add_fraud_model_aggregations_py e' He
                  (main s) c Hr) as (Hres & _).
      simpl in Hres. congruence.
Qed.

End FraudMain.

(** C6, as stated, fails: an exception that is no [ValueError] leaves
    add-custom-aggregations.py after the handler printed it, the
    [ValueError] of a missing column leaves add-prediction-stats-metrics.py,
    whose entry point has no handler, and the error-profile scripts raise
    again what they caught. *)
Lemma exception_leaves_entry_point :
  Onboarding.result
    (EntryPoints.entry_point EntryPoints.add_custom_aggregations_py
       (Onboarding.raise (Exception_ "connection refused")) []) =
  Raised (Exception_ "connection refused") /\
  Onboarding.result
    (EntryPoints.entry_point EntryPoints.add_prediction_stats_metrics_py
       (Onboarding.bind
          (EntryPoints.prediction_stats_columns
             (Onboarding.mkDataset "ds-1" "housing" []))
          (fun _ => Onboarding.ret tt)) []) =
  Raised (ValueError "Could not find column prediction") /\
  Onboarding.result
    (EntryPoints.entry_point EntryPoints.create_regression_error_profile_py
       (Onboarding.raise (ValueError "Model has no datasets")) []) =
  Raised (ValueError "Model has no datasets").
Proof. repeat split; vm_compute; reflexivity. Qed.

(** C6, amended: the entry points of add-fraud-model-aggregations.py and
    add-regression-model-aggregations.py catch every exception derived from
    [Exception] that their flow raises: a diagnostic is printed and the
    script ends normally. add-custom-aggregations.py does so for
    [ValueError] only and raises every other exception again; the two
    error-profile scripts raise again what they catch, and the other eight
    scripts have no handler. No entry point catches an exception outside
    [Exception], and a flow that returns is left alone. In
    add-fraud-model-aggregations.py the [ValueError] of
    [column_id_from_col_name] for a missing required column is caught inside
    [main], which prints what to check and returns; that script never ends
    with an exception derived from [Exception]. *)
Theorem handlers_of_entry_points :
  let caught_by s e := EntryPoints.swallows (EntryPoints.entry_point s) e in
  let leaves s e := EntryPoints.propagates (EntryPoints.entry_point s) e in
  (forall e, is_Exception e = true ->
     caught_by EntryPoints.add_fraud_model_aggregations_py e /\
     caught_by EntryPoints.add_regression_model_aggregations_py e) /\
  (forall e, is_ValueError e = true ->
     caught_by EntryPoints.add_custom_aggregations_py e) /\
  (forall e, is_ValueError e = false ->
     leaves EntryPoints.add_custom_aggregations_py e) /\
  (forall s e,
     In s [ EntryPoints.create_regression_error_profile_py;
            EntryPoints.create_positive_class_error_profile_py;
            EntryPoints.add_prediction_stats_metrics_py;
            EntryPoints.housing_price_onboarding_py;
            EntryPoints.jpmc_onboarding_py;
            EntryPoints.remove_column_from_schema_py;
            EntryPoints.service_account_creation_py;
            EntryPoints.using_sdk_with_service_account_creds_py;
            EntryPoints.add_column_to_schema_py;
            EntryPoints.duplicate_metrics_to_new_datasets_py ] ->
     leaves s e) /\
  (forall s e, is_Exception e = false -> leaves s e) /\
  (forall s flow c a,
     Onboarding.result (flow c) = Returned a ->
     EntryPoints.entry_point s flow c = flow c) /\
  (forall s c dataset e,
     AddFraudModelAggregations.serves s dataset ->
     AddFraudModelAggregations.gen_fraud_model_aggregations dataset = Raised e ->
     is_ValueError e = true /\
     Onboarding.runs (AddFraudModelAggregations.main s) c (fun out c' o =>
       o = Returned tt /\ c' = c /\
       In "Please verify that your dataset has these columns:"%string out)) /\
  (forall s c e,
     Onboarding.result (AddFraudModelAggregations.script s c) = Raised e ->
     is_Exception e = false).
Proof.
  cbv zeta.
  split; [| split; [| split; [| split; [| split; [| split; [| split]]]]]].
  - intros e He. split.
    + apply fraud_entry_swallows, He.
    + apply regression_entry_swallows, He.
  - intros e Hv. apply custom_entry_swallows, Hv.
  - intros e Hv. apply custom_entry_propagates, Hv.
  - intros s e Hs. simpl in Hs.
    repeat (destruct Hs as [<- | Hs];
            [ first [ apply error_profile_propagates | apply unguarded_propagates ] |]).
    destruct Hs.
  - intros s e He. apply entry_point_propagates_base, He.
  - intros s flow c a Hr. eapply entry_point_returned, Hr.
  - intros s c dataset e Hs Hg. split.
    + eapply gen_raises, Hg.
    + eapply main_missing_column; eassumption.
  - intros s c e. apply script_never_raises_Exception.
Qed.

(* ===================================================================== *)
(** * Running add-fraud-model-aggregations.py twice *)
(* ===================================================================== *)

Section Idempotence.

Import Onboarding EntryPoints AddFraudModelAggregations.
Local Open Scope run_scope.

Lemma list_eqb_refl A (eqb : A -> A -> bool) xs :
  Forall (fun x => eqb x x = true) xs -> list_eqb eqb xs xs = true.
Proof.
  induction 1 as [|x xs Hx _ IH]; simpl; [reflexivity |].
  rewrite Hx, IH. reflexivity.
Qed.

Lemma strings_eqb_refl (xs : list string) : list_eqb String.eqb xs xs = true.
Proof.
  apply list_eqb_refl, Forall_forall. intros x _. apply String.eqb_refl.
Qed.

Lemma spec3_self_equal agg_id dataset ts key id :
  self_equal (spec3 agg_id dataset ts key id).
Proof.
  unfold self_equal, spec3, MetricsArgSpec_eqb. cbn [aggregation_args list_eqb arg_key arg_value ArgValue_eqb].
  rewrite !String.eqb_refl. reflexivity.
Qed.

Lemma gen_self_equal dataset new :
  gen_fraud_model_aggregations dataset = Returned new -> Forall self_equal new.
Proof.
  unfold gen_fraud_model_aggregations, and_then.
  repeat match goal with
  | |- context [match column_id_from_col_name ?d ?n with _ => _ end] =>
      destruct (column_id_from_col_name d n); [| discriminate]
  end.
  intros H. injection H as <-.
  repeat first
    [ apply Forall_nil
    | apply Forall_cons;
      [ first [ apply spec3_self_equal
              | unfold self_equal, MetricsArgSpec_eqb;
                cbn [aggregation_args list_eqb arg_key arg_value ArgValue_eqb];
                rewrite !String.eqb_refl; reflexivity ] |]
    | apply Forall_app; split
    | apply Forall_forall; intros agg Hin; apply in_map_iff in Hin;
      destruct Hin as (id & <- & _); apply spec3_self_equal ].
Qed.

Lemma filter_none A (p : A -> bool) xs :
  (forall x, In x xs -> p x = false) -> filter p xs = [].
Proof.
  induction xs as [|x xs IH]; simpl; intros H; [reflexivity |].
  rewrite (H x (or_introl eq_refl)). apply IH. intros y Hy. apply H. right. exact Hy.
Qed.

Lemma exists_in_app cfg cfg' agg :
  exists_in (cfg ++ cfg') agg = exists_in cfg agg || exists_in cfg' agg.
Proof. unfold exists_in. apply existsb_app. Qed.

Lemma exists_in_self cfg agg :
  self_equal agg -> In agg cfg -> exists_in cfg agg = true.
Proof.
  intros Hs Hin. unfold exists_in. apply existsb_exists. exists agg.
  split; [exact Hin |]. rewrite String.eqb_refl. exact Hs.
Qed.

(** Once the missing aggregations are in the configuration, none is
    missing. *)
Lemma nothing_left cfg new :
  Forall self_equal new ->
  aggregations_to_add (cfg ++ aggregations_to_add cfg new) new = [].
Proof.
  intros Hs. unfold aggregations_to_add at 1. apply filter_none.
  intros agg Hin. rewrite exists_in_app.
  destruct (exists_in cfg agg) eqn:E; [reflexivity |].
  rewrite exists_in_self; [reflexivity | |].
  - rewrite Forall_forall in Hs. apply Hs, Hin.
  - unfold aggregations_to_add. apply filter_In. split; [exact Hin |].
    rewrite E. reflexivity.
Qed.

(** What [main] leaves as configuration: the one it found, or that one
    followed by the aggregations that were missing. *)
Lemma main_config s cfg :
  runs (main s) cfg (fun out cfg' o =>
    cfg' = cfg \/
    exists dataset new,
      serves s dataset /\
      gen_fraud_model_aggregations dataset = Returned new /\
      aggregations_to_add cfg new <> [] /\
      In "Successfully updated model metrics!"%string out /\
      o = Returned tt /\
      cfg' = (cfg ++ aggregations_to_add cfg new)%list).
Proof.
  unfold main. run_print.
  apply runs_bind, runs_call.
  destruct (authorize s) as [[]|e] eqn:Ha; [| left; reflexivity].
  run_print.
  apply runs_bind, runs_get_model.
  destruct (model_info s) as [info|e] eqn:Hm; [| left; reflexivity].
  repeat run_print.
  cbn [model_datasets metric_config].
  destruct (snd info) as [|first rest] eqn:Hd; [apply runs_raise; left; reflexivity |].
  apply runs_bind, runs_call.
  destruct (get_dataset s first) as [dataset|e] eqn:Hg; [| left; reflexivity].
  repeat run_print.
  apply runs_bind, runs_print_columns. intros out.
  run_print.
  destruct (gen_fraud_model_aggregations dataset) as [new|e] eqn:Hgen.
  2:{ destruct e; try (apply runs_raise; left; reflexivity).
      repeat run_print. apply runs_print. left; reflexivity. }
  repeat run_print.
  destruct (aggregations_to_add cfg new) as [|agg to_add] eqn:Hadd.
  { apply runs_print. left; reflexivity. }
  repeat run_print.
  apply runs_bind, runs_call.
  destruct (input s) as [response|e]; [| left; reflexivity].
  destruct (negb (String.eqb (lower response) "yes")).
  { apply runs_print. left; reflexivity. }
  run_print.
  apply runs_bind, runs_put.
  destruct (put_fails s); [left; reflexivity |].
  repeat run_print. apply runs_print.
  right. exists dataset, new. split; [| split; [exact Hgen | split; [| split; [| split]]]].
  - split; [exact Ha |]. exists info, first, rest. auto.
  - rewrite Hadd. discriminate.
  - find_line.
  - reflexivity.
  - rewrite Hadd. reflexivity.
Qed.

(** With nothing missing, [main] says so and returns. *)
Lemma main_nothing_new s cfg dataset new :
  serves s dataset ->
  gen_fraud_model_aggregations dataset = Returned new ->
  aggregations_to_add cfg new = [] ->
  runs (main s) cfg (fun out cfg' o =>
    cfg' = cfg /\ o = Returned tt /\
    In "No new aggregations to add. All specified aggregations already exist."%string out).
Proof.
  intros [Ha (info & first & rest & Hm & Hd & Hg)] Hgen Hadd.
  unfold main. run_print.
  apply runs_bind, runs_call. rewrite Ha.
  run_print.
  apply runs_bind, runs_get_model. rewrite Hm.
  repeat run_print.
  cbn [model_datasets metric_config]. rewrite Hd.
  apply runs_bind, runs_call. rewrite Hg.
  repeat run_print.
  apply runs_bind, runs_print_columns. intros out.
  run_print. rewrite Hgen.
  repeat run_print. rewrite Hadd. apply runs_print.
  repeat split. find_line.
Qed.

Lemma same_platform_serves s s' dataset :
  same_platform s s' -> serves s dataset -> serves s' dataset.
Proof.
  intros (Ha & Hm & Hg) [Ha' (info & first & rest & Hm' & Hd & Hg')].
  split; [congruence |]. exists info, first, rest.
  repeat split; [congruence | exact Hd | rewrite <- Hg; exact Hg'].
Qed.

End Idempotence.

(** C9: add-fraud-model-aggregations.py is idempotent on the model's metric
    configuration. A run leaves the configuration as it found it, or adds
    to it exactly the generated aggregations for which no existing
    specification has the same identifier and arguments; in the
    configuration a run produced none of the generated aggregations is
    missing. So a second run against the same platform, whatever the user
    answers, finds no new aggregation, says so and leaves the configuration
    unchanged; and running the script twice in the same session gives the
    configuration of running it once. *)
Theorem add_fraud_model_aggregations_idempotent
    (s s' : AddFraudModelAggregations.Session) (cfg : Onboarding.Config) :
  let first := AddFraudModelAggregations.script s cfg in
  let second := AddFraudModelAggregations.script s' (Onboarding.config first) in
  (Onboarding.config first = cfg \/
   exists dataset new,
     AddFraudModelAggregations.gen_fraud_model_aggregations dataset = Returned new /\
     Onboarding.config first =
       (cfg ++ AddFraudModelAggregations.aggregations_to_add cfg new)%list /\
     (forall agg,
        In agg (AddFraudModelAggregations.aggregations_to_add cfg new) <->
        In agg new /\ AddFraudModelAggregations.exists_in cfg agg = false) /\
     AddFraudModelAggregations.aggregations_to_add (Onboarding.config first) new = []) /\
  (AddFraudModelAggregations.same_platform s s' ->
   Onboarding.config first <> cfg ->
   Onboarding.config second = Onboarding.config first /\
   In "No new aggregations to add. All specified aggregations already exist."%string
      (Onboarding.printed second)) /\
  Onboarding.config
    (AddFraudModelAggregations.script s (Onboarding.config first)) =
  Onboarding.config first.
Proof.
  intros first second.
  assert (Hfirst :
    Onboarding.config first = cfg \/
    exists dataset new,
      AddFraudModelAggregations.serves s dataset /\
      AddFraudModelAggregations.gen_fraud_model_aggregations dataset = Returned new /\
      Onboarding.config first =
        (cfg ++ AddFraudModelAggregations.aggregations_to_add cfg new)%list).
  { subst first. unfold AddFraudModelAggregations.script.
    destruct (fraud_entry_keeps (AddFraudModelAggregations.main s) cfg) as [-> _].
    destruct (main_config s cfg) as [H | (dataset & new & Hs & Hg & _ & _ & _ & H)].
    - left. exact H.
    - right. exists dataset, new. auto. }
  assert (Hsecond : forall s2 dataset new,
    AddFraudModelAggregations.serves s2 dataset ->
    AddFraudModelAggregations.gen_fraud_model_aggregations dataset = Returned new ->
    Onboarding.config first =
      (cfg ++ AddFraudModelAggregations.aggregations_to_add cfg new)%list ->
    Onboarding.config (AddFraudModelAggregations.script s2 (Onboarding.config first)) =
      Onboarding.config first /\
    In "No new aggregations to add. All specified aggregations already exist."%string
       (Onboarding.printed
          (AddFraudModelAggregations.script s2 (Onboarding.config first)))).
  { intros s2 dataset new Hs Hg H.
    unfold AddFraudModelAggregations.script.
    destruct (fraud_entry_keeps (AddFraudModelAggregations.main s2)
                (Onboarding.config first)) as [-> Hincl].
    destruct (main_nothing_new s2 (Onboarding.config first) dataset new Hs Hg)
      as (Hc & _ & Hin).
    - rewrite H. apply nothing_left. eapply gen_self_equal, Hg.
    - split; [exact Hc | apply Hincl, Hin]. }
  split; [| split].
  - destruct Hfirst as [H | (dataset & new & Hs & Hg & H)]; [left; exact H |].
    right. exists dataset, new.
    split; [exact Hg | split; [exact H | split]].
    + intros agg. unfold AddFraudModelAggregations.aggregations_to_add.
      rewrite filter_In, negb_true_iff. reflexivity.
    + rewrite H. apply nothing_left. eapply gen_self_equal, Hg.
  - intros Hp Hne.
    destruct Hfirst as [H | (dataset & new & Hs & Hg & H)]; [contradiction |].
    subst second. eapply Hsecond; [| exact Hg | exact H].
    eapply same_platform_serves; eassumption.
  - destruct Hfirst as [H | (dataset & new & Hs & Hg & H)].
    + rewrite H. exact H.
    + eapply Hsecond; eassumption.
Qed.

(** The script run twice on a platform that has the required columns, with
    a user who answers YES: the first run adds 23 aggregations to an empty
    configuration, the second none. *)
Lemma add_fraud_model_aggregations_idempotent_witness :
  List.length
    (Onboarding.config
       (AddFraudModelAggregations.script AddFraudModelAggregations.demo_session [])) = 23%nat /\
  Onboarding.config
    (AddFraudModelAggregations.script AddFraudModelAggregations.demo_session
       (Onboarding.config
          (AddFraudModelAggregations.script AddFraudModelAggregations.demo_session []))) =
  Onboarding.config
    (AddFraudModelAggregations.script AddFraudModelAggregations.demo_session []).
Proof.
  split; [vm_compute; reflexivity |].
  pose proof (add_fraud_model_aggregations_idempotent
                AddFraudModelAggregations.demo_session
                AddFraudModelAggregations.demo_session []) as H.
  cbv zeta in H. destruct H as (_ & H & _).
  refine (proj1 (H _ _)).
  - repeat split.
  - intros E. vm_compute in E. discriminate E.
Defined.

(* ===================================================================== *)
(** * What a run depends on *)
(* ===================================================================== *)

Section Reproducible.

Context {L : Library} {C : Type}.
Variables with_np with_py with_clock : bool.

Abbreviation repro := (reproducible (L:=L) (C:=C) with_np with_py with_clock).

Lemma repro_ret {A} (a : A) : repro (ret a).
Proof.
  intros w1 w2 H. split; [| exact H].
  split; [reflexivity |]. exists []. cbn. rewrite !app_nil_r. auto.
Qed.

Lemma repro_bind {A B} (m : M L C A) (k : A -> M L C B) :
  repro m -> (forall a, repro (k a)) -> repro (bind m k).
Proof.
  intros Hm Hk w1 w2 H. unfold same_outcome, bind. cbv zeta.
  destruct (Hm w1 w2 H) as ((Hv & new & H1 & H2) & H').
  rewrite Hv.
  destruct (Hk (fst (m w2)) _ _ H') as ((Hv' & new' & H1' & H2') & H'').
  split; [| exact H''].
  split; [exact Hv' |]. exists (new ++ new')%list.
  rewrite H1', H2', H1, H2, <- !app_assoc. auto.
Qed.

Lemma repro_ext {A} (m m' : M L C A) :
  (forall w, m w = m' w) -> repro m' -> repro m.
Proof.
  intros E H w1 w2 Hw. unfold same_outcome. rewrite !E. apply H, Hw.
Qed.

Lemma repro_if {A} (c : bool) (m1 m2 : M L C A) :
  repro m1 -> repro m2 -> repro (if c then m1 else m2).
Proof. destruct c; auto. Qed.

Lemma repro_emit (e : fs_event C) : repro (emit e).
Proof.
  intros w1 w2 H. split; [| exact H].
  split; [reflexivity |]. exists [e]. auto.
Qed.

Lemma repro_replicate {A} (n : nat) (m : M L C A) :
  repro m -> repro (replicate n m).
Proof.
  intros Hm. induction n as [|n IH]; simpl.
  - apply repro_ret.
  - apply repro_bind; [exact Hm |]. intros a.
    apply repro_bind; [exact IH |]. intros l. apply repro_ret.
Qed.

Lemma repro_for_each {A B} (xs : list A) (body : A -> M L C B) :
  (forall x, repro (body x)) -> repro (for_each xs body).
Proof.
  intros Hb. induction xs as [|x xs IH]; simpl.
  - apply repro_ret.
  - apply repro_bind; [apply Hb |]. intros b.
    apply repro_bind; [exact IH |]. intros l. apply repro_ret.
Qed.

End Reproducible.

Section Draws.

Context {L : Library} {C : Type}.

(** A draw is reproducible from worlds that agree on its generator. *)
Lemma repro_np {A} with_py with_clock (f : np_state L -> A * np_state L) :
  reproducible (C:=C) true with_py with_clock (np f).
Proof.
  intros w1 w2 (Hn & Hp & Hc). unfold same_outcome, np. cbn.
  rewrite (Hn eq_refl). repeat split; auto.
  exists []. rewrite !app_nil_r. auto.
Qed.

Lemma repro_py {A} with_np with_clock (f : py_state L -> A * py_state L) :
  reproducible (C:=C) with_np true with_clock (py f).
Proof.
  intros w1 w2 (Hn & Hp & Hc). unfold same_outcome, py. cbn.
  rewrite (Hp eq_refl). repeat split; auto.
  exists []. rewrite !app_nil_r. auto.
Qed.

(** The day is the same in worlds that agree on it. *)
Lemma repro_today with_np with_py :
  reproducible (L:=L) (C:=C) with_np with_py true today.
Proof.
  intros w1 w2 (Hn & Hp & Hc). unfold same_outcome, today. cbn.
  repeat split; auto. exists []. rewrite !app_nil_r. auto.
Qed.

(** Seeding a generator makes the run that follows independent of the
    state the generator was in. *)
Lemma repro_seed_numpy {A} with_np with_py with_clock seed (k : unit -> M L C A) :
  (forall u, reproducible true with_py with_clock (k u)) ->
  reproducible with_np with_py with_clock (bind (seed_numpy seed) k).
Proof.
  intros Hk w1 w2 (Hn & Hp & Hc). unfold bind, seed_numpy. cbn.
  destruct (Hk tt (mkWorld (clock w1) (np_seed L seed) (py_rng w1) (fs_log w1))
                  (mkWorld (clock w2) (np_seed L seed) (py_rng w2) (fs_log w2)))
    as (Ho & Hn' & Hp' & Hc').
  { repeat split; auto. }
  split; [exact Ho |]. repeat split; auto.
Qed.

Lemma repro_seed_python {A} with_np with_py with_clock seed (k : unit -> M L C A) :
  (forall u, reproducible with_np true with_clock (k u)) ->
  reproducible with_np with_py with_clock (bind (seed_python seed) k).
Proof.
  intros Hk w1 w2 (Hn & Hp & Hc). unfold bind, seed_python. cbn.
  destruct (Hk tt (mkWorld (clock w1) (np_rng w1) (py_seed L seed) (fs_log w1))
                  (mkWorld (clock w2) (np_rng w2) (py_seed L seed) (fs_log w2)))
    as (Ho & Hn' & Hp' & Hc').
  { repeat split; auto. }
  split; [exact Ho |]. repeat split; auto.
Qed.

End Draws.

Ltac repro_step :=
  lazymatch goal with
  | |- reproducible _ _ _ (Sys.ret _) => apply repro_ret
  | |- reproducible _ _ _ (Sys.np _) => apply repro_np
  | |- reproducible _ _ _ (Sys.py _) => apply repro_py
  | |- reproducible _ _ _ Sys.today => apply repro_today
  | |- reproducible _ _ _ (Sys.emit _) => apply repro_emit
  | |- reproducible _ _ _ (Sys.replicate _ _) => apply repro_replicate
  | |- reproducible _ _ _ (Sys.for_each _ _) => apply repro_for_each; intros
  | |- reproducible _ _ _ (Sys.bind (Sys.seed_numpy _) _) =>
      apply repro_seed_numpy; intros
  | |- reproducible _ _ _ (Sys.bind (Sys.seed_python _) _) =>
      apply repro_seed_python; intros
  | |- reproducible _ _ _ (Sys.bind _ _) => apply repro_bind; [| intros]
  | |- reproducible _ _ _ (if _ then _ else _) => apply repro_if
  | |- reproducible _ _ _ (match ?x with _ => _ end) => destruct x
  end.
Ltac repro_steps := repeat repro_step.

Section CardFraudReproducible.

Import CardFraud Calendar.
Variable L : Library.
Variable with_clock : bool.

Lemma card_gen_transaction_repro current_dt index accts custs :
  reproducible true true with_clock
    (gen_transaction L current_dt index accts custs).
Proof. unfold gen_transaction, choice, pick. repro_steps. Qed.

Lemma card_txn_loop_repro current_dt accts custs (n : nat) :
  forall acc stats,
    reproducible true true with_clock
      (txn_loop L n current_dt accts custs acc stats).
Proof.
  induction n as [|n IH]; intros acc stats; cbn [txn_loop].
  - apply repro_ret.
  - apply repro_bind; [apply card_gen_transaction_repro |].
    intros t. apply IH.
Qed.

Lemma card_hour_step_repro tph output_dir accts custs current_dt stats :
  reproducible true true with_clock
    (hour_step L tph output_dir accts custs current_dt stats).
Proof.
  unfold hour_step.
  apply repro_bind; [apply card_txn_loop_repro |].
  intros [transactions stats']. destruct output_dir; repro_steps.
Qed.

Lemma card_hours_loop_repro tph output_dir accts custs end_dt (n : nat) :
  forall current_dt stats,
    n = Z.to_nat (end_dt + 1 - current_dt) ->
    reproducible true true with_clock
      (hours_loop L tph output_dir accts custs end_dt current_dt stats).
Proof.
  induction n as [|n IH]; intros current_dt stats Hn.
  - eapply repro_ext with (m' := ret stats); [| apply repro_ret].
    intros w. rewrite card_hours_loop_unfold.
    destruct (Z_le_dec current_dt end_dt); [lia | reflexivity].
  - eapply repro_ext
      with (m' := bind (hour_step L tph output_dir accts custs current_dt stats)
                       (hours_loop L tph output_dir accts custs end_dt
                                   (current_dt + 1))).
    + intros w. rewrite card_hours_loop_unfold.
      destruct (Z_le_dec current_dt end_dt); [reflexivity | lia].
    + apply repro_bind; [apply card_hour_step_repro |].
      intros stats'. apply IH. lia.
Qed.

Lemma make_account_ids_repro : reproducible true true with_clock (make_account_ids L).
Proof. unfold make_account_ids. repro_steps. Qed.

Lemma make_customer_ids_repro : reproducible true true with_clock (make_customer_ids L).
Proof. unfold make_customer_ids. repro_steps. Qed.

(** Between two given dates the run depends on nothing but its arguments:
    both generators are seeded before the first draw. *)
Lemma card_generate_between_repro with_np with_py s e tph output_dir seed :
  reproducible with_np with_py with_clock
    (generate_between L s e tph output_dir seed).
Proof.
  unfold generate_between.
  apply repro_seed_numpy; intros _.
  apply repro_seed_python; intros _.
  cbv zeta.
  apply repro_bind; [apply make_account_ids_repro | intros accts].
  apply repro_bind; [apply make_customer_ids_repro | intros custs].
  apply repro_bind; [| intros stats; apply repro_ret].
  eapply card_hours_loop_repro. reflexivity.
Qed.

End CardFraudReproducible.

Section CardFraudDates.

Import CardFraud Calendar.
Variable L : Library.

Lemma card_resolve_dates_repro with_np with_py start_date end_date past_days future_days :
  reproducible (C := list Transaction) with_np with_py true
    (resolve_dates L start_date end_date past_days future_days).
Proof. unfold resolve_dates. destruct start_date, end_date; repro_steps. Qed.

Lemma card_resolve_dates_given with_np with_py with_clock s e past_days future_days :
  reproducible (C := list Transaction) with_np with_py with_clock
    (resolve_dates L (Some s) (Some e) past_days future_days).
Proof. apply repro_ret. Qed.

(** [generate_dataset] of the card-fraud generator: the same outcome from
    any two worlds when both dates are given, and from any two worlds whose
    clocks show the same day otherwise. *)
Lemma card_generate_dataset_same start_date end_date past_days future_days
    tph output_dir seed (w1 w2 : Sys.World L (list Transaction)) :
  (start_date = None \/ end_date = None -> clock w1 / 86400 = clock w2 / 86400) ->
  same_outcome
    (generate_dataset L start_date end_date past_days future_days tph output_dir seed)
    w1 w2.
Proof.
  intros Hc. unfold generate_dataset.
  destruct start_date as [s|]; [destruct end_date as [e|] |].
  - apply (repro_bind false false false);
      [apply card_resolve_dates_given | intros; apply card_generate_between_repro |].
    repeat split; discriminate.
  - apply (repro_bind false false true);
      [apply card_resolve_dates_repro | intros; apply card_generate_between_repro |].
    repeat split; try discriminate. intros _. apply Hc. auto.
  - apply (repro_bind false false true);
      [apply card_resolve_dates_repro | intros; apply card_generate_between_repro |].
    repeat split; try discriminate. intros _. apply Hc. auto.
Qed.

End CardFraudDates.

Section CcApplicationReproducible.

Import CcApplication Calendar.
Variable L : Library.

Lemma cc_draw_features_repro with_py with_clock n :
  reproducible true with_py with_clock (draw_features L n).
Proof. unfold draw_features, choices. repro_steps. Qed.

Lemma cc_write_partition_repro with_np with_py with_clock output_path g :
  reproducible (L:=L) with_np with_py with_clock (write_partition L output_path g).
Proof. unfold write_partition. repro_steps. Qed.

(** [generate_dataset] of the credit-card application generator: the NumPy
    generator is seeded, Python's generator is not used, and the clock is
    read for today's date. *)
Lemma cc_generate_dataset_repro with_np with_py n_samples output_dir seed
    past_days future_days :
  reproducible with_np with_py true
    (generate_dataset L n_samples output_dir seed past_days future_days).
Proof.
  unfold generate_dataset.
  apply repro_seed_numpy; intros _.
  apply repro_if; [apply repro_ret |]. cbv zeta.
  apply repro_bind; [apply cc_draw_features_repro | intros f].
  apply repro_bind;
    [apply repro_for_each; intros i; unfold draw_actual_label; repro_steps
    | intros actual_labels].
  apply repro_bind;
    [apply repro_for_each; intros i; unfold draw_predicted_prob; repro_steps
    | intros predicted_probs].
  apply repro_bind; [unfold choices; repro_steps | intros is_valid].
  apply repro_bind; [apply repro_today | intros today].
  apply repro_if; [apply repro_ret |].
  apply repro_bind;
    [apply repro_for_each; intros i; unfold draw_timestamp; repro_steps
    | intros timestamps].
  destruct (build_rows _ _ _ _ _ _); [apply repro_ret |].
  destruct output_dir; [| apply repro_ret].
  apply repro_bind; [| intros; apply repro_ret].
  apply repro_for_each. intros g. apply cc_write_partition_repro.
Qed.

End CcApplicationReproducible.

Section MultiClassReproducible.

Import MultiClass Calendar.
Variable L : Library.
Variable with_clock : bool.

Lemma multi_gen_row_repro current_dt priors accts segs i :
  reproducible true true with_clock (gen_row L current_dt priors accts segs i).
Proof.
  unfold gen_row, choice, pick.
  apply repro_bind; [apply repro_np | intros gt_idx]. cbv zeta.
  destruct (AMOUNT_LOG_PARAMS _) as [log_mean log_sigma].
  repro_steps.
Qed.

Lemma multi_txn_loop_repro current_dt date_str priors accts segs idxs :
  forall rows stats,
    reproducible true true with_clock
      (txn_loop L idxs current_dt date_str priors accts segs rows stats).
Proof.
  induction idxs as [|i idxs IH]; intros rows stats; cbn [txn_loop].
  - apply repro_ret.
  - apply repro_bind; [apply multi_gen_row_repro |].
    intros r. apply IH.
Qed.

Lemma multi_hours_loop_repro tph accts segs end_dt (n : nat) :
  forall current_dt acc,
    n = Z.to_nat (end_dt + 1 - current_dt) ->
    reproducible true true with_clock
      (hours_loop L tph accts segs end_dt current_dt acc).
Proof.
  induction n as [|n IH]; intros current_dt acc Hn.
  - eapply repro_ext with (m' := ret acc); [| apply repro_ret].
    intros w. rewrite multi_hours_loop_unfold.
    destruct (Z_le_dec current_dt end_dt); [lia | reflexivity].
  - eapply repro_ext
      with (m' := bind (hour_step L tph accts segs current_dt (fst acc) (snd acc))
                       (hours_loop L tph accts segs end_dt (current_dt + 1))).
    + intros w. rewrite multi_hours_loop_unfold.
      destruct (Z_le_dec current_dt end_dt); [reflexivity | lia].
    + apply repro_bind.
      * unfold hour_step. cbv zeta. apply multi_txn_loop_repro.
      * intros acc'. apply IH. lia.
Qed.

Lemma multi_write_parquet_repro with_np with_py keys rows output_path :
  forall stats,
    reproducible (L:=L) with_np with_py with_clock
      (write_parquet L keys rows output_path stats).
Proof.
  induction keys as [|k keys IH]; intros stats; cbn [write_parquet].
  - apply repro_ret.
  - cbv zeta. apply repro_bind; [apply repro_emit | intros _].
    apply repro_bind; [apply repro_emit | intros _]. apply IH.
Qed.

End MultiClassReproducible.

Section MultiClassDates.

Import MultiClass Calendar.
Variable L : Library.

Lemma multi_resolve_dates_repro with_np with_py start_date end_date past_days future_days :
  reproducible (C := list Row) with_np with_py true
    (resolve_dates L start_date end_date past_days future_days).
Proof. unfold resolve_dates. destruct start_date, end_date; repro_steps. Qed.

Lemma multi_generate_rows_repro with_np with_py with_clock
    start_date end_date past_days future_days tph seed :
  with_clock = true \/ (start_date <> None /\ end_date <> None) ->
  reproducible with_np with_py with_clock
    (generate_rows L start_date end_date past_days future_days tph seed).
Proof.
  intros Hd. unfold generate_rows.
  apply repro_seed_numpy; intros _.
  apply repro_seed_python; intros _.
  apply repro_bind.
  - destruct Hd as [-> | [Hs He]]; [apply multi_resolve_dates_repro |].
    destruct start_date; [| contradiction]. destruct end_date; [| contradiction].
    apply repro_ret.
  - intros [s e]. cbv zeta.
    apply repro_bind; [apply repro_py | intros sample].
    apply repro_bind;
      [apply repro_for_each; intros a; unfold choice; repro_steps
      | intros account_segment].
    eapply multi_hours_loop_repro. reflexivity.
Qed.

Lemma multi_generate_dataset_repro with_np with_py with_clock
    start_date end_date past_days future_days tph output_dir seed :
  with_clock = true \/ (start_date <> None /\ end_date <> None) ->
  reproducible with_np with_py with_clock
    (generate_dataset L start_date end_date past_days future_days tph
                      output_dir seed).
Proof.
  intros Hd. unfold generate_dataset.
  apply repro_bind; [apply multi_generate_rows_repro, Hd |].
  intros [rows stats].
  apply repro_bind.
  - destruct output_dir; [apply multi_write_parquet_repro | apply repro_ret].
  - intros stats'. apply repro_if; apply repro_ret.
Qed.

(** [generate_dataset] of the multi-class generator: as for the card-fraud
    generator. *)
Lemma multi_generate_dataset_same start_date end_date past_days future_days
    tph output_dir seed (w1 w2 : Sys.World L (list Row)) :
  (start_date = None \/ end_date = None -> clock w1 / 86400 = clock w2 / 86400) ->
  same_outcome
    (generate_dataset L start_date end_date past_days future_days tph output_dir seed)
    w1 w2.
Proof.
  intros Hc.
  destruct start_date as [s|]; [destruct end_date as [e|] |].
  - apply (multi_generate_dataset_repro false false false).
    + right. split; discriminate.
    + repeat split; discriminate.
  - apply (multi_generate_dataset_repro false false true); [left; reflexivity |].
    repeat split; try discriminate. intros _. apply Hc. auto.
  - apply (multi_generate_dataset_repro false false true); [left; reflexivity |].
    repeat split; try discriminate. intros _. apply Hc. auto.
Qed.

End MultiClassDates.



(* ===================================================================== *)
(** * The card-fraud generator: the size of a run and its counters *)
(* ===================================================================== *)

Section CardFraudCounts.

Import CardFraud Calendar.
Variable L : Library.
Variables accts custs : list string.

Lemma frauds_app (l1 l2 : list Transaction) :
  frauds (l1 ++ l2) = frauds l1 + frauds l2.
Proof. unfold frauds. rewrite filter_app, length_app. lia. Qed.

Lemma frauds_bounds (l : list Transaction) :
  0 <= frauds l <= Z.of_nat (List.length l).
Proof.
  unfold frauds. pose proof (filter_length_le (fun t => is_fraud t =? 1) l). lia.
Qed.

(** The inner loop counts the records it appends and the frauds among
    them. *)
Lemma txn_loop_counts current_dt (n : nat) :
  forall acc stats w,
    let r := txn_loop L n current_dt accts custs acc stats w in
    exists new,
      fst (fst r) = acc ++ new /\
      List.length new = n /\
      total_transactions (snd (fst r)) = total_transactions stats + Z.of_nat n /\
      total_fraud (snd (fst r)) = total_fraud stats + frauds new /\
      files_created (snd (fst r)) = files_created stats /\
      fs_log (snd r) = fs_log w.
Proof.
  induction n as [|n IH]; intros acc stats w; cbv zeta.
  - exists []. unfold frauds. simpl. rewrite app_nil_r.
    repeat split; try reflexivity; lia.
  - set (g := gen_transaction L current_dt (List.length acc) accts custs w).
    change (txn_loop L (Datatypes.S n) current_dt accts custs acc stats w)
      with (txn_loop L n current_dt accts custs (acc ++ [fst g])
                     (count (fst g) stats) (snd g)).
    destruct (IH (acc ++ [fst g]) (count (fst g) stats) (snd g))
      as (new & Hl & Hn & Ht & Hfr & Hf & Hlog).
    destruct (gen_transaction_quiet L accts custs current_dt (List.length acc) w)
      as [_ Ql].
    fold g in Ql.
    exists (fst g :: new). repeat split.
    + rewrite Hl, <- app_assoc. reflexivity.
    + simpl. congruence.
    + rewrite Ht. cbn [count total_transactions]. lia.
    + rewrite Hfr. cbn [count total_fraud].
      change (fst g :: new) with ([fst g] ++ new). rewrite frauds_app.
      assert (H1 : frauds [fst g] = if is_fraud (fst g) =? 1 then 1 else 0).
      { unfold frauds. cbn [filter]. destruct (is_fraud (fst g) =? 1); reflexivity. }
      rewrite H1. destruct (is_fraud (fst g) =? 1); lia.
    + rewrite Hf. reflexivity.
    + congruence.
Qed.

Variable transactions_per_hour : Z.
Variable output_dir : option path.

Lemma hour_step_counts current_dt stats w :
  let r := hour_step L transactions_per_hour output_dir accts custs
                     current_dt stats w in
  exists recs,
    List.length recs = Z.to_nat transactions_per_hour /\
    fs_log (snd r) = fs_log w ++ hour_events output_dir current_dt recs /\
    total_transactions (fst r) =
      total_transactions stats + Z.of_nat (List.length recs) /\
    total_fraud (fst r) = total_fraud stats + frauds recs.
Proof.
  cbv zeta. unfold hour_step, bind. cbv zeta.
  destruct (txn_loop_counts current_dt (Z.to_nat transactions_per_hour) [] stats w)
    as (new & Hl & Hn & Ht & Hfr & Hf & Hlog).
  destruct (txn_loop L (Z.to_nat transactions_per_hour) current_dt accts custs
                     [] stats w) as [[transactions stats'] w'].
  simpl in Hl, Hn, Ht, Hfr, Hf, Hlog. subst transactions.
  exists new. cbn [fst snd].
  destruct output_dir as [output_path|]; cbn [hour_events].
  - unfold emit, ret. cbn [fst snd fs_log created total_transactions total_fraud].
    rewrite Hlog, <- app_assoc. simpl.
    repeat split; try assumption. rewrite Ht, Hn. reflexivity.
  - unfold ret. cbn [fst snd]. rewrite app_nil_r.
    repeat split; try assumption. rewrite Ht, Hn. reflexivity.
Qed.

Variable end_dt : datetime.

Lemma hours_loop_counts (n : nat) :
  forall current_dt stats w,
    n = Z.to_nat (end_dt + 1 - current_dt) ->
    let r := hours_loop L transactions_per_hour output_dir accts custs end_dt
                        current_dt stats w in
    exists batches,
      List.length batches = n /\
      fs_log (snd r) =
        fs_log w ++
        List.concat (map (fun hb => hour_events output_dir (fst hb) (snd hb))
                    (combine (hours_from current_dt n) batches)) /\
      total_transactions (fst r) =
        total_transactions stats + Z.of_nat (List.length (List.concat batches)) /\
      total_fraud (fst r) = total_fraud stats + frauds (List.concat batches).
Proof.
  induction n as [|n IH]; intros current_dt stats w Hn; cbv zeta;
    rewrite card_hours_loop_unfold;
    destruct (Z_le_dec current_dt end_dt) as [Hle|Hgt]; try lia.
  - exists []. cbn [fst snd hours_from seq map combine List.concat List.length].
    rewrite app_nil_r. unfold frauds. simpl. repeat split; lia.
  - destruct (hour_step_counts current_dt stats w) as (recs & Hr & Hlog & Ht & Hfr).
    cbv zeta in Hlog, Ht, Hfr.
    set (h := hour_step L transactions_per_hour output_dir accts custs
                        current_dt stats w) in *.
    destruct (IH (current_dt + 1) (fst h) (snd h)) as
      (batches & Hlen & Hlog' & Ht' & Hfr'); [lia|].
    cbv zeta in Hlog', Ht', Hfr'.
    exists (recs :: batches). rewrite hours_from_succ.
    cbn [combine map List.concat fst snd].
    repeat split.
    + simpl. congruence.
    + rewrite Hlog', Hlog, <- app_assoc. reflexivity.
    + rewrite Ht', Ht, length_app. lia.
    + rewrite Hfr', Hfr, frauds_app. lia.
Qed.

End CardFraudCounts.

Section CardFraudTotals.

Import CardFraud Calendar.
Variable L : Library.

Lemma map_snd_combine {A B} (xs : list A) :
  forall ys : list B,
    List.length ys = List.length xs -> map snd (combine xs ys) = ys.
Proof.
  induction xs as [|x xs IH]; intros [|y ys] Hlen; try discriminate;
    [reflexivity|].
  simpl. f_equal. apply IH. simpl in Hlen. lia.
Qed.

Lemma records_written_batches d (hours : list datetime) :
  forall batches : list (list Transaction),
    List.length batches = List.length hours ->
    records_written
      (List.concat (map (fun hb => hour_events (Some d) (fst hb) (snd hb))
                        (combine hours batches))) =
    List.concat batches.
Proof.
  intros batches Hlen. unfold records_written.
  rewrite hour_events_written by exact Hlen.
  f_equal. apply map_snd_combine. rewrite length_map. exact Hlen.
Qed.

(** The counters of a run between two dates. *)
Lemma generate_between_counts s e transactions_per_hour output_dir seed :
  observes
    (generate_between L s e transactions_per_hour output_dir seed)
    (fun now log stats w' =>
       let hours := hours_between (midnight s) (midnight e) in
       exists batches,
         List.length batches = List.length hours /\
         fs_log w' =
           log ++
           List.concat (map (fun hb => hour_events output_dir (fst hb) (snd hb))
                            (combine hours batches)) /\
         total_transactions stats = Z.of_nat (List.length (List.concat batches)) /\
         total_fraud stats = frauds (List.concat batches) /\
         fraud_rate stats =
           Some (if 0 <? total_transactions stats
                 then PyFloat (float_of_Z (total_fraud stats) /
                               float_of_Z (total_transactions stats))
                 else PyInt 0)).
Proof.
  unfold generate_between.
  apply observes_quiet_bind with (P := fun _ => True);
    [apply quiet_seed_numpy | apply returns_any | intros _ _].
  apply observes_quiet_bind with (P := fun _ => True);
    [apply quiet_seed_python | apply returns_any | intros _ _].
  cbv zeta.
  apply observes_quiet_bind with (P := fun _ => True);
    [apply make_account_ids_quiet | apply returns_any | intros accts _].
  apply observes_quiet_bind with (P := fun _ => True);
    [apply make_customer_ids_quiet | apply returns_any | intros custs _].
  apply observes_map. intros w.
  destruct (hours_loop_counts L accts custs transactions_per_hour output_dir
              (midnight e) (Z.to_nat (midnight e + 1 - midnight s))
              (midnight s) (initial_stats s e) w eq_refl)
    as (batches & Hlen & Hlog & Ht & Hfr).
  cbv zeta in Hlog, Ht, Hfr.
  exists batches.
  cbn [with_rate total_transactions total_fraud fraud_rate].
  unfold hours_between, hours_from in *.
  rewrite length_map, length_seq.
  repeat split.
  - exact Hlen.
  - exact Hlog.
  - rewrite Ht. cbn [initial_stats total_transactions]. lia.
  - rewrite Hfr. cbn [initial_stats total_fraud]. lia.
Qed.

Lemma generate_dataset_counts start_date end_date past_days future_days
    transactions_per_hour output_dir seed :
  observes
    (generate_dataset L start_date end_date past_days future_days
                      transactions_per_hour output_dir seed)
    (fun now log stats w' =>
       let dates := run_dates start_date end_date past_days future_days now in
       let hours := hours_between (midnight (fst dates)) (midnight (snd dates)) in
       exists batches,
         List.length batches = List.length hours /\
         fs_log w' =
           log ++
           List.concat (map (fun hb => hour_events output_dir (fst hb) (snd hb))
                            (combine hours batches)) /\
         total_transactions stats = Z.of_nat (List.length (List.concat batches)) /\
         total_fraud stats = frauds (List.concat batches) /\
         fraud_rate stats =
           Some (if 0 <? total_transactions stats
                 then PyFloat (float_of_Z (total_fraud stats) /
                               float_of_Z (total_transactions stats))
                 else PyInt 0)).
Proof.
  intros w. unfold generate_dataset, bind. cbv zeta.
  rewrite card_resolve_dates_value.
  destruct (card_resolve_dates_quiet L start_date end_date past_days
              future_days w) as [Qc Ql].
  rewrite <- Qc, <- Ql.
  exact (generate_between_counts _ _ transactions_per_hour output_dir seed _).
Qed.

Lemma hours_between_length first last :
  Z.of_nat (List.length (hours_between first last)) = Z.max 0 (last + 1 - first).
Proof.
  unfold hours_between, hours_from. rewrite length_map, length_seq. lia.
Qed.

End CardFraudTotals.

(** The counters of a card-fraud run count the records it generates: with
    an output directory, [total_transactions] is the number of records in
    the files written and [total_fraud] the number of those with
    [is_fraud = 1]; in every run [0 <= total_fraud <= total_transactions],
    and [fraud_rate] is their quotient, or the integer 0 when there is no
    transaction (no division by zero). *)
Theorem card_fraud_counters (L : Library) start_date end_date past_days
    future_days transactions_per_hour output_dir seed w :
  let r := CardFraud.generate_dataset L start_date end_date past_days
             future_days transactions_per_hour output_dir seed w in
  let stats := fst r in
  0 <= CardFraud.total_fraud stats <= CardFraud.total_transactions stats /\
  CardFraud.fraud_rate stats =
    Some (if 0 <? CardFraud.total_transactions stats
          then PyFloat (float_of_Z (CardFraud.total_fraud stats) /
                        float_of_Z (CardFraud.total_transactions stats))
          else PyInt 0) /\
  (output_dir <> None ->
   exists new,
     fs_log (snd r) = fs_log w ++ new /\
     CardFraud.total_transactions stats =
       Z.of_nat (List.length (CardFraud.records_written new)) /\
     CardFraud.total_fraud stats =
       CardFraud.frauds (CardFraud.records_written new)).
Proof.
  intros r stats.
  destruct (generate_dataset_counts L start_date end_date past_days future_days
              transactions_per_hour output_dir seed w)
    as (batches & Hlen & Hlog & Ht & Hfr & Hrate).
  fold r in Hlog, Ht, Hfr, Hrate. fold stats in Ht, Hfr, Hrate.
  split; [| split].
  - rewrite Ht, Hfr. apply frauds_bounds.
  - exact Hrate.
  - intros Hout. destruct output_dir as [d|]; [| contradiction].
    eexists. split; [exact Hlog |].
    rewrite records_written_batches by exact Hlen.
    split; assumption.
Qed.

(* ===================================================================== *)
(** * The card-fraud generator: the reference dataset *)
(* ===================================================================== *)

Section CardFraudReference.

Import CardFraud Calendar.
Variable L : Library.

(** A run between two given dates, in one statement: counters, date range
    and what is written. *)
Lemma card_run_given s e past_days future_days tph output_dir seed w :
  let r := generate_dataset L (Some s) (Some e) past_days future_days tph
                            output_dir seed w in
  let hours := Z.max 0 (24 * (e - s) + 1) in
  date_range (fst r) = (format_date s ++ " to " ++ format_date e)%string /\
  total_transactions (fst r) = Z.max 0 tph * hours /\
  files_created (fst r) = match output_dir with Some _ => hours | None => 0 end /\
  confined output_dir (clock w) (fs_log w) (snd r).
Proof.
  intros r hours.
  destruct (generate_dataset_spec L (Some s) (Some e) past_days future_days
              tph output_dir seed w)
    as (accts & custs & batches & _ & Hc & Hlog & Ht & Hf & Hd).
  fold r in Hc, Hlog, Ht, Hf, Hd. cbn [run_dates fst snd] in *.
  assert (Hh : Z.of_nat (List.length (hours_between (midnight s) (midnight e)))
               = hours).
  { rewrite hours_between_length. unfold hours, midnight. f_equal. lia. }
  rewrite Hh in Ht, Hf.
  split; [exact Hd | split; [| split; [exact Hf |]]].
  - rewrite Ht. f_equal. lia.
  - split; [exact Hc |]. eexists. split; [exact Hlog |].
    destruct output_dir as [d|].
    + apply hour_events_under.
    + apply hour_events_none.
Qed.

End CardFraudReference.

(* ===================================================================== *)
(** * The order of the floats *)
(* ===================================================================== *)

Section FloatKeys.

Ltac key_case :=
  unfold key_lt, key_le; cbn [order_key fst snd];
  split;
  [ intros H; repeat split; try discriminate; try lia; try discriminate H
  | intros (Hx & Hy & H); try reflexivity; try congruence; try lia ].

Lemma SFltb_key (x y : spec_float) :
  SFltb x y = true <->
  x <> S754_nan /\ y <> S754_nan /\ key_lt (order_key x) (order_key y).
Proof.
  unfold SFltb.
  destruct x as [sx|sx| |sx mx ex], y as [sy|sy| |sy my ey];
    try destruct sx; try destruct sy; cbn [SFcompare];
    try (key_case; fail).
  - rewrite Pos.compare_cont_spec. cbn [Pos.switch_Eq].
    destruct (Z.compare_spec ex ey) as [E|E|E];
      [destruct (Pos.compare_spec mx my) as [F|F|F] | |];
      cbn [CompOpp]; key_case.
  - rewrite Pos.compare_cont_spec. cbn [Pos.switch_Eq].
    destruct (Z.compare_spec ex ey) as [E|E|E];
      [destruct (Pos.compare_spec mx my) as [F|F|F] | |];
      key_case.
Qed.

Lemma SFleb_key (x y : spec_float) :
  SFleb x y = true <->
  x <> S754_nan /\ y <> S754_nan /\ key_le (order_key x) (order_key y).
Proof.
  unfold SFleb.
  destruct x as [sx|sx| |sx mx ex], y as [sy|sy| |sy my ey];
    try destruct sx; try destruct sy; cbn [SFcompare];
    try (key_case; fail).
  - rewrite Pos.compare_cont_spec. cbn [Pos.switch_Eq].
    destruct (Z.compare_spec ex ey) as [E|E|E];
      [destruct (Pos.compare_spec mx my) as [F|F|F] | |];
      cbn [CompOpp]; key_case.
  - rewrite Pos.compare_cont_spec. cbn [Pos.switch_Eq].
    destruct (Z.compare_spec ex ey) as [E|E|E];
      [destruct (Pos.compare_spec mx my) as [F|F|F] | |];
      key_case.
Qed.

Lemma is_number_spec (x : float) : is_number x = true <-> Prim2SF x <> S754_nan.
Proof.
  unfold is_number. split.
  - intros H E. apply is_nan_spec in E. rewrite E in H. discriminate.
  - intros H. destruct (is_nan x) eqn:E; [| reflexivity].
    apply is_nan_spec in E. contradiction.
Qed.

Lemma ltb_key (x y : float) :
  (x <? y)%float = true <->
  is_number x = true /\ is_number y = true /\
  key_lt (order_key (Prim2SF x)) (order_key (Prim2SF y)).
Proof. rewrite ltb_spec, SFltb_key, !is_number_spec. reflexivity. Qed.

Lemma leb_key (x y : float) :
  (x <=? y)%float = true <->
  is_number x = true /\ is_number y = true /\
  key_le (order_key (Prim2SF x)) (order_key (Prim2SF y)).
Proof. rewrite leb_spec, SFleb_key, !is_number_spec. reflexivity. Qed.

(** The order is transitive. *)
Lemma leb_trans (x y z : float) :
  (x <=? y)%float = true -> (y <=? z)%float = true -> (x <=? z)%float = true.
Proof.
  rewrite !leb_key. unfold key_le.
  intros (Hx & Hy & H1) (_ & Hz & H2). repeat split; try assumption. lia.
Qed.

Lemma ltb_leb_trans (x y z : float) :
  (x <? y)%float = true -> (y <=? z)%float = true -> (x <? z)%float = true.
Proof.
  rewrite !ltb_key, leb_key. unfold key_le, key_lt.
  intros (Hx & Hy & H1) (_ & Hz & H2). repeat split; try assumption. lia.
Qed.

Lemma leb_ltb_trans (x y z : float) :
  (x <=? y)%float = true -> (y <? z)%float = true -> (x <? z)%float = true.
Proof.
  rewrite !ltb_key, leb_key. unfold key_le, key_lt.
  intros (Hx & Hy & H1) (_ & Hz & H2). repeat split; try assumption. lia.
Qed.

(** On numbers, [x < y] fails exactly when [y <= x]. *)
Lemma ltb_false_leb (x y : float) :
  is_number x = true -> is_number y = true ->
  ((x <? y)%float = false <-> (y <=? x)%float = true).
Proof.
  intros Hx Hy. rewrite leb_key.
  destruct (x <? y)%float eqn:E.
  - apply ltb_key in E. destruct E as (_ & _ & E).
    unfold key_le, key_lt in *. split; [discriminate |].
    intros (_ & _ & H). lia.
  - split; [| reflexivity]. intros _.
    repeat split; try assumption.
    assert (N : ~ key_lt (order_key (Prim2SF x)) (order_key (Prim2SF y))).
    { intros K. assert (T : (x <? y)%float = true) by (apply ltb_key; auto).
      congruence. }
    unfold key_le, key_lt in *. lia.
Qed.

End FloatKeys.

Section CardFraudDerived.

Import CardFraud Calendar.
Variable L : Library.

(** The fields of a record that are computed from its other fields. *)
Lemma gen_transaction_derived current_dt index accts custs :
  returns (gen_transaction L current_dt index accts custs)
    (fun t =>
       within 0 1 (fraud_score t) = true /\
       risk_rank t = rank (fraud_score t) /\
       fraud_pred t = predict (fraud_score t) /\
       rules_engine_flag t =
         if ((200 <? txn_amount t) && (30 <? distance_from_home_km t))%float
         then 1 else 0).
Proof.
  unfold gen_transaction.
  returns_steps.
  apply returns_ret.
  cbn [fraud_score risk_rank fraud_pred rules_engine_flag txn_amount
       distance_from_home_km].
  split; [| repeat split].
  apply py_clamp_range'; reflexivity.
Qed.

(** The risk rank and the prediction of a score between 0 and 1. *)
Lemma rank_predict (fs : float) :
  within 0 1 fs = true ->
  (predict fs = 1 -> 4 <= rank fs) /\
  (rank fs = 5 -> predict fs = 1) /\
  (rank fs <= 3 -> predict fs = 0).
Proof.
  intros Hw. apply within_split in Hw. destruct Hw as [H0 _].
  pose proof (leb_number_r _ _ H0) as Hn.
  unfold predict, rank.
  destruct (0.5 <=? fs)%float eqn:P;
    destruct (fs <? 0.1)%float eqn:R1;
    [ pose proof (leb_ltb_trans _ _ _ P R1) as C; discriminate C | | | ];
    destruct (fs <? 0.2)%float eqn:R2;
    try (pose proof (leb_ltb_trans _ _ _ P R2) as C; discriminate C);
    destruct (fs <? 0.4)%float eqn:R3;
    try (pose proof (leb_ltb_trans _ _ _ P R3) as C; discriminate C);
    destruct (fs <? 0.6)%float eqn:R4;
    repeat split; intros; try lia; try discriminate.
  exfalso.
  apply (ltb_false_leb fs 0.6 Hn eq_refl) in R4.
  assert (T : (0.5 <=? fs)%float = true)
    by (apply (leb_trans 0.5 0.6 fs); [reflexivity | exact R4]).
  congruence.
Qed.

End CardFraudDerived.

(** In every record of the card-fraud generator the risk rank agrees with
    the prediction: a predicted fraud has rank 4 or 5, rank 5 is always a
    predicted fraud, and ranks 1 to 3 never are; and the rules-engine flag
    is 1 exactly when the amount is above 200 and the distance from home
    above 30. *)
Theorem card_fraud_rank_agrees_with_prediction (L : Library) current_dt index
    accts custs w :
  let t := fst (CardFraud.gen_transaction L current_dt index accts custs w) in
  (CardFraud.fraud_pred t = 1 -> 4 <= CardFraud.risk_rank t <= 5) /\
  (CardFraud.risk_rank t = 5 -> CardFraud.fraud_pred t = 1) /\
  (CardFraud.risk_rank t <= 3 -> CardFraud.fraud_pred t = 0) /\
  (CardFraud.rules_engine_flag t = 1 <->
   (200 <? CardFraud.txn_amount t)%float = true /\
   (30 <? CardFraud.distance_from_home_km t)%float = true).
Proof.
  intros t.
  destruct (gen_transaction_derived L current_dt index accts custs w)
    as (Hw & Hr & Hp & Hf).
  fold t in Hw, Hr, Hp, Hf.
  destruct (rank_predict _ Hw) as (H1 & H2 & H3).
  rewrite Hr, Hp, Hf.
  split; [| split; [exact H2 | split; [exact H3 |]]].
  - intros H. split; [apply H1, H |].
    unfold CardFraud.rank.
    repeat match goal with |- context [if ?c then _ else _] => destruct c end; lia.
  - destruct (200 <? CardFraud.txn_amount t)%float,
             (30 <? CardFraud.distance_from_home_km t)%float; simpl;
      split; try tauto; try discriminate; intros [? ?]; discriminate.
Qed.

(* ===================================================================== *)
(** * Rounding: the magnitude of a rounded result *)
(* ===================================================================== *)

Section Rounding.

Lemma Zdigits2_nonneg (m : Z) : 0 <= Zdigits2 m.
Proof. destruct m; simpl; lia. Qed.

Lemma Zdigits2_gt (m : Z) : 0 <= m -> m < 2 ^ Zdigits2 m.
Proof.
  destruct m as [|p|p]; simpl; intros H; [lia | | lia].
  apply digits2_pos_bounds.
Qed.

Lemma Zdigits2_le (m k : Z) : 0 <= m < 2 ^ k -> 0 <= k -> Zdigits2 m <= k.
Proof.
  destruct m as [|p|p]; simpl; intros [H1 H2] Hk; [lia | | lia].
  pose proof (digits2_pos_bounds p) as [Hd _].
  destruct (Z_le_gt_dec (Zpos (digits2_pos p)) k) as [Hle|Hgt]; [exact Hle |].
  exfalso.
  assert (2 ^ k <= 2 ^ (Zpos (digits2_pos p) - 1))
    by (apply Z.pow_le_mono_r; lia).
  lia.
Qed.

Lemma Zdigits2_ge (p : positive) (k : Z) :
  Zpos (digits2_pos p) + 0 <= k -> Zpos p < 2 ^ k.
Proof.
  intros H. pose proof (digits2_pos_bounds p) as [_ Hd].
  assert (2 ^ Zpos (digits2_pos p) <= 2 ^ k) by (apply Z.pow_le_mono_r; lia).
  lia.
Qed.

(** Shifting right by [n] digits takes [n] digits off. *)
Lemma Zdigits2_div_pow (m n : Z) :
  0 <= m -> 0 <= n -> Zdigits2 (m / 2 ^ n) <= Z.max (Zdigits2 m - n) 0.
Proof.
  intros Hm Hn.
  pose proof (Zdigits2_gt m Hm) as Hd.
  pose proof (Zdigits2_nonneg m) as Hd0.
  assert (Hp : 0 < 2 ^ n) by (apply Z.pow_pos_nonneg; lia).
  destruct (Z_le_gt_dec n (Zdigits2 m)) as [Hle|Hgt].
  - apply Zdigits2_le; [| lia]. split; [apply Z.div_pos; lia |].
    apply Z.div_lt_upper_bound; [lia |].
    rewrite <- Z.pow_add_r by lia.
    replace (n + Z.max (Zdigits2 m - n) 0) with (Zdigits2 m) by lia. exact Hd.
  - assert (2 ^ Zdigits2 m <= 2 ^ n) by (apply Z.pow_le_mono_r; lia).
    rewrite Z.div_small by lia. simpl. lia.
Qed.

Lemma shr_1_m (mrs : shr_record) :
  0 <= shr_m mrs -> shr_m (shr_1 mrs) = shr_m mrs / 2.
Proof.
  destruct mrs as [m r s]. cbn [shr_m shr_1]. intros H.
  rewrite <- Z.div2_div.
  destruct m as [|p|p]; [reflexivity | | lia].
  destruct p; reflexivity.
Qed.

Lemma iter_shr_1_m (p : positive) :
  forall mrs, 0 <= shr_m mrs ->
    shr_m (iter_pos shr_1 p mrs) = shr_m mrs / 2 ^ Zpos p.
Proof.
  induction p as [p IH|p IH|]; intros mrs H; cbn [iter_pos].
  - assert (H1 : 0 <= shr_m (shr_1 mrs))
      by (rewrite shr_1_m by exact H; apply Z.div_pos; lia).
    assert (Hp : 0 < 2 ^ Zpos p) by (apply Z.pow_pos_nonneg; lia).
    assert (H2 : 0 <= shr_m (iter_pos shr_1 p (shr_1 mrs)))
      by (rewrite IH by exact H1; apply Z.div_pos; lia).
    rewrite IH by exact H2. rewrite IH by exact H1. rewrite shr_1_m by exact H.
    rewrite !Z.div_div by lia. f_equal.
    rewrite (Pos2Z.inj_xI p).
    replace (2 * Zpos p + 1) with (1 + Zpos p + Zpos p) by lia.
    rewrite !Z.pow_add_r by lia. change (2 ^ 1) with 2. lia.
  - assert (Hp : 0 < 2 ^ Zpos p) by (apply Z.pow_pos_nonneg; lia).
    assert (H2 : 0 <= shr_m (iter_pos shr_1 p mrs))
      by (rewrite IH by exact H; apply Z.div_pos; lia).
    rewrite IH by exact H2. rewrite IH by exact H.
    rewrite !Z.div_div by lia. f_equal.
    rewrite (Pos2Z.inj_xO p).
    replace (2 * Zpos p) with (Zpos p + Zpos p) by lia.
    rewrite !Z.pow_add_r by lia. reflexivity.
  - rewrite shr_1_m by exact H. reflexivity.
Qed.

Lemma shr_spec (mrs : shr_record) (e n : Z) :
  0 <= shr_m mrs ->
  shr_m (fst (shr mrs e n)) = shr_m mrs / 2 ^ Z.max n 0 /\
  snd (shr mrs e n) = e + Z.max n 0.
Proof.
  intros H. destruct n as [|p|p]; cbn [shr fst snd].
  - change (Z.max 0 0) with 0. rewrite Z.pow_0_r, Z.div_1_r. split; lia.
  - rewrite iter_shr_1_m by exact H.
    replace (Z.max (Zpos p) 0) with (Zpos p) by lia. split; reflexivity.
  - replace (Z.max (Zneg p) 0) with 0 by lia.
    rewrite Z.pow_0_r, Z.div_1_r. split; lia.
Qed.

Lemma shr_record_of_loc_m (m : Z) (l : location) :
  shr_m (shr_record_of_loc m l) = m.
Proof. destruct l as [|[]]; reflexivity. Qed.

Lemma round_nearest_even_range (m : Z) (l : location) :
  m <= round_nearest_even m l <= m + 1.
Proof.
  unfold round_nearest_even. destruct l as [|[]]; try lia.
  destruct (Z.even m); lia.
Qed.

(** What [shr_fexp] returns. *)
Lemma shr_fexp_spec (m e : Z) (l : location) :
  0 <= m ->
  let n := Z.max (fexp prec emax (Zdigits2 m + e) - e) 0 in
  shr_m (fst (shr_fexp prec emax m e l)) = m / 2 ^ n /\
  snd (shr_fexp prec emax m e l) = e + n.
Proof.
  intros H n. unfold shr_fexp.
  pose proof (shr_spec (shr_record_of_loc m l) e
                (fexp prec emax (Zdigits2 m + e) - e)) as S.
  rewrite shr_record_of_loc_m in S. exact (S H).
Qed.

(** Rounding a nonnegative mantissa never gives a NaN, and keeps the
    sign. *)
Lemma round_sign (sx : bool) (mx ex : Z) (lx : location) :
  0 <= mx ->
  match binary_round_aux prec emax sx mx ex lx with
  | S754_zero s | S754_infinity s | S754_finite s _ _ => s = sx
  | S754_nan => False
  end.
Proof.
  intros H. unfold binary_round_aux.
  destruct (shr_fexp prec emax mx ex lx) as [mrs' e'] eqn:E1.
  pose proof (shr_fexp_spec mx ex lx H) as [H1 _]. rewrite E1 in H1.
  cbn [fst] in H1.
  assert (H1' : 0 <= shr_m mrs').
  { rewrite H1. apply Z.div_pos; [lia |]. apply Z.pow_pos_nonneg; lia. }
  pose proof (round_nearest_even_range (shr_m mrs') (loc_of_shr_record mrs')) as Hr.
  destruct (shr_fexp prec emax _ e' loc_Exact) as [mrs'' e''] eqn:E2.
  pose proof (shr_fexp_spec (round_nearest_even (shr_m mrs') (loc_of_shr_record mrs'))
                e' loc_Exact ltac:(lia)) as [H2 _].
  rewrite E2 in H2. cbn [fst] in H2.
  assert (H2' : 0 <= shr_m mrs'').
  { rewrite H2. apply Z.div_pos; [lia |]. apply Z.pow_pos_nonneg; lia. }
  destruct (shr_m mrs''); [reflexivity | | lia].
  destruct (Z.leb e'' (emax - prec)); reflexivity.
Qed.

(** Rounding a mantissa below [2^(K - ex)] gives a finite number below
    [2^(K + 1)]. *)
Lemma round_small (sx : bool) (mx ex : Z) (lx : location) (K : Z) :
  0 <= mx -> ex <= 971 -> ex <= K -> Zdigits2 mx + ex <= K ->
  -1074 <= K <= 1023 ->
  match binary_round_aux prec emax sx mx ex lx with
  | S754_zero _ => True
  | S754_finite _ m e => Zpos (digits2_pos m) + e <= K + 1
  | _ => False
  end.
Proof.
  intros H He HeK Hd HK. unfold binary_round_aux.
  destruct (shr_fexp prec emax mx ex lx) as [mrs' e'] eqn:E1.
  pose proof (shr_fexp_spec mx ex lx H) as [H1 H1e]. rewrite E1 in H1, H1e.
  cbn [fst snd] in H1, H1e. cbv zeta in H1, H1e.
  set (n1 := Z.max (fexp prec emax (Zdigits2 mx + ex) - ex) 0) in *.
  assert (Hn1 : 0 <= n1) by (unfold n1; lia).
  assert (H1' : 0 <= shr_m mrs').
  { rewrite H1. apply Z.div_pos; [lia |]. apply Z.pow_pos_nonneg; lia. }
  assert (D1 : Zdigits2 (shr_m mrs') <= Z.max (Zdigits2 mx - n1) 0).
  { rewrite H1. apply Zdigits2_div_pow; assumption. }
  assert (F1 : fexp prec emax (Zdigits2 mx + ex) =
               Z.max (Zdigits2 mx + ex - 53) (-1074)) by reflexivity.
  pose proof (round_nearest_even_range (shr_m mrs') (loc_of_shr_record mrs')) as Hr.
  set (m1 := round_nearest_even (shr_m mrs') (loc_of_shr_record mrs')) in *.
  assert (D1' : Zdigits2 m1 <= Zdigits2 (shr_m mrs') + 1).
  { pose proof (Zdigits2_gt (shr_m mrs') H1') as G.
    pose proof (Zdigits2_nonneg (shr_m mrs')) as G0.
    apply Zdigits2_le; [| lia]. split; [lia |].
    rewrite Z.pow_add_r by lia. change (2 ^ 1) with 2. lia. }
  destruct (shr_fexp prec emax m1 e' loc_Exact) as [mrs'' e''] eqn:E2.
  pose proof (shr_fexp_spec m1 e' loc_Exact ltac:(lia)) as [H2 H2e].
  rewrite E2 in H2, H2e. cbn [fst snd] in H2, H2e. cbv zeta in H2, H2e.
  set (n2 := Z.max (fexp prec emax (Zdigits2 m1 + e') - e') 0) in *.
  assert (Hn2 : 0 <= n2) by (unfold n2; lia).
  assert (F2 : fexp prec emax (Zdigits2 m1 + e') =
               Z.max (Zdigits2 m1 + e' - 53) (-1074)) by reflexivity.
  assert (H2' : 0 <= shr_m mrs'').
  { rewrite H2. apply Z.div_pos; [lia |]. apply Z.pow_pos_nonneg; lia. }
  assert (D2 : Zdigits2 (shr_m mrs'') <= Z.max (Zdigits2 m1 - n2) 0).
  { rewrite H2. apply Zdigits2_div_pow; [lia | assumption]. }
  pose proof (Zdigits2_nonneg mx) as G0.
  pose proof (Zdigits2_nonneg m1) as G1.
  destruct (shr_m mrs'') as [|m|m] eqn:Em; [exact I | | lia].
  assert (Hle : e'' <= 971) by (unfold n1, n2 in *; lia).
  change (emax - prec) with 971.
  apply Z.leb_le in Hle. rewrite Hle.
  cbn [Zdigits2] in D2. unfold n1, n2 in *. lia.
Qed.

End Rounding.

(* ===================================================================== *)
(** * Magnitudes: results that are numbers *)
(* ===================================================================== *)

Section Magnitudes.

Lemma valid_finite (x : float) s m e :
  Prim2SF x = S754_finite s m e ->
  e = Z.max (Zpos (digits2_pos m) + e - 53) (-1074) /\ e <= 971.
Proof.
  intros E. pose proof (Prim2SF_valid x) as Hv. rewrite E in Hv.
  unfold SpecFloat.valid_binary, bounded, canonical_mantissa, fexp,
    SpecFloat.emin in Hv.
  apply andb_true_iff in Hv. destruct Hv as [Hcan Hb].
  apply Z.eqb_eq in Hcan. apply Z.leb_le in Hb.
  unfold prec, emax in *. lia.
Qed.

Lemma small_mono (K K' : Z) (x : float) : K <= K' -> small K x -> small K' x.
Proof.
  unfold small. intros HK. destruct (Prim2SF x); auto. lia.
Qed.

Lemma small_number (K : Z) (x : float) : small K x -> is_number x = true.
Proof.
  unfold small. intros H. apply is_number_spec.
  destruct (Prim2SF x); try discriminate. contradiction.
Qed.

Lemma digits2_pos_mul (a b : positive) :
  Zpos (digits2_pos (a * b)) <= Zpos (digits2_pos a) + Zpos (digits2_pos b).
Proof.
  pose proof (digits2_pos_bounds a) as [_ Ha].
  pose proof (digits2_pos_bounds b) as [_ Hb].
  change (Zpos (digits2_pos (a * b))) with (Zdigits2 (Zpos (a * b))).
  apply Zdigits2_le; [| lia].
  rewrite Pos2Z.inj_mul, Z.pow_add_r by lia. split; [lia | nia].
Qed.

(** The product of two small numbers is a small number. *)
Lemma mul_small (K1 K2 : Z) (x y : float) :
  small K1 x -> small K2 y -> K1 <= 1024 -> K2 <= 1024 ->
  -1074 <= K1 + K2 <= 1023 ->
  small (K1 + K2 + 1) (x * y).
Proof.
  unfold small. intros Hx Hy H1 H2 HK. rewrite mul_spec.
  destruct (Prim2SF x) as [sx|sx| |sx mx ex] eqn:Ex; try contradiction;
    destruct (Prim2SF y) as [sy|sy| |sy my ey] eqn:Ey; try contradiction;
    try exact I.
  destruct (valid_finite x _ _ _ Ex) as [Cx Bx].
  destruct (valid_finite y _ _ _ Ey) as [Cy By].
  unfold SF64mul, SFmul.
  pose proof (digits2_pos_mul mx my) as Hd.
  apply round_small; cbn [Zdigits2]; lia.
Qed.

Lemma digits2_pos_iter_xO (m d : positive) :
  Zpos (digits2_pos (Pos.iter xO m d)) = Zpos (digits2_pos m) + Zpos d.
Proof.
  induction d as [|d IH] using Pos.peano_ind.
  - cbn [Pos.iter digits2_pos]. lia.
  - rewrite Pos.iter_succ. cbn [digits2_pos]. lia.
Qed.

Lemma shl_align_digits (mx : positive) (ex ez : Z) :
  ez <= ex ->
  Zpos (digits2_pos (fst (shl_align mx ex ez))) + ez = Zpos (digits2_pos mx) + ex.
Proof.
  intros H. unfold shl_align.
  destruct (ez - ex) as [|d|d] eqn:E; cbn [fst]; try lia.
  rewrite digits2_pos_iter_xO. lia.
Qed.

Lemma shl_align_snd (mx : positive) (ex ez : Z) :
  snd (shl_align mx ex ez) = Z.min ex ez.
Proof.
  unfold shl_align. destruct (ez - ex) as [|d|d] eqn:E; cbn [snd]; lia.
Qed.

Lemma Zdigits2_abs_le (m k : Z) : Z.abs m < 2 ^ k -> 0 <= k -> Zdigits2 m <= k.
Proof.
  intros H Hk. destruct m as [|p|p].
  - simpl. lia.
  - apply Zdigits2_le; lia.
  - change (Zdigits2 (Zneg p)) with (Zdigits2 (Zpos p)).
    apply Zdigits2_le; lia.
Qed.

(** Normalising a mantissa below [2^(K - e)] gives a finite number below
    [2^(K + 1)]. *)
Lemma normalize_small (m e K : Z) (sz : bool) :
  Zdigits2 m + e <= K -> e <= 971 -> -1074 <= K <= 1023 ->
  match binary_normalize prec emax m e sz with
  | S754_zero _ => True
  | S754_finite _ m' e' => Zpos (digits2_pos m') + e' <= K + 1
  | _ => False
  end.
Proof.
  intros Hd He HK. unfold binary_normalize.
  destruct m as [|p|p]; [exact I | |];
    unfold binary_round;
    destruct (shl_align p e (fexp prec emax (Zpos (digits2_pos p) + e)))
      as [mz ez] eqn:E;
    pose proof (shl_align_snd p e (fexp prec emax (Zpos (digits2_pos p) + e))) as Hs;
    rewrite E in Hs; cbn [snd] in Hs;
    assert (Hz : Zpos (digits2_pos mz) + ez = Zpos (digits2_pos p) + e)
      by (destruct (Z_le_gt_dec (fexp prec emax (Zpos (digits2_pos p) + e)) e) as [Hle|Hgt];
          [ pose proof (shl_align_digits p e _ Hle) as Hdg;
            rewrite E in Hdg; cbn [fst] in Hdg;
            replace ez with (fexp prec emax (Zpos (digits2_pos p) + e)) by lia;
            exact Hdg
          | unfold shl_align in E;
            destruct (fexp prec emax (Zpos (digits2_pos p) + e) - e) eqn:E2;
            try lia; injection E as <- <-; reflexivity ]);
    cbn [Zdigits2] in Hd;
    apply round_small; cbn [Zdigits2]; lia.
Qed.

Lemma normalize_not_nan (m e : Z) (sz : bool) :
  binary_normalize prec emax m e sz <> S754_nan.
Proof.
  unfold binary_normalize. destruct m as [|p|p]; [discriminate | |];
    unfold binary_round;
    destruct (shl_align p e _) as [mz ez];
    match goal with
    | |- binary_round_aux _ _ ?s ?mm ?ee ?l <> _ =>
        pose proof (round_sign s mm ee l ltac:(lia)) as R;
        destruct (binary_round_aux prec emax s mm ee l);
        [discriminate | discriminate | contradiction | discriminate]
    end.
Qed.

Lemma shl_align_bound (mx : positive) (ex ez K : Z) :
  ez <= ex -> Zpos (digits2_pos mx) + ex <= K ->
  Zpos (fst (shl_align mx ex ez)) < 2 ^ (K - ez).
Proof.
  intros H1 H2.
  pose proof (shl_align_digits mx ex ez H1) as Hd.
  pose proof (digits2_pos_bounds (fst (shl_align mx ex ez))) as [_ Hb].
  assert (2 ^ Zpos (digits2_pos (fst (shl_align mx ex ez))) <= 2 ^ (K - ez))
    by (apply Z.pow_le_mono_r; lia).
  lia.
Qed.

(** The mantissa of a sum or a difference, before it is normalised. *)
Lemma aligned_sum_digits (sx sy : bool) (mx my : positive) (ex ey K : Z)
    (op : Z -> Z -> Z) :
  (forall a b, Z.abs (op a b) <= Z.abs a + Z.abs b) ->
  Zpos (digits2_pos mx) + ex <= K -> Zpos (digits2_pos my) + ey <= K ->
  Zdigits2 (op (cond_Zopp sx (Zpos (fst (shl_align mx ex (Z.min ex ey)))))
               (cond_Zopp sy (Zpos (fst (shl_align my ey (Z.min ex ey))))))
  + Z.min ex ey <= K + 1.
Proof.
  intros Hop Hx Hy.
  pose proof (shl_align_bound mx ex (Z.min ex ey) K ltac:(lia) Hx) as Bx.
  pose proof (shl_align_bound my ey (Z.min ex ey) K ltac:(lia) Hy) as By.
  set (a := Zpos (fst (shl_align mx ex (Z.min ex ey)))) in *.
  set (b := Zpos (fst (shl_align my ey (Z.min ex ey)))) in *.
  assert (Hk : 0 < K - Z.min ex ey).
  { destruct (Z_lt_le_dec 0 (K - Z.min ex ey)) as [Hp|Hn]; [exact Hp |].
    exfalso. pose proof (digits2_pos_bounds mx). pose proof (digits2_pos_bounds my). lia. }
  assert (Ha : Z.abs (cond_Zopp sx a) = a) by (destruct sx; simpl; lia).
  assert (Hb : Z.abs (cond_Zopp sy b) = b) by (destruct sy; simpl; lia).
  pose proof (Hop (cond_Zopp sx a) (cond_Zopp sy b)) as Hs.
  rewrite Ha, Hb in Hs.
  assert (Hd : Zdigits2 (op (cond_Zopp sx a) (cond_Zopp sy b))
               <= K + 1 - Z.min ex ey).
  { apply Zdigits2_abs_le; [| lia].
    replace (K + 1 - Z.min ex ey) with (1 + (K - Z.min ex ey)) by lia.
    rewrite Z.pow_add_r by lia. change (2 ^ 1) with 2. lia. }
  lia.
Qed.

(** The sum and the difference of two small numbers are small numbers. *)
Lemma add_small (K : Z) (x y : float) :
  small K x -> small K y -> -1075 <= K <= 1022 -> small (K + 2) (x + y).
Proof.
  unfold small. intros Hx Hy HK. rewrite add_spec.
  destruct (Prim2SF x) as [sx|sx| |sx mx ex] eqn:Ex; try contradiction;
    destruct (Prim2SF y) as [sy|sy| |sy my ey] eqn:Ey; try contradiction;
    unfold SF64add, SFadd.
  - destruct sx, sy; exact I.
  - lia.
  - lia.
  - destruct (valid_finite x _ _ _ Ex) as [Cx Bx].
    destruct (valid_finite y _ _ _ Ey) as [Cy By].
    cbv zeta.
    pose proof (aligned_sum_digits sx sy mx my ex ey K Z.add
                  ltac:(intros; lia) Hx Hy) as Hd.
    pose proof (normalize_small _ (Z.min ex ey) (K + 1) false Hd
                  ltac:(lia) ltac:(lia)) as Hn.
    destruct (binary_normalize prec emax _ (Z.min ex ey) false);
      try contradiction; [exact I | lia].
Qed.

Lemma sub_small (K : Z) (x y : float) :
  small K x -> small K y -> -1075 <= K <= 1022 -> small (K + 2) (x - y).
Proof.
  unfold small. intros Hx Hy HK. rewrite sub_spec.
  destruct (Prim2SF x) as [sx|sx| |sx mx ex] eqn:Ex; try contradiction;
    destruct (Prim2SF y) as [sy|sy| |sy my ey] eqn:Ey; try contradiction;
    unfold SF64sub, SFsub.
  - destruct sx, sy; exact I.
  - lia.
  - lia.
  - destruct (valid_finite x _ _ _ Ex) as [Cx Bx].
    destruct (valid_finite y _ _ _ Ey) as [Cy By].
    cbv zeta.
    pose proof (aligned_sum_digits sx sy mx my ex ey K Z.sub
                  ltac:(intros; lia) Hx Hy) as Hd.
    pose proof (normalize_small _ (Z.min ex ey) (K + 1) false Hd
                  ltac:(lia) ltac:(lia)) as Hn.
    destruct (binary_normalize prec emax _ (Z.min ex ey) false);
      try contradiction; [exact I | lia].
Qed.

(** Adding a small number to a number gives a number, and so does
    multiplying a number by a finite number that is not zero. *)
Lemma add_number_small (K : Z) (x y : float) :
  is_number x = true -> small K y -> is_number (x + y) = true.
Proof.
  rewrite !is_number_spec. unfold small. intros Hx Hy. rewrite add_spec.
  destruct (Prim2SF x) as [sx|sx| |sx mx ex]; try congruence;
    destruct (Prim2SF y) as [sy|sy| |sy my ey]; try contradiction;
    unfold SF64add, SFadd; try discriminate.
  - destruct sx, sy; discriminate.
  - apply normalize_not_nan.
Qed.

Lemma small_add_number (K : Z) (x y : float) :
  small K x -> is_number y = true -> is_number (x + y) = true.
Proof.
  rewrite !is_number_spec. unfold small. intros Hx Hy. rewrite add_spec.
  destruct (Prim2SF x) as [sx|sx| |sx mx ex]; try contradiction;
    destruct (Prim2SF y) as [sy|sy| |sy my ey]; try congruence;
    unfold SF64add, SFadd; try discriminate.
  - destruct sx, sy; discriminate.
  - apply normalize_not_nan.
Qed.

Lemma mul_number_large (L : Z) (x y : float) :
  is_number x = true -> large L y -> is_number (x * y) = true.
Proof.
  rewrite !is_number_spec. unfold large. intros Hx Hy. rewrite mul_spec.
  destruct (Prim2SF x) as [sx|sx| |sx mx ex]; try congruence;
    destruct (Prim2SF y) as [sy|sy| |sy my ey]; try contradiction;
    unfold SF64mul, SFmul; try discriminate.
  pose proof (round_sign (xorb sx sy) (Zpos (mx * my)) (ex + ey) loc_Exact
                ltac:(lia)) as R.
  destruct (binary_round_aux prec emax _ _ _ _); try discriminate. contradiction.
Qed.

(** The quotient of a small number by a number that is not small. *)
Lemma div_small (K L : Z) (x y : float) :
  small K x -> large L y -> -1075 <= K - L <= 1022 ->
  small (K - L + 2) (x / y).
Proof.
  unfold small, large. intros Hx Hy HK. rewrite div_spec.
  destruct (Prim2SF x) as [sx|sx| |sx mx ex] eqn:Ex; try contradiction;
    destruct (Prim2SF y) as [sy|sy| |sy my ey] eqn:Ey; try contradiction;
    unfold SF64div, SFdiv; [exact I |].
  unfold SFdiv_core_binary. cbv zeta. cbn [Zdigits2].
  set (z := Zpos (digits2_pos mx) + ex - (Zpos (digits2_pos my) + ey)).
  set (e' := Z.min (fexp prec emax z) (ex - ey)).
  set (s := ex - ey - e').
  set (m' := match s with
             | 0 => Zpos mx
             | Zpos _ => Z.shiftl (Zpos mx) s
             | Zneg _ => 0
             end).
  assert (Hs : 0 <= s) by (unfold s, e'; lia).
  assert (Hm' : m' = Zpos mx * 2 ^ s).
  { unfold m'. destruct s as [|p|p] eqn:Es.
    - rewrite Z.pow_0_r. lia.
    - apply Z.shiftl_mul_pow2. lia.
    - lia. }
  clearbody m'.
  assert (F : fexp prec emax z = Z.max (z - 53) (-1074)) by reflexivity.
  destruct (Z.div_eucl m' (Zpos my)) as [q r] eqn:Eq.
  assert (Hq : q = m' / Zpos my) by (unfold Z.div; rewrite Eq; reflexivity).
  pose proof (digits2_pos_bounds mx) as [_ Bx].
  pose proof (digits2_pos_bounds my) as [By _].
  assert (P1 : 0 < 2 ^ s) by (apply Z.pow_pos_nonneg; lia).
  assert (P2 : 0 < 2 ^ (Zpos (digits2_pos my) - 1))
    by (apply Z.pow_pos_nonneg; lia).
  assert (Hq0 : 0 <= q) by (rewrite Hq; apply Z.div_pos; lia).
  assert (Hd : Zdigits2 q <=
               Z.max (Zpos (digits2_pos mx) + s - Zpos (digits2_pos my) + 1) 0).
  { destruct (Z_le_gt_dec 0 (Zpos (digits2_pos mx) + s - Zpos (digits2_pos my) + 1))
      as [Hge|Hlt].
    - apply Zdigits2_le; [| lia]. split; [exact Hq0 |].
      rewrite Hq. apply Z.div_lt_upper_bound; [lia |].
      assert (B1 : m' < 2 ^ (Zpos (digits2_pos mx) + s)).
      { rewrite Hm', Z.pow_add_r by lia. nia. }
      assert (B2 : 2 ^ (Zpos (digits2_pos mx) + s) =
                   2 ^ (Zpos (digits2_pos my) - 1) *
                   2 ^ Z.max (Zpos (digits2_pos mx) + s - Zpos (digits2_pos my) + 1) 0).
      { rewrite <- Z.pow_add_r by lia. f_equal. lia. }
      assert (P3 : 0 < 2 ^ Z.max (Zpos (digits2_pos mx) + s
                                  - Zpos (digits2_pos my) + 1) 0)
        by (apply Z.pow_pos_nonneg; lia).
      nia.
    - assert (B1 : m' < 2 ^ (Zpos (digits2_pos mx) + s)).
      { rewrite Hm', Z.pow_add_r by lia. nia. }
      assert (B2 : 2 ^ (Zpos (digits2_pos mx) + s) <=
                   2 ^ (Zpos (digits2_pos my) - 1))
        by (apply Z.pow_le_mono_r; lia).
      assert (Hz : q = 0) by (rewrite Hq; apply Z.div_small; lia).
      rewrite Hz. simpl. lia. }
  pose proof (round_small (xorb sx sy) q e' (new_location (Zpos my) r)
                (K - L + 1) Hq0) as R.
  assert (He' : e' <= 971) by (unfold e'; lia).
  assert (HeK : e' <= K - L + 1) by (unfold e', z in *; lia).
  assert (HdK : Zdigits2 q + e' <= K - L + 1) by (unfold s, e', z in *; lia).
  specialize (R He' HeK HdK ltac:(lia)).
  replace (K - L + 2) with (K - L + 1 + 1) by lia.
  exact R.
Qed.

(** An integer below [2^k] converts to a small number. *)
Lemma float_of_Z_small (z k : Z) :
  0 <= z < 2 ^ k -> 0 <= k <= 62 -> small (k + 1) (float_of_Z z).
Proof.
  intros Hz Hk. unfold small, float_of_Z.
  assert (Hw : 2 ^ k < Uint63.wB).
  { apply Z.lt_le_trans with (2 ^ 63); [apply Z.pow_lt_mono_r; lia |].
    vm_compute. discriminate. }
  pose proof (of_uint63_spec (Uint63.of_Z z)) as Hs.
  rewrite Uint63.of_Z_spec, Z.mod_small in Hs by lia.
  assert (Hv : valid_binary (binary_normalize prec emax z 0 false) = true)
    by (rewrite <- Hs; apply Prim2SF_valid).
  rewrite (Prim2SF_SF2Prim _ Hv).
  assert (Hd : Zdigits2 z + 0 <= k) by (pose proof (Zdigits2_le z k Hz); lia).
  exact (normalize_small z 0 k false Hd ltac:(lia) ltac:(lia)).
Qed.

(** A number between two small numbers is small. *)
Lemma within_small (K : Z) (lo hi x : float) :
  within lo hi x = true -> small K lo -> small K hi -> -1021 <= K -> small K x.
Proof.
  intros Hw Hlo Hhi HK. apply within_split in Hw. destruct Hw as [H1 H2].
  apply leb_key in H1. apply leb_key in H2.
  destruct H1 as (_ & Hnx & H1). destruct H2 as (_ & _ & H2).
  apply is_number_spec in Hnx.
  unfold small in *. unfold key_le in *.
  destruct (Prim2SF x) as [sx|sx| |sx mx ex] eqn:Ex.
  - exact I.
  - destruct sx; cbn [order_key fst snd] in *.
    + destruct (Prim2SF lo) as [s|s| |s m e]; try contradiction;
        try destruct s; cbn [order_key fst snd] in H1; lia.
    + destruct (Prim2SF hi) as [s|s| |s m e]; try contradiction;
        try destruct s; cbn [order_key fst snd] in H2; lia.
  - contradiction.
  - destruct (valid_finite x _ _ _ Ex) as [Cx _].
    destruct sx; cbn [order_key fst snd] in *.
    + destruct (Prim2SF lo) as [s|s| |s m e] eqn:El; try contradiction;
        try destruct s; cbn [order_key fst snd] in H1; try lia.
      destruct (valid_finite lo _ _ _ El) as [Cl _]. lia.
    + destruct (Prim2SF hi) as [s|s| |s m e] eqn:Eh; try contradiction;
        try destruct s; cbn [order_key fst snd] in H2; try lia.
      destruct (valid_finite hi _ _ _ Eh) as [Ch _]. lia.
Qed.

(** [min(1.0, x)] of a small number is small. *)
Lemma py_min_small (K : Z) (a b : float) :
  small K a -> small K b -> small K (py_min a b).
Proof. unfold py_min. destruct (b <? a)%float; auto. Qed.

End Magnitudes.

(* ===================================================================== *)
(** * The credit-card application generator: every column *)
(* ===================================================================== *)

Ltac small_const :=
  unfold small, large; vm_compute;
  first [ exact I | let H := fresh in intro H; discriminate H ].

Section CcApplicationColumns.

Import CcApplication.
Variable L : Library.
Hypothesis HL : LibraryLaws L.

Lemma map2_Forall_from {A B D} (f : A -> B -> D) (P : A -> Prop) (Q : B -> Prop)
    (R : D -> Prop) xs ys :
  Forall P xs -> Forall Q ys -> (forall a b, P a -> Q b -> R (f a b)) ->
  Forall R (map2 f xs ys).
Proof.
  intros HP HQ H. unfold map2. apply Forall_forall. intros d Hd.
  apply in_map_iff in Hd. destruct Hd as ([a b] & <- & Hab).
  rewrite Forall_forall in HP, HQ.
  apply H; [apply HP | apply HQ].
  - exact (in_combine_l _ _ _ _ Hab).
  - exact (in_combine_r _ _ _ _ Hab).
Qed.

Lemma map2_Forall2 {A B D} (f : A -> B -> D) (Q : B -> Prop)
    (R : A -> D -> Prop) xs :
  forall ys, List.length xs = List.length ys -> Forall Q ys ->
    (forall a b, Q b -> R a (f a b)) -> Forall2 R xs (map2 f xs ys).
Proof.
  unfold map2. induction xs as [|x xs IH]; intros [|y ys] Hlen HQ H;
    try discriminate; simpl; constructor.
  - apply H. inversion HQ; assumption.
  - apply IH; [simpl in Hlen; lia | inversion HQ; assumption | exact H].
Qed.

(** The debt-to-income ratio of an applicant is a number: what is clipped
    has magnitude below 64. *)
Lemma debt_to_income_number (b : float) (income : Z) :
  within 0 1 b = true -> 20000 <= income <= 200000 ->
  within 0 0.8
    (np_clip (b * 0.8 + (1 - float_of_Z income / 200000) * 0.2) 0 0.8) = true.
Proof.
  intros Hb Hi.
  apply np_clip_range; try reflexivity.
  assert (S1 : small 2 (b * 0.8)).
  { apply (mul_small 1 0); try lia; [| small_const].
    apply (within_small 1 0 1); [exact Hb | small_const | small_const | lia]. }
  assert (S2 : small 19 (float_of_Z income)).
  { apply (float_of_Z_small income 18); [| lia].
    change (2 ^ 18) with 262144. lia. }
  assert (S3 : small 3 (float_of_Z income / 200000)).
  { apply (div_small 19 18); [exact S2 | small_const | lia]. }
  assert (S4 : small 5 (1 - float_of_Z income / 200000)).
  { apply (sub_small 3); [small_const | exact S3 | lia]. }
  assert (S5 : small 4 ((1 - float_of_Z income / 200000) * 0.2)).
  { apply (mul_small 5 (-2)); try lia; [exact S4 | small_const]. }
  apply (small_number 6).
  apply (add_small 4); [| exact S5 | lia].
  apply (small_mono 2); [lia | exact S1].
Qed.

(** The columns drawn are sound. *)
Lemma draw_features_sound (n : nat) :
  returns (draw_features L n) (features_sound n).
Proof.
  unfold draw_features, choices.
  eapply returns_bind.
  { apply returns_replicate with (Q := fun _ => True). apply returns_any. }
  intros groups [Hgr _].
  eapply returns_bind.
  { apply returns_replicate with (Q := fun x => is_number x = true).
    apply returns_np. intros s. apply (normal_number L HL); reflexivity. }
  intros normals [Hn1 Hn2]. lazy beta zeta.
  eapply returns_bind.
  { apply returns_replicate with (Q := fun _ => True). apply returns_any. }
  intros lognormals [Hl1 _]. lazy beta zeta.
  eapply returns_bind.
  { apply returns_replicate with (Q := fun _ => True). apply returns_any. }
  intros gammas [Hg1 _]. lazy beta zeta.
  eapply returns_bind.
  { apply returns_replicate with (Q := fun _ => True). apply returns_any. }
  intros employment [He1 _].
  eapply returns_bind.
  { apply returns_replicate with (Q := fun _ => True). apply returns_any. }
  intros uniforms [Hu1 _].
  lazy beta zeta.
  eapply returns_bind.
  { apply returns_replicate with (Q := fun b => within 0 1 b = true).
    apply returns_np. intros s. apply (beta_unit L HL); reflexivity. }
  intros betas [Hb1 Hb2]. lazy beta zeta.
  eapply returns_bind.
  { apply returns_replicate with (Q := fun _ => True). apply returns_any. }
  intros poissons [Hp1 _].
  lazy beta zeta.
  eapply returns_bind.
  { apply returns_replicate with (Q := fun _ => True). apply returns_any. }
  intros normals' [Hm1 _].
  lazy beta zeta.
  apply returns_ret. unfold features_sound.
  cbn [f_groups f_credit_score f_annual_income f_age f_employment_status
       f_years_at_job f_debt_to_income f_num_credit_cards
       f_years_credit_history].
  assert (Hcredit : Forall (fun c => 300 <= c <= 850)
            (map (fun x => astype_int (np_clip x 300 850)) normals)).
  { apply Forall_forall. intros c Hc. apply in_map_iff in Hc.
    destruct Hc as (x & <- & Hx).
    apply astype_int_credit. apply np_clip_range; try reflexivity.
    rewrite Forall_forall in Hn2. apply Hn2. exact Hx. }
  assert (Hincome : Forall (fun c => 20000 <= c <= 200000)
            (map (fun x => np_clip_int (astype_int x) 20000 200000) lognormals)).
  { apply map_Forall_all. intros a. apply np_clip_int_range. lia. }
  split; [| split; [exact Hcredit | split; [exact Hincome | split; [| split; [| split; [| split]]]]]].
  - repeat split;
      repeat first [ rewrite length_map | apply map2_length ];
      try assumption;
      repeat first [ rewrite length_map | apply map2_length ]; assumption.
  - apply map_Forall_all. intros a. apply np_clip_int_range. lia.
  - apply map2_Forall2 with (Q := fun y => 0 <= y <= 40).
    + unfold map2. rewrite length_map, length_combine, !length_map. lia.
    + apply map2_Forall. intros a u. apply np_clip_int_range. lia.
    + intros e y Hy. destruct e; split; try lia;
        try (intros [H|H]; discriminate H); auto.
  - apply map2_Forall_from
      with (P := fun d => exists b, within 0 1 b = true /\ d = (b * 0.8)%float)
           (Q := fun c => 20000 <= c <= 200000).
    + apply Forall_forall. intros d Hd. apply in_map_iff in Hd.
      destruct Hd as (b & <- & Hb). exists b. split; [| reflexivity].
      rewrite Forall_forall in Hb2. apply Hb2, Hb.
    + exact Hincome.
    + intros d income (b & Hb & ->) Hi. apply debt_to_income_number; assumption.
  - apply map2_Forall. intros a b. apply np_clip_int_range. lia.
  - apply Forall_forall. intros y Hy. apply in_map_iff in Hy.
    destruct Hy as (y0 & <- & Hy0).
    assert (H : 0 <= y0 <= 50).
    { revert y0 Hy0. apply Forall_forall.
      apply map2_Forall. intros a b. apply np_clip_int_range. lia. }
    lia.
Qed.

(** The score of the model is a number: its deterministic part has
    magnitude below 4096, and the noise is a number. *)
Lemma model_score_number group c income dti emp hist noise :
  300 <= c <= 850 -> 20000 <= income <= 200000 ->
  within 0 0.8 dti = true -> 0 <= hist <= 50 -> is_number noise = true ->
  is_number (model_score group c income dti emp hist noise) = true.
Proof.
  intros Hc Hi Hd Hh Hn. unfold model_score. cbv zeta.
  assert (T1 : small 4 (float_of_Z (c - 300) / 550 * 0.35)).
  { apply (small_mono 3); [lia |].
    apply (mul_small 3 (-1)); try lia; [| small_const].
    apply (div_small 11 10); [| small_const | lia].
    apply (float_of_Z_small (c - 300) 10); [| lia].
    change (2 ^ 10) with 1024. lia. }
  assert (T2 : small 4 (py_min 1.0 (float_of_Z income / 100000) * 0.25)).
  { apply (mul_small 4 (-1)); try lia; [| small_const].
    apply py_min_small; [small_const |].
    apply (div_small 19 17); [| small_const | lia].
    apply (float_of_Z_small income 18); [| lia].
    change (2 ^ 18) with 262144. lia. }
  assert (T3 : small 6 ((1.0 - dti) * 0.2)).
  { apply (small_mono 2); [lia |].
    apply (mul_small 3 (-2)); try lia; [| small_const].
    apply (sub_small 1); [small_const | | lia].
    apply (within_small 1 0 0.8); [exact Hd | small_const | small_const | lia]. }
  assert (T4 : small 8 (employment_weight emp * 0.1)).
  { destruct emp; small_const. }
  assert (T5 : small 10 (py_min 1.0 (float_of_Z hist / 10) * 0.1)).
  { apply (small_mono 3); [lia |].
    apply (mul_small 5 (-3)); try lia; [| small_const].
    apply py_min_small; [small_const |].
    apply (div_small 7 4); [| small_const | lia].
    apply (float_of_Z_small hist 6); [| lia].
    change (2 ^ 6) with 64. lia. }
  assert (S : small 12
            (float_of_Z (c - 300) / 550 * 0.35 +
             py_min 1.0 (float_of_Z income / 100000) * 0.25 +
             (1.0 - dti) * 0.2 + employment_weight emp * 0.1 +
             py_min 1.0 (float_of_Z hist / 10) * 0.1)).
  { apply (add_small 10); [| exact T5 | lia].
    apply (add_small 8); [| exact T4 | lia].
    apply (add_small 6); [| exact T3 | lia].
    apply (add_small 4); [exact T1 | exact T2 | lia]. }
  pose proof (small_add_number 12 _ noise S Hn) as N.
  destruct group; try exact N.
  - apply (mul_number_large 1); [exact N | small_const].
  - apply (mul_number_large 0); [exact N | small_const].
Qed.

Lemma returns_for_each_in {C A B} (xs : list A) (body : A -> M L C B)
    (Q : B -> Prop) :
  (forall x, In x xs -> returns (body x) Q) ->
  returns (for_each xs body) (fun l => List.length l = List.length xs /\ Forall Q l).
Proof.
  induction xs as [|x xs IH]; intros Hb; simpl.
  - apply returns_ret. split; [reflexivity | constructor].
  - apply returns_bind with (P := Q); [apply Hb; left; reflexivity |].
    intros b Hq.
    apply returns_bind
      with (P := fun l => List.length l = List.length xs /\ Forall Q l).
    + apply IH. intros y Hy. apply Hb. right. exact Hy.
    + intros l [Hl Hl']. apply returns_ret. split.
      * simpl. congruence.
      * constructor; assumption.
Qed.

(** The predicted probability of an applicant lies between 0.01 and
    0.99. *)
Lemma draw_predicted_prob_sound n f labels i :
  features_sound n f -> (i < n)%nat ->
  returns (draw_predicted_prob L f labels i)
          (fun p => within 0.01 0.99 p = true).
Proof.
  intros (Hlen & Hc & Hi & _ & _ & Hd & _ & Hh) Hlt.
  destruct Hlen as (_ & L1 & L2 & _ & _ & _ & L3 & _ & L4).
  unfold draw_predicted_prob.
  eapply returns_bind.
  { apply returns_np with (Q := fun x => is_number x = true).
    intros s. apply (normal_number L HL); reflexivity. }
  intros noise Hn. lazy beta zeta.
  assert (N : is_number
                (model_score (nth i (f_groups f) Region_North)
                   (nth i (f_credit_score f) 0) (nth i (f_annual_income f) 0)
                   (nth i (f_debt_to_income f) 0%float)
                   (nth i (f_employment_status f) Employed)
                   (nth i (f_years_credit_history f) 0) noise) = true).
  { apply model_score_number; try exact Hn.
    - apply (proj1 (Forall_nth _ _) Hc). lia.
    - apply (proj1 (Forall_nth _ _) Hi). lia.
    - apply (proj1 (Forall_nth _ _) Hd). lia.
    - apply (proj1 (Forall_nth _ _) Hh). lia. }
  assert (Hmix : forall m b, is_number m = true -> within 0 1 b = true ->
            within 0.01 0.99 (np_clip (m * 0.7 + b * 0.3) 0.01 0.99) = true).
  { intros m b Hm Hb. apply np_clip_range; try reflexivity.
    apply (add_number_small 1).
    - apply (mul_number_large 0); [exact Hm | small_const].
    - apply (mul_small 1 (-1)); try lia; [| small_const].
      apply (within_small 1 0 1); [exact Hb | small_const | small_const | lia]. }
  eapply returns_bind
    with (P := fun p => exists m b, is_number m = true /\ within 0 1 b = true /\
                        p = (m * 0.7 + b * 0.3)%float).
  - apply returns_if.
    + eapply returns_bind.
      { apply returns_np with (Q := fun b => within 0 1 b = true).
        intros s. apply (beta_unit L HL); reflexivity. }
      intros b Hb. apply returns_ret. eexists _, b.
      split; [| split; [exact Hb | reflexivity]]. exact N.
    + eapply returns_bind.
      { apply returns_np with (Q := fun b => within 0 1 b = true).
        intros s. apply (beta_unit L HL); reflexivity. }
      intros b Hb. apply returns_ret. eexists _, b.
      split; [| split; [exact Hb | reflexivity]]. exact N.
  - intros p (m & b & Hm & Hb & ->). apply returns_ret. apply Hmix; assumption.
Qed.

End CcApplicationColumns.

Section CcApplicationFrame.

Import CcApplication Calendar.
Variable L : Library.

Lemma observes_today {C A} (k : Z -> M L C A)
    (Q : Z -> list (fs_event C) -> A -> World L C -> Prop) :
  (forall d, observes (k d)
               (fun now log a w' => d = now / 86400 -> Q now log a w')) ->
  observes (bind today k) Q.
Proof.
  intros H w. unfold bind, today. cbn [fst snd].
  apply (H (clock w / 86400) w). reflexivity.
Qed.

Lemma returns_for_each2 {C A B} (xs : list A) (body : A -> M L C B)
    (R : A -> B -> Prop) :
  (forall x, returns (body x) (R x)) ->
  returns (for_each xs body) (Forall2 R xs).
Proof.
  intros Hb. induction xs as [|x xs IH]; simpl.
  - apply returns_ret. constructor.
  - apply returns_bind with (P := R x); [apply Hb |]. intros b Hq.
    apply returns_bind with (P := Forall2 R xs); [exact IH |].
    intros l Hl. apply returns_ret. constructor; assumption.
Qed.

Lemma build_rows_length n f labels probs valid times :
  List.length (build_rows n f labels probs valid times) = n.
Proof. unfold build_rows. rewrite length_map, length_seq. reflexivity. Qed.

(** The partitions of a frame, written one after the other. *)
Lemma write_partitions_events d (gs : list (date * DataFrame)) :
  observes (for_each gs (write_partition L d))
    (fun now log _ w' =>
       fs_log w' =
       log ++
       List.concat
         (map (fun g =>
                 [ Mkdir (join d (format_date (fst g)));
                   WriteFile
                     (join (join d (format_date (fst g)))
                           ("data-" ++ format_date (fst g) ++ ".parquet"))
                     (snd g) ])
              gs)).
Proof.
  induction gs as [|g gs IH]; intros w.
  - simpl. rewrite app_nil_r. reflexivity.
  - cbn [for_each]. unfold bind at 1. cbv zeta.
    set (w1 := snd (write_partition L d g w)).
    unfold bind at 1. cbv zeta. cbn [ret fst snd].
    rewrite (IH w1).
    assert (Hw1 : fs_log w1 =
                  fs_log w ++
                  [ Mkdir (join d (format_date (fst g)));
                    WriteFile
                      (join (join d (format_date (fst g)))
                            ("data-" ++ format_date (fst g) ++ ".parquet"))
                      (snd g) ]).
    { subst w1. unfold write_partition, bind, emit.
      cbn [fst snd fs_log]. rewrite <- app_assoc. reflexivity. }
    rewrite Hw1, <- app_assoc. reflexivity.
Qed.

(** How a call of [generate_dataset] ends. *)
Lemma cc_generate_outcome (Pf : Features -> Prop) (Pp : float -> Prop)
    n_samples output_dir seed past_days future_days :
  returns (draw_features L (Z.to_nat n_samples)) Pf ->
  (forall f labels i, Pf f -> (i < Z.to_nat n_samples)%nat ->
     returns (draw_predicted_prob L f labels i) Pp) ->
  observes
    (generate_dataset L n_samples output_dir seed past_days future_days)
    (fun now log o w' =>
       let total_days := past_days + future_days + 1 in
       match o with
       | Returned df =>
           0 < n_samples /\ total_days <> 0 /\
           frame_drawn L Pf Pp (Z.to_nat n_samples) (now / 86400 - past_days)
                       total_days df /\
           fs_log w' = log ++ partition_events output_dir df
       | Raised e =>
           fs_log w' = log /\
           e = (if n_samples <? 0
                then ValueError "negative dimensions are not allowed"
                else if n_samples =? 0 then IndexError else ZeroDivisionError) /\
           (0 < n_samples -> total_days = 0)
       end).
Proof.
  intros HPf HPp. unfold generate_dataset.
  apply observes_quiet_bind with (P := fun _ => True);
    [apply quiet_seed_numpy | apply returns_any | intros _ _].
  destruct (n_samples <? 0) eqn:En.
  { apply observes_ret. intros w. cbv zeta.
    repeat split; try reflexivity. lia. }
  apply Z.ltb_ge in En.
  lazy beta zeta.
  apply observes_quiet_bind with (P := Pf);
    [| exact HPf | intros f Hf].
  { unfold draw_features, choices. quiet_steps. }
  apply observes_quiet_bind
    with (P := fun l => List.length l = List.length (seq 0 (Z.to_nat n_samples))
                        /\ Forall (drawn_label L) l);
    [| | intros labels [Hl1 Hl2]].
  { apply quiet_for_each. intros i. unfold draw_actual_label. quiet_steps. }
  { apply returns_for_each. intros i. unfold draw_actual_label.
    apply returns_np. intros s. eexists _, s. reflexivity. }
  apply observes_quiet_bind
    with (P := fun l => List.length l = List.length (seq 0 (Z.to_nat n_samples))
                        /\ Forall Pp l);
    [| | intros probs [Hp1 Hp2]].
  { apply quiet_for_each. intros i. unfold draw_predicted_prob. quiet_steps. }
  { apply returns_for_each_in. intros i Hi. apply in_seq in Hi.
    apply HPp; [exact Hf | lia]. }
  apply observes_quiet_bind
    with (P := fun l => List.length l = Z.to_nat n_samples
                        /\ Forall (fun v => v = 0 \/ v = 1) l);
    [| | intros valid [Hv1 Hv2]].
  { unfold choices. quiet_steps. }
  { unfold choices. apply returns_replicate.
    eapply returns_bind; [apply returns_any | intros i _].
    apply returns_ret. destruct i as [|[|i]]; simpl; auto. destruct i; auto. }
  apply observes_today. intros today.
  lazy beta zeta.
  destruct ((past_days + future_days + 1 =? 0) && (0 <? n_samples)) eqn:Ez.
  { apply observes_ret. intros w _. cbv zeta.
    apply andb_true_iff in Ez. destruct Ez as [Ez1 Ez2].
    apply Z.eqb_eq in Ez1. apply Z.ltb_lt in Ez2.
    destruct (n_samples <? 0) eqn:E1; [apply Z.ltb_lt in E1; lia |].
    destruct (n_samples =? 0) eqn:E2; [apply Z.eqb_eq in E2; lia |].
    repeat split; try reflexivity. intros _. exact Ez1. }
  apply observes_quiet_bind
    with (P := Forall2 (stamped L (today - past_days)
                                (past_days + future_days + 1))
                       (seq 0 (Z.to_nat n_samples)));
    [| | intros times Ht].
  { apply quiet_for_each. intros i. unfold draw_timestamp. quiet_steps. }
  { apply returns_for_each2. intros i. unfold draw_timestamp. lazy zeta.
    eapply returns_bind
      with (P := fun h => exists s, h = fst (np_randint L 0 24 s)).
    { apply returns_np. intros s. exists s. reflexivity. }
    intros h [sh ->].
    eapply returns_bind
      with (P := fun h => exists s, h = fst (np_randint L 0 60 s)).
    { apply returns_np. intros s. exists s. reflexivity. }
    intros m [sm ->].
    eapply returns_bind
      with (P := fun h => exists s, h = fst (np_randint L 0 60 s)).
    { apply returns_np. intros s. exists s. reflexivity. }
    intros s0 [ss ->].
    apply returns_ret. exists sh, sm, ss. reflexivity. }
  lazy beta zeta.
  rewrite length_seq in Hl1, Hp1.
  pose proof (build_rows_length (Z.to_nat n_samples) f labels probs valid times)
    as Hlen.
  destruct (build_rows (Z.to_nat n_samples) f labels probs valid times)
    as [|r df] eqn:E.
  { apply observes_ret. intros w _. cbv zeta. simpl in Hlen.
    assert (n_samples = 0) by lia. subst n_samples.
    repeat split; try reflexivity. lia. }
  assert (Hpos : 0 < n_samples) by (simpl in Hlen; lia).
  assert (Htot : past_days + future_days + 1 <> 0).
  { apply andb_false_iff in Ez. destruct Ez as [Ez|Ez].
    - apply Z.eqb_neq in Ez. exact Ez.
    - apply Z.ltb_ge in Ez. lia. }
  assert (Hdrawn : forall now, today = now / 86400 ->
            frame_drawn L Pf Pp (Z.to_nat n_samples) (now / 86400 - past_days)
                        (past_days + future_days + 1) (r :: df)).
  { intros now ->. exists f, labels, probs, valid, times.
    split; [symmetry; exact E |]. split; [exact Hf |].
    repeat split; assumption. }
  destruct output_dir as [d|].
  - apply (observes_map _ (fun _ => Returned (r :: df))).
    intros w Hnow. cbv zeta.
    split; [exact Hpos | split; [exact Htot | split; [apply Hdrawn, Hnow |]]].
    apply write_partitions_events.
  - apply observes_ret. intros w Hnow. cbv zeta.
    split; [exact Hpos | split; [exact Htot | split; [apply Hdrawn, Hnow |]]].
    simpl. rewrite app_nil_r. reflexivity.
Qed.

End CcApplicationFrame.

Section CcApplicationRowsOf.

Import CcApplication Calendar.
Variable L : Library.

(** The columns clipped to integers are within their bounds whatever is
    drawn. *)
Lemma draw_features_clipped (n : nat) :
  returns (draw_features L n) (features_clipped n).
Proof.
  unfold draw_features, choices.
  eapply returns_bind; [apply returns_any | intros groups _].
  eapply returns_bind.
  { apply returns_replicate with (Q := fun _ => True). apply returns_any. }
  intros normals [Hn1 _]. lazy beta zeta.
  eapply returns_bind; [apply returns_any | intros lognormals _].
  lazy beta zeta.
  eapply returns_bind.
  { apply returns_replicate with (Q := fun _ => True). apply returns_any. }
  intros gammas [Hg1 _]. lazy beta zeta.
  eapply returns_bind.
  { apply returns_replicate with (Q := fun _ => True). apply returns_any. }
  intros employment [He1 _].
  eapply returns_bind.
  { apply returns_replicate with (Q := fun _ => True). apply returns_any. }
  intros uniforms [Hu1 _].
  lazy beta zeta.
  eapply returns_bind; [apply returns_any | intros betas _].
  lazy beta zeta.
  eapply returns_bind.
  { apply returns_replicate with (Q := fun _ => True). apply returns_any. }
  intros poissons [Hp1 _].
  lazy beta zeta.
  eapply returns_bind.
  { apply returns_replicate with (Q := fun _ => True). apply returns_any. }
  intros normals' [Hm1 _].
  lazy beta zeta.
  apply returns_ret. unfold features_clipped.
  cbn [f_employment_status f_years_at_job f_num_credit_cards
       f_years_credit_history].
  split; [exact He1 |].
  split; [repeat first [rewrite length_map | apply map2_length]; assumption |].
  split; [repeat first [rewrite length_map | apply map2_length]; assumption |].
  split; [repeat first [rewrite length_map | apply map2_length]; assumption |].
  split; [| split].
  - apply map2_Forall2 with (Q := fun y => 0 <= y <= 40).
    + unfold map2. rewrite length_map, length_combine, !length_map. lia.
    + apply map2_Forall. intros a u. apply np_clip_int_range. lia.
    + intros e y Hy. destruct e; split; try lia;
        try (intros [H|H]; discriminate H); auto.
  - apply map2_Forall. intros a b. apply np_clip_int_range. lia.
  - apply Forall_forall. intros y Hy. apply in_map_iff in Hy.
    destruct Hy as (y0 & <- & Hy0).
    assert (H : 0 <= y0 <= 50).
    { revert y0 Hy0. apply Forall_forall.
      apply map2_Forall. intros a b. apply np_clip_int_range. lia. }
    lia.
Qed.

(** A row of a frame is the row of some applicant. *)
Lemma build_rows_row n f labels probs valid times r :
  In r (build_rows n f labels probs valid times) ->
  exists i, (i < n)%nat /\
    r = {| partition_date := nth i times 0 / 86400;
           timestamp := nth i times 0;
           application_id := Z.of_nat i + 1;
           region := nth i (f_groups f) Region_North;
           actual_label := nth i labels 0;
           predicted_label := predict (nth i probs 0%float);
           predicted_probability := nth i probs 0%float;
           is_valid_application := nth i valid 0;
           credit_score := nth i (f_credit_score f) 0;
           annual_income := nth i (f_annual_income f) 0;
           age := nth i (f_age f) 0;
           employment_status := nth i (f_employment_status f) Employed;
           years_at_job := nth i (f_years_at_job f) 0;
           debt_to_income_ratio := nth i (f_debt_to_income f) 0%float;
           num_credit_cards := nth i (f_num_credit_cards f) 0;
           years_credit_history := nth i (f_years_credit_history f) 0 |}.
Proof.
  unfold build_rows. intros H. apply in_map_iff in H.
  destruct H as (i & <- & Hi). apply in_seq in Hi.
  exists i. split; [lia | reflexivity].
Qed.

Lemma Forall2_nth {A B} (R : A -> B -> Prop) xs ys a b i :
  Forall2 R xs ys -> (i < List.length xs)%nat -> R (nth i xs a) (nth i ys b).
Proof.
  intros H. revert i. induction H as [|x y xs ys Hxy _ IH]; intros i Hi.
  - simpl in Hi. lia.
  - destruct i as [|i]; [exact Hxy |]. simpl. apply IH. simpl in Hi. lia.
Qed.

End CcApplicationRowsOf.

(** In every row of a frame the generator returns, the two float columns
    behind [np.clip] are numbers within their bounds:
    [debt_to_income_ratio] in [0, 0.8] and [predicted_probability] in
    [0.01, 0.99]. No NaN reaches the clip: what is clipped is computed from
    bounded values, and the noise added to the score is a number. *)
Theorem cc_application_floats_in_range (L : Library) (HL : LibraryLaws L)
    n_samples output_dir seed past_days future_days w :
  match fst (CcApplication.generate_dataset L n_samples output_dir seed
               past_days future_days w) with
  | Returned df =>
      Forall (fun r =>
                within 0 0.8 (CcApplication.debt_to_income_ratio r) = true /\
                within 0.01 0.99 (CcApplication.predicted_probability r) = true)
             df
  | Raised _ => True
  end.
Proof.
  pose proof (cc_generate_outcome L
                (CcApplication.features_sound (Z.to_nat n_samples))
                (fun p => within 0.01 0.99 p = true)
                n_samples output_dir seed past_days future_days
                (draw_features_sound L HL _)
                (fun f labels i Hf Hi =>
                   draw_predicted_prob_sound L HL _ f labels i Hf Hi) w) as H.
  cbv zeta in H.
  destruct (fst (CcApplication.generate_dataset L n_samples output_dir seed
                   past_days future_days w)) as [df|e]; [| exact I].
  destruct H as (_ & _ & (f & labels & probs & valid & times & -> & Hf & _ & _
                          & Hp1 & Hp2 & _) & _).
  destruct Hf as (Hlen & _ & _ & _ & _ & Hd & _).
  destruct Hlen as (_ & _ & _ & _ & _ & _ & Ld & _).
  apply Forall_forall. intros r Hr.
  apply build_rows_row in Hr. destruct Hr as (i & Hi & ->).
  cbn [CcApplication.debt_to_income_ratio CcApplication.predicted_probability].
  split.
  - apply (proj1 (Forall_nth _ _) Hd). lia.
  - apply (proj1 (Forall_nth _ _) Hp2). lia.
Qed.

Lemma cc_application_floats_in_range_witness :
  LibraryLaws Demo.lib /\
  match fst (CcApplication.generate_dataset Demo.lib 3 None 42 90 90
               (Demo.world CcApplication.DataFrame)) with
  | Returned df =>
      Forall (fun r =>
                within 0 0.8 (CcApplication.debt_to_income_ratio r) = true /\
                within 0.01 0.99 (CcApplication.predicted_probability r) = true)
             df
  | Raised _ => True
  end.
Proof.
  split.
  - exact demo_laws.
  - exact (cc_application_floats_in_range Demo.lib demo_laws 3 None 42 90 90
             (Demo.world CcApplication.DataFrame)).
Defined.

(** In every row of a frame the generator returns, whatever is drawn:
    [years_at_job] is between 0 and 40, and is 0 for the unemployed and the
    retired; [num_credit_cards] is between 0 and 10;
    [years_credit_history] between 0 and 50; [is_valid_application] and
    [predicted_label] are 0 or 1. *)
Theorem cc_application_integer_columns (L : Library)
    n_samples output_dir seed past_days future_days w :
  match fst (CcApplication.generate_dataset L n_samples output_dir seed
               past_days future_days w) with
  | Returned df =>
      Forall (fun r =>
                0 <= CcApplication.years_at_job r <= 40 /\
                (CcApplication.employment_status r = CcApplication.Unemployed \/
                 CcApplication.employment_status r = CcApplication.Retired ->
                 CcApplication.years_at_job r = 0) /\
                0 <= CcApplication.num_credit_cards r <= 10 /\
                0 <= CcApplication.years_credit_history r <= 50 /\
                (CcApplication.is_valid_application r = 0 \/
                 CcApplication.is_valid_application r = 1) /\
                (CcApplication.predicted_label r = 0 \/
                 CcApplication.predicted_label r = 1))
             df
  | Raised _ => True
  end.
Proof.
  pose proof (cc_generate_outcome L
                (CcApplication.features_clipped (Z.to_nat n_samples))
                (fun _ => True)
                n_samples output_dir seed past_days future_days
                (draw_features_clipped L _)
                (fun _ _ _ _ _ => returns_any _) w) as H.
  cbv zeta in H.
  destruct (fst (CcApplication.generate_dataset L n_samples output_dir seed
                   past_days future_days w)) as [df|e]; [| exact I].
  destruct H as (_ & _ & (f & labels & probs & valid & times & -> & Hf & _ & _
                          & _ & _ & Hv1 & Hv2 & _) & _).
  destruct Hf as (Le & Ly & Lc & Lh & Hey & Hc & Hh).
  apply Forall_forall. intros r Hr.
  apply build_rows_row in Hr. destruct Hr as (i & Hi & ->).
  cbn [CcApplication.years_at_job CcApplication.employment_status
       CcApplication.num_credit_cards CcApplication.years_credit_history
       CcApplication.is_valid_application CcApplication.predicted_label].
  pose proof (Forall2_nth _ _ _ CcApplication.Employed 0 i Hey ltac:(lia))
    as [Hy1 Hy2].
  split; [exact Hy1 | split; [exact Hy2 | split; [| split; [| split]]]].
  - apply (proj1 (Forall_nth _ _) Hc). lia.
  - apply (proj1 (Forall_nth _ _) Hh). lia.
  - apply (proj1 (Forall_nth _ _) Hv2). lia.
  - unfold CcApplication.predict.
    destruct (CcApplication.threshold <=? nth i probs 0)%float; auto.
Qed.

(* ===================================================================== *)
(** * add-fraud-model-aggregations.py: the columns behind the aggregations *)
(* ===================================================================== *)

Section FraudColumns.

Import Onboarding EntryPoints AddFraudModelAggregations.
Local Open Scope string_scope.

(** The lookup walks the schema from its first column. *)
Lemma find_column_first cols name :
  match AddFraudModelAggregations.find_column cols name with
  | Returned id =>
      exists before col after,
        cols = (before ++ col :: after)%list /\
        Forall (fun c => source_name c <> name) before /\
        source_name col = name /\ id = col_id col
  | Raised e =>
      e = ValueError ("Column '" ++ name ++ "' not found in dataset schema") /\
      Forall (fun c => source_name c <> name) cols
  end.
Proof.
  induction cols as [|col cols IH]; simpl.
  - split; [reflexivity | constructor].
  - destruct (String.eqb (source_name col) name) eqn:E.
    + apply String.eqb_eq in E.
      exists [], col, cols. repeat split; [constructor | exact E].
    + apply String.eqb_neq in E.
      destruct (AddFraudModelAggregations.find_column cols name) as [id|e].
      * destruct IH as (before & c & after & -> & Hb & Hc & ->).
        exists (col :: before), c, after.
        repeat split; [constructor; assumption | exact Hc].
      * destruct IH as [-> Hall]. split; [reflexivity | constructor; assumption].
Qed.

Lemma find_column_has dataset name :
  match column_id_from_col_name dataset name with
  | Returned _ => has_column dataset name = true
  | Raised e =>
      has_column dataset name = false /\
      e = ValueError ("Column '" ++ name ++ "' not found in dataset schema")
  end.
Proof.
  unfold column_id_from_col_name, has_column.
  induction (columns dataset) as [|col cols IH]; simpl.
  - split; reflexivity.
  - destruct (String.eqb (source_name col) name); [reflexivity | exact IH].
Qed.

Lemma optional_column_length dataset name :
  List.length (optional_column dataset name) =
  if has_column dataset name then 1%nat else 0%nat.
Proof.
  unfold optional_column.
  pose proof (find_column_has dataset name) as H.
  destruct (column_id_from_col_name dataset name).
  - rewrite H. reflexivity.
  - destruct H as [-> _]. reflexivity.
Qed.

End FraudColumns.

(** [column_id_from_col_name] returns the identifier of the first column of
    the schema that has the name asked for, also when a later column has the
    same name; it raises [ValueError], with the name in the message, exactly
    when no column has that name. *)
Theorem column_lookup_takes_first_match (dataset : Onboarding.Dataset)
    (col_name : string) :
  match AddFraudModelAggregations.column_id_from_col_name dataset col_name with
  | Returned id =>
      exists before col after,
        Onboarding.columns dataset = (before ++ col :: after)%list /\
        Forall (fun c => Onboarding.source_name c <> col_name) before /\
        Onboarding.source_name col = col_name /\
        id = Onboarding.col_id col
  | Raised e =>
      e = ValueError ("Column '" ++ col_name ++ "' not found in dataset schema") /\
      Forall (fun c => Onboarding.source_name c <> col_name)
             (Onboarding.columns dataset)
  end.
Proof. apply find_column_first. Qed.

Ltac missing_column k :=
  exists (firstn k AddFraudModelAggregations.required_columns),
         (nth k AddFraudModelAggregations.required_columns EmptyString),
         (skipn (Datatypes.S k) AddFraudModelAggregations.required_columns);
  cbn [firstn nth skipn AddFraudModelAggregations.required_columns];
  split; [reflexivity |];
  split; [repeat (constructor; [assumption |]); constructor |];
  split; [assumption | reflexivity].

(** [gen_fraud_model_aggregations] returns exactly when the schema has the
    nine required columns; it then yields 21 aggregations and two more for
    each of the optional columns [transaction_amount] and
    [merchant_risk_score] the schema has, and every aggregation has no
    initialisation arguments and starts with the dataset's identifier and
    the identifier of the timestamp column. Otherwise it raises the
    [ValueError] of the first required column, in the order of the lookups,
    that the schema lacks. *)
Theorem fraud_aggregations_need_required_columns (dataset : Onboarding.Dataset) :
  match AddFraudModelAggregations.gen_fraud_model_aggregations dataset with
  | Returned specs =>
      Forall (fun name => AddFraudModelAggregations.has_column dataset name = true)
             AddFraudModelAggregations.required_columns /\
      List.length specs =
        (21 + 2 * List.length
                (filter (AddFraudModelAggregations.has_column dataset)
                        AddFraudModelAggregations.optional_columns))%nat /\
      exists ts,
        AddFraudModelAggregations.column_id_from_col_name dataset "timestamp" =
          Returned ts /\
        Forall (fun agg =>
                  Onboarding.aggregation_init_args agg = [] /\
                  exists rest,
                    Onboarding.aggregation_args agg =
                      Onboarding.mkArg "dataset"
                        (Onboarding.VStr (Onboarding.dataset_id dataset)) ::
                      Onboarding.mkArg "timestamp_col" (Onboarding.VStr ts) :: rest)
               specs
  | Raised e =>
      exists before name after,
        AddFraudModelAggregations.required_columns = (before ++ name :: after)%list /\
        Forall (fun n => AddFraudModelAggregations.has_column dataset n = true) before /\
        AddFraudModelAggregations.has_column dataset name = false /\
        e = ValueError ("Column '" ++ name ++ "' not found in dataset schema")
  end.
Proof.
  unfold AddFraudModelAggregations.gen_fraud_model_aggregations,
         AddFraudModelAggregations.and_then.
  repeat match goal with
  | |- context [match AddFraudModelAggregations.column_id_from_col_name ?d ?n with _ => _ end] =>
      let H := fresh "H" in
      pose proof (find_column_has d n) as H;
      destruct (AddFraudModelAggregations.column_id_from_col_name d n) eqn:?;
      [| destruct H as [H ->];
         first [ missing_column 0%nat | missing_column 1%nat | missing_column 2%nat
               | missing_column 3%nat | missing_column 4%nat | missing_column 5%nat
               | missing_column 6%nat | missing_column 7%nat | missing_column 8%nat ] ]
  end.
  split; [| split].
  - repeat (constructor; [assumption |]). constructor.
  - rewrite !length_app, !length_map, !length_app.
    rewrite !optional_column_length.
    unfold AddFraudModelAggregations.optional_columns. cbn [filter].
    destruct (AddFraudModelAggregations.has_column dataset "transaction_amount"),
             (AddFraudModelAggregations.has_column dataset "merchant_risk_score");
      reflexivity.
  - eexists. split; [reflexivity |].
    repeat first
      [ apply Forall_nil
      | apply Forall_cons; [ split; [reflexivity | eexists; reflexivity] |]
      | apply Forall_app; split
      | apply Forall_forall; intros agg Hin; apply in_map_iff in Hin;
        destruct Hin as (id & <- & _); split; [reflexivity | eexists; reflexivity] ].
Qed.

Section FraudConfirmation.

Import Onboarding EntryPoints AddFraudModelAggregations.
Local Open Scope string_scope.
Local Open Scope run_scope.

(** [main] from the question it asks: what the answer and the update do. *)
Lemma main_confirmation s cfg dataset new :
  serves s dataset ->
  gen_fraud_model_aggregations dataset = Returned new ->
  aggregations_to_add cfg new <> [] ->
  runs (main s) cfg (fun out cfg' o =>
    match input s with
    | Returned response =>
        if String.eqb (lower response) "yes" then
          match put_fails s with
          | None =>
              cfg' = (cfg ++ aggregations_to_add cfg new)%list /\ o = Returned tt /\
              In "Successfully updated model metrics!" out
          | Some e => cfg' = cfg /\ o = Raised e
          end
        else
          cfg' = cfg /\ o = Returned tt /\ In "Cancelled. No changes made." out
    | Raised e => cfg' = cfg /\ o = Raised e
    end).
Proof.
  intros [Ha (info & first & rest & Hm & Hd & Hg)] Hgen Hadd.
  unfold main. run_print.
  apply runs_bind, runs_call. rewrite Ha.
  run_print.
  apply runs_bind, runs_get_model. rewrite Hm.
  repeat run_print.
  cbn [model_datasets metric_config]. rewrite Hd.
  apply runs_bind, runs_call. rewrite Hg.
  repeat run_print.
  apply runs_bind, runs_print_columns. intros out.
  run_print. rewrite Hgen.
  repeat run_print.
  destruct (aggregations_to_add cfg new) as [|agg to_add] eqn:E; [contradiction |].
  repeat run_print.
  apply runs_bind, runs_call.
  destruct (input s) as [response|e]; [| split; reflexivity].
  destruct (String.eqb (lower response) "yes"); cbn [negb].
  2:{ apply runs_print. repeat split. find_line. }
  run_print.
  apply runs_bind, runs_put.
  destruct (put_fails s); [split; reflexivity |].
  repeat run_print. apply runs_print.
  repeat split. find_line.
Qed.

(** What the script's handlers make of the way [main] ends. *)
Lemma script_result s cfg :
  result (script s cfg) =
  match result (main s cfg) with
  | Returned tt => Returned tt
  | Raised e => if is_Exception e then Returned tt else Raised e
  end.
Proof.
  unfold script.
  destruct (result (main s cfg)) as [[]|e] eqn:Hr.
  - unfold add_fraud_model_aggregations.
    rewrite (try_except_returned _ _ _ _ _ Hr). exact Hr.
  - destruct (is_Exception e) eqn:He.
    + destruct (fraud_entry_swallows e He (main s) cfg Hr) as (H & _). exact H.
    + destruct (entry_point_propagates_base add_fraud_model_aggregations_py e He
                  (main s) cfg Hr) as (H & _).
      exact H.
Qed.

End FraudConfirmation.

(** add-fraud-model-aggregations.py replaces the metric configuration only
    after the user has answered yes, in any letter case, and the platform
    has accepted the update. With aggregations to add: on yes and a
    successful update the configuration is the old one followed by the new
    aggregations; on any other answer the script prints that it was
    cancelled and changes nothing; when reading the answer or the update
    itself raises, nothing is changed, and the script ends normally if the
    exception derives from [Exception] and with that exception if not. *)
Theorem fraud_script_updates_only_on_yes
    (s : AddFraudModelAggregations.Session) (cfg : Onboarding.Config) :
  let r := AddFraudModelAggregations.script s cfg in
  let ended e := if is_Exception e then Returned tt else Raised e in
  (Onboarding.config r = cfg \/
   exists response,
     AddFraudModelAggregations.input s = Returned response /\
     AddFraudModelAggregations.lower response = "yes"%string /\
     AddFraudModelAggregations.put_fails s = None) /\
  (forall dataset new,
     AddFraudModelAggregations.serves s dataset ->
     AddFraudModelAggregations.gen_fraud_model_aggregations dataset = Returned new ->
     AddFraudModelAggregations.aggregations_to_add cfg new <> [] ->
     match AddFraudModelAggregations.input s with
     | Returned response =>
         if String.eqb (AddFraudModelAggregations.lower response) "yes" then
           match AddFraudModelAggregations.put_fails s with
           | None =>
               Onboarding.config r =
                 (cfg ++ AddFraudModelAggregations.aggregations_to_add cfg new)%list /\
               Onboarding.result r = Returned tt /\
               In "Successfully updated model metrics!"%string (Onboarding.printed r)
           | Some e => Onboarding.config r = cfg /\ Onboarding.result r = ended e
           end
         else
           Onboarding.config r = cfg /\ Onboarding.result r = Returned tt /\
           In "Cancelled. No changes made."%string (Onboarding.printed r)
     | Raised e => Onboarding.config r = cfg /\ Onboarding.result r = ended e
     end).
Proof.
  intros r ended.
  assert (Hcfg : Onboarding.config r =
                 Onboarding.config (AddFraudModelAggregations.main s cfg)).
  { apply fraud_entry_keeps. }
  assert (Hout : incl (Onboarding.printed (AddFraudModelAggregations.main s cfg))
                      (Onboarding.printed r)).
  { apply fraud_entry_keeps. }
  assert (Hres := script_result s cfg). fold r in Hres.
  split.
  - rewrite Hcfg.
    destruct (main_config s cfg) as [H | (dataset & new & Hs & Hg & Hadd & _ & _ & H)];
      [left; exact H |].
    pose proof (main_confirmation s cfg dataset new Hs Hg Hadd) as Hm.
    unfold Onboarding.runs in Hm.
    destruct (AddFraudModelAggregations.input s) as [response|e].
    + destruct (String.eqb (AddFraudModelAggregations.lower response) "yes") eqn:E.
      * destruct (AddFraudModelAggregations.put_fails s).
        -- left. apply Hm.
        -- right. exists response. apply String.eqb_eq in E. auto.
      * left. apply Hm.
    + left. apply Hm.
  - intros dataset new Hs Hg Hadd.
    pose proof (main_confirmation s cfg dataset new Hs Hg Hadd) as Hm.
    unfold Onboarding.runs in Hm. rewrite Hcfg, Hres.
    destruct (AddFraudModelAggregations.input s) as [response|e].
    + destruct (String.eqb (AddFraudModelAggregations.lower response) "yes").
      * destruct (AddFraudModelAggregations.put_fails s).
        -- destruct Hm as [Hc ->]. split; [exact Hc | reflexivity].
        -- destruct Hm as (Hc & -> & Hin).
           split; [exact Hc | split; [reflexivity | apply Hout, Hin]].
      * destruct Hm as (Hc & -> & Hin).
        split; [exact Hc | split; [reflexivity | apply Hout, Hin]].
    + destruct Hm as [Hc ->]. split; [exact Hc | reflexivity].
Qed.

(** The script run with a user who answers [No]: nothing is changed. *)
Lemma fraud_script_updates_only_on_yes_witness :
  Onboarding.config
    (AddFraudModelAggregations.script AddFraudModelAggregations.declining_session []) = [] /\
  Onboarding.result
    (AddFraudModelAggregations.script AddFraudModelAggregations.declining_session []) =
    Returned tt /\
  In "Cancelled. No changes made."%string
     (Onboarding.printed
        (AddFraudModelAggregations.script AddFraudModelAggregations.declining_session [])).
Proof.
  pose proof (fraud_script_updates_only_on_yes
                AddFraudModelAggregations.declining_session []) as H.
  cbv zeta in H. destruct H as (_ & H).
  refine (H AddFraudModelAggregations.demo_dataset _ _ eq_refl _).
  - split; [reflexivity |]. eexists _, _, _. repeat split.
  - intros E. vm_compute in E. discriminate E.
Defined.

(* ===================================================================== *)
(** * The range checks of the generated records *)
(* ===================================================================== *)

(** C2: every record the generators produce passes the documented range
    checks. Card-fraud: [txn_amount] in [1, 10000], [distance_from_home_km]
    in [0, 1000], [merchant_risk_score] and [fraud_score] in [0, 1],
    [is_fraud] and [fraud_pred] in {0, 1}, [risk_rank] in 1..5, for every
    record built and so for every record of every file written.
    Credit-card applications: [credit_score] in [300, 850], [annual_income]
    in [20000, 200000], [age] in [18, 75], [debt_to_income_ratio] in
    [0, 0.8] and [predicted_probability] in [0.01, 0.99], for every row of a
    frame returned; no NaN reaches a clip. The samplers are assumed to
    respect their documented ranges. *)
Theorem generated_records_in_range (L : Library) (HL : LibraryLaws L) :
  (forall current_dt index accts custs w,
      CardFraud.in_ranges
        (fst (CardFraud.gen_transaction L current_dt index accts custs w))) /\
  (forall start_date end_date past_days future_days transactions_per_hour
          output_dir seed w p recs,
      let r := CardFraud.generate_dataset L start_date end_date past_days
                 future_days transactions_per_hour output_dir seed w in
      In (WriteFile p recs) (fs_log (snd r)) ->
      In (WriteFile p recs) (fs_log w) \/ Forall CardFraud.in_ranges recs) /\
  (forall n_samples output_dir seed past_days future_days w df,
      fst (CcApplication.generate_dataset L n_samples output_dir seed
             past_days future_days w) = Returned df ->
      Forall CcApplication.in_ranges df).
Proof.
  split; [|split].
  - intros current_dt index accts custs w.
    apply (gen_transaction_ranges L HL).
  - intros start_date end_date past_days future_days transactions_per_hour
           output_dir seed w p recs r Hin.
    destruct (generate_dataset_spec L start_date end_date past_days future_days
                transactions_per_hour output_dir seed w)
      as (accts & custs & batches & Hb & _ & Hlog & _).
    fold r in Hlog. rewrite Hlog in Hin.
    apply in_app_or in Hin. destruct Hin as [Hin|Hin]; [left; exact Hin|right].
    apply hour_events_files in Hin. destruct Hin as [h Hh].
    apply (Forall2_combine_in _ _ _ _ _ Hb) in Hh.
    apply (batch_Forall L _ _ _ _ _ _ (fun k => gen_transaction_ranges L HL h k accts custs) Hh).
  - intros n_samples output_dir seed past_days future_days w df Hdf.
    pose proof (cc_generate_outcome L
                  (CcApplication.features_sound (Z.to_nat n_samples))
                  (fun p => within 0.01 0.99 p = true)
                  n_samples output_dir seed past_days future_days
                  (draw_features_sound L HL _)
                  (fun f labels i Hf Hi =>
                     draw_predicted_prob_sound L HL _ f labels i Hf Hi) w) as H.
    cbv zeta in H. rewrite Hdf in H.
    destruct H as (_ & _ & (f & labels & probs & valid & times & -> & Hf & _ & _
                            & Hp1 & Hp2 & _) & _).
    destruct Hf as (Hlen & Hc & Hi & Ha & _ & Hd & _).
    destruct Hlen as (_ & Lc & Li & La & _ & _ & Ld & _).
    apply Forall_forall. intros r Hr.
    apply build_rows_row in Hr. destruct Hr as (i & Hlt & ->).
    unfold CcApplication.in_ranges.
    cbn [CcApplication.credit_score CcApplication.annual_income CcApplication.age
         CcApplication.debt_to_income_ratio CcApplication.predicted_probability].
    split; [apply (proj1 (Forall_nth _ _) Hc); lia |].
    split; [apply (proj1 (Forall_nth _ _) Hi); lia |].
    split; [apply (proj1 (Forall_nth _ _) Ha); lia |].
    split.
    + apply (proj1 (Forall_nth _ _) Hd). lia.
    + apply (proj1 (Forall_nth _ _) Hp2). lia.
Qed.

Lemma generated_records_in_range_witness :
  LibraryLaws Demo.lib /\
  CardFraud.in_ranges
    (fst (CardFraud.gen_transaction Demo.lib (24 * 738944 + 10) 0
            ["acct_10001"%string] ["cust_10002"%string]
            (Demo.world (list CardFraud.Transaction)))) /\
  Forall CcApplication.in_ranges
    match fst (CcApplication.generate_dataset Demo.lib 3 None 42 90 90
                 (Demo.world CcApplication.DataFrame)) with
    | Returned df => df
    | Raised _ => []
    end.
Proof.
  split; [exact demo_laws |].
  split.
  - exact (proj1 (generated_records_in_range Demo.lib demo_laws) _ _ _ _ _).
  - destruct (fst (CcApplication.generate_dataset Demo.lib 3 None 42 90 90
                     (Demo.world CcApplication.DataFrame))) as [df|e] eqn:E.
    + exact (proj2 (proj2 (generated_records_in_range Demo.lib demo_laws))
               _ _ _ _ _ _ _ E).
    + constructor.
Defined.

(* ===================================================================== *)
(** * The size of a run, for the runs the library calls accept *)
(* ===================================================================== *)

(** The size of a card-fraud run, for a seed NumPy accepts and dates
    [datetime] can work with: the loop runs once for every hour from the
    midnight of the start date to the midnight of the end date, so a run
    from [s] to [e] has [24 * (e - s) + 1] hours (the end date contributes
    its first hour only), none when [e] is before [s]; every hour has
    [transactions_per_hour] records, none when that number is negative; one
    file is written per hour when an output directory is given. *)
Theorem card_fraud_run_size (L : Library) start_date end_date past_days
    future_days transactions_per_hour output_dir seed w
    (Hvalid : CardFraud.valid_run start_date end_date past_days future_days
                seed (clock w)) :
  let r := CardFraud.generate_dataset L start_date end_date past_days
             future_days transactions_per_hour output_dir seed w in
  let dates :=
    CardFraud.run_dates start_date end_date past_days future_days (clock w) in
  let hours := Z.max 0 (24 * (snd dates - fst dates) + 1) in
  CardFraud.total_transactions (fst r) = Z.max 0 transactions_per_hour * hours /\
  CardFraud.files_created (fst r) =
    match output_dir with Some _ => hours | None => 0 end /\
  CardFraud.date_range (fst r) =
    (Calendar.format_date (fst dates) ++ " to " ++
     Calendar.format_date (snd dates))%string.
Proof.
  intros r dates hours.
  destruct (generate_dataset_spec L start_date end_date past_days future_days
              transactions_per_hour output_dir seed w)
    as (accts & custs & batches & _ & _ & _ & Ht & Hf & Hd).
  fold r dates in Ht, Hf, Hd.
  assert (Hh : Z.of_nat (List.length
                 (Calendar.hours_between (Calendar.midnight (fst dates))
                                         (Calendar.midnight (snd dates)))) = hours).
  { rewrite hours_between_length. unfold hours, Calendar.midnight. f_equal. lia. }
  rewrite Hh in Ht, Hf.
  split; [| split].
  - rewrite Ht. f_equal. lia.
  - exact Hf.
  - exact Hd.
Qed.

(** Bounds on concrete numbers and dates. *)
Ltac bounds :=
  repeat split; vm_compute;
  first [ reflexivity | let H := fresh in intro H; discriminate H ].

(** The default run on 2024-02-28: 180 days and one hour, 60 records
    each. *)
Lemma card_fraud_run_size_witness :
  CardFraud.valid_run None None 90 90 42
    (clock (Demo.world (list CardFraud.Transaction))) /\
  CardFraud.total_transactions
    (fst (CardFraud.generate_dataset Demo.lib None None 90 90 60 None 42
            (Demo.world (list CardFraud.Transaction)))) = 60 * 4321.
Proof.
  assert (H : CardFraud.valid_run None None 90 90 42
                (clock (Demo.world (list CardFraud.Transaction)))) by bounds.
  split; [exact H |].
  exact (proj1 (card_fraud_run_size Demo.lib None None 90 90 60 None 42
                  (Demo.world (list CardFraud.Transaction)) H)).
Defined.

(** [generate_reference_dataset] of the card-fraud generator, for a seed
    NumPy accepts and dates [datetime] can work with, covers the window
    from [s] to [e], where [s] is the start date given or the day
    [past_days] before today, and [e] the end date given or the day
    [reference_days - 1] after [s]: its statistics are those of a run from
    [s] to [e], and with an output directory every file-system call names a
    path under its subdirectory ccb-card-fraud-reference; without one there
    is no call. *)
Theorem card_fraud_reference_window (L : Library) start_date end_date
    past_days reference_days transactions_per_hour output_dir seed w
    (Hseed : valid_seed seed)
    (Htoday : Calendar.representable (clock w / 86400))
    (Hstart : Calendar.representable
                match start_date with
                | Some s => s
                | None => clock w / 86400 - past_days
                end)
    (Hend : Calendar.representable
              match end_date with
              | Some e => e
              | None => match start_date with
                        | Some s => s
                        | None => clock w / 86400 - past_days
                        end + (reference_days - 1)
              end) :
  let r := CardFraud.generate_reference_dataset L start_date end_date past_days
             reference_days transactions_per_hour output_dir seed w in
  let s := match start_date with
           | Some s => s
           | None => clock w / 86400 - past_days
           end in
  let e := match end_date with
           | Some e => e
           | None => s + (reference_days - 1)
           end in
  let hours := Z.max 0 (24 * (e - s) + 1) in
  CardFraud.date_range (fst r) =
    (Calendar.format_date s ++ " to " ++ Calendar.format_date e)%string /\
  CardFraud.total_transactions (fst r) = Z.max 0 transactions_per_hour * hours /\
  CardFraud.files_created (fst r) =
    match output_dir with Some _ => hours | None => 0 end /\
  confined
    match output_dir with
    | Some d => Some (join d "ccb-card-fraud-reference")
    | None => None
    end (clock w) (fs_log w) (snd r).
Proof.
  intros r s e hours.
  assert (Hr : r = CardFraud.generate_dataset L (Some s) (Some e) 90 90
                     transactions_per_hour
                     match output_dir with
                     | Some d => Some (join d "ccb-card-fraud-reference")
                     | None => None
                     end seed w).
  { subst r s e. unfold CardFraud.generate_reference_dataset.
    destruct start_date as [s0|], end_date as [e0|]; reflexivity. }
  rewrite Hr.
  pose proof (card_run_given L s e 90 90 transactions_per_hour
                match output_dir with
                | Some d => Some (join d "ccb-card-fraud-reference")
                | None => None
                end seed w) as H.
  cbv zeta in H. fold hours in H.
  destruct H as (Hd & Ht & Hf & Hc).
  repeat split; try assumption.
  - rewrite Hf. destruct output_dir; reflexivity.
  - apply Hc.
  - apply Hc.
Qed.

(** The default reference run on 2024-02-28: 14 days, which are 13 days
    and one hour, 60 records each. *)
Lemma card_fraud_reference_window_witness :
  valid_seed 42 /\
  CardFraud.total_transactions
    (fst (CardFraud.generate_reference_dataset Demo.lib None None 90 14 60 None 42
            (Demo.world (list CardFraud.Transaction)))) = 60 * 313.
Proof.
  assert (Hs : valid_seed 42) by bounds.
  split; [exact Hs |].
  refine (proj1 (proj2 (card_fraud_reference_window Demo.lib None None 90 14 60
                          None 42 (Demo.world (list CardFraud.Transaction))
                          Hs _ _ _))); bounds.
Defined.

(** How a call of the credit-card application generator ends, for a seed
    NumPy accepts and a window of dates pandas can hold. It returns a frame
    exactly when [n_samples] is positive and the window
    [past_days + future_days + 1] is not zero; the frame then has
    [n_samples] rows with the application identifiers 1, 2, ... in order,
    and the partitions of the frame are what is written. Otherwise it
    raises before anything is written: [ValueError] for a negative
    [n_samples], [IndexError] for [n_samples = 0] (the first row of an
    empty frame), [ZeroDivisionError] for a window of zero days. *)
Theorem cc_application_call_ends (L : Library) n_samples output_dir seed
    past_days future_days w
    (Hvalid : CcApplication.valid_run seed past_days future_days (clock w)) :
  let r := CcApplication.generate_dataset L n_samples output_dir seed
             past_days future_days w in
  let total_days := past_days + future_days + 1 in
  match fst r with
  | Returned df =>
      0 < n_samples /\ total_days <> 0 /\
      List.length df = Z.to_nat n_samples /\
      map CcApplication.application_id df =
        map (fun i => Z.of_nat i + 1) (seq 0 (Z.to_nat n_samples)) /\
      fs_log (snd r) = fs_log w ++ CcApplication.partition_events output_dir df
  | Raised e =>
      fs_log (snd r) = fs_log w /\
      e = (if n_samples <? 0
           then ValueError "negative dimensions are not allowed"
           else if n_samples =? 0 then IndexError else ZeroDivisionError) /\
      (0 < n_samples -> total_days = 0)
  end.
Proof.
  intros r total_days.
  pose proof (cc_generate_outcome L (fun _ => True) (fun _ => True)
                n_samples output_dir seed past_days future_days
                (returns_any _) (fun _ _ _ _ _ => returns_any _) w) as H.
  cbv zeta in H. fold r in H.
  destruct (fst r) as [df|e]; [| exact H].
  destruct H as (Hpos & Htot & (f & labels & probs & valid & times & -> & _) & Hlog).
  split; [exact Hpos | split; [exact Htot | split; [| split; [| exact Hlog]]]].
  - apply build_rows_length.
  - unfold CcApplication.build_rows. rewrite map_map. reflexivity.
Qed.

(** A call for no applicant on 2024-02-28 raises [IndexError]. *)
Lemma cc_application_call_ends_witness :
  CcApplication.valid_run 42 90 90 (clock (Demo.world CcApplication.DataFrame)) /\
  fst (CcApplication.generate_dataset Demo.lib 0 None 42 90 90
         (Demo.world CcApplication.DataFrame)) = Raised IndexError.
Proof.
  assert (H : CcApplication.valid_run 42 90 90
                (clock (Demo.world CcApplication.DataFrame))) by bounds.
  split; [exact H |].
  pose proof (cc_application_call_ends Demo.lib 0 None 42 90 90
                (Demo.world CcApplication.DataFrame) H) as E.
  cbv zeta in E.
  destruct (fst (CcApplication.generate_dataset Demo.lib 0 None 42 90 90
                   (Demo.world CcApplication.DataFrame))) as [df|e].
  - destruct E as (E & _). exfalso. revert E. apply Z.lt_irrefl.
  - destruct E as (_ & -> & _). reflexivity.
Defined.

(* ===================================================================== *)
(** * The calendar: a date is known by its year, month and day *)
(* ===================================================================== *)

Section CalendarCycle.

Import Calendar.

Lemma all_from_spec (p : Z -> bool) (n : nat) :
  forall first, all_from p first n = true ->
  forall r, first <= r < first + Z.of_nat n -> p r = true.
Proof.
  induction n as [|n IH]; intros first H r Hr; [lia |].
  cbn [all_from] in H. apply andb_true_iff in H. destruct H as [H0 H].
  destruct (Z.eq_dec r first) as [-> | Hne]; [exact H0 |].
  apply (IH (first + 1) H). lia.
Qed.

(** The 146097 days of a cycle of 400 years, one by one: the year is one of
    the 400, the month and the day are a month and a day, and [ymd2ord]
    gives the ordinal back. *)
Lemma cycle_checked :
  all_from (fun r =>
              let '(y, m, d) := ord2ymd (r + 1) in
              (1 <=? y) && (y <=? 400) && (1 <=? m) && (m <=? 12) &&
              (1 <=? d) && (d <=? 31) && (ymd2ord y m d =? r + 1))
           0 146097 = true.
Proof. vm_compute. reflexivity. Qed.

End CalendarCycle.

Section CalendarCycle2.

Import Calendar.

(** The calendar repeats every 400 years. *)
Lemma ord2ymd_cycle (n : Z) :
  let q := (n - 1) / 146097 in
  let r := (n - 1) mod 146097 in
  ord2ymd n =
  (fst (fst (ord2ymd (r + 1))) + 400 * q, snd (fst (ord2ymd (r + 1))),
   snd (ord2ymd (r + 1))).
Proof.
  intros q r.
  assert (Hr : 0 <= r < 146097) by (apply Z.mod_pos_bound; lia).
  unfold ord2ymd, DI400Y. cbv zeta.
  replace (r + 1 - 1) with r by lia.
  rewrite (Z.div_small r 146097), (Z.mod_small r 146097) by exact Hr.
  fold q r.
  repeat match goal with
  | |- context [if ?c then _ else _] => destruct c
  end; cbn [fst snd]; f_equal; try f_equal; lia.
Qed.

Lemma cycle_day (r : Z) :
  0 <= r < 146097 ->
  let y := fst (fst (ord2ymd (r + 1))) in
  let m := snd (fst (ord2ymd (r + 1))) in
  let d := snd (ord2ymd (r + 1)) in
  1 <= y <= 400 /\ 1 <= m <= 12 /\ 1 <= d <= 31 /\ ymd2ord y m d = r + 1.
Proof.
  intros Hr.
  assert (E : Z.of_nat 146097 = 146097) by (vm_compute; reflexivity).
  pose proof (all_from_spec _ _ _ cycle_checked r) as H.
  rewrite E in H. specialize (H ltac:(lia)). cbv beta in H.
  destruct (ord2ymd (r + 1)) as [[y m] d]. cbn [fst snd].
  rewrite !andb_true_iff in H. lia.
Qed.

(** A date is known by its year, month and day. *)
Lemma ord2ymd_inj (a b : Z) : ord2ymd a = ord2ymd b -> a = b.
Proof.
  rewrite (ord2ymd_cycle a), (ord2ymd_cycle b). cbv zeta.
  set (qa := (a - 1) / 146097). set (ra := (a - 1) mod 146097).
  set (qb := (b - 1) / 146097). set (rb := (b - 1) mod 146097).
  assert (Ha : 0 <= ra < 146097) by (apply Z.mod_pos_bound; lia).
  assert (Hb : 0 <= rb < 146097) by (apply Z.mod_pos_bound; lia).
  destruct (cycle_day ra Ha) as (Ya & _ & _ & Ea).
  destruct (cycle_day rb Hb) as (Yb & _ & _ & Eb).
  intros E.
  assert (Ey := f_equal (fun p => fst (fst p)) E).
  assert (Em := f_equal (fun p => snd (fst p)) E).
  assert (Ed := f_equal (fun p : Z * Z * Z => snd p) E).
  cbn [fst snd] in Ey, Em, Ed. cbv zeta in Ya, Yb, Ea, Eb.
  assert (Hq : qa = qb) by lia.
  assert (Hy : fst (fst (ord2ymd (ra + 1))) = fst (fst (ord2ymd (rb + 1)))) by lia.
  assert (Hr : ra = rb).
  { rewrite Hy, Em, Ed in Ea. lia. }
  pose proof (Z.div_mod (a - 1) 146097 ltac:(lia)) as Da.
  pose proof (Z.div_mod (b - 1) 146097 ltac:(lia)) as Db.
  fold qa ra in Da. fold qb rb in Db. lia.
Qed.

Lemma month_day_bounds (n : Z) :
  1 <= snd (fst (ord2ymd n)) <= 12 /\ 1 <= snd (ord2ymd n) <= 31.
Proof.
  rewrite (ord2ymd_cycle n). cbv zeta. cbn [fst snd].
  destruct (cycle_day ((n - 1) mod 146097)) as (_ & Hm & Hd & _);
    [apply Z.mod_pos_bound; lia | split; assumption].
Qed.

End CalendarCycle2.

(* ===================================================================== *)
(** * The files of the card-fraud generator *)
(* ===================================================================== *)

Section CardFraudPaths.

Import Calendar CardFraud.
Local Open Scope string_scope.

(** [str(n)] is read back as [n]. *)
Lemma str_int_inj (a b : Z) : Fmt.str_int a = Fmt.str_int b -> a = b.
Proof.
  unfold Fmt.str_int. intros H.
  assert (N : forall n, Z.to_int n <> Decimal.Pos Decimal.Nil /\
                        Z.to_int n <> Decimal.Neg Decimal.Nil).
  { intros [|p|p]; cbn; split; try discriminate;
      intros E; injection E as E; revert E; apply DecimalPos.Unsigned.to_uint_nonnil. }
  apply DecimalZ.to_int_inj.
  assert (E : NilZero.int_of_string (NilZero.string_of_int (Z.to_int a)) =
              NilZero.int_of_string (NilZero.string_of_int (Z.to_int b)))
    by (rewrite H; reflexivity).
  rewrite !NilZero.isi in E by apply N.
  injection E as E. exact E.
Qed.

(** A number below 100 is read back from its two digits. *)
Lemma two_digits_checked :
  all_from (fun n =>
              match NilZero.int_of_string
                      (substring 0 2 (Fmt.pad0 2 n ++ ".json")) with
              | Some d => Z.eqb (Z.of_int d) n
              | None => false
              end) 0 100 = true.
Proof. vm_compute. reflexivity. Qed.

Lemma pad2_json_inj (a b : Z) :
  (0 <= a < 100)%Z -> (0 <= b < 100)%Z ->
  Fmt.pad0 2 a ++ ".json" = Fmt.pad0 2 b ++ ".json" -> a = b.
Proof.
  intros Ha Hb E.
  pose proof (all_from_spec _ _ _ two_digits_checked a ltac:(simpl; lia)) as Da.
  pose proof (all_from_spec _ _ _ two_digits_checked b ltac:(simpl; lia)) as Db.
  cbv beta in Da, Db. rewrite E in Da.
  destruct (NilZero.int_of_string (substring 0 2 (Fmt.pad0 2 b ++ ".json")));
    [| discriminate].
  apply Z.eqb_eq in Da, Db. congruence.
Qed.

Lemma pad2_inj (a b : Z) :
  (0 <= a < 100)%Z -> (0 <= b < 100)%Z -> Fmt.pad0 2 a = Fmt.pad0 2 b -> a = b.
Proof.
  intros Ha Hb E. apply pad2_json_inj; [assumption .. |]. rewrite E. reflexivity.
Qed.

(** Line 224, component by component. *)
Lemma file_path_components (output_path : path) (h : datetime) :
  file_path output_path h =
  (output_path ++
   [ ("year=" ++ Fmt.str_int (fst (fst (ord2ymd (h / 24)))))%string;
     ("month=" ++ Fmt.pad0 2 (snd (fst (ord2ymd (h / 24)))))%string;
     ("day=" ++ Fmt.pad0 2 (snd (ord2ymd (h / 24))))%string;
     ("inferences_hour=" ++ Fmt.pad0 2 (h mod 24) ++ ".json")%string ])%list.
Proof.
  unfold file_path, join, year, month, day, hour, date_of.
  rewrite <- !app_assoc. reflexivity.
Qed.

(** Two hours have two files. *)
Lemma file_path_inj (output_path : path) (h1 h2 : datetime) :
  file_path output_path h1 = file_path output_path h2 -> h1 = h2.
Proof.
  rewrite !file_path_components. intros E.
  apply app_inv_head in E.
  injection E as Ey Em Ed Eh.
  apply str_int_inj in Ey.
  destruct (month_day_bounds (h1 / 24)) as [M1 D1].
  destruct (month_day_bounds (h2 / 24)) as [M2 D2].
  apply pad2_inj in Em; [| lia | lia].
  apply pad2_inj in Ed; [| lia | lia].
  apply pad2_json_inj in Eh;
    [| pose proof (Z.mod_pos_bound h1 24); lia
     | pose proof (Z.mod_pos_bound h2 24); lia].
  assert (Hd : (h1 / 24 = h2 / 24)%Z).
  { apply ord2ymd_inj.
    destruct (ord2ymd (h1 / 24)) as [[y1 m1] d1],
             (ord2ymd (h2 / 24)) as [[y2 m2] d2].
    cbn [fst snd] in *. congruence. }
  pose proof (Z.div_mod h1 24 ltac:(lia)).
  pose proof (Z.div_mod h2 24 ltac:(lia)).
  lia.
Qed.

Lemma file_paths_distinct (output_path : path) (hours : list datetime) :
  NoDup hours -> NoDup (map (file_path output_path) hours).
Proof.
  apply Injective_map_NoDup. intros h1 h2. apply file_path_inj.
Qed.

End CardFraudPaths.

(** C3: with an output directory, the card-fraud generator writes, for
    every hour from the start datetime to the end datetime inclusive, one
    JSON file holding exactly [transactions_per_hour] records, all
    timestamped with that hour. The file of hour [h] is
    year=YYYY/month=MM/day=DD/inferences_hour=HH.json under the output
    directory, with the year, month (two digits), day (two digits) and hour
    (two digits) of [h]; two hours never share a file, so no file of a run
    is overwritten. [files_created] is the number of hours and
    [total_transactions] is [files_created] times [transactions_per_hour].
    This is for the runs whose library calls return: a seed NumPy accepts
    and dates [datetime] can work with. *)
Theorem hourly_files (L : Library) start_date end_date past_days future_days
    transactions_per_hour output_path seed w
    (Hcount : 0 <= transactions_per_hour)
    (Hvalid : CardFraud.valid_run start_date end_date past_days future_days
                seed (clock w)) :
  let r := CardFraud.generate_dataset L start_date end_date past_days
             future_days transactions_per_hour (Some output_path) seed w in
  let dates :=
    CardFraud.run_dates start_date end_date past_days future_days (clock w) in
  let first := Calendar.midnight (fst dates) in
  let last := Calendar.midnight (snd dates) in
  let hours := Calendar.hours_between first last in
  (forall h, In h hours <-> first <= h <= last) /\
  NoDup hours /\
  (forall h,
     let '(y, m, d) := Calendar.ord2ymd (h / 24) in
     CardFraud.file_path output_path h =
     output_path ++
     [ ("year=" ++ Fmt.str_int y)%string;
       ("month=" ++ Fmt.pad0 2 m)%string;
       ("day=" ++ Fmt.pad0 2 d)%string;
       ("inferences_hour=" ++ Fmt.pad0 2 (h mod 24) ++ ".json")%string ]) /\
  NoDup (map (CardFraud.file_path output_path) hours) /\
  exists batches new,
    fs_log (snd r) = fs_log w ++ new /\
    files_written new =
      combine (map (CardFraud.file_path output_path) hours) batches /\
    Forall2
      (fun h recs =>
         Z.of_nat (List.length recs) = transactions_per_hour /\
         Forall (fun t => CardFraud.timestamp t = Calendar.isoformat h) recs)
      hours batches /\
    CardFraud.files_created (fst r) = Z.of_nat (List.length hours) /\
    CardFraud.total_transactions (fst r) =
      CardFraud.files_created (fst r) * transactions_per_hour.
Proof.
  intros r dates first last hours.
  split; [intros h; apply In_hours_between|].
  split; [apply NoDup_hours_between|].
  split.
  { intros h. rewrite file_path_components.
    destruct (Calendar.ord2ymd (h / 24)) as [[y m] d]. reflexivity. }
  split; [apply file_paths_distinct, NoDup_hours_between |].
  destruct (generate_dataset_spec L start_date end_date past_days future_days
              transactions_per_hour (Some output_path) seed w)
    as (accts & custs & batches & Hb & _ & Hlog & Ht & Hf & _).
  fold r dates first last hours in Hb, Hlog, Ht, Hf.
  exists batches. eexists. split; [exact Hlog|].
  split.
  { apply hour_events_written. symmetry. exact (Forall2_length Hb). }
  split.
  { clear - Hb Hcount. induction Hb as [|h recs hs bs Hh _ IH]; constructor.
    - destruct (batch_shape L _ _ _ _ _ Hh) as (Hlen & Hts & _).
      split; [rewrite Hlen; lia|exact Hts].
    - exact IH. }
  split; [exact Hf|].
  rewrite Ht, Hf. rewrite Z2Nat.id by exact Hcount. lia.
Qed.

(** Two days of 2024 with two records an hour: 25 files, and the first of
    them is year=2024/month=02/day=28/inferences_hour=00.json. *)
Lemma hourly_files_witness :
  0 <= 2 /\
  CardFraud.valid_run (Some 738944) (Some 738945) 90 90 42
    (clock (Demo.world (list CardFraud.Transaction))) /\
  CardFraud.files_created
    (fst (CardFraud.generate_dataset Demo.lib (Some 738944) (Some 738945) 90 90
            2 (Some ["out"%string]) 42
            (Demo.world (list CardFraud.Transaction)))) = 25 /\
  CardFraud.file_path ["out"%string] (24 * 738944) =
  ["out"; "year=2024"; "month=02"; "day=28"; "inferences_hour=00.json"]%string.
Proof.
  assert (H0 : 0 <= 2) by lia.
  assert (Hv : CardFraud.valid_run (Some 738944) (Some 738945) 90 90 42
                 (clock (Demo.world (list CardFraud.Transaction)))) by bounds.
  split; [exact H0 |]. split; [exact Hv |].
  destruct (hourly_files Demo.lib (Some 738944) (Some 738945) 90 90 2
              ["out"%string] 42 (Demo.world (list CardFraud.Transaction)) H0 Hv)
    as (_ & _ & Hp & _ & batches & new & _ & _ & _ & Hf & _).
  split.
  - etransitivity; [exact Hf|reflexivity].
  - exact (Hp (24 * 738944)).
Defined.

(* ===================================================================== *)
(** * The transaction-category generator: the rows of a run *)
(* ===================================================================== *)

Section MultiClassCounts.

Import MultiClass Calendar.
Variable L : Library.

Lemma multi_gen_row_quiet current_dt priors accts segs i :
  quiet (gen_row L current_dt priors accts segs i).
Proof.
  unfold gen_row, choice, pick. quiet_steps.
Qed.

Lemma gen_row_timestamp current_dt priors accts segs i :
  returns (gen_row L current_dt priors accts segs i)
          (fun r => timestamp r = current_dt).
Proof.
  unfold gen_row. returns_steps.
  apply returns_ret. reflexivity.
Qed.

Lemma counted_nil stats : counted stats [] stats.
Proof.
  unfold counted, correct, of_category. simpl.
  repeat split; try reflexivity; intros; lia.
Qed.

Lemma correct_app xs ys : correct (xs ++ ys) = correct xs + correct ys.
Proof. unfold correct. rewrite filter_app, length_app. lia. Qed.

Lemma of_category_app c xs ys :
  of_category c (xs ++ ys) = of_category c xs + of_category c ys.
Proof. unfold of_category. rewrite filter_app, length_app. lia. Qed.

Lemma counted_app stats xs stats1 ys stats2 :
  counted stats xs stats1 -> counted stats1 ys stats2 ->
  counted stats (xs ++ ys) stats2.
Proof.
  intros (T1 & C1 & K1 & F1 & D1 & R1 & A1) (T2 & C2 & K2 & F2 & D2 & R2 & A2).
  unfold counted.
  rewrite length_app, correct_app, T2, T1, C2, C1, F2, F1, D2, D1, R2, R1, A2, A1.
  repeat split; try reflexivity; try lia.
  intros c. rewrite K2, K1, of_category_app. lia.
Qed.

Lemma counted_one r stats : counted stats [r] (count r stats).
Proof.
  unfold counted, count, correct, of_category.
  cbn [total_transactions correct_predictions category_counts files_created
       date_range category_rate accuracy filter List.length].
  repeat split; try reflexivity.
  - destruct (Category_eqb (predicted_category r) (ground_truth_category r));
      simpl; lia.
  - intros c.
    destruct (Category_eqb c (ground_truth_category r)); simpl; lia.
Qed.

(** [rows_by_date] after an append. *)
Lemma keys_append_row (d : RowsByDate) k r :
  map fst (append_row d k r) = map fst d.
Proof.
  induction d as [|[k' rows] d IH]; simpl; [reflexivity |].
  destruct (String.eqb k' k); simpl; [reflexivity | rewrite IH; reflexivity].
Qed.

Lemma rows_of_append_row (d : RowsByDate) k r k' :
  has_key d k = true ->
  rows_of (append_row d k r) k' =
  (rows_of d k' ++ if String.eqb k k' then [r] else [])%list.
Proof.
  unfold has_key.
  induction d as [|[k0 rows] d IH]; simpl; [discriminate |].
  destruct (String.eqb k0 k) eqn:E; simpl.
  - intros _. apply String.eqb_eq in E. subst k0.
    destruct (String.eqb k k'); [reflexivity | symmetry; apply app_nil_r].
  - intros H. destruct (String.eqb k0 k') eqn:E'.
    + apply String.eqb_eq in E'. subst k0.
      rewrite String.eqb_sym, E. symmetry. apply app_nil_r.
    + apply IH, H.
Qed.

Lemma has_key_In (d : RowsByDate) k : has_key d k = true <-> In k (map fst d).
Proof.
  unfold has_key. rewrite existsb_exists, in_map_iff. split.
  - intros ([k' rows] & Hin & E). apply String.eqb_eq in E. simpl in E. subst k'.
    exists (k, rows). auto.
  - intros ([k' rows] & E & Hin). simpl in E. subst k'.
    exists (k, rows). split; [exact Hin | apply String.eqb_refl].
Qed.

Lemma rows_of_new_key (d : RowsByDate) k k' :
  rows_of (d ++ [(k, [])]) k' = rows_of d k'.
Proof.
  induction d as [|[k0 rows] d IH]; simpl.
  - destruct (String.eqb k k'); reflexivity.
  - destruct (String.eqb k0 k'); [reflexivity | exact IH].
Qed.

Lemma rows_on_app k xs ys : rows_on k (xs ++ ys) = (rows_on k xs ++ rows_on k ys)%list.
Proof. apply filter_app. Qed.

(** The loop over the transactions of an hour files each new row under the
    hour's date and counts it. *)
Lemma txn_loop_filed current_dt priors accts segs (idxs : list nat) :
  forall rbd stats w,
    let date_str := format_date (date_of current_dt) in
    has_key rbd date_str = true ->
    let r := txn_loop L idxs current_dt date_str priors accts segs rbd stats w in
    exists new,
      batch_at (List.length idxs) current_dt new /\
      map fst (fst (fst r)) = map fst rbd /\
      (forall k, rows_of (fst (fst r)) k = (rows_of rbd k ++ rows_on k new)%list) /\
      counted stats new (snd (fst r)) /\
      clock (snd r) = clock w /\ fs_log (snd r) = fs_log w.
Proof.
  induction idxs as [|i idxs IH]; intros rbd stats w date_str Hk; subst date_str;
    cbv zeta.
  - exists []. cbn [txn_loop ret fst snd].
    split; [split; [reflexivity | constructor] |].
    split; [reflexivity |].
    split; [intros k; symmetry; apply app_nil_r |].
    split; [apply counted_nil | split; reflexivity].
  - set (date_str := format_date (date_of current_dt)) in *.
    set (g := gen_row L current_dt priors accts segs i w).
    change (txn_loop L (i :: idxs) current_dt date_str priors accts segs rbd stats w)
      with (txn_loop L idxs current_dt date_str priors accts segs
                     (append_row rbd date_str (fst g)) (count (fst g) stats)
                     (snd g)).
    assert (Hts : timestamp (fst g) = current_dt)
      by apply (gen_row_timestamp current_dt priors accts segs i w).
    destruct (multi_gen_row_quiet current_dt priors accts segs i w) as [Qc Ql].
    fold g in Qc, Ql.
    assert (Hk' : has_key (append_row rbd date_str (fst g)) date_str = true).
    { apply has_key_In. rewrite keys_append_row. apply has_key_In, Hk. }
    destruct (IH (append_row rbd date_str (fst g)) (count (fst g) stats) (snd g) Hk')
      as (new & [Hn Hall] & Hkeys & Hrows & Hcnt & Hc & Hl).
    exists (fst g :: new).
    split; [split; [simpl; rewrite Hn; reflexivity | constructor; assumption] |].
    split; [rewrite Hkeys; apply keys_append_row |].
    split.
    { intros k. rewrite Hrows, rows_of_append_row by exact Hk.
      rewrite <- app_assoc. f_equal.
      change (rows_on k (fst g :: new))
        with (if String.eqb (date_key (fst g)) k
              then fst g :: rows_on k new else rows_on k new).
      unfold date_key. rewrite Hts. fold date_str.
      destruct (String.eqb date_str k); reflexivity. }
    split.
    { apply (counted_app stats [fst g] (count (fst g) stats) new);
        [apply counted_one | exact Hcnt]. }
    split; congruence.
Qed.

(** One hour: its date gets a key if it has none, and the hour's rows are
    filed under it. *)
Lemma hour_step_filed transactions_per_hour accts segs current_dt rbd stats w :
  let r := hour_step L transactions_per_hour accts segs current_dt rbd stats w in
  let date_str := format_date (date_of current_dt) in
  exists new,
    batch_at (Z.to_nat transactions_per_hour) current_dt new /\
    map fst (fst (fst r)) =
      (if has_key rbd date_str then map fst rbd
       else map fst rbd ++ [date_str])%list /\
    (forall k, rows_of (fst (fst r)) k = (rows_of rbd k ++ rows_on k new)%list) /\
    counted stats new (snd (fst r)) /\
    clock (snd r) = clock w /\ fs_log (snd r) = fs_log w.
Proof.
  cbv zeta. unfold hour_step. cbv zeta.
  set (rbd' := if has_key rbd (format_date (date_of current_dt)) then rbd
               else (rbd ++ [(format_date (date_of current_dt), [])])%list).
  assert (Hk : has_key rbd' (format_date (date_of current_dt)) = true).
  { subst rbd'. destruct (has_key rbd (format_date (date_of current_dt))) eqn:E;
      [exact E |].
    apply has_key_In. rewrite map_app. apply in_or_app. right. left. reflexivity. }
  destruct (txn_loop_filed current_dt
              (adjusted_priors (hour current_dt) (5 <=? weekday current_dt))
              accts segs (seq 0 (Z.to_nat transactions_per_hour)) rbd' stats w Hk)
    as (new & Hb & Hkeys & Hrows & Hcnt & Hc & Hl).
  exists new. rewrite length_seq in Hb.
  split; [exact Hb |].
  split.
  { rewrite Hkeys. subst rbd'.
    destruct (has_key rbd (format_date (date_of current_dt))); [reflexivity |].
    rewrite map_app. reflexivity. }
  split.
  { intros k. rewrite Hrows. f_equal. subst rbd'.
    destruct (has_key rbd (format_date (date_of current_dt)));
      [reflexivity | apply rows_of_new_key]. }
  split; [exact Hcnt | split; assumption].
Qed.

Lemma keys_after_nil keys : keys_after keys [] keys.
Proof.
  split; [exact (fun H => H) |].
  intros k. split; [left; assumption |].
  intros [H | (h & [] & _)]. exact H.
Qed.

Lemma keys_after_cons keys h hours keys1 keys2 :
  keys1 = (if existsb (String.eqb (format_date (date_of h))) keys then keys
           else keys ++ [format_date (date_of h)])%list ->
  keys_after keys1 hours keys2 ->
  keys_after keys (h :: hours) keys2.
Proof.
  intros -> [Hnd Hin].
  destruct (existsb (String.eqb (format_date (date_of h))) keys) eqn:E.
  - split; [exact Hnd |].
    intros k. rewrite Hin. split.
    + intros [H | (h' & Hh & ->)]; [left; exact H |].
      right. exists h'. split; [right; exact Hh | reflexivity].
    + intros [H | (h' & [<- | Hh] & ->)]; [left; exact H | | ].
      * left. apply existsb_exists in E. destruct E as (k & Hk & E).
        apply String.eqb_eq in E. rewrite E. exact Hk.
      * right. exists h'. auto.
  - assert (Hnot : ~ In (format_date (date_of h)) keys).
    { intros H. assert (X : existsb (String.eqb (format_date (date_of h))) keys = true).
      { apply existsb_exists. eexists. split; [exact H | apply String.eqb_refl]. }
      congruence. }
    split.
    + intros H. apply Hnd.
      apply NoDup_app; [exact H | repeat constructor; intros [] | ].
      intros k Hk [<- | []]. exact (Hnot Hk).
    + intros k. rewrite Hin, in_app_iff. split.
      * intros [[H | [<- | []]] | (h' & Hh & ->)].
        -- left. exact H.
        -- right. exists h. split; [left; reflexivity | reflexivity].
        -- right. exists h'. split; [right; exact Hh | reflexivity].
      * intros [H | (h' & [<- | Hh] & ->)].
        -- left. left. exact H.
        -- left. right. left. reflexivity.
        -- right. exists h'. auto.
Qed.

Lemma has_key_keys (d : RowsByDate) k :
  has_key d k = existsb (String.eqb k) (map fst d).
Proof.
  unfold has_key. induction d as [|[k' rows] d IH]; simpl; [reflexivity |].
  rewrite IH, (String.eqb_sym k' k). reflexivity.
Qed.

(** The loop over the hours: every hour has its rows, filed under its date
    and counted; the clock and the file system are left alone. *)
Lemma hours_loop_filed transactions_per_hour accts segs end_dt (n : nat) :
  forall current_dt acc w,
    n = Z.to_nat (end_dt + 1 - current_dt) ->
    let r := hours_loop L transactions_per_hour accts segs end_dt current_dt acc w in
    exists batches,
      Forall2 (batch_at (Z.to_nat transactions_per_hour))
              (hours_from current_dt n) batches /\
      keys_after (map fst (fst acc)) (hours_from current_dt n)
                 (map fst (fst (fst r))) /\
      (forall k, rows_of (fst (fst r)) k =
                 (rows_of (fst acc) k ++ rows_on k (List.concat batches))%list) /\
      counted (snd acc) (List.concat batches) (snd (fst r)) /\
      clock (snd r) = clock w /\ fs_log (snd r) = fs_log w.
Proof.
  induction n as [|n IH]; intros current_dt acc w Hn; cbv zeta;
    rewrite multi_hours_loop_unfold;
    destruct (Z_le_dec current_dt end_dt) as [Hle|Hgt]; try lia.
  - exists []. cbn [fst snd hours_from seq map List.concat].
    split; [constructor |].
    split; [apply keys_after_nil |].
    split; [intros k; symmetry; apply app_nil_r |].
    split; [apply counted_nil | split; reflexivity].
  - destruct (hour_step_filed transactions_per_hour accts segs current_dt
                (fst acc) (snd acc) w)
      as (new & Hb & Hkeys & Hrows & Hcnt & Hc & Hl).
    cbv zeta in Hkeys.
    set (h := hour_step L transactions_per_hour accts segs current_dt
                        (fst acc) (snd acc) w) in *.
    destruct (IH (current_dt + 1) (fst h) (snd h)) as
      (batches & Hbs & Hkeys' & Hrows' & Hcnt' & Hc' & Hl'); [lia |].
    cbv zeta in Hkeys', Hrows', Hcnt', Hc', Hl'.
    exists (new :: batches). rewrite hours_from_succ.
    split; [constructor; assumption |].
    split.
    { eapply keys_after_cons; [| exact Hkeys'].
      rewrite Hkeys, has_key_keys. reflexivity. }
    split.
    { intros k. rewrite Hrows', Hrows. cbn [List.concat].
      rewrite rows_on_app, app_assoc. reflexivity. }
    split.
    { cbn [List.concat]. eapply counted_app; eassumption. }
    split; congruence.
Qed.

Lemma observes_quiet_bind_at {C A B} (m : M L C A) (k : A -> M L C B)
    (P : Z -> A -> Prop) (Q : Z -> list (fs_event C) -> B -> World L C -> Prop) :
  quiet m -> (forall w, P (clock w) (fst (m w))) ->
  (forall a, observes (k a) (fun now log b w' => P now a -> Q now log b w')) ->
  observes (bind m k) Q.
Proof.
  intros Hq Hm Hk w. unfold bind. cbv zeta.
  destruct (Hq w) as [Hc Hl]. rewrite <- Hc, <- Hl.
  apply Hk. rewrite Hc. apply Hm.
Qed.

Lemma multi_resolve_dates_quiet start_date end_date past_days future_days :
  quiet (resolve_dates L start_date end_date past_days future_days).
Proof. unfold resolve_dates. destruct start_date, end_date; quiet_steps. Qed.

Lemma multi_resolve_dates_at start_date end_date past_days future_days
    (w : Sys.World L (list Row)) :
  fst (resolve_dates L start_date end_date past_days future_days w) =
  run_dates start_date end_date past_days future_days (clock w).
Proof. destruct start_date, end_date; reflexivity. Qed.

(** The rows of a run: the identifiers in the words of the specification,
    the rows of every hour filed under the hour's date and counted, and
    nothing written. *)
Lemma generate_rows_run start_date end_date past_days future_days
    transactions_per_hour seed :
  observes
    (generate_rows L start_date end_date past_days future_days
                   transactions_per_hour seed)
    (fun now log r w' =>
       let dates := run_dates start_date end_date past_days future_days now in
       let hours := hours_between (midnight (fst dates)) (midnight (snd dates)) in
       ids_of (fst r) = expected_ids L transactions_per_hour hours [] /\
       clock w' = now /\ fs_log w' = log /\
       exists batches,
         Forall2 (batch_at (Z.to_nat transactions_per_hour)) hours batches /\
         keys_after [] hours (map fst (fst r)) /\
         (forall k, rows_of (fst r) k = rows_on k (List.concat batches)) /\
         total_transactions (snd r) = Z.of_nat (List.length (List.concat batches)) /\
         correct_predictions (snd r) = correct (List.concat batches) /\
         (forall c, category_counts (snd r) c = of_category c (List.concat batches)) /\
         files_created (snd r) = 0 /\
         date_range (snd r) =
           (format_date (fst dates) ++ " to " ++ format_date (snd dates))%string).
Proof.
  unfold generate_rows.
  apply observes_quiet_bind with (P := fun _ => True);
    [apply quiet_seed_numpy | apply returns_any | intros _ _].
  apply observes_quiet_bind with (P := fun _ => True);
    [apply quiet_seed_python | apply returns_any | intros _ _].
  apply observes_quiet_bind_at
    with (P := fun now d =>
                 d = run_dates start_date end_date past_days future_days now);
    [apply multi_resolve_dates_quiet | apply multi_resolve_dates_at |].
  intros [s e]. lazy beta iota zeta.
  apply observes_quiet_bind with (P := fun _ => True);
    [apply quiet_py | apply returns_any | intros sample _].
  lazy beta zeta.
  apply observes_quiet_bind with (P := fun _ => True);
    [apply quiet_for_each; intros a; unfold choice; quiet_steps
    | apply returns_any | intros segs _].
  lazy beta zeta.
  intros w Hd. rewrite <- Hd. cbn [fst snd]. unfold hours_between.
  set (n := Z.to_nat (midnight e + 1 - midnight s)).
  set (accts := map (fun i => ("acct_" ++ Fmt.pad0 6 i)%string) sample).
  set (stats0 := {| total_transactions := 0; correct_predictions := 0;
                    category_counts := fun _ => 0; files_created := 0;
                    date_range := (format_date s ++ " to " ++ format_date e)%string;
                    category_rate := None; accuracy := None |}).
  split.
  { rewrite (hours_loop_ids L transactions_per_hour accts segs (midnight e) n
               (midnight s) ([], stats0) w eq_refl). reflexivity. }
  destruct (hours_loop_filed transactions_per_hour accts segs (midnight e) n
              (midnight s) ([], stats0) w eq_refl)
    as (batches & Hb & Hk & Hrows & Hcnt & Hc & Hl).
  cbv zeta in Hk, Hrows, Hcnt, Hc, Hl. cbn [fst snd map] in Hk, Hrows, Hcnt.
  split; [exact Hc | split; [exact Hl |]].
  exists batches.
  destruct Hcnt as (Ht & Hcp & Hcc & Hf & Hdr & _).
  cbn [stats0 total_transactions correct_predictions category_counts
       files_created date_range] in Ht, Hcp, Hcc, Hf, Hdr.
  repeat split; try assumption; try apply Hk.
  all: try (intros c; rewrite Hcc; reflexivity).
Qed.

(** [_write_parquet]: a directory and a file for every key, in order. *)
Lemma write_parquet_events output_path (rbd : RowsByDate) (keys : list string) :
  forall stats w,
    let r := write_parquet L keys rbd output_path stats w in
    fs_log (snd r) =
      (fs_log w ++
       List.concat
         (map (fun k =>
                 [ Mkdir (join output_path k);
                   WriteFile (join (join output_path k)
                                   ("data-" ++ k ++ ".parquet"))
                             (rows_of rbd k) ])
              keys))%list /\
    clock (snd r) = clock w /\
    total_transactions (fst r) = total_transactions stats /\
    correct_predictions (fst r) = correct_predictions stats /\
    category_counts (fst r) = category_counts stats /\
    files_created (fst r) = files_created stats + Z.of_nat (List.length keys) /\
    date_range (fst r) = date_range stats.
Proof.
  induction keys as [|k keys IH]; intros stats w; cbv zeta.
  - cbn [write_parquet ret fst snd map List.concat List.length].
    rewrite app_nil_r. repeat split; lia.
  - cbn [write_parquet]. unfold bind, emit. cbn [fst snd].
    match goal with
    | |- context [write_parquet L keys rbd output_path ?st ?w1] =>
        pose proof (IH st w1) as H;
        set (r := write_parquet L keys rbd output_path st w1) in *
    end.
    cbv zeta in H. destruct H as (Hl & Hc & Ht & Hcp & Hcc & Hf & Hd).
    cbn [fs_log clock created total_transactions correct_predictions
         category_counts files_created date_range] in Hl, Hc, Ht, Hcp, Hcc, Hf, Hd.
    rewrite Hl, Hc, Ht, Hcp, Hcc, Hf, Hd.
    cbn [map List.concat List.length app]. rewrite <- !app_assoc.
    repeat split; try reflexivity. lia.
Qed.

Lemma ids_at_rows (d : RowsByDate) k :
  map transaction_id (rows_of d k) = ids_at (ids_of d) k.
Proof.
  induction d as [|[k' rows] d IH]; [reflexivity |].
  cbn [rows_of ids_of map ids_at fst snd].
  destruct (String.eqb k' k); [reflexivity | exact IH].
Qed.

Lemma ids_of_keys (d : RowsByDate) : map fst (ids_of d) = map fst d.
Proof. unfold ids_of. rewrite map_map. reflexivity. Qed.

(** The identifiers in the files of a run with an output directory. *)
Lemma generate_dataset_file_ids start_date end_date past_days future_days
    transactions_per_hour output_path seed :
  observes
    (generate_dataset L start_date end_date past_days future_days
                      transactions_per_hour (Some output_path) seed)
    (fun now log o w' =>
       let dates := run_dates start_date end_date past_days future_days now in
       let hours := hours_between (midnight (fst dates)) (midnight (snd dates)) in
       exists new,
         fs_log w' = (log ++ new)%list /\
         file_ids (files_written new) =
           expected_file_ids output_path
             (expected_ids L transactions_per_hour hours [])).
Proof.
  intros w. unfold generate_dataset, bind. cbv zeta.
  pose proof (generate_rows_run start_date end_date past_days future_days
                transactions_per_hour seed w) as H.
  cbv zeta in H. destruct H as (Hids & Hc & Hl & _).
  destruct (generate_rows L start_date end_date past_days future_days
                          transactions_per_hour seed w) as [[rbd stats] w1].
  cbn [fst snd] in Hids, Hc, Hl |- *.
  destruct (write_parquet_events output_path rbd (sorted_keys rbd) stats w1)
    as (Hlog & _).
  cbv zeta in Hlog.
  destruct (write_parquet L (sorted_keys rbd) rbd output_path stats w1)
    as [stats' w2].
  cbn [fst snd] in Hlog |- *.
  eexists. split.
  { destruct (total_transactions stats' =? 0); cbn [ret snd];
      rewrite Hlog, Hl; reflexivity. }
  unfold expected_file_ids. rewrite <- Hids, ids_of_keys.
  unfold sorted_keys.
  induction (fold_right insert_sorted [] (map fst rbd)) as [|k keys IH];
    [reflexivity |].
  cbn [map List.concat app files_written file_ids fst snd].
  rewrite ids_at_rows. f_equal. exact IH.
Qed.

(** The identifiers by date in the words of the specification, date by
    date: those of the hours of that date, hour after hour. *)
Lemma ids_at_with_key (d : list (string * list string)) ds k :
  ids_at (with_key d ds) k = ids_at d k.
Proof.
  unfold with_key.
  destruct (existsb (fun kv => String.eqb (fst kv) ds) d); [reflexivity |].
  induction d as [|[k' ids] d IH]; cbn [app ids_at].
  - destruct (String.eqb ds k); reflexivity.
  - destruct (String.eqb k' k); [reflexivity | exact IH].
Qed.

Lemma ids_at_append_id (d : list (string * list string)) ds x k :
  existsb (fun kv => String.eqb (fst kv) ds) d = true ->
  ids_at (append_id d ds x) k =
  (ids_at d k ++ (if String.eqb ds k then [x] else []))%list.
Proof.
  induction d as [|[k' ids] d IH]; cbn [existsb append_id ids_at fst];
    [discriminate |].
  intros H. destruct (String.eqb k' ds) eqn:E.
  - apply String.eqb_eq in E. subst k'. cbn [ids_at].
    destruct (String.eqb ds k); [reflexivity | symmetry; apply app_nil_r].
  - cbn [orb] in H. cbn [ids_at].
    destruct (String.eqb k' k) eqn:E'.
    + apply String.eqb_eq in E'. subst k'.
      rewrite String.eqb_sym, E. symmetry. apply app_nil_r.
    + apply IH, H.
Qed.

Lemma keys_append_id (d : list (string * list string)) ds x :
  map fst (append_id d ds x) = map fst d.
Proof.
  induction d as [|[k' ids] d IH]; [reflexivity |]. cbn [append_id].
  destruct (String.eqb k' ds); cbn [map fst]; [reflexivity | f_equal; exact IH].
Qed.

Lemma existsb_key (d : list (string * list string)) k :
  existsb (fun kv => String.eqb (fst kv) k) d = true <-> In k (map fst d).
Proof.
  rewrite existsb_exists, in_map_iff. split.
  - intros (kv & Hin & E). apply String.eqb_eq in E. exists kv. split; assumption.
  - intros (kv & E & Hin). exists kv. split; [assumption |].
    apply String.eqb_eq, E.
Qed.

Lemma fold_append_id (f : nat -> string) ds k (idxs : list nat) :
  forall d : list (string * list string),
    In ds (map fst d) ->
    ids_at (fold_left (fun d i => append_id d ds (f i)) idxs d) k =
    (ids_at d k ++ (if String.eqb ds k then map f idxs else []))%list /\
    map fst (fold_left (fun d i => append_id d ds (f i)) idxs d) = map fst d.
Proof.
  induction idxs as [|i idxs IH]; intros d Hd; cbn [fold_left map].
  - split; [| reflexivity].
    destruct (String.eqb ds k); symmetry; apply app_nil_r.
  - destruct (IH (append_id d ds (f i))) as [H1 H2].
    { rewrite keys_append_id. exact Hd. }
    rewrite H1, H2, keys_append_id. split; [| reflexivity].
    rewrite ids_at_append_id by (apply existsb_key, Hd).
    rewrite <- app_assoc. destruct (String.eqb ds k); reflexivity.
Qed.

Lemma keys_with_key (d : list (string * list string)) ds :
  (NoDup (map fst d) -> NoDup (map fst (with_key d ds))) /\
  (forall k, In k (map fst (with_key d ds)) <-> In k (map fst d) \/ k = ds).
Proof.
  unfold with_key.
  destruct (existsb (fun kv => String.eqb (fst kv) ds) d) eqn:E.
  - apply existsb_key in E. split; [tauto |].
    intros k. split; [tauto |]. intros [H | ->]; assumption.
  - assert (Hn : ~ In ds (map fst d)).
    { intros H. apply existsb_key in H. congruence. }
    rewrite map_app. cbn [map fst]. split.
    + intros Hd. apply NoDup_app; [exact Hd | repeat constructor; intros [] |].
      intros a Ha [<- | []]. exact (Hn Ha).
    + intros k. rewrite in_app_iff. cbn [In]. split.
      * intros [H | [<- | []]]; [left; exact H | right; reflexivity].
      * intros [H | ->]; [left; exact H | right; left; reflexivity].
Qed.

Lemma hour_ids_at n h (d : list (string * list string)) k :
  ids_at (hour_ids L n h d) k =
  (ids_at d k ++
   (if String.eqb (format_date (date_of h)) k
    then map (expected_txn_id L h) (seq 0 (Z.to_nat n)) else []))%list /\
  map fst (hour_ids L n h d) = map fst (with_key d (format_date (date_of h))).
Proof.
  unfold hour_ids. cbv zeta.
  destruct (fold_append_id (expected_txn_id L h) (format_date (date_of h)) k
              (seq 0 (Z.to_nat n)) (with_key d (format_date (date_of h))))
    as [H1 H2].
  { apply keys_with_key. right. reflexivity. }
  rewrite H1, H2, ids_at_with_key. split; reflexivity.
Qed.

Lemma expected_ids_at n (hours : list datetime) k :
  forall d : list (string * list string),
    ids_at (expected_ids L n hours d) k =
    (ids_at d k ++
     flat_map (fun h => map (expected_txn_id L h) (seq 0 (Z.to_nat n)))
              (filter (fun h => String.eqb (format_date (date_of h)) k) hours))%list.
Proof.
  induction hours as [|h hours IH]; intros d; cbn [expected_ids fold_left filter].
  - cbn [flat_map]. symmetry. apply app_nil_r.
  - change (fold_left (fun d h => hour_ids L n h d) hours (hour_ids L n h d))
      with (expected_ids L n hours (hour_ids L n h d)).
    rewrite IH. destruct (hour_ids_at n h d k) as [H _]. rewrite H.
    rewrite <- app_assoc.
    destruct (String.eqb (format_date (date_of h)) k); reflexivity.
Qed.

Lemma expected_ids_keys n (hours : list datetime) :
  forall d : list (string * list string),
    (NoDup (map fst d) -> NoDup (map fst (expected_ids L n hours d))) /\
    (forall k, In k (map fst (expected_ids L n hours d)) <->
               In k (map fst d) \/
               exists h, In h hours /\ k = format_date (date_of h)).
Proof.
  induction hours as [|h hours IH]; intros d; cbn [expected_ids fold_left].
  - split; [tauto |]. intros k. split; [tauto |].
    intros [H | (h & [] & _)]. exact H.
  - change (fold_left (fun d h => hour_ids L n h d) hours (hour_ids L n h d))
      with (expected_ids L n hours (hour_ids L n h d)).
    destruct (IH (hour_ids L n h d)) as [N I].
    destruct (hour_ids_at n h d EmptyString) as [_ K]. rewrite K in N, I.
    destruct (keys_with_key d (format_date (date_of h))) as [N' I'].
    split; [intros Hd; apply N, N', Hd |].
    intros k. rewrite I, I'. split.
    + intros [[H | ->] | (h' & Hin & E)].
      * left. exact H.
      * right. exists h. split; [left; reflexivity | reflexivity].
      * right. exists h'. split; [right; exact Hin | exact E].
    + intros [H | (h' & [<- | Hin] & E)].
      * left. left. exact H.
      * left. right. exact E.
      * right. exists h'. split; assumption.
Qed.

(** The files of a run with an output directory: one per date of the run,
    in the order of the date strings, holding the identifiers of the
    hours of that date. *)
Lemma generate_dataset_files start_date end_date past_days future_days
    transactions_per_hour output_path seed :
  observes
    (generate_dataset L start_date end_date past_days future_days
                      transactions_per_hour (Some output_path) seed)
    (fun now log o w' =>
       let dates := run_dates start_date end_date past_days future_days now in
       let hours := hours_between (midnight (fst dates)) (midnight (snd dates)) in
       exists days new,
         NoDup days /\
         (forall k, In k days <->
                    exists h, In h hours /\ k = format_date (date_of h)) /\
         fs_log w' = (log ++ new)%list /\
         file_ids (files_written new) =
           map (fun k =>
                  (join (join output_path k) ("data-" ++ k ++ ".parquet"),
                   flat_map
                     (fun h => map (expected_txn_id L h)
                                   (seq 0 (Z.to_nat transactions_per_hour)))
                     (filter (fun h => String.eqb (format_date (date_of h)) k)
                             hours)))
               (fold_right insert_sorted [] days)).
Proof.
  intros w.
  destruct (generate_dataset_file_ids start_date end_date past_days future_days
              transactions_per_hour output_path seed w) as (new & Hl & Hf).
  cbv zeta.
  set (hours := hours_between _ _) in *.
  destruct (expected_ids_keys transactions_per_hour hours []) as [N I].
  exists (map fst (expected_ids L transactions_per_hour hours [])), new.
  split; [apply N; constructor |]. split.
  { intros k. rewrite I. cbn [map In]. tauto. }
  split; [exact Hl |]. rewrite Hf. unfold expected_file_ids.
  apply map_ext. intros k. rewrite expected_ids_at. reflexivity.
Qed.

End MultiClassCounts.

(* ===================================================================== *)
(** * The transaction identifiers of a run *)
(* ===================================================================== *)

(** C10: transaction identifiers do not depend on the seed. In the
    card-fraud and the transaction-category generators the identifier of
    the k-th transaction of hour h is the MD5-derived UUID of the text
    "<ISO timestamp of h>_<k>": so it is for every record the generators
    build, and so it is in what a run writes. A card-fraud run with an
    output directory writes, for the hours of its dates in order, the file
    of hour h with the identifiers of h and 0, 1, ... below
    [transactions_per_hour]; a transaction-category run writes one file
    per date of the run, in the order of the date strings, with the
    identifiers of the hours of that date, hour after hour. Two runs over
    the same dates, with different seeds and from whatever states of the
    world, therefore write the same identifiers, file by file. The runs
    are those the library calls accept. *)
Theorem transaction_ids_independent_of_seed (L : Library) :
  (forall h k accts custs w,
      CardFraud.txn_id (fst (CardFraud.gen_transaction L h k accts custs w)) =
      CardFraud.expected_txn_id L h k) /\
  (forall h priors accts segs k w,
      MultiClass.transaction_id
        (fst (MultiClass.gen_row L h priors accts segs k w)) =
      MultiClass.expected_txn_id L h k) /\
  (forall start_date end_date past_days future_days transactions_per_hour
          output_path seed w,
      CardFraud.valid_run start_date end_date past_days future_days seed
                          (clock w) ->
      let r := CardFraud.generate_dataset L start_date end_date past_days
                 future_days transactions_per_hour (Some output_path) seed w in
      let dates := CardFraud.run_dates start_date end_date past_days
                     future_days (clock w) in
      let hours := Calendar.hours_between (Calendar.midnight (fst dates))
                                          (Calendar.midnight (snd dates)) in
      exists new,
        fs_log (snd r) = fs_log w ++ new /\
        CardFraud.file_ids (files_written new) =
        map (fun h =>
               (CardFraud.file_path output_path h,
                map (CardFraud.expected_txn_id L h)
                    (seq 0 (Z.to_nat transactions_per_hour))))
            hours) /\
  (forall start_date end_date past_days future_days transactions_per_hour
          output_path seed1 seed2 w1 w2,
      CardFraud.valid_run start_date end_date past_days future_days seed1
                          (clock w1) ->
      CardFraud.valid_run start_date end_date past_days future_days seed2
                          (clock w2) ->
      CardFraud.run_dates start_date end_date past_days future_days (clock w1) =
      CardFraud.run_dates start_date end_date past_days future_days (clock w2) ->
      let r1 := CardFraud.generate_dataset L start_date end_date past_days
                  future_days transactions_per_hour (Some output_path) seed1 w1 in
      let r2 := CardFraud.generate_dataset L start_date end_date past_days
                  future_days transactions_per_hour (Some output_path) seed2 w2 in
      exists new1 new2,
        fs_log (snd r1) = fs_log w1 ++ new1 /\
        fs_log (snd r2) = fs_log w2 ++ new2 /\
        CardFraud.file_ids (files_written new1) =
        CardFraud.file_ids (files_written new2)) /\
  (forall start_date end_date past_days future_days transactions_per_hour
          output_path seed w,
      0 < transactions_per_hour ->
      MultiClass.valid_run start_date end_date past_days future_days seed
                           (clock w) ->
      let r := MultiClass.generate_dataset L start_date end_date past_days
                 future_days transactions_per_hour (Some output_path) seed w in
      let dates := MultiClass.run_dates start_date end_date past_days
                     future_days (clock w) in
      let hours := Calendar.hours_between (Calendar.midnight (fst dates))
                                          (Calendar.midnight (snd dates)) in
      exists days new,
        NoDup days /\
        (forall k, In k days <->
                   exists h, In h hours /\
                             k = Calendar.format_date (Calendar.date_of h)) /\
        fs_log (snd r) = fs_log w ++ new /\
        MultiClass.file_ids (files_written new) =
        map (fun k =>
               (join (join output_path k) ("data-" ++ k ++ ".parquet"),
                flat_map
                  (fun h => map (MultiClass.expected_txn_id L h)
                                (seq 0 (Z.to_nat transactions_per_hour)))
                  (filter (fun h => String.eqb
                                      (Calendar.format_date (Calendar.date_of h)) k)
                          hours)))
            (fold_right MultiClass.insert_sorted [] days)) /\
  (forall start_date end_date past_days future_days transactions_per_hour
          output_path seed1 seed2 w1 w2,
      0 < transactions_per_hour ->
      MultiClass.valid_run start_date end_date past_days future_days seed1
                           (clock w1) ->
      MultiClass.valid_run start_date end_date past_days future_days seed2
                           (clock w2) ->
      MultiClass.run_dates start_date end_date past_days future_days (clock w1) =
      MultiClass.run_dates start_date end_date past_days future_days (clock w2) ->
      let r1 := MultiClass.generate_dataset L start_date end_date past_days
                  future_days transactions_per_hour (Some output_path) seed1 w1 in
      let r2 := MultiClass.generate_dataset L start_date end_date past_days
                  future_days transactions_per_hour (Some output_path) seed2 w2 in
      exists new1 new2,
        fs_log (snd r1) = fs_log w1 ++ new1 /\
        fs_log (snd r2) = fs_log w2 ++ new2 /\
        MultiClass.file_ids (files_written new1) =
        MultiClass.file_ids (files_written new2)).
Proof.
  split; [| split; [| split; [| split; [| split]]]].
  - intros h k accts custs w.
    apply (gen_transaction_facts L h k accts custs w).
  - intros h priors accts segs k w.
    apply (gen_row_id L h priors accts segs k w).
  - intros start_date end_date past_days future_days transactions_per_hour
           output_path seed w _ r dates hours.
    destruct (generate_dataset_spec L start_date end_date past_days future_days
                transactions_per_hour (Some output_path) seed w)
      as (a & c & b & Hb & _ & Hlog & _).
    eexists. split; [exact Hlog |].
    exact (card_file_ids L _ _ _ (Some output_path) _ _ Hb).
  - intros start_date end_date past_days future_days transactions_per_hour
           output_path seed1 seed2 w1 w2 _ _ Hd r1 r2.
    destruct (generate_dataset_spec L start_date end_date past_days future_days
                transactions_per_hour (Some output_path) seed1 w1)
      as (a1 & c1 & b1 & Hb1 & _ & Hlog1 & _).
    destruct (generate_dataset_spec L start_date end_date past_days future_days
                transactions_per_hour (Some output_path) seed2 w2)
      as (a2 & c2 & b2 & Hb2 & _ & Hlog2 & _).
    do 2 eexists. split; [exact Hlog1 |]. split; [exact Hlog2 |].
    rewrite (card_file_ids L _ _ _ _ _ _ Hb1).
    rewrite (card_file_ids L _ _ _ _ _ _ Hb2).
    rewrite Hd. reflexivity.
  - intros start_date end_date past_days future_days transactions_per_hour
           output_path seed w _ _ r dates hours.
    exact (generate_dataset_files L start_date end_date past_days future_days
             transactions_per_hour output_path seed w).
  - intros start_date end_date past_days future_days transactions_per_hour
           output_path seed1 seed2 w1 w2 _ _ _ Hd r1 r2.
    destruct (generate_dataset_file_ids L start_date end_date past_days
                future_days transactions_per_hour output_path seed1 w1)
      as (new1 & Hl1 & Hf1).
    destruct (generate_dataset_file_ids L start_date end_date past_days
                future_days transactions_per_hour output_path seed2 w2)
      as (new2 & Hl2 & Hf2).
    exists new1, new2. split; [exact Hl1 |]. split; [exact Hl2 |].
    rewrite Hf1, Hf2, Hd. reflexivity.
Qed.

Lemma transaction_ids_independent_of_seed_witness :
  CardFraud.valid_run (Some 738944) (Some 738944) 90 90 7
    (clock (Demo.world (list CardFraud.Transaction))) /\
  (0 < 2 /\
   MultiClass.valid_run (Some 738944) (Some 738945) 90 90 7
     (clock (Demo.world (list MultiClass.Row)))) /\
  (exists new,
     fs_log (snd (CardFraud.generate_dataset Demo.lib (Some 738944)
                    (Some 738944) 90 90 2 (Some ["out"%string]) 7
                    (Demo.world (list CardFraud.Transaction)))) =
     fs_log (Demo.world (list CardFraud.Transaction)) ++ new /\
     CardFraud.file_ids (files_written new) =
     [ (CardFraud.file_path ["out"%string] (24 * 738944),
        [ CardFraud.expected_txn_id Demo.lib (24 * 738944) 0;
          CardFraud.expected_txn_id Demo.lib (24 * 738944) 1 ]) ]) /\
  (exists days new,
     fs_log (snd (MultiClass.generate_dataset Demo.lib (Some 738944)
                    (Some 738945) 90 90 2 (Some ["out"%string]) 7
                    (Demo.world (list MultiClass.Row)))) =
     fs_log (Demo.world (list MultiClass.Row)) ++ new /\
     List.length (MultiClass.file_ids (files_written new)) =
     List.length (fold_right MultiClass.insert_sorted [] days)).
Proof.
  assert (Hc : CardFraud.valid_run (Some 738944) (Some 738944) 90 90 7
                 (clock (Demo.world (list CardFraud.Transaction)))) by bounds.
  assert (H0 : 0 < 2) by lia.
  assert (Hm : MultiClass.valid_run (Some 738944) (Some 738945) 90 90 7
                 (clock (Demo.world (list MultiClass.Row)))) by bounds.
  destruct (transaction_ids_independent_of_seed Demo.lib)
    as (_ & _ & Hcard & _ & Hmulti & _).
  split; [exact Hc |]. split; [split; [exact H0 | exact Hm] |]. split.
  - destruct (Hcard (Some 738944) (Some 738944) 90 90 2 ["out"%string] 7
                (Demo.world (list CardFraud.Transaction)) Hc)
      as (new & Hl & Hf).
    exists new. split; [exact Hl |]. rewrite Hf. reflexivity.
  - destruct (Hmulti (Some 738944) (Some 738945) 90 90 2 ["out"%string] 7
                (Demo.world (list MultiClass.Row)) H0 Hm)
      as (days & new & _ & _ & Hl & Hf).
    exists days, new. split; [exact Hl |]. rewrite Hf. apply length_map.
Defined.

(* ===================================================================== *)
(** * What a run does to the file system and to the process *)
(* ===================================================================== *)

Section Created.

Context {C : Type}.

Lemma In_prefixes (p q : path) :
  In q (prefixes p) -> q <> [] /\ exists rest, p = q ++ rest.
Proof.
  revert q. induction p as [|name p IH]; intros q; cbn [prefixes In];
    [intros [] |].
  intros [<- | H].
  - split; [discriminate |]. exists p. reflexivity.
  - apply in_map_iff in H. destruct H as (q' & <- & H).
    destruct (IH q' H) as [_ [rest ->]].
    split; [discriminate |]. exists rest. reflexivity.
Qed.

(** A prefix of a path under [dir] is under [dir] or leads to it. *)
Lemma prefix_under (dir p q : path) :
  under dir p -> In q (prefixes p) ->
  under dir q \/ (leads_to q dir /\ q <> []).
Proof.
  intros [r Hr] H. apply In_prefixes in H. destruct H as [Hq [rest Hp]].
  rewrite Hp in Hr. apply app_eq_app in Hr.
  destruct Hr as [l [[H1 _] | [H1 _]]].
  - left. exists l. exact H1.
  - right. split; [exists l; exact H1 | exact Hq].
Qed.

Lemma perform_created (dir : path) (fs : list path) (ev : fs_event C) q :
  under dir (target ev) -> In q (perform fs ev) ->
  In q fs \/ under dir q \/ (leads_to q dir /\ q <> []).
Proof.
  intros Hu. destruct ev as [p | p c]; cbn [perform target] in *.
  - rewrite in_app_iff, filter_In. intros [H | [H _]]; [left; exact H |].
    right. apply (prefix_under dir p q Hu H).
  - destruct (path_in p fs); [intros H; left; exact H |].
    rewrite in_app_iff. cbn [In]. intros [H | [<- | []]];
      [left; exact H | right; left; exact Hu].
Qed.

(** The paths there are after calls under [dir]: those there were, paths
    under [dir], and [dir] and its ancestors. *)
Lemma after_calls_created (dir : path) (log : list (fs_event C)) :
  Forall (fun ev => under dir (target ev)) log ->
  forall fs q,
    In q (after_calls fs log) ->
    In q fs \/ under dir q \/ (leads_to q dir /\ q <> []).
Proof.
  induction 1 as [|ev log Hev _ IH]; intros fs q; cbn [after_calls fold_left].
  - intros H. left. exact H.
  - intros H. apply IH in H. destruct H as [H | H]; [| right; exact H].
    apply (perform_created dir fs ev q Hev H).
Qed.

End Created.

(** C7, as stated, fails: a run modifies state outside the output
    directory. [mkdir(parents=True)] creates the missing ancestors of the
    output directory: a card-fraud run into data/out on an empty file
    system creates data. And every run seeds the process-wide random
    generators: after a run without an output directory NumPy's generator,
    and for the card-fraud generator Python's too, is in another state
    than before. *)
Lemma run_changes_state_outside_output_dir :
  (exists new,
     fs_log (snd (CardFraud.generate_dataset Demo.lib (Some 738944)
                    (Some 738944) 90 90 1 (Some ["data"; "out"]%string) 42
                    (Demo.world (list CardFraud.Transaction)))) =
     fs_log (Demo.world (list CardFraud.Transaction)) ++ new /\
     In ["data"%string] (after_calls [] new) /\
     ~ under ["data"; "out"]%string ["data"%string]) /\
  np_rng (snd (CardFraud.generate_dataset Demo.lib (Some 738944) (Some 738944)
                 90 90 1 None 42 (Demo.world (list CardFraud.Transaction)))) <>
  np_rng (Demo.world (list CardFraud.Transaction)) /\
  py_rng (snd (CardFraud.generate_dataset Demo.lib (Some 738944) (Some 738944)
                 90 90 1 None 42 (Demo.world (list CardFraud.Transaction)))) <>
  py_rng (Demo.world (list CardFraud.Transaction)) /\
  np_rng (snd (CcApplication.generate_dataset Demo.lib 3 None 42 90 90
                 (Demo.world CcApplication.DataFrame))) <>
  np_rng (Demo.world CcApplication.DataFrame).
Proof.
  split; [| split; [| split]].
  - eexists. split; [vm_compute; reflexivity |]. split.
    + vm_compute. left. reflexivity.
    + intros [rest H]. discriminate H.
  - vm_compute. intros H. discriminate H.
  - vm_compute. intros H. discriminate H.
  - vm_compute. intros H. discriminate H.
Qed.

(** C7, amended: a generation run leaves the clock alone and changes the
    file system only through its output directory. Without one the
    card-fraud generator makes no file-system call and reports
    [files_created = 0], and the credit-card application generator makes
    none either and only returns its frame (or raises). With one, every
    call of either generator names a path under the output directory, and
    a path that exists after the run and did not before is under the
    output directory or is the output directory or one of its ancestors.
    The runs are those the library calls accept. *)
Theorem run_creates_paths_for_output_dir_only (L : Library) :
  (forall start_date end_date past_days future_days transactions_per_hour
          output_dir seed w,
      CardFraud.valid_run start_date end_date past_days future_days seed
                          (clock w) ->
      let r := CardFraud.generate_dataset L start_date end_date past_days
                 future_days transactions_per_hour output_dir seed w in
      clock (snd r) = clock w /\
      exists new,
        fs_log (snd r) = fs_log w ++ new /\
        match output_dir with
        | None => new = [] /\ CardFraud.files_created (fst r) = 0
        | Some d =>
            Forall (fun ev => under d (target ev)) new /\
            forall fs q,
              In q (after_calls fs new) ->
              In q fs \/ under d q \/ (leads_to q d /\ q <> [])
        end) /\
  (forall n_samples output_dir seed past_days future_days w,
      CcApplication.valid_run seed past_days future_days (clock w) ->
      let r := CcApplication.generate_dataset L n_samples output_dir seed
                 past_days future_days w in
      clock (snd r) = clock w /\
      exists new,
        fs_log (snd r) = fs_log w ++ new /\
        match output_dir with
        | None => new = []
        | Some d =>
            Forall (fun ev => under d (target ev)) new /\
            forall fs q,
              In q (after_calls fs new) ->
              In q fs \/ under d q \/ (leads_to q d /\ q <> [])
        end).
Proof.
  split.
  - intros start_date end_date past_days future_days transactions_per_hour
           output_dir seed w _ r.
    destruct (generate_dataset_spec L start_date end_date past_days future_days
                transactions_per_hour output_dir seed w)
      as (accts & custs & batches & Hb & Hc & Hlog & _ & Hf & _).
    fold r in Hc, Hlog, Hf.
    split; [exact Hc |].
    eexists. split; [exact Hlog |].
    destruct output_dir as [d|].
    + assert (Hu := hour_events_under d
                      (Calendar.hours_between
                         (Calendar.midnight
                            (fst (CardFraud.run_dates start_date end_date
                                    past_days future_days (clock w))))
                         (Calendar.midnight
                            (snd (CardFraud.run_dates start_date end_date
                                    past_days future_days (clock w)))))
                      batches).
      split; [exact Hu |]. apply after_calls_created, Hu.
    + split; [apply hour_events_none | exact Hf].
  - intros n_samples output_dir seed past_days future_days w _ r.
    destruct (cc_generate_confined L n_samples output_dir seed past_days
                future_days w) as (Hc & new & Hlog & Hn).
    fold r in Hc, Hlog.
    split; [exact Hc |].
    exists new. split; [exact Hlog |].
    destruct output_dir as [d|]; [| exact Hn].
    split; [exact Hn |]. apply after_calls_created, Hn.
Qed.

Lemma run_creates_paths_for_output_dir_only_witness :
  CardFraud.valid_run (Some 738944) (Some 738944) 90 90 42
    (clock (Demo.world (list CardFraud.Transaction))) /\
  CcApplication.valid_run 42 90 90 (clock (Demo.world CcApplication.DataFrame)) /\
  (exists new : list (fs_event (list CardFraud.Transaction)),
     fs_log (snd (CardFraud.generate_dataset Demo.lib (Some 738944)
                    (Some 738944) 90 90 1 (Some ["data"; "out"]%string) 42
                    (Demo.world (list CardFraud.Transaction)))) =
     fs_log (Demo.world (list CardFraud.Transaction)) ++ new /\
     forall q, In q (after_calls [ ["data"%string] ] new) ->
               q = ["data"%string] \/ under ["data"; "out"]%string q) /\
  fs_log (snd (CcApplication.generate_dataset Demo.lib 3 None 42 90 90
                 (Demo.world CcApplication.DataFrame))) =
  fs_log (Demo.world CcApplication.DataFrame).
Proof.
  assert (Hc : CardFraud.valid_run (Some 738944) (Some 738944) 90 90 42
                 (clock (Demo.world (list CardFraud.Transaction)))) by bounds.
  assert (Ha : CcApplication.valid_run 42 90 90
                 (clock (Demo.world CcApplication.DataFrame))) by bounds.
  destruct (run_creates_paths_for_output_dir_only Demo.lib) as [Hcard Hcc].
  split; [exact Hc |]. split; [exact Ha |]. split.
  - destruct (Hcard (Some 738944) (Some 738944) 90 90 1
                (Some ["data"; "out"]%string) 42
                (Demo.world (list CardFraud.Transaction)) Hc)
      as (_ & new & Hl & _ & Hq).
    exists new. split; [exact Hl |].
    intros q H. destruct (Hq _ _ H) as [[<- | []] | [Hu | [[rest Hr] Hne]]].
    + left. reflexivity.
    + right. exact Hu.
    + destruct q as [|a [|b [|c q]]].
      * contradiction Hne. reflexivity.
      * left. injection Hr as <- _. reflexivity.
      * right. injection Hr as <- <- _. exists []. reflexivity.
      * discriminate Hr.
  - destruct (Hcc 3 None 42 90 90 (Demo.world CcApplication.DataFrame) Ha)
      as (_ & new & Hl & Hn).
    rewrite Hl, Hn. apply app_nil_r.
Defined.
